(** * doc_crawler: the repository and coordination layer, embedded in Rocq

    A shallow embedding of the persistence core of the crawler
    (src/doc_crawler/database/repositories): the storage primitives of
    [AsyncMongoDBRepository] (sanitizer, content hash, retry wrapper, circuit
    breaker), and the repositories built on them (pages, crawl sessions,
    processing queue, content changes, alerts) together with the retention
    manager.

    Python values are a small JSON-like universe, documents are insertion
    ordered association lists (as Python dicts are), the document store is a
    list of documents per collection in natural order, and every repository
    method is a computation in a state-and-exception monad over the [world]:
    the clock, the database, one circuit breaker per repository object, the
    object store, and a script saying which driver calls fail. *)

From Stdlib Require Import String Ascii List ZArith QArith Bool Lia Arith.
Import ListNotations.
Set Warnings "-register-all".
Local Open Scope string_scope.
Local Open Scope Z_scope.

(* ===================================================================== *)
(** ** Strings *)
(* ===================================================================== *)

Definition is_empty (s : string) : bool :=
  match s with EmptyString => true | String _ _ => false end.

(** [s.startswith(p)] *)
Definition startswith (p s : string) : bool := String.prefix p s.

(** [s.rstrip(c)] for a one-character strip set. *)
Fixpoint rstrip (c : ascii) (s : string) : string :=
  match s with
  | EmptyString => EmptyString
  | String a r =>
      let r' := rstrip c r in
      if Ascii.eqb a c && is_empty r' then EmptyString else String a r'
  end.

(** [c in s] for a character. *)
Fixpoint contains_char (c : ascii) (s : string) : bool :=
  match s with
  | EmptyString => false
  | String a r => Ascii.eqb a c || contains_char c r
  end.

(** [s.split(c, 1)]: the text before the first [c] and the text after it;
    [None] when [c] does not occur. *)
Fixpoint split_once (c : ascii) (s : string) : option (string * string) :=
  match s with
  | EmptyString => None
  | String a r =>
      if Ascii.eqb a c then Some (EmptyString, r)
      else match split_once c r with
           | Some (u, v) => Some (String a u, v)
           | None => None
           end
  end.

(** [s.split(c)] *)
Fixpoint split_all (c : ascii) (s : string) : list string :=
  match s with
  | EmptyString => [EmptyString]
  | String a r =>
      if Ascii.eqb a c then EmptyString :: split_all c r
      else match split_all c r with
           | x :: xs => String a x :: xs
           | [] => [String a EmptyString]
           end
  end.

Definition is_upper (a : ascii) : bool :=
  let n := nat_of_ascii a in (Nat.leb 65 n && Nat.leb n 90)%bool.
Definition is_lower (a : ascii) : bool :=
  let n := nat_of_ascii a in (Nat.leb 97 n && Nat.leb n 122)%bool.
Definition is_digit (a : ascii) : bool :=
  let n := nat_of_ascii a in (Nat.leb 48 n && Nat.leb n 57)%bool.
Definition is_alpha (a : ascii) : bool := is_upper a || is_lower a.

Definition lower_char (a : ascii) : ascii :=
  if is_upper a then ascii_of_nat (nat_of_ascii a + 32) else a.

(** [s.lower()] on ASCII text. *)
Fixpoint lower (s : string) : string :=
  match s with
  | EmptyString => EmptyString
  | String a r => String (lower_char a) (lower r)
  end.

Fixpoint string_forallb (p : ascii -> bool) (s : string) : bool :=
  match s with
  | EmptyString => true
  | String a r => p a && string_forallb p r
  end.

Definition is_hex_digit (a : ascii) : bool :=
  let n := nat_of_ascii a in
  is_digit a || (Nat.leb 97 n && Nat.leb n 102) || (Nat.leb 65 n && Nat.leb n 70).

(** [len(s)] of a Python [str] held as its UTF-8 bytes: the number of bytes
    that do not continue a character. *)
Fixpoint py_len (s : string) : Z :=
  match s with
  | EmptyString => 0
  | String a r =>
      let n := nat_of_ascii a in
      (if (Nat.leb 128 n && Nat.ltb n 192)%bool then 0 else 1) + py_len r
  end.

Definition hex_digit (n : N) : ascii :=
  nth (N.to_nat n)
    ["0"; "1"; "2"; "3"; "4"; "5"; "6"; "7"; "8"; "9"; "a"; "b"; "c"; "d"; "e"; "f"]%char
    "0"%char.

(** The lowest [digits] hexadecimal digits of [n]. *)
Fixpoint hex_fixed (digits : nat) (n : N) : string :=
  match digits with
  | O => EmptyString
  | S k => hex_fixed k (N.div n 16) ++ String (hex_digit (N.modulo n 16)) EmptyString
  end.

(* ===================================================================== *)
(** ** Python values and documents *)
(* ===================================================================== *)

(** The values that occur in documents: [None], booleans, integers, floats
    (as rationals), strings, [datetime]s (seconds on the UTC time line),
    [ObjectId]s (by their 24 digit hexadecimal text), lists and dicts with
    string keys. *)
Inductive value : Type :=
| VNone
| VBool (b : bool)
| VInt (z : Z)
| VFloat (q : Q)
| VStr (s : string)
| VDate (t : Z)
| VOid (h : string)
| VList (l : list value)
| VDict (d : list (string * value)).

(** A document is the item list of a dict, in insertion order. *)
Definition doc := list (string * value).

(** [k in d] *)
Fixpoint dict_has (k : string) (d : doc) : bool :=
  match d with
  | [] => false
  | (k', _) :: r => String.eqb k k' || dict_has k r
  end.

(** [d.get(k)] *)
Fixpoint dict_get (k : string) (d : doc) : option value :=
  match d with
  | [] => None
  | (k', v) :: r => if String.eqb k k' then Some v else dict_get k r
  end.

(** [d.get(k, default)] *)
Definition dict_get_default (k : string) (default : value) (d : doc) : value :=
  match dict_get k d with Some v => v | None => default end.

(** [d[k] = v]: an existing key keeps its place, a new one goes last. *)
Fixpoint dict_set (k : string) (v : value) (d : doc) : doc :=
  match d with
  | [] => [(k, v)]
  | (k', v') :: r =>
      if String.eqb k k' then (k', v) :: r else (k', v') :: dict_set k v r
  end.

(** [d.update(u)] *)
Definition dict_update (d u : doc) : doc :=
  fold_left (fun acc kv => dict_set (fst kv) (snd kv) acc) u d.

(** Truth value of a Python object ([if x:], [not x], [x or y]). *)
Definition truthy (v : value) : bool :=
  match v with
  | VNone => false
  | VBool b => b
  | VInt z => negb (Z.eqb z 0)
  | VFloat q => negb (Qeq_bool q 0)
  | VStr s => negb (is_empty s)
  | VDate _ => true
  | VOid _ => true
  | VList l => match l with [] => false | _ => true end
  | VDict d => match d with [] => false | _ => true end
  end.

(** Truth value of an optional document ([if doc:], [if not doc:]). *)
Definition truthy_doc (d : option doc) : bool :=
  match d with
  | Some (_ :: _) => true
  | _ => false
  end.

(** Equality of stored values as the store compares them: numbers by their
    numeric value, everything else structurally. *)
Fixpoint value_eqb (a b : value) {struct a} : bool :=
  match a, b with
  | VNone, VNone => true
  | VBool x, VBool y => Bool.eqb x y
  | VInt x, VInt y => Z.eqb x y
  | VInt x, VFloat q => Qeq_bool (inject_Z x) q
  | VFloat q, VInt x => Qeq_bool q (inject_Z x)
  | VFloat p, VFloat q => Qeq_bool p q
  | VStr x, VStr y => String.eqb x y
  | VDate x, VDate y => Z.eqb x y
  | VOid x, VOid y => String.eqb x y
  | VList l, VList m =>
      (fix go (l m : list value) {struct l} : bool :=
         match l, m with
         | [], [] => true
         | x :: l', y :: m' => value_eqb x y && go l' m'
         | _, _ => false
         end) l m
  | VDict d, VDict e =>
      (fix go (d e : list (string * value)) {struct d} : bool :=
         match d, e with
         | [], [] => true
         | (k, x) :: d', (k', y) :: e' => String.eqb k k' && value_eqb x y && go d' e'
         | _, _ => false
         end) d e
  | _, _ => false
  end.

Definition doc_eqb (d e : doc) : bool := value_eqb (VDict d) (VDict e).

(** The numeric value of a number ([bool] is a subclass of [int]). *)
Definition as_number (v : value) : option Q :=
  match v with
  | VInt z => Some (inject_Z z)
  | VFloat q => Some q
  | VBool b => Some (if b then 1%Q else 0%Q)
  | _ => None
  end.

(* ===================================================================== *)
(** ** The document store (the driver's behaviour, as the code relies on it) *)
(* ===================================================================== *)

(** Sort order of the store across types: null, numbers, strings, objects,
    arrays, ObjectId, booleans, dates. *)
Definition bson_rank (v : value) : Z :=
  match v with
  | VNone => 1
  | VInt _ | VFloat _ => 2
  | VStr _ => 3
  | VDict _ => 4
  | VList _ => 5
  | VOid _ => 7
  | VBool _ => 8
  | VDate _ => 9
  end.

(** Comparison of two stored values: by type rank first, then inside the
    type.  Embedded documents and arrays of one rank are not ordered further
    (no modelled query sorts or compares on them). *)
Definition bson_compare (a b : value) : comparison :=
  match Z.compare (bson_rank a) (bson_rank b) with
  | Eq =>
      match a, b with
      | VStr x, VStr y => String.compare x y
      | VOid x, VOid y => String.compare x y
      | VDate x, VDate y => Z.compare x y
      | VBool x, VBool y => Bool.compare x y
      | _, _ =>
          match as_number a, as_number b with
          | Some p, Some q => Qcompare p q
          | _, _ => Eq
          end
      end
  | c => c
  end.

(** A dotted field path ("monitoring.last_crawl_time") into embedded
    documents. *)
Definition split_path (path : string) : list string := split_all "."%char path.

Fixpoint get_path_list (path : list string) (d : doc) : option value :=
  match path with
  | [] => None
  | [k] => dict_get k d
  | k :: rest =>
      match dict_get k d with
      | Some (VDict sub) => get_path_list rest sub
      | _ => None
      end
  end.

Definition get_path (path : string) (d : doc) : option value :=
  get_path_list (split_path path) d.

(** [$set] of one field path: embedded documents on the way are created; a
    path that runs through a value that is no document leaves it unchanged. *)
Fixpoint set_path_list (path : list string) (v : value) (d : doc) : doc :=
  match path with
  | [] => d
  | [k] => dict_set k v d
  | k :: rest =>
      match dict_get k d with
      | Some (VDict sub) => dict_set k (VDict (set_path_list rest v sub)) d
      | None => dict_set k (VDict (set_path_list rest v [])) d
      | Some _ => d
      end
  end.

Definition set_path (path : string) (v : value) (d : doc) : doc :=
  set_path_list (split_path path) v d.

(** [$inc] of one field path: a missing field starts at the increment. *)
Definition inc_path (path : string) (by_ : value) (d : doc) : doc :=
  match get_path path d, by_ with
  | None, _ => set_path path by_ d
  | Some (VInt a), VInt b => set_path path (VInt (a + b)) d
  | Some x, _ =>
      match as_number x, as_number by_ with
      | Some p, Some q => set_path path (VFloat (p + q)) d
      | _, _ => d
      end
  end.

(** An update document: the operators [$set] and [$inc] (the two the code
    writes), applied in the order given. *)
Definition apply_update (update : doc) (d : doc) : doc :=
  fold_left
    (fun acc opv =>
       match opv with
       | (op, VDict fields) =>
           if String.eqb op "$set" then
             fold_left (fun a kv => set_path (fst kv) (snd kv) a) fields acc
           else if String.eqb op "$inc" then
             fold_left (fun a kv => inc_path (fst kv) (snd kv) a) fields acc
           else acc
       | _ => acc
       end)
    update d.

(** Equality match of a field against a query value: equal, or an array that
    holds it; a missing field matches only null. *)
Definition eq_match (field : option value) (c : value) : bool :=
  match field with
  | None => match c with VNone => true | _ => false end
  | Some v =>
      value_eqb v c
      || match v with
         | VList l => existsb (fun x => value_eqb x c) l
         | _ => false
         end
  end.

(** Comparison operators match inside one type bracket only. *)
Definition cmp_match (field : option value) (arg : value)
    (ok : comparison -> bool) : bool :=
  match field with
  | Some v => Z.eqb (bson_rank v) (bson_rank arg) && ok (bson_compare v arg)
  | None => false
  end.

Definition eval_operator (op : string) (arg : value) (field : option value) : bool :=
  if String.eqb op "$lt" then
    cmp_match field arg (fun c => match c with Lt => true | _ => false end)
  else if String.eqb op "$lte" then
    cmp_match field arg (fun c => match c with Gt => false | _ => true end)
  else if String.eqb op "$gt" then
    cmp_match field arg (fun c => match c with Gt => true | _ => false end)
  else if String.eqb op "$gte" then
    cmp_match field arg (fun c => match c with Lt => false | _ => true end)
  else if String.eqb op "$ne" then negb (eq_match field arg)
  else if String.eqb op "$in" then
    match arg with
    | VList l => existsb (eq_match field) l
    | _ => false
    end
  else false.

(** A query value is an operator document when it is a non-empty dict whose
    keys all start with the operator sigil. *)
Definition is_operator_doc (c : value) : bool :=
  match c with
  | VDict ((k, v) :: r) => forallb (fun kv => startswith "$" (fst kv)) ((k, v) :: r)
  | _ => false
  end.

Definition match_field (d : doc) (k : string) (c : value) : bool :=
  if is_operator_doc c then
    match c with
    | VDict ops => forallb (fun opv => eval_operator (fst opv) (snd opv) (get_path k d)) ops
    | _ => false
    end
  else eq_match (get_path k d) c.

(** Does document [d] satisfy the filter [query]? *)
Definition matches (query : doc) (d : doc) : bool :=
  forallb (fun kc => match_field d (fst kc) (snd kc)) query.

(** Sort directions of pymongo. *)
Definition ASCENDING : Z := 1.
Definition DESCENDING : Z := -1.

Definition sort_key (field : string) (d : doc) : value :=
  match get_path field d with Some v => v | None => VNone end.

(** [a] comes strictly before [b] under the sort specification. *)
Fixpoint sorts_before (sort : list (string * Z)) (a b : doc) : bool :=
  match sort with
  | [] => false
  | (field, dir) :: rest =>
      match bson_compare (sort_key field a) (sort_key field b) with
      | Lt => 0 <? dir
      | Gt => dir <? 0
      | Eq => sorts_before rest a b
      end
  end.

(** The first document satisfying [query] under a sort, with the documents
    before and after it in natural order: among the matches that no other
    match sorts before, the earliest one. *)
Fixpoint select_first (query : doc) (sort : list (string * Z)) (l : list doc)
  : option (list doc * doc * list doc) :=
  match l with
  | [] => None
  | d :: r =>
      match select_first query sort r with
      | Some (pre, b, post) =>
          if matches query d && negb (sorts_before sort b d)
          then Some ([], d, r)
          else Some (d :: pre, b, post)
      | None => if matches query d then Some ([], d, r) else None
      end
  end.

(** The database: collections by name, each a list of documents in natural
    order, and the supply of fresh ObjectIds. *)
Record database := mkDatabase {
  collections : list (string * list doc);
  next_id : N
}.

Fixpoint assoc_get {A} (k : string) (l : list (string * A)) : option A :=
  match l with
  | [] => None
  | (k', v) :: r => if String.eqb k k' then Some v else assoc_get k r
  end.

Fixpoint assoc_set {A} (k : string) (v : A) (l : list (string * A)) : list (string * A) :=
  match l with
  | [] => [(k, v)]
  | (k', v') :: r =>
      if String.eqb k k' then (k', v) :: r else (k', v') :: assoc_set k v r
  end.

(** [db[name]]: a collection that was never written is empty. *)
Definition get_coll (name : string) (d : database) : list doc :=
  match assoc_get name (collections d) with Some c => c | None => [] end.

Definition set_coll (name : string) (c : list doc) (d : database) : database :=
  mkDatabase (assoc_set name c (collections d)) (next_id d).

(** A fresh ObjectId. *)
Definition fresh_oid (d : database) : value * database :=
  (VOid (hex_fixed 24 (next_id d)), mkDatabase (collections d) (N.succ (next_id d))).

(** What the driver reports of an update. *)
Record UpdateResult := mkUpdateResult {
  matched_count : Z;
  modified_count : Z;
  upserted_id : option value
}.

(** Replace the first document satisfying [query] by [f] of it. *)
Fixpoint update_first (query : doc) (f : doc -> doc) (l : list doc)
  : option (doc * doc * list doc) :=
  match l with
  | [] => None
  | d :: r =>
      if matches query d then Some (d, f d, f d :: r)
      else match update_first query f r with
           | Some (old, new, r') => Some (old, new, d :: r')
           | None => None
           end
  end.

(** The equality fields of a filter (what an upsert starts from). *)
Definition equality_fields (query : doc) : doc :=
  filter (fun kc => negb (is_operator_doc (snd kc))) query.

(** [collection.insert_one(document)]: a document without [_id] gets a fresh
    one; the result is the inserted id. *)
Definition coll_insert_one (name : string) (document : doc) (d : database)
  : value * database :=
  match dict_get "_id" document with
  | Some i => (i, set_coll name (get_coll name d ++ [document]) d)
  | None =>
      let (i, d1) := fresh_oid d in
      (i, set_coll name (get_coll name d1 ++ [("_id", i) :: document]) d1)
  end.

(** [collection.find_one(query)]: the first match in natural order. *)
Definition coll_find_one (name : string) (query : doc) (d : database)
  : option doc * database :=
  (find (matches query) (get_coll name d), d).

(** [collection.find(query).skip(skip).limit(limit).to_list(None)] *)
Definition coll_find (name : string) (query : doc) (skip limit : nat) (d : database)
  : list doc * database :=
  (firstn limit (skipn skip (filter (matches query) (get_coll name d))), d).

(** [collection.update_one(query, update, upsert=upsert)] *)
Definition coll_update_one (name : string) (query update : doc) (upsert : bool)
    (d : database) : UpdateResult * database :=
  match update_first query (apply_update update) (get_coll name d) with
  | Some (old, new, c') =>
      (mkUpdateResult 1 (if doc_eqb old new then 0 else 1) None, set_coll name c' d)
  | None =>
      if upsert then
        let '(i, d1) := coll_insert_one name (apply_update update (equality_fields query)) d in
        (mkUpdateResult 0 0 (Some i), d1)
      else (mkUpdateResult 0 0 None, d)
  end.

(** [collection.find_one_and_update(query, update, sort=sort,
    return_document=True)]: the first match under the sort is updated in
    place and returned as it is after the update. *)
Definition coll_find_one_and_update (name : string) (query update : doc)
    (sort : list (string * Z)) (d : database) : option doc * database :=
  match select_first query sort (get_coll name d) with
  | None => (None, d)
  | Some (pre, target, post) =>
      let updated := apply_update update target in
      (Some updated, set_coll name (pre ++ updated :: post) d)
  end.

(** [collection.delete_many(query)]: the number of documents removed. *)
Definition coll_delete_many (name : string) (query : doc) (d : database)
  : Z * database :=
  let c := get_coll name d in
  let kept := filter (fun x => negb (matches query x)) c in
  (Z.of_nat (length c) - Z.of_nat (length kept), set_coll name kept d).

(** [collection.update_many(query, update)] *)
Definition coll_update_many (name : string) (query update : doc) (d : database)
  : UpdateResult * database :=
  let c := get_coll name d in
  let hit := filter (matches query) c in
  let changed := filter (fun x => negb (doc_eqb x (apply_update update x))) hit in
  (mkUpdateResult (Z.of_nat (length hit)) (Z.of_nat (length changed)) None,
   set_coll name (map (fun x => if matches query x then apply_update update x else x) c) d).

(** [collection.count_documents(query)] *)
Definition coll_count_documents (name : string) (query : doc) (d : database)
  : Z * database :=
  (Z.of_nat (length (filter (matches query) (get_coll name d))), d).

(* ===================================================================== *)
(** ** Exceptions, the world, and the monad of repository methods *)
(* ===================================================================== *)

(** The exception classes the code raises or catches.  Messages are kept
    short: a value the source interpolates into a message is carried as an
    argument instead. *)
Inductive exn : Type :=
| NetworkTimeout
| ServerSelectionTimeoutError
| AutoReconnect
| PyMongoError (msg : string)
| RepositoryError (cause : exn)
| ConnectionError (msg : string) (cause : option exn)
| ValidationError (msg : string)
| DuplicateResourceError (msg : string)
| ResourceNotFoundError (msg : string)
| PydanticValidationError (msg : string)
| PydanticCustomError (kind msg : string)
| AttributeError (msg : string)
| KeyError (key : string)
| TypeError (msg : string)
| ValueError (msg : string)
| ClientError (msg : string)
| BotoCoreError (msg : string).

Inductive pyresult (A : Type) : Type :=
| Ok (a : A)
| Raise (e : exn).
Arguments Ok {A} a.
Arguments Raise {A} e.

Inductive CircuitBreakerState := CLOSED | OPEN | HALF_OPEN.

Record CircuitBreakerConfig := mkCircuitBreakerConfig {
  failure_threshold : nat;
  recovery_timeout : Z;
  success_threshold : nat
}.

(** [CircuitBreakerConfig()] *)
Definition default_config : CircuitBreakerConfig :=
  mkCircuitBreakerConfig 5 60 3.

Record CircuitBreaker := mkCircuitBreaker {
  config : CircuitBreakerConfig;
  state : CircuitBreakerState;
  failure_count : nat;
  success_count : nat;
  last_failure_time : option Z
}.

(** [CircuitBreaker(config)] *)
Definition new_breaker (cfg : CircuitBreakerConfig) : CircuitBreaker :=
  mkCircuitBreaker cfg CLOSED 0 0 None.

(** An object in the archive bucket. *)
Record s3_object := mkS3Object {
  s3_key : string;
  s3_documents : list doc;
  s3_compressed : bool
}.

(** The world a repository method runs in.  [faults] scripts the driver:
    each call to the store takes the next entry, [Some e] makes the call
    raise [e], [None] (or an exhausted script) lets it through.  [s3_faults]
    does the same for uploads.  A repository object is named by its
    collection; each has its own breaker, a fresh one until first used. *)
Record world := mkWorld {
  clock : Z;
  db : database;
  breakers : list (string * CircuitBreaker);
  faults : list (option exn);
  s3_objects : list s3_object;
  s3_faults : list (option exn)
}.

Definition set_clock (t : Z) (w : world) : world :=
  mkWorld t (db w) (breakers w) (faults w) (s3_objects w) (s3_faults w).
Definition set_db (d : database) (w : world) : world :=
  mkWorld (clock w) d (breakers w) (faults w) (s3_objects w) (s3_faults w).
Definition set_faults (f : list (option exn)) (w : world) : world :=
  mkWorld (clock w) (db w) (breakers w) f (s3_objects w) (s3_faults w).
Definition set_s3 (o : list s3_object) (f : list (option exn)) (w : world) : world :=
  mkWorld (clock w) (db w) (breakers w) (faults w) o f.

Definition get_breaker (self : string) (w : world) : CircuitBreaker :=
  match assoc_get self (breakers w) with
  | Some b => b
  | None => new_breaker default_config
  end.

Definition set_breaker (self : string) (b : CircuitBreaker) (w : world) : world :=
  mkWorld (clock w) (db w) (assoc_set self b (breakers w)) (faults w)
          (s3_objects w) (s3_faults w).

(** Computations: state passing over the world, with exceptions.  A raised
    exception keeps the world as it was when it was raised. *)
Definition M (A : Type) : Type := world -> pyresult A * world.

Definition ret {A} (a : A) : M A := fun w => (Ok a, w).

Definition raise {A} (e : exn) : M A := fun w => (Raise e, w).

Definition bind {A B} (c : M A) (k : A -> M B) : M B :=
  fun w =>
    match c w with
    | (Ok a, w') => k a w'
    | (Raise e, w') => (Raise e, w')
    end.

(** [try: c  except Exception as e: h e] *)
Definition try_except {A} (c : M A) (h : exn -> M A) : M A :=
  fun w =>
    match c w with
    | (Ok a, w') => (Ok a, w')
    | (Raise e, w') => h e w'
    end.

Declare Scope py_scope.
Delimit Scope py_scope with py.
Notation "x <- c ;; k" := (bind c (fun x => k))
  (at level 61, c at next level, right associativity) : py_scope.
Notation "c ;;; k" := (bind c (fun _ => k))
  (at level 61, right associativity) : py_scope.
Local Open Scope py_scope.

(** [datetime.now(UTC)] (and the breaker's [datetime.now()]): the clock does
    not move while a method runs, except when the method sleeps. *)
Definition now : M Z := fun w => (Ok (clock w), w).

(** [await asyncio.sleep(delay)] *)
Definition sleep (delay : Z) : M unit := fun w => (Ok tt, set_clock (clock w + delay) w).

(** A call to the driver. *)
Definition driver {A} (op : database -> A * database) : M A :=
  fun w =>
    match faults w with
    | Some e :: rest => (Raise e, set_faults rest w)
    | None :: rest => let (a, d) := op (db w) in (Ok a, set_db d (set_faults rest w))
    | [] => let (a, d) := op (db w) in (Ok a, set_db d w)
    end.

(** What [ipaddress.ip_address] makes of a text. *)
Inductive ip_version := IPv4Address | IPv6Address.

(** What the code takes from the Python runtime and its libraries:
    [hashlib.sha256(s.encode('utf-8')).hexdigest()],
    [hashlib.md5(s.encode()).hexdigest()], [str(v)] of a value that is
    neither a string nor an ObjectId, [t.strftime("%Y%m%d_%H%M%S")],
    [unicodedata.normalize('NFKC', s)], and [ipaddress.ip_address(s)]
    ([None] where it raises [ValueError]).  A Python [str] is held as its
    UTF-8 bytes. *)
Class PyRuntime := {
  sha256_hex : string -> string;
  md5_hex : string -> string;
  py_repr : value -> string;
  strftime_compact : Z -> string;
  nfkc : string -> string;
  ip_address : string -> option ip_version
}.

(** [str(v)], [f"{v}"] *)
Definition py_str {rt : PyRuntime} (v : value) : string :=
  match v with
  | VStr s => s
  | VOid h => h
  | _ => py_repr v
  end.

(* ===================================================================== *)
(** ** Storage primitives (async_mongo_repository.py) *)
(* ===================================================================== *)

(** [CircuitBreaker.can_execute]: the answer and the breaker after it. *)
Definition can_execute (t : Z) (b : CircuitBreaker) : bool * CircuitBreaker :=
  match state b with
  | CLOSED => (true, b)
  | OPEN =>
      match last_failure_time b with
      | Some t0 =>
          if recovery_timeout (config b) <=? t - t0
          then (true, mkCircuitBreaker (config b) HALF_OPEN (failure_count b) 0
                        (last_failure_time b))
          else (false, b)
      | None => (false, b)
      end
  | HALF_OPEN => (true, b)
  end.

(** [CircuitBreaker.record_success] *)
Definition record_success (b : CircuitBreaker) : CircuitBreaker :=
  match state b with
  | HALF_OPEN =>
      let sc := S (success_count b) in
      if Nat.leb (success_threshold (config b)) sc
      then mkCircuitBreaker (config b) CLOSED 0 sc (last_failure_time b)
      else mkCircuitBreaker (config b) HALF_OPEN (failure_count b) sc (last_failure_time b)
  | CLOSED =>
      mkCircuitBreaker (config b) CLOSED 0 (success_count b) (last_failure_time b)
  | OPEN => b
  end.

(** [CircuitBreaker.record_failure] *)
Definition record_failure (t : Z) (b : CircuitBreaker) : CircuitBreaker :=
  let fc := S (failure_count b) in
  match state b with
  | HALF_OPEN => mkCircuitBreaker (config b) OPEN fc (success_count b) (Some t)
  | CLOSED =>
      if Nat.leb (failure_threshold (config b)) fc
      then mkCircuitBreaker (config b) OPEN fc (success_count b) (Some t)
      else mkCircuitBreaker (config b) CLOSED fc (success_count b) (Some t)
  | OPEN => mkCircuitBreaker (config b) OPEN fc (success_count b) (Some t)
  end.

(** The three breaker calls as they act on the breaker of [self]. *)
Definition breaker_can_execute (self : string) : M bool :=
  fun w =>
    let (ok, b) := can_execute (clock w) (get_breaker self w) in
    (Ok ok, set_breaker self b w).

Definition breaker_record_success (self : string) : M unit :=
  fun w => (Ok tt, set_breaker self (record_success (get_breaker self w)) w).

Definition breaker_record_failure (self : string) : M unit :=
  fun w => (Ok tt, set_breaker self (record_failure (clock w) (get_breaker self w)) w).

(** [_sanitize_input] below the top level: keys that start with the sigil
    are dropped from every dict, dicts inside dicts and dict items of lists
    are sanitized, anything else is kept. *)
Fixpoint sanitize_value (v : value) : value :=
  match v with
  | VDict d =>
      VDict ((fix items (d : list (string * value)) : list (string * value) :=
                match d with
                | [] => []
                | (k, x) :: r =>
                    if startswith "$" k then items r
                    else (k, sanitize_value x) :: items r
                end) d)
  | VList l =>
      VList ((fix elems (l : list value) : list value :=
                match l with
                | [] => []
                | x :: r =>
                    match x with
                    | VDict _ => sanitize_value x
                    | _ => x
                    end :: elems r
                end) l)
  | _ => v
  end.

(** [_sanitize_input(data)] *)
Definition _sanitize_input (data : value) : pyresult doc :=
  match data with
  | VDict _ =>
      match sanitize_value data with
      | VDict d => Ok d
      | _ => Ok []
      end
  | _ => Raise (ValidationError "Input must be a dictionary")
  end.

Definition lift {A} (r : pyresult A) : M A := fun w => (r, w).

(** [_generate_content_hash(content)] *)
Definition _generate_content_hash {rt : PyRuntime} (content : value) : string :=
  sha256_hex (py_str content).

(** [_convert_object_ids(data)] *)
Fixpoint _convert_object_ids (data : value) : value :=
  match data with
  | VOid h => VStr h
  | VDict d =>
      VDict ((fix items (d : list (string * value)) : list (string * value) :=
                match d with
                | [] => []
                | (k, x) :: r => (k, _convert_object_ids x) :: items r
                end) d)
  | VList l =>
      VList ((fix elems (l : list value) : list value :=
                match l with
                | [] => []
                | x :: r => _convert_object_ids x :: elems r
                end) l)
  | _ => data
  end.

Definition convert_doc (d : doc) : doc :=
  match _convert_object_ids (VDict d) with
  | VDict d' => d'
  | _ => d
  end.

(** [_validate_object_id(obj_id)], that is [ObjectId(obj_id)]: an ObjectId
    is copied, a string of 24 hexadecimal digits is parsed, [None] makes a
    fresh id, anything else is refused. *)
Definition _validate_object_id (obj_id : value) : M value :=
  match obj_id with
  | VOid h => ret (VOid h)
  | VStr s =>
      if Nat.eqb (String.length s) 24 && string_forallb is_hex_digit s
      then ret (VOid (lower s))
      else raise (ValidationError "Invalid ObjectId")
  | VNone => fun w => let (i, d) := fresh_oid (db w) in (Ok i, set_db d w)
  | _ => raise (ValidationError "Invalid ObjectId")
  end.

Definition is_transient (e : exn) : bool :=
  match e with
  | NetworkTimeout | ServerSelectionTimeoutError | AutoReconnect => true
  | _ => false
  end.

(** The tail of [_with_retry]: all retries exhausted. *)
Definition retries_exhausted {A} (self : string) (last_exception : option exn) : M A :=
  breaker_record_failure self ;;;
  raise (ConnectionError "Operation failed after all attempts" last_exception).

(** The [for attempt in range(max_retries + 1)] loop of [_with_retry]. *)
Fixpoint retry_loop {A} (self : string) (operation : M A) (max_retries : nat)
    (attempts : list nat) (last_exception : option exn) : M A :=
  match attempts with
  | [] => retries_exhausted self last_exception
  | attempt :: rest =>
      fun w =>
        match operation w with
        | (Ok result, w1) => (breaker_record_success self ;;; ret result) w1
        | (Raise e, w1) =>
            if is_transient e then
              (breaker_record_failure self ;;;
               if Nat.eqb attempt max_retries
               then retries_exhausted self (Some e)
               else
                 sleep (Z.min (1 * 2 ^ Z.of_nat attempt) 60) ;;;
                 retry_loop self operation max_retries rest (Some e)) w1
            else
              (breaker_record_failure self ;;;
               raise (RepositoryError e)) w1
        end
  end.

(** [_with_retry(operation)] with the default policy: 3 retries, base delay
    1 s, factor 2, cap 60 s. *)
Definition _with_retry {A} (self : string) (operation : M A) : M A :=
  ok <- breaker_can_execute self ;;
  if negb ok
  then raise (ConnectionError "Circuit breaker is OPEN - operation blocked" None)
  else retry_loop self operation 3 (seq 0 (3 + 1)) None.

(** [insert_one(document, validate)]: the id comes back as a string. *)
Definition insert_one {rt : PyRuntime} (self : string) (document : value) (validate : bool)
  : M value :=
  document <- (if validate then lift (_sanitize_input document)
               else match document with
                    | VDict d => ret d
                    | _ => raise (AttributeError "update")
                    end) ;;
  t <- now ;;
  let document := dict_update document [("created_at", VDate t); ("updated_at", VDate t)] in
  let document :=
    match dict_get "content" document with
    | Some content => dict_set "content_hash" (VStr (_generate_content_hash content)) document
    | None => document
    end in
  _with_retry self
    (inserted_id <- driver (coll_insert_one self document) ;;
     ret (VStr (py_str inserted_id))).

(** [find_one(query)] (no projection is ever passed by the methods below). *)
Definition find_one (self : string) (query : value) : M (option doc) :=
  query <- lift (_sanitize_input query) ;;
  _with_retry self
    (result <- driver (coll_find_one self query) ;;
     ret (if truthy_doc result then option_map convert_doc result else None)).

(** [update_one(query, update_data, upsert, validate)]: the answer is a
    [bool]. *)
Definition update_one {rt : PyRuntime} (self : string) (query update_data : value)
    (upsert validate : bool) : M value :=
  query <- lift (_sanitize_input query) ;;
  update_data <- (if validate then lift (_sanitize_input update_data)
                  else match update_data with
                       | VDict d => ret d
                       | _ => raise (TypeError "item assignment")
                       end) ;;
  t <- now ;;
  let update_data := dict_set "updated_at" (VDate t) update_data in
  let update_data :=
    match dict_get "content" update_data with
    | Some content => dict_set "content_hash" (VStr (_generate_content_hash content)) update_data
    | None => update_data
    end in
  _with_retry self
    (result <- driver (coll_update_one self query [("$set", VDict update_data)] upsert) ;;
     ret (VBool ((0 <? modified_count result)
                 || (upsert && match upserted_id result with Some _ => true | None => false end)))).

(** [result.modified_count] on what [update_one] returned: the values of
    this model (a [bool] among them) have no such attribute. *)
Definition getattr_modified_count (result : value) : M Z :=
  raise (AttributeError "modified_count").

(** [update_many(query, update_data, validate)]: the answer is the number of
    documents modified, an [int]. *)
Definition update_many (self : string) (query update_data : value) (validate : bool)
  : M Z :=
  query <- lift (_sanitize_input query) ;;
  update_data <- (if validate then lift (_sanitize_input update_data)
                  else match update_data with
                       | VDict d => ret d
                       | _ => raise (TypeError "item assignment")
                       end) ;;
  t <- now ;;
  let update_data := dict_set "updated_at" (VDate t) update_data in
  _with_retry self
    (result <- driver (coll_update_many self query [("$set", VDict update_data)]) ;;
     ret (modified_count result)).

(** [delete_many(query)]: the answer is the number of documents deleted, an
    [int]. *)
Definition delete_many (self : string) (query : value) : M Z :=
  query <- lift (_sanitize_input query) ;;
  _with_retry self (driver (coll_delete_many self query)).

(** [result.deleted_count] on what [delete_many] returned: an [int] has no
    such attribute. *)
Definition getattr_deleted_count (result : Z) : M Z :=
  raise (AttributeError "deleted_count").

(** [[self._validate_object_id(x) for x in ids]] *)
Fixpoint validate_object_ids (ids : list value) : M (list value) :=
  match ids with
  | [] => ret []
  | x :: rest =>
      v <- _validate_object_id x ;;
      vs <- validate_object_ids rest ;;
      ret (v :: vs)
  end.

(* ===================================================================== *)
(** ** Sites (sites_repository.py) *)
(* ===================================================================== *)

Definition sites_repository : string := "sites".

(** [d[k]] *)
Definition dict_item (k : string) (d : doc) : M value :=
  match dict_get k d with
  | Some v => ret v
  | None => raise (KeyError k)
  end.

(** [get_crawl_configuration(site_id)] *)
Definition get_crawl_configuration {rt : PyRuntime} (site_id : value) : M (option doc) :=
  try_except
    (validated_site_id <- _validate_object_id site_id ;;
     doc <- find_one sites_repository (VDict [("_id", validated_site_id)]) ;;
     match doc with
     | Some doc =>
         if truthy (VDict doc) then
           id <- dict_item "_id" doc ;;
           name <- dict_item "name" doc ;;
           base_url <- dict_item "base_url" doc ;;
           ret (Some [("site_id", VStr (py_str id));
                      ("name", name);
                      ("base_url", base_url);
                      ("crawl_patterns", dict_get_default "crawl_patterns" (VDict []) doc);
                      ("politeness", dict_get_default "politeness" (VDict []) doc);
                      ("monitoring", dict_get_default "monitoring" (VDict []) doc);
                      ("health_status", dict_get_default "health_status" (VStr "unknown") doc)])
         else ret None
     | None => ret None
     end)
    (fun e => ret None).

(* ===================================================================== *)
(** ** Processing queue (processing_queue_repository.py) *)
(* ===================================================================== *)

Definition processing_queue : string := "processing_queue".

(** The repository's [ProcessingTask]. *)
Record ProcessingTask := mkProcessingTask {
  task_id : value;
  task_type : value;
  task_priority : value;
  task_payload : value;
  task_status : value;
  task_created_at : value;
  task_scheduled_at : value;
  task_started_at : value;
  task_completed_at : value;
  task_worker_id : value;
  task_error_message : value;
  task_retry_count : value;
  task_max_retries : value
}.

(** [_document_to_task(doc)] *)
Definition _document_to_task (doc : doc) : M ProcessingTask :=
  id <- dict_item "_id" doc ;;
  let payload := dict_get_default "payload" (VDict []) doc in
  ret (mkProcessingTask
         id
         (dict_get_default "task_type" VNone doc)
         (dict_get_default "priority" (VInt 5) doc)
         (if truthy payload then payload else VDict [])
         (dict_get_default "status" (VStr "pending") doc)
         (dict_get_default "created_at" VNone doc)
         (dict_get_default "scheduled_at" VNone doc)
         (dict_get_default "started_at" VNone doc)
         (dict_get_default "completed_at" VNone doc)
         (dict_get_default "worker_id" VNone doc)
         (dict_get_default "error_message" VNone doc)
         (dict_get_default "retry_count" (VInt 0) doc)
         (dict_get_default "max_retries" (VInt 3) doc)).

(** [_calculate_next_retry_delay(retry_count)] with [base_delay = 60], in
    whole seconds. *)
Definition _calculate_next_retry_delay (retry_count : Z) : Z :=
  let delay_seconds :=
    if 0 <=? retry_count then 60 * 2 ^ retry_count else 60 / 2 ^ (- retry_count) in
  Z.min delay_seconds 3600.

(** [dequeue_next_task(task_type)] *)
Definition dequeue_next_task (task_type : value) : M (option ProcessingTask) :=
  try_except
    (t <- now ;;
     let query := [("status", VStr "pending");
                   ("scheduled_at", VDict [("$lte", VDate t)])] in
     let query := if truthy task_type then dict_set "task_type" task_type query else query in
     let update_data := [("status", VStr "processing");
                         ("started_at", VDate t);
                         ("last_update", VDate t)] in
     let sort := [("priority", DESCENDING); ("created_at", ASCENDING)] in
     doc <- driver (coll_find_one_and_update processing_queue query
                      [("$set", VDict update_data)] sort) ;;
     match doc with
     | Some doc =>
         if truthy (VDict doc)
         then task <- _document_to_task doc ;; ret (Some task)
         else ret None
     | None => ret None
     end)
    (fun e => ret None).

(** An integer operand ([bool] counts as one); anything else makes the
    arithmetic of [fail_task] raise. *)
Definition as_int (v : value) : M Z :=
  match v with
  | VInt z => ret z
  | VBool b => ret (if b then 1 else 0)
  | _ => raise (TypeError "unsupported operand type")
  end.

(** The update [fail_task] prepares for a task with the given counters. *)
Definition fail_task_update_data (error : value) (retry : bool)
    (retry_count max_retries t : Z) : doc :=
  let update_data := [("error_message", error);
                      ("last_update", VDate t);
                      ("retry_count", VInt (retry_count + 1))] in
  let should_retry := retry && (retry_count <? max_retries) in
  if should_retry then
    let retry_delay := _calculate_next_retry_delay retry_count in
    dict_update update_data
      [("status", VStr "pending");
       ("scheduled_at", VDate (t + retry_delay));
       ("worker_id", VNone);
       ("started_at", VNone)]
  else
    dict_update update_data
      [("status", VStr "failed");
       ("failed_at", VDate t)].

(** [fail_task(task_id, error, retry)] *)
Definition fail_task {rt : PyRuntime} (task_id : value) (error : value) (retry : bool) : M bool :=
  try_except
    (validated_task_id <- _validate_object_id task_id ;;
     task_doc <- find_one processing_queue (VDict [("_id", validated_task_id)]) ;;
     match task_doc with
     | None => ret false
     | Some task_doc =>
         retry_count <- as_int (dict_get_default "retry_count" (VInt 0) task_doc) ;;
         t <- now ;;
         max_retries <- (if retry
                         then as_int (dict_get_default "max_retries" (VInt 3) task_doc)
                         else ret 0) ;;
         let update_data := fail_task_update_data error retry retry_count max_retries t in
         result <- update_one processing_queue
                     (VDict [("_id", validated_task_id)])
                     (VDict [("$set", VDict update_data)]) false true ;;
         n <- getattr_modified_count result ;;
         ret (0 <? n)
     end)
    (fun e => ret false).

(** [json.dumps(v)] succeeds: a [datetime] and an [ObjectId] are not JSON
    serializable, everything else a document holds is. *)
Fixpoint json_serializable (v : value) : bool :=
  match v with
  | VDate _ | VOid _ => false
  | VList l =>
      (fix elems (l : list value) : bool :=
         match l with
         | [] => true
         | x :: r => json_serializable x && elems r
         end) l
  | VDict d =>
      (fix items (d : list (string * value)) : bool :=
         match d with
         | [] => true
         | (_, x) :: r => json_serializable x && items r
         end) d
  | _ => true
  end.

(** [enqueue_task(task)].  The payload check raises pydantic's
    [ValidationError] from a message; whatever that constructor call turns
    into, an exception leaves the method before anything is stored. *)
Definition enqueue_task {rt : PyRuntime} (task : ProcessingTask) : M value :=
  if negb (truthy (task_type task)) then
    raise (PydanticCustomError "missing_task_type" "Task type is required")
  else if truthy (task_payload task) && negb (json_serializable (task_payload task)) then
    raise (ValidationError "Task payload must be JSON serializable")
  else
    t <- now ;;
    let task_data :=
      [("task_type", task_type task);
       ("priority", task_priority task);
       ("payload", task_payload task);
       ("status", VStr "pending");
       ("created_at", VDate t);
       ("scheduled_at", if truthy (task_scheduled_at task)
                        then task_scheduled_at task else VDate t);
       ("retry_count", VInt 0);
       ("max_retries", task_max_retries task)] in
    insert_one processing_queue (VDict task_data) true.

(** [mark_task_processing(task_id, worker_id)] *)
Definition mark_task_processing {rt : PyRuntime} (task_id worker_id : value) : M bool :=
  try_except
    (validated_task_id <- _validate_object_id task_id ;;
     t <- now ;;
     let update_data := [("worker_id", worker_id); ("last_update", VDate t)] in
     result <- update_one processing_queue
                 (VDict [("_id", validated_task_id); ("status", VStr "processing")])
                 (VDict [("$set", VDict update_data)]) false true ;;
     n <- getattr_modified_count result ;;
     ret (0 <? n))
    (fun e => ret false).

(** [complete_task(task_id, result)]: a result that is not JSON
    serializable is replaced by a note saying so. *)
Definition complete_task {rt : PyRuntime} (task_id result : value) : M bool :=
  try_except
    (validated_task_id <- _validate_object_id task_id ;;
     let result :=
       if json_serializable result then result
       else VDict [("status", VStr "completed");
                   ("error", VStr "Result not serializable")] in
     t <- now ;;
     let update_data := [("status", VStr "completed");
                         ("completed_at", VDate t);
                         ("result", result);
                         ("last_update", VDate t)] in
     result <- update_one processing_queue
                 (VDict [("_id", validated_task_id); ("status", VStr "processing")])
                 (VDict [("$set", VDict update_data)]) false true ;;
     n <- getattr_modified_count result ;;
     ret (0 <? n))
    (fun e => ret false).

(** [retry_failed_tasks(task_ids)] *)
Definition retry_failed_tasks (task_ids : list value) : M Z :=
  try_except
    (validated_ids <- validate_object_ids task_ids ;;
     t <- now ;;
     let update_data := [("status", VStr "pending");
                         ("scheduled_at", VDate t);
                         ("worker_id", VNone);
                         ("started_at", VNone);
                         ("error_message", VNone);
                         ("retry_count", VInt 0);
                         ("last_update", VDate t)] in
     result <- update_many processing_queue
                 (VDict [("_id", VDict [("$in", VList validated_ids)]);
                         ("status", VStr "failed")])
                 (VDict [("$set", VDict update_data)]) true ;;
     getattr_modified_count (VInt result))
    (fun e => ret 0).

(** [purge_completed_tasks(hours_old)] *)
Definition purge_completed_tasks (hours_old : Z) : M Z :=
  try_except
    (t <- now ;;
     let cutoff_time := t - 3600 * hours_old in
     result <- delete_many processing_queue
                 (VDict [("status", VStr "completed");
                         ("completed_at", VDict [("$lt", VDate cutoff_time)])]) ;;
     getattr_deleted_count result)
    (fun e => ret 0).

(* ===================================================================== *)
(** ** Alerts (alerts_repository.py) *)
(* ===================================================================== *)

Definition alerts : string := "alerts".
Definition alert_suppressions : string := "alert_suppressions".

(** The fields of [Alert] that [create_alert] reads. *)
Record Alert := mkAlert {
  alert_type : value;
  alert_severity : value;
  alert_title : value;
  alert_message : value;
  alert_site_id : value;
  alert_source_component : value;
  alert_context : value
}.

Definition SEVERITY_LEVELS : list (string * Z) :=
  [("critical", 5); ("high", 4); ("medium", 3); ("low", 2); ("info", 1)].

(** [severity in self.SEVERITY_LEVELS] *)
Definition is_severity (v : value) : bool :=
  match v with
  | VStr s => match assoc_get s SEVERITY_LEVELS with Some _ => true | None => false end
  | _ => false
  end.

(** [_calculate_alert_hash(alert_type, site_id, context)] *)
Definition _calculate_alert_hash {rt : PyRuntime} (alert_type site_id context : value) : string :=
  md5_hex (py_str alert_type ++ ":" ++ py_str site_id ++ ":" ++ py_str context).

(** [_is_alert_suppressed(alert_type)] *)
Definition _is_alert_suppressed (alert_type : value) : M bool :=
  try_except
    (t <- now ;;
     doc <- driver (coll_find_one alert_suppressions
                      [("alert_type", alert_type);
                       ("suppressed_until", VDict [("$gt", VDate t)])]) ;;
     ret (match doc with Some _ => true | None => false end))
    (fun e => ret false).

(** [create_alert(alert)]: [VNone] is the sentinel of a dropped alert. *)
Definition create_alert {rt : PyRuntime} (alert : Alert) : M value :=
  if negb (truthy (alert_type alert)) then
    raise (PydanticValidationError "Alert type is required")
  else if negb (truthy (alert_title alert)) then
    raise (PydanticValidationError "Alert title is required")
  else if negb (is_severity (alert_severity alert)) then
    raise (PydanticValidationError "Invalid severity level")
  else
    suppressed <- _is_alert_suppressed (alert_type alert) ;;
    if suppressed then ret VNone
    else
      let alert_hash :=
        _calculate_alert_hash (alert_type alert) (alert_site_id alert) (alert_context alert) in
      existing_alert <- find_one alerts
                          (VDict [("alert_hash", VStr alert_hash);
                                  ("status", VStr "active")]) ;;
      match existing_alert with
      | Some existing_alert =>
          id <- dict_item "_id" existing_alert ;;
          t <- now ;;
          update_one alerts
            (VDict [("_id", id)])
            (VDict [("$set", VDict [("last_seen", VDate t)]);
                    ("$inc", VDict [("occurrence_count", VInt 1)])])
            false true ;;;
          ret id
      | None =>
          (if truthy (alert_site_id alert)
           then get_crawl_configuration (alert_site_id alert) ;;; ret tt
           else ret tt) ;;;
          t <- now ;;
          let alert_data :=
            [("alert_type", alert_type alert);
             ("severity", alert_severity alert);
             ("title", alert_title alert);
             ("message", alert_message alert);
             ("site_id", alert_site_id alert);
             ("source_component", alert_source_component alert);
             ("context", alert_context alert);
             ("status", VStr "active");
             ("alert_hash", VStr alert_hash);
             ("occurrence_count", VInt 1);
             ("notification_sent", VBool false);
             ("created_at", VDate t);
             ("last_seen", VDate t)] in
          insert_one alerts (VDict alert_data) true
      end.

(** [resolve_alert(alert_id, resolution)] *)
Definition resolve_alert {rt : PyRuntime} (alert_id resolution : value) : M bool :=
  try_except
    (validated_alert_id <- _validate_object_id alert_id ;;
     t <- now ;;
     let update_data := [("status", VStr "resolved");
                         ("resolution", resolution);
                         ("resolved_at", VDate t)] in
     result <- update_one alerts
                 (VDict [("_id", validated_alert_id); ("status", VStr "active")])
                 (VDict [("$set", VDict update_data)]) false true ;;
     n <- getattr_modified_count result ;;
     ret (0 <? n))
    (fun e => ret false).

(** [cleanup_old_alerts(days_old)] *)
Definition cleanup_old_alerts (days_old : Z) : M Z :=
  try_except
    (t <- now ;;
     let cutoff_date := t - 86400 * days_old in
     result <- delete_many alerts
                 (VDict [("status", VStr "resolved");
                         ("resolved_at", VDict [("$lt", VDate cutoff_date)])]) ;;
     getattr_deleted_count result)
    (fun e => ret 0).

(* ===================================================================== *)
(** ** Crawl sessions (crawl_sessions_repository.py) *)
(* ===================================================================== *)

Definition crawl_sessions : string := "crawl_sessions".

Record CrawlStats := mkCrawlStats {
  pages_discovered : Z;
  pages_crawled : Z;
  pages_failed : Z;
  bytes_downloaded : Z;
  errors_count : Z
}.

(** [(now - started_at).total_seconds()] for [now = datetime.now(UTC)] and
    a value read from the store.  The client is created without
    [tz_aware], so a stored datetime comes back naive, and an aware
    datetime minus a naive one is a [TypeError]; so is an aware datetime
    minus anything else the store holds. *)
Definition total_seconds_since (t : Z) (started_at : value) : M Q :=
  match started_at with
  | VDate _ => raise (TypeError "can't subtract offset-naive and offset-aware datetimes")
  | _ => raise (TypeError "unsupported operand type(s) for -")
  end.

(** [complete_crawl_session(session_id, final_stats)] *)
Definition complete_crawl_session {rt : PyRuntime} (session_id : value) (final_stats : CrawlStats)
  : M bool :=
  try_except
    (validated_session_id <- _validate_object_id session_id ;;
     session <- find_one crawl_sessions (VDict [("_id", validated_session_id)]) ;;
     match session with
     | None => raise (ResourceNotFoundError "Session not found")
     | Some session =>
         t <- now ;;
         started_at <- dict_item "started_at" session ;;
         duration <- total_seconds_since t started_at ;;
         let update_data :=
           [("status", VStr "completed");
            ("completed_at", VDate t);
            ("stats", VDict [("pages_discovered", VInt (pages_discovered final_stats));
                             ("pages_crawled", VInt (pages_crawled final_stats));
                             ("pages_failed", VInt (pages_failed final_stats));
                             ("bytes_downloaded", VInt (bytes_downloaded final_stats));
                             ("errors_count", VInt (errors_count final_stats));
                             ("start_time", started_at);
                             ("end_time", VDate t);
                             ("duration_seconds", VFloat duration)]);
            ("last_update", VDate t)] in
         result <- update_one crawl_sessions
                     (VDict [("_id", validated_session_id)])
                     (VDict [("$set", VDict update_data)]) false true ;;
         n <- getattr_modified_count result ;;
         let success := 0 <? n in
         (if success then
            site_id <- dict_item "site_id" session ;;
            update_one sites_repository
              (VDict [("_id", site_id)])
              (VDict [("$set", VDict [("monitoring.last_crawl_time", VDate t)])])
              false true ;;;
            ret tt
          else ret tt) ;;;
         ret success
     end)
    (fun e => ret false).

(** [get_concurrent_session_count(site_id)]: the count is asked of the
    driver directly; any failure counts as no session. *)
Definition get_concurrent_session_count (site_id : value) : M Z :=
  try_except
    (validated_site_id <- _validate_object_id site_id ;;
     driver (coll_count_documents crawl_sessions
               [("site_id", validated_site_id); ("status", VStr "running")]))
    (fun e => ret 0).

(** [n >= v] for an [int] [n]: numbers compare, anything else is a type
    error. *)
Definition int_ge (n : Z) (v : value) : pyresult bool :=
  match as_number v with
  | Some q => Ok (match Qcompare (inject_Z n) q with Lt => false | _ => true end)
  | None => Raise (TypeError "'>=' not supported")
  end.

(** [start_crawl_session(site_id, config)] *)
Definition start_crawl_session {rt : PyRuntime} (site_id : value) (config : doc) : M value :=
  site_config <- get_crawl_configuration site_id ;;
  if negb (truthy_doc site_config) then
    raise (ValidationError ("Site " ++ py_str site_id ++ " not found"))
  else
    concurrent_count <- get_concurrent_session_count site_id ;;
    let max_concurrent := dict_get_default "max_concurrent_sessions" (VInt 1) config in
    reached <- lift (int_ge concurrent_count max_concurrent) ;;
    if reached then
      raise (PydanticCustomError "max_concurrent_sessions"
               "Maximum concurrent sessions ({max_concurrent}) reached for site")
    else
      t <- now ;;
      let session_data :=
        [("site_id", site_id);
         ("status", VStr "running");
         ("config", VDict config);
         ("stats", VDict [("pages_discovered", VInt 0);
                          ("pages_crawled", VInt 0);
                          ("pages_failed", VInt 0);
                          ("bytes_downloaded", VInt 0);
                          ("errors_count", VInt 0);
                          ("start_time", VDate t)]);
         ("started_at", VDate t);
         ("last_update", VDate t);
         ("worker_id", dict_get_default "worker_id" VNone config);
         ("user_agent", dict_get_default "user_agent" (VStr "PhilosophyCrawler/1.0") config)] in
      insert_one crawl_sessions (VDict session_data) true.

(** [update_session_progress(session_id, stats)] *)
Definition update_session_progress {rt : PyRuntime} (session_id : value) (stats : CrawlStats)
  : M bool :=
  try_except
    (validated_session_id <- _validate_object_id session_id ;;
     session <- find_one crawl_sessions (VDict [("_id", validated_session_id)]) ;;
     match session with
     | None => ret false
     | Some session =>
         if negb (truthy (VDict session))
            || negb (value_eqb (dict_get_default "status" VNone session) (VStr "running"))
         then ret false
         else
           t <- now ;;
           let update_data :=
             [("stats.pages_discovered", VInt (pages_discovered stats));
              ("stats.pages_crawled", VInt (pages_crawled stats));
              ("stats.pages_failed", VInt (pages_failed stats));
              ("stats.bytes_downloaded", VInt (bytes_downloaded stats));
              ("stats.errors_count", VInt (errors_count stats));
              ("last_update", VDate t)] in
           result <- update_one crawl_sessions
                       (VDict [("_id", validated_session_id); ("status", VStr "running")])
                       (VDict [("$set", VDict update_data)]) false true ;;
           n <- getattr_modified_count result ;;
           ret (0 <? n)
     end)
    (fun e => ret false).

(** [abort_session(session_id, reason)] *)
Definition abort_session {rt : PyRuntime} (session_id reason : value) : M bool :=
  try_except
    (validated_session_id <- _validate_object_id session_id ;;
     t <- now ;;
     let update_data := [("status", VStr "aborted");
                         ("completed_at", VDate t);
                         ("abort_reason", reason);
                         ("last_update", VDate t)] in
     result <- update_one crawl_sessions
                 (VDict [("_id", validated_session_id); ("status", VStr "running")])
                 (VDict [("$set", VDict update_data)]) false true ;;
     n <- getattr_modified_count result ;;
     ret (0 <? n))
    (fun e => ret false).

(** [cleanup_old_sessions(days_old)] *)
Definition cleanup_old_sessions (days_old : Z) : M Z :=
  try_except
    (t <- now ;;
     let cutoff_date := t - 86400 * days_old in
     result <- delete_many crawl_sessions
                 (VDict [("status", VDict [("$in", VList [VStr "completed"; VStr "aborted";
                                                          VStr "failed"])]);
                         ("completed_at", VDict [("$lt", VDate cutoff_date)])]) ;;
     getattr_deleted_count result)
    (fun e => ret 0).

(* ===================================================================== *)
(** ** urllib.parse.urlparse, as [_normalize_url] uses it *)
(* ===================================================================== *)

Record ParseResult := mkParseResult {
  scheme : string;
  netloc : string;
  path : string;
  params : string;
  query : string;
  fragment : string
}.

(** [url.lstrip(_WHATWG_C0_CONTROL_OR_SPACE)] *)
Fixpoint lstrip_c0 (s : string) : string :=
  match s with
  | EmptyString => EmptyString
  | String a r => if Nat.leb (nat_of_ascii a) 32 then lstrip_c0 r else s
  end.

(** Tab, carriage return and line feed are removed from the URL. *)
Definition is_unsafe_byte (a : ascii) : bool :=
  let n := nat_of_ascii a in Nat.eqb n 9 || Nat.eqb n 10 || Nat.eqb n 13.

Fixpoint remove_unsafe (s : string) : string :=
  match s with
  | EmptyString => EmptyString
  | String a r => if is_unsafe_byte a then remove_unsafe r else String a (remove_unsafe r)
  end.

(** [scheme_chars]: letters, digits, [+], [-], [.]. *)
Definition is_scheme_char (a : ascii) : bool :=
  is_alpha a || is_digit a
  || Ascii.eqb a "+"%char || Ascii.eqb a "-"%char || Ascii.eqb a "."%char.

(** The text before the first character satisfying [p], and the rest from
    that character on. *)
Fixpoint split_at_first (p : ascii -> bool) (s : string) : string * string :=
  match s with
  | EmptyString => (EmptyString, EmptyString)
  | String a r =>
      if p a then (EmptyString, s)
      else let (u, v) := split_at_first p r in (String a u, v)
  end.

(** The text before the last [c] and the text after it. *)
Fixpoint rsplit_once (c : ascii) (s : string) : option (string * string) :=
  match s with
  | EmptyString => None
  | String a r =>
      match rsplit_once c r with
      | Some (u, v) => Some (String a u, v)
      | None => if Ascii.eqb a c then Some (EmptyString, r) else None
      end
  end.

Definition is_netloc_delim (a : ascii) : bool :=
  Ascii.eqb a "/"%char || Ascii.eqb a "?"%char || Ascii.eqb a "#"%char.

(** The scheme of a URL and what follows its colon: the text before the
    first colon is a scheme when it is not empty, starts with a letter and
    holds scheme characters only. *)
Definition split_scheme (url : string) : string * string :=
  match split_once ":"%char url with
  | Some (String a pre, rest) =>
      if is_alpha a && string_forallb is_scheme_char (String a pre)
      then (lower (String a pre), rest)
      else (EmptyString, url)
  | _ => (EmptyString, url)
  end.

(** The netloc of a URL after its scheme, and what follows the netloc: a
    netloc is there when the text starts with two slashes, and ends before
    the first [/], [?] or [#]. *)
Definition split_netloc (url : string) : string * string :=
  match url with
  | String "/" (String "/" rest) => split_at_first is_netloc_delim rest
  | _ => (EmptyString, url)
  end.

(** [s.isascii()] *)
Definition isascii (s : string) : bool :=
  string_forallb (fun a => Nat.ltb (nat_of_ascii a) 128) s.

(** [s.replace(c, '')] *)
Fixpoint remove_char (c : ascii) (s : string) : string :=
  match s with
  | EmptyString => EmptyString
  | String a r => if Ascii.eqb a c then remove_char c r else String a (remove_char c r)
  end.

(** [_checknetloc(netloc)]: a netloc that is not ASCII must not gain one of
    [/?#@:] under NFKC normalization. *)
Definition _checknetloc {rt : PyRuntime} (netloc : string) : pyresult unit :=
  if is_empty netloc || isascii netloc then Ok tt
  else
    let n := remove_char "?" (remove_char "#" (remove_char ":" (remove_char "@" netloc))) in
    let netloc2 := nfkc n in
    if String.eqb n netloc2 then Ok tt
    else if existsb (fun c => contains_char c netloc2) ["/"; "?"; "#"; "@"; ":"]%char
    then Raise (ValueError ("netloc '" ++ netloc
                            ++ "' contains invalid characters under NFKC normalization"))
    else Ok tt.

(** [re.match(r"\Av[a-fA-F0-9]+\..+\Z", hostname)] *)
Definition is_ipvfuture (hostname : string) : bool :=
  match hostname with
  | String "v" rest =>
      let (digits, tail) := split_at_first (fun a => negb (is_hex_digit a)) rest in
      negb (is_empty digits)
      && match tail with
         | String "." more => negb (is_empty more) && negb (contains_char "010" more)
         | _ => false
         end
  | _ => false
  end.

(** [_check_bracketed_host(hostname)] *)
Definition _check_bracketed_host {rt : PyRuntime} (hostname : string) : pyresult unit :=
  if startswith "v" hostname then
    if is_ipvfuture hostname then Ok tt
    else Raise (ValueError "IPvFuture address is invalid")
  else
    match ip_address hostname with
    | None => Raise (ValueError (py_repr (VStr hostname)
                                 ++ " does not appear to be an IPv4 or IPv6 address"))
    | Some IPv4Address => Raise (ValueError "An IPv4 address cannot be in brackets")
    | Some IPv6Address => Ok tt
    end.

(** [_check_bracketed_netloc(netloc)] *)
Definition _check_bracketed_netloc {rt : PyRuntime} (netloc : string) : pyresult unit :=
  let hostname_and_port :=
    match rsplit_once "@" netloc with
    | Some (_, after) => after
    | None => netloc
    end in
  match split_once "[" hostname_and_port with
  | Some (before_bracket, bracketed) =>
      if negb (is_empty before_bracket) then Raise (ValueError "Invalid IPv6 URL")
      else
        let (hostname, port) :=
          match split_once "]" bracketed with
          | Some (h, p) => (h, p)
          | None => (bracketed, EmptyString)
          end in
        if negb (is_empty port) && negb (startswith ":" port)
        then Raise (ValueError "Invalid IPv6 URL")
        else _check_bracketed_host hostname
  | None =>
      let hostname :=
        match split_once ":" hostname_and_port with
        | Some (h, _) => h
        | None => hostname_and_port
        end in
      _check_bracketed_host hostname
  end.

(** [urlsplit(url)] *)
Definition urlsplit {rt : PyRuntime} (url : string) : pyresult ParseResult :=
  let url := remove_unsafe (lstrip_c0 url) in
  let (scheme, url) := split_scheme url in
  let (netloc, url) := split_netloc url in
  match
    (if xorb (contains_char "["%char netloc) (contains_char "]"%char netloc)
     then Raise (ValueError "Invalid IPv6 URL")
     else if contains_char "["%char netloc && contains_char "]"%char netloc
          then _check_bracketed_netloc netloc
          else Ok tt)
  with
  | Raise e => Raise e
  | Ok _ =>
      let (url, fragment) :=
        match split_once "#"%char url with
        | Some (u, f) => (u, f)
        | None => (url, EmptyString)
        end in
      let (url, query) :=
        match split_once "?"%char url with
        | Some (u, q) => (u, q)
        | None => (url, EmptyString)
        end in
      match _checknetloc netloc with
      | Raise e => Raise e
      | Ok _ => Ok (mkParseResult scheme netloc url EmptyString query fragment)
      end
  end.

Definition uses_params : list string :=
  [""; "ftp"; "hdl"; "prospero"; "http"; "imap"; "https"; "shttp"; "rtsp";
   "rtspu"; "sip"; "sips"; "mms"; "sftp"; "tel"].

(** [s[:-1]] *)
Fixpoint drop_last (s : string) : string :=
  match s with
  | EmptyString => EmptyString
  | String a EmptyString => EmptyString
  | String a r => String a (drop_last r)
  end.

(** [_splitparams(url)]: the semicolon is looked for from the last slash
    on; without a slash, [url.find(';')] is used as it comes, also when it
    is [-1]. *)
Definition _splitparams (url : string) : string * string :=
  match rsplit_once "/"%char url with
  | Some (head, tail) =>
      match split_once ";"%char tail with
      | Some (a, b) => (head ++ "/" ++ a, b)
      | None => (url, EmptyString)
      end
  | None =>
      match split_once ";"%char url with
      | Some (a, b) => (a, b)
      | None => (drop_last url, url)
      end
  end.

(** [urlparse(url)] *)
Definition urlparse {rt : PyRuntime} (url : string) : pyresult ParseResult :=
  match urlsplit url with
  | Raise e => Raise e
  | Ok r =>
      if existsb (String.eqb (scheme r)) uses_params && contains_char ";"%char (path r)
      then let (url, params) := _splitparams (path r) in
           Ok (mkParseResult (scheme r) (netloc r) url params (query r) (fragment r))
      else Ok r
  end.

(* ===================================================================== *)
(** ** Pages (pages_repository.py) *)
(* ===================================================================== *)

Definition pages_repository : string := "pages".

(** [_normalize_url(url)] *)
Definition _normalize_url {rt : PyRuntime} (url : string) : pyresult string :=
  match urlparse url with
  | Raise e => Raise e
  | Ok parsed =>
      let normalized := scheme parsed ++ "://" ++ netloc parsed ++ path parsed in
      let normalized := rstrip "/"%char normalized in
      let normalized :=
        if negb (is_empty (query parsed)) then normalized ++ "?" ++ query parsed
        else normalized in
      Ok (rstrip "/"%char normalized)
  end.

Record PageCreate := mkPageCreate {
  pc_site_id : value;
  pc_url : string;
  pc_title : value;
  pc_content : value;
  pc_author : value;
  pc_published_date : value
}.

(** [len(x)] *)
Definition py_len_value (x : value) : M Z :=
  match x with
  | VStr s => ret (py_len s)
  | VList l => ret (Z.of_nat (length l))
  | VDict d => ret (Z.of_nat (length d))
  | _ => raise (TypeError "object has no len()")
  end.

(** [create_page(page_data)] *)
Definition create_page {rt : PyRuntime} (page_data : PageCreate) : M value :=
  site_config <- get_crawl_configuration (pc_site_id page_data) ;;
  if negb (truthy_doc site_config) then
    raise (PydanticCustomError "site_not_found" "Site not found")
  else
    normalized_url <- lift (_normalize_url (pc_url page_data)) ;;
    existing_page <- find_one pages_repository
                       (VDict [("site_id", pc_site_id page_data);
                               ("url", VStr normalized_url)]) ;;
    if truthy_doc existing_page then
      raise (DuplicateResourceError "Page with this URL already exists for site")
    else
      let content_hash :=
        if truthy (pc_content page_data)
        then VStr (_generate_content_hash (pc_content page_data))
        else VNone in
      t <- now ;;
      content_length <- (if truthy (pc_content page_data)
                         then py_len_value (pc_content page_data) else ret 0) ;;
      let page_doc :=
        [("site_id", pc_site_id page_data);
         ("url", VStr normalized_url);
         ("title", pc_title page_data);
         ("content", pc_content page_data);
         ("content_hash", content_hash);
         ("author", pc_author page_data);
         ("published_date", pc_published_date page_data);
         ("processing_status", VStr "pending");
         ("content_length", VInt content_length);
         ("created_at", VDate t);
         ("updated_at", VDate t);
         ("last_modified", VDate t)] in
      insert_one pages_repository (VDict page_doc) true.

(** [update_page_content(page_id, content, content_hash)] *)
Definition update_page_content {rt : PyRuntime} (page_id content content_hash : value) : M bool :=
  try_except
    (validated_page_id <- _validate_object_id page_id ;;
     content_length <- py_len_value content ;;
     t <- now ;;
     let update_data :=
       [("content", content);
        ("content_hash", content_hash);
        ("content_length", VInt content_length);
        ("updated_at", VDate t);
        ("last_modified", VDate t);
        ("processing_status", VStr "pending")] in
     result <- update_one pages_repository
                 (VDict [("_id", validated_page_id)])
                 (VDict [("$set", VDict update_data)]) false true ;;
     n <- getattr_modified_count result ;;
     ret (0 <? n))
    (fun e => ret false).

(** The repository's [Page]. *)
Record Page := mkPage {
  page_id : value;
  page_site_id : value;
  page_url : value;
  page_title : value;
  page_content : value;
  page_content_hash : value;
  page_author : value;
  page_published_date : value;
  page_processing_status : value;
  page_created_at : value;
  page_updated_at : value
}.

(** [_document_to_page(doc)] *)
Definition _document_to_page (doc : doc) : M Page :=
  id <- dict_item "_id" doc ;;
  site_id <- dict_item "site_id" doc ;;
  url <- dict_item "url" doc ;;
  ret (mkPage id site_id url
         (dict_get_default "title" VNone doc)
         (dict_get_default "content" VNone doc)
         (dict_get_default "content_hash" VNone doc)
         (dict_get_default "author" VNone doc)
         (dict_get_default "published_date" VNone doc)
         (dict_get_default "processing_status" (VStr "pending") doc)
         (dict_get_default "created_at" VNone doc)
         (dict_get_default "updated_at" VNone doc)).

(** [get_page_by_url(url)] *)
Definition get_page_by_url {rt : PyRuntime} (url : string) : M (option Page) :=
  try_except
    (normalized_url <- lift (_normalize_url url) ;;
     doc <- find_one pages_repository (VDict [("url", VStr normalized_url)]) ;;
     match doc with
     | Some doc =>
         if truthy (VDict doc)
         then page <- _document_to_page doc ;; ret (Some page)
         else ret None
     | None => ret None
     end)
    (fun e => ret None).

(** [mark_page_processed(page_id, processing_info)] *)
Definition mark_page_processed {rt : PyRuntime} (page_id processing_info : value) : M bool :=
  try_except
    (validated_page_id <- _validate_object_id page_id ;;
     t <- now ;;
     let update_data := [("processing_status", VStr "processed");
                         ("processed_at", VDate t);
                         ("processing_info", processing_info);
                         ("updated_at", VDate t)] in
     result <- update_one pages_repository
                 (VDict [("_id", validated_page_id)])
                 (VDict [("$set", VDict update_data)]) false true ;;
     n <- getattr_modified_count result ;;
     ret (0 <? n))
    (fun e => ret false).

(** [check_content_exists(content_hash)] *)
Definition check_content_exists (content_hash : value) : M bool :=
  try_except
    (doc <- find_one pages_repository (VDict [("content_hash", content_hash)]) ;;
     ret (match doc with Some _ => true | None => false end))
    (fun e => ret false).

(** [bulk_update_processing_status(page_ids, status)] *)
Definition bulk_update_processing_status (page_ids : list value) (status : value) : M Z :=
  try_except
    (validated_ids <- validate_object_ids page_ids ;;
     t <- now ;;
     let update_data := [("processing_status", status); ("updated_at", VDate t)] in
     let update_data :=
       if value_eqb status (VStr "processed")
       then dict_set "processed_at" (VDate t) update_data
       else update_data in
     result <- update_many pages_repository
                 (VDict [("_id", VDict [("$in", VList validated_ids)])])
                 (VDict [("$set", VDict update_data)]) true ;;
     getattr_modified_count (VInt result))
    (fun e => ret 0).

(* ===================================================================== *)
(** ** Content changes (content_changes_repository.py) *)
(* ===================================================================== *)

Definition content_changes : string := "content_changes".

Record ContentChange := mkContentChange {
  cc_page_id : value;
  cc_change_type : value;
  cc_site_id : value;
  cc_url : value;
  cc_title : value;
  cc_previous_hash : value;
  cc_new_hash : value;
  cc_priority : value;
  cc_context : value
}.

(** [ContentChange(page_id=.., change_type=.., site_id=.., **kwargs)]: a
    priority that is not given is ["medium"], a context that is not given is
    the empty dict. *)
Definition new_ContentChange (page_id change_type site_id : value) (kwargs : doc)
  : ContentChange :=
  mkContentChange page_id change_type site_id
    (dict_get_default "url" VNone kwargs)
    (dict_get_default "title" VNone kwargs)
    (dict_get_default "previous_hash" VNone kwargs)
    (dict_get_default "new_hash" VNone kwargs)
    (dict_get_default "priority" (VStr "medium") kwargs)
    (dict_get_default "context" (VDict []) kwargs).

Definition CHANGE_TYPES : list string := ["new"; "modified"; "deleted"].

Definition value_in (v : value) (l : list string) : bool :=
  existsb (fun s => value_eqb v (VStr s)) l.

(** [x > c] for a float constant [c]: numbers compare, anything else is a
    type error. *)
Definition gt_float (x : value) (c : Q) : pyresult bool :=
  match as_number x with
  | Some q => Ok (match Qcompare q c with Gt => true | _ => false end)
  | None => Raise (TypeError "'>' not supported")
  end.

(** [_determine_change_priority(change_type, context)] *)
Definition _determine_change_priority (change_type context : value) : pyresult string :=
  match (if truthy context then context else VDict []) with
  | VDict context =>
      if value_eqb change_type (VStr "deleted") then Ok "high"
      else if value_eqb change_type (VStr "new") then
        if truthy (dict_get_default "author_known" (VBool false) context)
           || truthy (dict_get_default "philosophical_content" (VBool false) context)
        then Ok "high" else Ok "medium"
      else if value_eqb change_type (VStr "modified") then
        let content_change_ratio := dict_get_default "content_change_ratio" (VInt 0) context in
        match gt_float content_change_ratio (5 # 10) with
        | Raise e => Raise e
        | Ok true => Ok "high"
        | Ok false =>
            match gt_float content_change_ratio (1 # 10) with
            | Raise e => Raise e
            | Ok true => Ok "medium"
            | Ok false => Ok "low"
            end
        end
      else Ok "medium"
  | _ =>
      if value_eqb change_type (VStr "deleted") then Ok "high"
      else if value_eqb change_type (VStr "new") || value_eqb change_type (VStr "modified")
      then Raise (AttributeError "get")
      else Ok "medium"
  end.

(** [record_content_change(change)] *)
Definition record_content_change {rt : PyRuntime} (change : ContentChange) : M value :=
  if negb (truthy (cc_page_id change)) then
    raise (PydanticCustomError "missing_page_id" "Page ID is required")
  else if negb (truthy (cc_change_type change))
          || negb (value_in (cc_change_type change) CHANGE_TYPES) then
    raise (PydanticCustomError "invalid_change_type" "Invalid change type")
  else if negb (truthy (cc_site_id change)) then
    raise (PydanticCustomError "missing_site_id" "Site ID is required")
  else
    url_title <-
      (if value_in (cc_change_type change) ["new"; "modified"] then
         page <- find_one pages_repository (VDict [("_id", cc_page_id change)]) ;;
         match page with
         | Some page =>
             ret (if truthy (cc_url change) then cc_url change
                  else dict_get_default "url" VNone page,
                  if truthy (cc_title change) then cc_title change
                  else dict_get_default "title" VNone page)
         | None => raise (PydanticCustomError "missing_page_id" "Page not found")
         end
       else ret (cc_url change, cc_title change)) ;;
    priority <-
      (if truthy (cc_priority change) then ret (cc_priority change)
       else p <- lift (_determine_change_priority (cc_change_type change) (cc_context change)) ;;
            ret (VStr p)) ;;
    t <- now ;;
    let change_data :=
      [("page_id", cc_page_id change);
       ("change_type", cc_change_type change);
       ("site_id", cc_site_id change);
       ("url", fst url_title);
       ("title", snd url_title);
       ("previous_hash", cc_previous_hash change);
       ("new_hash", cc_new_hash change);
       ("priority", priority);
       ("notification_sent", VBool false);
       ("detected_at", VDate t);
       ("context", cc_context change)] in
    insert_one content_changes (VDict change_data) true.

(** [mark_change_notified(change_id)] *)
Definition mark_change_notified {rt : PyRuntime} (change_id : value) : M bool :=
  try_except
    (validated_change_id <- _validate_object_id change_id ;;
     t <- now ;;
     let update_data := [("notification_sent", VBool true);
                         ("notified_at", VDate t)] in
     result <- update_one content_changes
                 (VDict [("_id", validated_change_id)])
                 (VDict [("$set", VDict update_data)]) false true ;;
     n <- getattr_modified_count result ;;
     ret (0 <? n))
    (fun e => ret false).

(** [cleanup_old_changes(days_old)] *)
Definition cleanup_old_changes (days_old : Z) : M Z :=
  try_except
    (t <- now ;;
     let cutoff_date := t - 86400 * days_old in
     result <- delete_many content_changes
                 (VDict [("detected_at", VDict [("$lt", VDate cutoff_date)])]) ;;
     getattr_deleted_count result)
    (fun e => ret 0).

(* ===================================================================== *)
(** ** Retention (retention_policy_manager.py) *)
(* ===================================================================== *)

Record RetentionPolicy := mkRetentionPolicy {
  collection_name : string;
  ttl_field : string;
  retention_days : Z;
  archive_enabled : bool;
  archive_after_days : option Z;
  compression_enabled : bool
}.

(** The manager: whether an S3 client was given, the bucket, the dry-run
    flag and the policies by collection. *)
Record RetentionPolicyManager := mkRetentionPolicyManager {
  s3_client : bool;
  s3_bucket : option string;
  dry_run : bool;
  retention_policies : list (string * RetentionPolicy)
}.

(** The policies [__init__] installs. *)
Definition default_retention_policies : list (string * RetentionPolicy) :=
  [("content_changes", mkRetentionPolicy "content_changes" "detected_at" 365 false None true);
   ("crawl_sessions", mkRetentionPolicy "crawl_sessions" "start_time" 90 true (Some 90) true);
   ("alerts", mkRetentionPolicy "alerts" "created_at" 180 false None true);
   ("processing_queue", mkRetentionPolicy "processing_queue" "created_at" 30 false None true)].

Definition new_RetentionPolicyManager (s3_client : bool) (s3_bucket : option string)
    (dry_run : bool) : RetentionPolicyManager :=
  mkRetentionPolicyManager s3_client s3_bucket dry_run default_retention_policies.

Definition seconds_per_day : Z := 86400.

(** [_generate_archive_key(collection_name, first_doc, last_doc)] *)
Definition _generate_archive_key {rt : PyRuntime} (collection_name : string)
    (first_doc last_doc : doc) : M string :=
  t <- now ;;
  let timestamp := strftime_compact t in
  first_id <- dict_item "_id" first_doc ;;
  last_id <- dict_item "_id" last_doc ;;
  ret ("archives/" ++ collection_name ++ "/" ++ timestamp ++ "_"
       ++ py_str first_id ++ "_" ++ py_str last_id ++ ".json.gz").

(** [s3_client.put_object(...)] *)
Definition put_object (key : string) (documents : list doc) (compress : bool) : M unit :=
  fun w =>
    match s3_faults w with
    | Some e :: rest => (Raise e, set_s3 (s3_objects w) rest w)
    | None :: rest =>
        (Ok tt, set_s3 (s3_objects w ++ [mkS3Object key documents compress]) rest w)
    | [] => (Ok tt, set_s3 (s3_objects w ++ [mkS3Object key documents compress]) [] w)
    end.

(** [_archive_batch_to_s3(documents, s3_key, compress)]: the object body is
    the JSON text of the documents, gzipped when [compress]; the model keeps
    the documents themselves. *)
Definition _archive_batch_to_s3 (mgr : RetentionPolicyManager) (documents : list doc)
    (s3_key : string) (compress : bool) : M bool :=
  try_except
    ((if negb (dry_run mgr) then put_object s3_key documents compress else ret tt) ;;;
     ret true)
    (fun e => ret false).

(** [[doc['_id'] for doc in batch]] *)
Fixpoint doc_ids (batch : list doc) : M (list value) :=
  match batch with
  | [] => ret []
  | d :: r => i <- dict_item "_id" d ;; ids <- doc_ids r ;; ret (i :: ids)
  end.

(** The loop of [archive_old_documents] over the batches [_get_batches]
    yields, with the count archived so far; it ends with the count and the
    exception that stopped it, if one did.  [None] stands for running out of
    [fuel] (see [archive_old_documents_fuel] below: it never happens). *)
Fixpoint archive_loop {rt : PyRuntime} (fuel : nat) (mgr : RetentionPolicyManager)
    (collection_name : string) (policy : RetentionPolicy) (query : doc)
    (batch_size skip : nat) (archived_count : Z) (w : world)
  : option (Z * option exn) * world :=
  match fuel with
  | O => (None, w)
  | S fuel' =>
      match driver (coll_find collection_name query skip batch_size) w with
      | (Raise e, w1) => (Some (archived_count, Some e), w1)
      | (Ok [], w1) => (Some (archived_count, None), w1)
      | (Ok (first_doc :: rest), w1) =>
          let batch := first_doc :: rest in
          match (archive_key <- _generate_archive_key collection_name first_doc
                                  (last batch first_doc) ;;
                 _archive_batch_to_s3 mgr batch archive_key (compression_enabled policy)) w1 with
          | (Raise e, w2) => (Some (archived_count, Some e), w2)
          | (Ok false, w2) => (Some (archived_count, None), w2)
          | (Ok true, w2) =>
              if negb (dry_run mgr) then
                match (ids <- doc_ids batch ;;
                       driver (coll_delete_many collection_name
                                 [("_id", VDict [("$in", VList ids)])])) w2 with
                | (Raise e, w3) => (Some (archived_count, Some e), w3)
                | (Ok deleted_count, w3) =>
                    archive_loop fuel' mgr collection_name policy query batch_size
                      (skip + batch_size) (archived_count + deleted_count) w3
                end
              else
                archive_loop fuel' mgr collection_name policy query batch_size
                  (skip + batch_size) (archived_count + Z.of_nat (length batch)) w2
          end
      end
  end.

(** What [archive_old_documents] returns. *)
Record ArchiveReport := mkArchiveReport {
  archived : Z;
  status : string;
  cutoff_date : option Z;
  error : option exn
}.

(** [archive_old_documents(collection_name)] run with batches of
    [batch_size]. *)
Definition archive_old_documents_with {rt : PyRuntime} (batch_size : nat)
    (mgr : RetentionPolicyManager) (collection_name : string) : M (option ArchiveReport) :=
  match assoc_get collection_name (retention_policies mgr) with
  | None => raise (ValueError "No retention policy defined")
  | Some policy =>
      if negb (archive_enabled policy) then
        ret (Some (mkArchiveReport 0 "disabled" None None))
      else if negb (s3_client mgr)
              || negb (match s3_bucket mgr with Some b => negb (is_empty b) | None => false end)
      then ret (Some (mkArchiveReport 0 "error" None None))
      else
        match archive_after_days policy with
        | None => raise (TypeError "unsupported type for timedelta days component")
        | Some days =>
            fun w =>
              let cutoff_date := clock w - days * seconds_per_day in
              let query := [(ttl_field policy, VDict [("$lt", VDate cutoff_date)])] in
              let fuel := S (length (get_coll collection_name (db w))) in
              match archive_loop fuel mgr collection_name policy query batch_size 0%nat 0 w with
              | (Some (archived_count, None), w') =>
                  (Ok (Some (mkArchiveReport archived_count "success" (Some cutoff_date) None)), w')
              | (Some (archived_count, Some e), w') =>
                  (Ok (Some (mkArchiveReport archived_count "error" None (Some e))), w')
              | (None, w') => (Ok None, w')
              end
        end
  end.

(** [archive_old_documents(collection_name)]: [batch_size = 1000]. *)
Definition archive_old_documents {rt : PyRuntime} (mgr : RetentionPolicyManager)
    (collection_name : string) : M (option ArchiveReport) :=
  archive_old_documents_with 1000 mgr collection_name.

(* ===================================================================== *)
(** ** Vocabulary of the statements below *)
(* ===================================================================== *)

(** An operation handed to [_with_retry] is a closure over driver calls: it
    cannot reach the breaker. *)
Definition store_operation {A} (operation : M A) : Prop :=
  forall w, breakers (snd (operation w)) = breakers w.

Definition failed {A} (r : pyresult A) : Prop :=
  match r with Raise _ => True | Ok _ => False end.

(** Consecutive calls through the retry wrapper of one repository; before
    each call the clock moves by the given amount. *)
Fixpoint run_calls {A} (self : string) (calls : list (Z * M A)) (w : world)
  : list (pyresult A) * world :=
  match calls with
  | [] => ([], w)
  | (dt, operation) :: rest =>
      let (r, w1) := _with_retry self operation (set_clock (clock w + dt) w) in
      let (rs, w2) := run_calls self rest w1 in
      (r :: rs, w2)
  end.

(** A document without its [updated_at] stamp. *)
Definition without_updated_at (d : doc) : doc :=
  filter (fun kv => negb (String.eqb (fst kv) "updated_at")) d.

(** The documents of a collection, each without its [updated_at] stamp. *)
Definition contents (name : string) (w : world) : list doc :=
  map without_updated_at (get_coll name (db w)).

(** The typed fields of a queue document that [dequeue_next_task] reads. *)
Record task_row := mkTaskRow {
  row_id : value;
  row_status : string;
  row_priority : Z;
  row_created_at : Z;
  row_scheduled_at : Z;
  row_type : string
}.

(** A queue document read as a row; [None] when a field is missing or of
    another type. *)
Definition task_view (d : doc) : option task_row :=
  match dict_get "_id" d, dict_get "status" d, dict_get "priority" d,
        dict_get "created_at" d, dict_get "scheduled_at" d, dict_get "task_type" d with
  | Some i, Some (VStr s), Some (VInt p), Some (VDate c), Some (VDate sch), Some (VStr ty) =>
      Some (mkTaskRow i s p c sch ty)
  | _, _, _, _, _, _ => None
  end.

(** The task type a call asks for; the empty string asks for none. *)
Definition wanted_type (task_type : value) : string :=
  match task_type with VStr s => s | _ => EmptyString end.

(** A row [dequeue_next_task] may lease at time [t]. *)
Definition eligible (t : Z) (wanted : string) (r : task_row) : Prop :=
  row_status r = "pending"
  /\ row_scheduled_at r <= t
  /\ (wanted = EmptyString \/ row_type r = wanted).

(** [r] is ordered strictly before [r']: higher priority, or the same
    priority and created earlier. *)
Definition outranks (r r' : task_row) : Prop :=
  row_priority r' < row_priority r
  \/ (row_priority r' = row_priority r /\ row_created_at r < row_created_at r').

(** The document of a task leased at [t]. *)
Definition leased (t : Z) (d : doc) : doc :=
  dict_set "last_update" (VDate t)
    (dict_set "started_at" (VDate t)
       (dict_set "status" (VStr "processing") d)).

(** The sites collection holds a site with this id, name and base URL
    included. *)
Definition site_known (site_id : value) (w : world) : Prop :=
  exists d name base_url,
    find (matches [("_id", site_id)]) (get_coll sites_repository (db w)) = Some d
    /\ dict_get "name" d = Some name
    /\ dict_get "base_url" d = Some base_url.

(** The repository [self] is ready: its breaker is closed. *)
Definition ready (self : string) (w : world) : Prop :=
  state (get_breaker self w) = CLOSED.

(** The world after a call of repository [self] that the store answered at
    once: the breaker has seen a success. *)
Definition answered (self : string) (w : world) : world :=
  set_breaker self (record_success (get_breaker self w)) w.

(** The document [insert_one] hands to the driver at time [t], for an
    input that passed the sanitizer as [document]: stamped, and with the
    hash of its content when it has one. *)
Definition stamped_for_insert {rt : PyRuntime} (document : doc) (t : Z) : doc :=
  let document := dict_update document [("created_at", VDate t); ("updated_at", VDate t)] in
  match dict_get "content" document with
  | Some content => dict_set "content_hash" (VStr (_generate_content_hash content)) document
  | None => document
  end.

(** The update [update_one] hands to the driver at time [t], for update data
    that passed the sanitizer as [update_data]. *)
Definition stamped_for_update {rt : PyRuntime} (update_data : doc) (t : Z) : doc :=
  let update_data := dict_set "updated_at" (VDate t) update_data in
  match dict_get "content" update_data with
  | Some content => dict_set "content_hash" (VStr (_generate_content_hash content)) update_data
  | None => update_data
  end.

(** A URL with or without a fragment. *)
Definition with_fragment (base : string) (fragment : option string) : string :=
  match fragment with
  | Some f => base ++ String "#" f
  | None => base
  end.

(** The text of an ObjectId: 24 hexadecimal digits. *)
Definition is_object_id_text (s : string) : bool :=
  Nat.eqb (String.length s) 24 && string_forallb is_hex_digit s.

(** The page names its site by an ObjectId. *)
Definition site_by_object_id (d : doc) : bool :=
  match dict_get "site_id" d with
  | Some (VOid _) => true
  | _ => false
  end.

(** The key under which pages must be unique. *)
Definition page_key (d : doc) : option (value * value) :=
  match dict_get "site_id" d, dict_get "url" d with
  | Some s, Some u => Some (s, u)
  | _, _ => None
  end.

(** No two pages of the list share a key. *)
Definition unique_pages (l : list doc) : Prop :=
  forall i j d1 d2 k,
    nth_error l i = Some d1 -> nth_error l j = Some d2 ->
    page_key d1 = Some k -> page_key d2 = Some k -> i = j.

(* ===================================================================== *)
(** ** Frames, breakers and queries in the statements below *)
(* ===================================================================== *)

(** The breaker after the failures recorded at the times [ts]. *)
Definition failures (ts : list Z) (b : CircuitBreaker) : CircuitBreaker :=
  fold_left (fun b t => record_failure t b) ts b.

(** What [k] consecutive failed calls leave of a breaker that was closed. *)
Definition after_failures (k : nat) (b : CircuitBreaker) : Prop :=
  config b = default_config
  /\ match state b with
     | OPEN => last_failure_time b <> None
     | CLOSED => (k <= failure_count b)%nat /\ (k = 0%nat \/ (failure_count b < 5)%nat)
     | HALF_OPEN => False
     end.

(** The call was turned away by the open breaker. *)
Definition rejected {A} (r : pyresult A) : Prop :=
  r = Raise (ConnectionError "Circuit breaker is OPEN - operation blocked" None).

(** The operation was run, and the call failed. *)
Definition operation_failed {A} (r : pyresult A) : Prop :=
  failed r /\ ~ rejected r.

Definition coll_of (name : string) (cs : list (string * list doc)) : list doc :=
  match assoc_get name cs with Some c => c | None => [] end.

(** [keeps R c]: whatever [c] does, the collections before and after it are
    related by [R]. *)
Definition keeps (R : list (string * list doc) -> list (string * list doc) -> Prop)
    {A} (c : M A) : Prop :=
  forall w, R (collections (db w)) (collections (db (snd (c w)))).

(** [returns P c]: a value [c] returns satisfies [P]. *)
Definition returns {A} (P : A -> Prop) (c : M A) : Prop :=
  forall w a w', c w = (Ok a, w') -> P a.

Definition preorder_on (R : list (string * list doc) -> list (string * list doc) -> Prop)
  : Prop :=
  (forall cs, R cs cs) /\ (forall a b c, R a b -> R b c -> R a c).

(** Only [updated_at] stamps of the collection [name] may differ. *)
Definition stamp_only (name : string) (cs cs' : list (string * list doc)) : Prop :=
  map without_updated_at (coll_of name cs') = map without_updated_at (coll_of name cs).

(** The collection [name] is the same. *)
Definition untouched (name : string) (cs cs' : list (string * list doc)) : Prop :=
  coll_of name cs' = coll_of name cs.

(** The documents of [name] are still there, [updated_at] stamps apart, and
    new ones may follow them. *)
Definition grows (name : string) (cs cs' : list (string * list doc)) : Prop :=
  exists tail,
    map without_updated_at (coll_of name cs')
    = (map without_updated_at (coll_of name cs) ++ tail)%list.

(** The filter [dequeue_next_task] builds at time [t]. *)
Definition queue_query (t : Z) (task_type : value) : doc :=
  let query := [("status", VStr "pending");
                ("scheduled_at", VDict [("$lte", VDate t)])] in
  if truthy task_type then dict_set "task_type" task_type query else query.

Definition queue_sort : list (string * Z) :=
  [("priority", DESCENDING); ("created_at", ASCENDING)].

(** The priority [record_content_change] puts into the record: the one the
    change carries when it is truthy, the one derived from the change type
    and the context otherwise. *)
Definition chosen_priority (change : ContentChange) : pyresult value :=
  if truthy (cc_priority change) then Ok (cc_priority change)
  else match _determine_change_priority (cc_change_type change) (cc_context change) with
       | Ok p => Ok (VStr p)
       | Raise e => Raise e
       end.

(** The ObjectId a document carries, if it carries one. *)
Definition oid_of (d : doc) : option string :=
  match dict_get "_id" d with
  | Some (VOid h) => Some h
  | _ => None
  end.

(** Every document carries an ObjectId, and no two carry the same. *)
Fixpoint distinct_oids (l : list doc) : bool :=
  match l with
  | [] => true
  | d :: r =>
      match oid_of d with
      | Some h =>
          negb (existsb (fun x => match oid_of x with
                                  | Some h' => String.eqb h' h
                                  | None => false
                                  end) r)
          && distinct_oids r
      | None => false
      end
  end.

(** Of documents [l] that a read pages through in windows of [batch_size]
    while each window read is deleted: the windows that are read, ... *)
Fixpoint archived_batches (rounds batch_size : nat) (l : list doc) : list (list doc) :=
  match rounds with
  | O => []
  | S rounds' =>
      match l with
      | [] => []
      | _ => firstn batch_size l
             :: archived_batches rounds' batch_size (skipn (batch_size + batch_size) l)
      end
  end.

(** ... and the documents that no read ever returns. *)
Fixpoint passed_over (rounds batch_size : nat) (l : list doc) : list doc :=
  match rounds with
  | O => l
  | S rounds' =>
      match l with
      | [] => []
      | _ => (firstn batch_size (skipn batch_size l)
              ++ passed_over rounds' batch_size (skipn (batch_size + batch_size) l))%list
      end
  end.

(** The query of [archive_old_documents] for [policy] at time [t]. *)
Definition archive_query (policy : RetentionPolicy) (days t : Z) : doc :=
  [(ttl_field policy, VDict [("$lt", VDate (t - days * seconds_per_day))])].

(** Text without the characters [urlsplit] strips: controls and spaces. *)
Definition printable (s : string) : bool :=
  string_forallb (fun a => Nat.ltb 32 (nat_of_ascii a)) s.

(** A scheme: a letter, then scheme characters. *)
Definition is_scheme (s : string) : bool :=
  match s with
  | String a _ => is_alpha a && string_forallb is_scheme_char s
  | EmptyString => false
  end.

(** A netloc (a host with its port and user, if any): not empty, and none
    of the characters that end it. *)
Definition is_host (s : string) : bool :=
  negb (is_empty s) && printable s
  && negb (contains_char "/" s) && negb (contains_char "?" s)
  && negb (contains_char "#" s).

(** A path: empty or starting with a slash. *)
Definition is_path (s : string) : bool :=
  (is_empty s || startswith "/" s) && printable s
  && negb (contains_char "?" s) && negb (contains_char "#" s).

(** The checks [urlsplit] makes on the netloc, in its order: brackets, then
    NFKC. *)
Definition netloc_checks {rt : PyRuntime} (netloc : string) : pyresult unit :=
  match
    (if xorb (contains_char "["%char netloc) (contains_char "]"%char netloc)
     then Raise (ValueError "Invalid IPv6 URL")
     else if contains_char "["%char netloc && contains_char "]"%char netloc
          then _check_bracketed_netloc netloc
          else Ok tt)
  with
  | Raise e => Raise e
  | Ok _ => _checknetloc netloc
  end.

(** The path [urlparse] keeps: under a scheme that uses parameters, the
    parameters of the last segment (what follows its first semicolon) are
    split off. *)
Definition kept_path (scheme path : string) : string :=
  if existsb (String.eqb scheme) uses_params && contains_char ";"%char path
  then fst (_splitparams path)
  else path.

Definition is_query (s : string) : bool :=
  printable s && negb (contains_char "#" s).

(** The URL written from its parts; an empty query or fragment is left out
    with its separator. *)
Definition url_of (scheme host path query fragment : string) : string :=
  scheme ++ "://" ++ host ++ path
  ++ (if is_empty query then "" else String "?" query)
  ++ (if is_empty fragment then "" else String "#" fragment).

(** The fault script lets the next driver call through. *)
Definition answers_next (script : list (option exn)) : bool :=
  match script with
  | Some _ :: _ => false
  | _ => true
  end.

(** The items of a sanitized dict and the elements of a sanitized list. *)
Definition sanitize_items (d : doc) : doc :=
  match sanitize_value (VDict d) with VDict d' => d' | _ => [] end.

Definition sanitize_elems (l : list value) : list value :=
  match sanitize_value (VList l) with VList l' => l' | _ => [] end.

(** No key with the operator sigil: in the dict itself, in the dicts that
    are values of its fields, and in the dicts that are items of its list
    fields, at every depth the sanitizer reaches. *)
Fixpoint operator_free (v : value) : bool :=
  match v with
  | VDict d =>
      (fix items (d : list (string * value)) : bool :=
         match d with
         | [] => true
         | (k, x) :: r => negb (startswith "$" k) && operator_free x && items r
         end) d
  | VList l =>
      (fix elems (l : list value) : bool :=
         match l with
         | [] => true
         | x :: r =>
             match x with
             | VDict _ => operator_free x
             | _ => true
             end && elems r
         end) l
  | _ => true
  end.

(** A dict as Python has it: no key twice. *)
Fixpoint distinct_keys (d : doc) : bool :=
  match d with
  | [] => true
  | (k, _) :: r => negb (dict_has k r) && distinct_keys r
  end.

(** Field names that are no paths: no dot in any key. *)
Definition flat_keys (d : doc) : bool :=
  forallb (fun kv => negb (contains_char "." (fst kv))) d.

(** The field holds a datetime, or nothing. *)
Definition dated (field : string) (d : doc) : bool :=
  match dict_get field d with
  | None | Some VNone | Some (VDate _) => true
  | _ => false
  end.

(** The document carries an ObjectId. *)
Definition has_oid (d : doc) : bool :=
  match oid_of d with Some _ => true | None => false end.

(** The collection [name] is the same, provided every document of it
    passed [ok] before. *)
Definition untouched_when (ok : doc -> bool) (name : string)
    (cs cs' : list (string * list doc)) : Prop :=
  forallb ok (coll_of name cs) = true -> coll_of name cs' = coll_of name cs.

(** The running sessions of a site. *)
Definition running_sessions (site_id : value) (w : world) : list doc :=
  filter (matches [("site_id", site_id); ("status", VStr "running")])
         (get_coll crawl_sessions (db w)).

(** The filter [_is_alert_suppressed] builds at time [t]. *)
Definition suppression_query (alert_type : value) (t : Z) : doc :=
  [("alert_type", alert_type); ("suppressed_until", VDict [("$gt", VDate t)])].

(** The filter by which [create_alert] looks for the active alert of a
    hash. *)
Definition active_alert_query (alert_hash : string) : doc :=
  [("alert_hash", VStr alert_hash); ("status", VStr "active")].

(** Every collection is the same. *)
Definition unchanged (cs cs' : list (string * list doc)) : Prop := cs' = cs.

(** [c] stores all or nothing in the collection [self]: when it raises,
    every collection is as before; when it returns, exactly one document
    has been appended to [self], the returned text is the id of that
    document, and no other collection has changed. *)
Definition stores_all_or_nothing {rt : PyRuntime} (self : string) (c : M value) : Prop :=
  forall w,
    match fst (c w) with
    | Raise _ => collections (db (snd (c w))) = collections (db w)
    | Ok id =>
        exists i stored,
          id = VStr (py_str i)
          /\ get_coll self (db (snd (c w))) = (get_coll self (db w) ++ [stored])%list
          /\ dict_get "_id" stored = Some i
          /\ forall other, String.eqb other self = false ->
               get_coll other (db (snd (c w))) = get_coll other (db w)
    end.

(* ===================================================================== *)
(** ** Example data *)
(* ===================================================================== *)

(** The ObjectId whose hexadecimal text is the number [n]. *)
Definition oid (n : N) : value := VOid (hex_fixed 24 n).

(** NFKC on the texts of the examples: the signs [a/c], [a/s], [c/o], [c/u]
    and the fullwidth forms of [/ ? # @ : .] are written out, any other
    text is taken as normalized. *)
Definition compatibility_form (a b c : nat) : option string :=
  if Nat.eqb a 226 && Nat.eqb b 132 then
    if Nat.eqb c 128 then Some "a/c"
    else if Nat.eqb c 129 then Some "a/s"
    else if Nat.eqb c 133 then Some "c/o"
    else if Nat.eqb c 134 then Some "c/u"
    else None
  else if Nat.eqb a 239 && Nat.eqb b 188 then
    if Nat.eqb c 143 then Some "/"
    else if Nat.eqb c 159 then Some "?"
    else if Nat.eqb c 131 then Some "#"
    else if Nat.eqb c 160 then Some "@"
    else if Nat.eqb c 154 then Some ":"
    else if Nat.eqb c 142 then Some "."
    else None
  else None.

Fixpoint nfkc_of_examples (s : string) : string :=
  match s with
  | EmptyString => EmptyString
  | String a t =>
      match t with
      | String b (String c r) =>
          match compatibility_form (nat_of_ascii a) (nat_of_ascii b) (nat_of_ascii c) with
          | Some text => text ++ nfkc_of_examples r
          | None => String a (nfkc_of_examples t)
          end
      | _ => String a (nfkc_of_examples t)
      end
  end.

(** A runtime to run the model on examples: digests and renderings are
    written symbolically, NFKC covers the texts of the examples, and
    [ip_address] knows the two loopback addresses. *)
Definition symbolic_runtime : PyRuntime :=
  {| sha256_hex := fun s => "sha256(" ++ s ++ ")";
     md5_hex := fun s => "md5(" ++ s ++ ")";
     py_repr := fun v => match v with
                         | VNone => "None"
                         | VBool true => "True"
                         | VBool false => "False"
                         | _ => "<object>"
                         end;
     strftime_compact := fun t => "<timestamp>";
     nfkc := nfkc_of_examples;
     ip_address := fun s =>
       if String.eqb s "::1" then Some IPv6Address
       else if String.eqb s "127.0.0.1" then Some IPv4Address
       else None |}.

(** A world at time [t] holding the given collections: every breaker is
    fresh, no driver call and no upload fails. *)
Definition world_of (t : Z) (cs : list (string * list doc)) : world :=
  mkWorld t (mkDatabase cs 4096) [] [] [] [].

(** The document of [name] whose [_id] is [id]. *)
Definition stored (name : string) (id : value) (w : world) : option doc :=
  find (matches [("_id", id)]) (get_coll name (db w)).

(** A field of the document of [name] whose [_id] is [id]. *)
Definition stored_field (name : string) (id : value) (field : string) (w : world)
  : option value :=
  match stored name id w with
  | Some d => get_path field d
  | None => None
  end.

Definition a_site : doc :=
  [("_id", oid 1);
   ("name", VStr "Stanford Encyclopedia of Philosophy");
   ("base_url", VStr "https://plato.stanford.edu/");
   ("monitoring", VDict [("active", VBool true); ("last_crawl_time", VDate 5000)])].

(** A queue task. *)
Definition a_task (id : N) (status : string) (priority created_at scheduled_at : Z)
    (more : doc) : doc :=
  ([("_id", oid id);
    ("task_type", VStr "content_analysis");
    ("priority", VInt priority);
    ("payload", VDict [("page", VStr "kant")]);
    ("status", VStr status);
    ("created_at", VDate created_at);
    ("scheduled_at", VDate scheduled_at);
    ("retry_count", VInt 0);
    ("max_retries", VInt 3)] ++ more)%list.

(** A task that waits for a task still being processed. *)
Definition dependent_queue_world : world :=
  world_of 10000
    [("processing_queue",
      [a_task 10 "pending" 3 9000 9000 [("dependencies", VList [oid 11])];
       a_task 11 "processing" 3 8000 8000 [("started_at", VDate 9500)]])].

(** Two pending tasks equal in priority and creation time, the larger id
    first in natural order. *)
Definition tied_queue_world : world :=
  world_of 10000
    [("processing_queue",
      [a_task 21 "pending" 3 9000 9000 [];
       a_task 20 "pending" 3 9000 9000 []])].

(** The three tasks of the ordering scenario. *)
Definition ordered_queue_world : world :=
  world_of 10000
    [("processing_queue",
      [a_task 30 "pending" 3 9000 9000 [];
       a_task 31 "pending" 5 9001 9001 [];
       a_task 32 "pending" 5 9002 9002 []])].

(** A leased task with [max_retries = 3] that is about to fail at 10000. *)
Definition leased_task_world : world :=
  world_of 10000
    [("processing_queue",
      [a_task 40 "processing" 3 9000 9000
         [("started_at", VDate 9500); ("worker_id", VStr "worker-1")]])].

Definition timeout_alert : Alert :=
  mkAlert (VStr "crawl_failure") (VStr "high") (VStr "Site Crawl Failed")
          (VStr "connection timeout") (oid 1) (VStr "crawler")
          (VDict [("error_code", VStr "TIMEOUT")]).

(** One site and no alert yet, at time [t]. *)
Definition quiet_alerts_world (t : Z) : world :=
  world_of t [("sites", [a_site]); ("alerts", [])].

Definition a_session : doc :=
  [("_id", oid 50);
   ("site_id", oid 1);
   ("status", VStr "running");
   ("stats", VDict [("pages_discovered", VInt 0); ("start_time", VDate 9000)]);
   ("started_at", VDate 9000)].

Definition final_stats : CrawlStats := mkCrawlStats 200 190 5 123456 5.

(** A running session of [a_site], at 10000. *)
Definition running_session_world : world :=
  world_of 10000 [("sites", [a_site]); ("crawl_sessions", [a_session])].

Definition a_page : doc :=
  [("_id", oid 60);
   ("site_id", oid 1);
   ("url", VStr "https://plato.stanford.edu/entries/kant");
   ("content", VStr "old text");
   ("content_hash", VStr "hash of the old text");
   ("processing_status", VStr "processed")].

(** The page of [a_page] once more, its URL with a fragment. *)
Definition a_page_again : PageCreate :=
  mkPageCreate (oid 1) "https://plato.stanford.edu/entries/kant#life"
    (VStr "Immanuel Kant") (VStr "new text") VNone VNone.

(** The page of [a_page] once more, its site given by the text of its id. *)
Definition a_page_by_text_id : PageCreate :=
  mkPageCreate (VStr "000000000000000000000001") "https://plato.stanford.edu/entries/kant"
    (VStr "Immanuel Kant") (VStr "new text") VNone VNone.

Definition one_page_world : world :=
  world_of 10000 [("sites", [a_site]); ("pages", [a_page])].

(** A change of [a_page] by six tenths, made as the crawler makes it: no
    priority is given, so the constructor's default stands. *)
Definition a_change : ContentChange :=
  new_ContentChange (oid 60) (VStr "modified") (oid 1)
    [("context", VDict [("content_change_ratio", VFloat (6 # 10))])].

(** The same change with the priority explicitly left empty. *)
Definition an_unranked_change : ContentChange :=
  new_ContentChange (oid 60) (VStr "modified") (oid 1)
    [("priority", VNone);
     ("context", VDict [("content_change_ratio", VFloat (6 # 10))])].

(** A finished session that started at 1000, as the archival query wants
    it: the field the retention policy names, [start_time], is at the top
    level. *)
Definition an_old_session (i : nat) : doc :=
  [("_id", oid (N.of_nat i));
   ("site_id", oid 1);
   ("status", VStr "completed");
   ("start_time", VDate 1000);
   ("started_at", VDate 1000)].

(** [n] such sessions, a hundred days after they started. *)
Definition old_sessions_world (n : nat) : world :=
  world_of (100 * seconds_per_day) [("crawl_sessions", map an_old_session (seq 1 n))].

(** A manager with an S3 client and a bucket, not in dry-run mode. *)
Definition archiving_manager : RetentionPolicyManager :=
  new_RetentionPolicyManager true (Some "archive-bucket") false.

(** A task as a producer hands it to [enqueue_task]: a type, a priority, a
    payload, three retries, to run at once. *)
Definition a_new_task : ProcessingTask :=
  mkProcessingTask VNone (VStr "content_analysis") (VInt 5)
    (VDict [("page", VStr "kant")]) (VStr "pending")
    VNone VNone VNone VNone VNone VNone (VInt 0) (VInt 3).

(** A page of [a_site] that is not stored yet. *)
Definition a_new_page : PageCreate :=
  mkPageCreate (oid 1) "https://plato.stanford.edu/entries/hume#works"
    (VStr "David Hume") (VStr "text on Hume") VNone VNone.

(** The same manager in dry-run mode. *)
Definition dry_run_manager : RetentionPolicyManager :=
  new_RetentionPolicyManager true (Some "archive-bucket") true.

(** A store that refuses the next five driver calls with a duplicate-key
    error. *)
Definition refusing_world : world :=
  mkWorld 0 (mkDatabase [] 4096) []
    (repeat (Some (PyMongoError "E11000 duplicate key error")) 5) [] [].

Definition five_inserts : list (Z * M value) :=
  repeat (1, driver (coll_insert_one "pages" [("url", VStr "https://example.com/a")])) 5.

(** Finished work of long ago, a hundred days later: a completed and a
    failed task, a completed session, a resolved alert, a recorded change
    and a page. *)
Definition stale_world : world :=
  world_of (100 * seconds_per_day)
    [("processing_queue",
      [a_task 41 "completed" 3 900 900 [("completed_at", VDate 1000)];
       a_task 42 "failed" 3 900 900 [("error_message", VStr "timeout")]]);
     ("crawl_sessions", [(an_old_session 2 ++ [("completed_at", VDate 2000)])%list]);
     ("alerts",
      [[("_id", oid 70); ("alert_type", VStr "crawl_failure");
        ("status", VStr "resolved"); ("resolved_at", VDate 3000)]]);
     ("content_changes",
      [[("_id", oid 80); ("change_type", VStr "new"); ("detected_at", VDate 4000)]]);
     ("pages", [a_page])].

(** A crawl configuration that allows two sessions at a time. *)
Definition two_sessions_config : doc :=
  [("max_concurrent_sessions", VInt 2); ("worker_id", VStr "worker-1")].

(** [running_session_world] with a store that answers one call and fails
    the next. *)
Definition failing_count_world : world :=
  set_faults [None; Some (PyMongoError "not primary")] running_session_world.

(* ===================================================================== *)
(** * Verification *)
(* ===================================================================== *)

(** ** Association lists and breakers *)

Lemma assoc_get_set_same {A} (k : string) (v : A) (l : list (string * A)) :
  assoc_get k (assoc_set k v l) = Some v.
Proof.
  induction l as [|[k' v'] r IH]; simpl.
  - now rewrite String.eqb_refl.
  - destruct (String.eqb k k') eqn:E; simpl; rewrite E; auto.
Qed.

Lemma assoc_get_set_other {A} (k k' : string) (v : A) (l : list (string * A)) :
  String.eqb k' k = false ->
  assoc_get k' (assoc_set k v l) = assoc_get k' l.
Proof.
  intros Hne. induction l as [|[k0 v0] r IH]; simpl.
  - now rewrite Hne.
  - destruct (String.eqb k k0) eqn:E; simpl.
    + apply String.eqb_eq in E. subst k0. now rewrite Hne.
    + now rewrite IH.
Qed.

Lemma assoc_set_id {A} (k : string) (v : A) (l : list (string * A)) :
  assoc_get k l = Some v -> assoc_set k v l = l.
Proof.
  induction l as [|[k' v'] r IH]; simpl; [discriminate|].
  destruct (String.eqb k k') eqn:E.
  - intros [= ->]. reflexivity.
  - intros H. now rewrite IH.
Qed.

Lemma get_set_breaker self b w : get_breaker self (set_breaker self b w) = b.
Proof. unfold get_breaker, set_breaker. simpl. now rewrite assoc_get_set_same. Qed.

Lemma get_set_breaker_other self other b w :
  String.eqb other self = false ->
  get_breaker other (set_breaker self b w) = get_breaker other w.
Proof.
  intros H. unfold get_breaker, set_breaker. simpl.
  now rewrite assoc_get_set_other.
Qed.

Lemma get_breaker_set_clock self t w :
  get_breaker self (set_clock t w) = get_breaker self w.
Proof. reflexivity. Qed.

Lemma get_breaker_quiet self w w' :
  breakers w' = breakers w -> get_breaker self w' = get_breaker self w.
Proof. unfold get_breaker. now intros ->. Qed.

(** ** The circuit breaker under failing operations *)


Lemma record_failure_config t b : config (record_failure t b) = config b.
Proof. unfold record_failure. destruct (state b); simpl; auto. destruct (Nat.leb _ _); auto. Qed.

Lemma record_failure_time t b : last_failure_time (record_failure t b) = Some t.
Proof. unfold record_failure. destruct (state b); simpl; auto. destruct (Nat.leb _ _); auto. Qed.

Lemma failures_config ts b : config (failures ts b) = config b.
Proof.
  revert b. induction ts as [|t ts IH]; intros b; simpl; auto.
  unfold failures in *. simpl. rewrite IH. apply record_failure_config.
Qed.

Lemma failures_time t ts b : last_failure_time (failures (t :: ts) b) <> None.
Proof.
  revert t b. induction ts as [|t' ts IH]; intros t b.
  - simpl. rewrite record_failure_time. discriminate.
  - change (failures (t :: t' :: ts) b) with (failures (t' :: ts) (record_failure t b)).
    apply IH.
Qed.

Lemma record_failure_not_closed t b :
  state b <> CLOSED -> state (record_failure t b) = OPEN.
Proof. unfold record_failure. destruct (state b); simpl; congruence. Qed.

Lemma failures_not_closed ts b :
  state b = OPEN \/ (state b = HALF_OPEN /\ ts <> []) -> state (failures ts b) = OPEN.
Proof.
  revert b. induction ts as [|t ts IH]; intros b H.
  - destruct H as [H|[_ H]]; [exact H|congruence].
  - change (failures (t :: ts) b) with (failures ts (record_failure t b)).
    apply IH. left. apply record_failure_not_closed.
    destruct H as [H|[H _]]; rewrite H; discriminate.
Qed.

Lemma failures_closed t ts b :
  state b = CLOSED ->
  failure_threshold (config b) = 5%nat ->
  state (failures (t :: ts) b) = OPEN
  \/ (state (failures (t :: ts) b) = CLOSED
      /\ (failure_count b < failure_count (failures (t :: ts) b) < 5)%nat).
Proof.
  revert t b. induction ts as [|t' ts IH]; intros t b Hs Hc.
  - simpl. unfold record_failure. rewrite Hs, Hc.
    destruct (Nat.leb 5 (S (failure_count b))) eqn:E; simpl; [now left|right].
    apply Nat.leb_gt in E. split; [reflexivity|lia].
  - change (failures (t :: t' :: ts) b) with (failures (t' :: ts) (record_failure t b)).
    destruct (Nat.leb 5 (S (failure_count b))) eqn:E.
    + left. apply failures_not_closed. left.
      unfold record_failure. rewrite Hs, Hc, E. reflexivity.
    + assert (Hs' : state (record_failure t b) = CLOSED).
      { unfold record_failure. rewrite Hs, Hc, E. reflexivity. }
      assert (Hf : failure_count (record_failure t b) = S (failure_count b)).
      { unfold record_failure. rewrite Hs, Hc, E. reflexivity. }
      destruct (IH t' (record_failure t b) Hs') as [H|[H1 H2]].
      * now rewrite record_failure_config.
      * now left.
      * right. split; [exact H1|]. rewrite Hf in H2. lia.
Qed.

(** A retry loop that ends in an exception has recorded at least one
    failure, and nothing else, on the breaker. *)
Lemma retry_loop_raise {A} self (operation : M A) attempts last w e w' :
  store_operation operation ->
  retry_loop self operation 3 attempts last w = (Raise e, w') ->
  exists t ts, get_breaker self w' = failures (t :: ts) (get_breaker self w).
Proof.
  intros Hq. revert last w. induction attempts as [|attempt rest IH]; intros last w H.
  - unfold retry_loop, retries_exhausted, bind, breaker_record_failure, raise in H.
    inversion H; subst. exists (clock w), []. now rewrite get_set_breaker.
  - simpl in H. destruct (operation w) as [[a|e0] w1] eqn:Hop.
    + unfold bind, breaker_record_success, ret in H. discriminate.
    + assert (Hb : get_breaker self w1 = get_breaker self w).
      { apply get_breaker_quiet. specialize (Hq w). now rewrite Hop in Hq. }
      destruct (is_transient e0).
      * unfold bind at 1 in H. unfold breaker_record_failure at 1 in H.
        destruct (Nat.eqb attempt 3).
        -- unfold retries_exhausted, bind, breaker_record_failure, raise in H.
           inversion H; subst.
           exists (clock w1), [clock (set_breaker self (record_failure (clock w1) (get_breaker self w1)) w1)].
           rewrite !get_set_breaker. rewrite Hb. reflexivity.
        -- unfold bind at 1 in H. unfold sleep at 1 in H.
           apply IH in H. destruct H as (t & ts & H).
           exists (clock w1), (t :: ts). rewrite H.
           rewrite get_breaker_set_clock, get_set_breaker, Hb. reflexivity.
      * unfold bind, breaker_record_failure, raise in H. inversion H; subst.
        exists (clock w1), []. rewrite get_set_breaker, Hb. reflexivity.
Qed.

Lemma with_retry_unfold {A} self (operation : M A) w :
  _with_retry self operation w
  = let (ok, b) := can_execute (clock w) (get_breaker self w) in
    if ok then retry_loop self operation 3 [0; 1; 2; 3]%nat None (set_breaker self b w)
    else (Raise (ConnectionError "Circuit breaker is OPEN - operation blocked" None),
          set_breaker self b w).
Proof.
  unfold _with_retry, bind, breaker_can_execute.
  destruct (can_execute (clock w) (get_breaker self w)) as [[|] b]; reflexivity.
Qed.


Lemma with_retry_failed_step {A} self (operation : M A) k w e w' :
  store_operation operation ->
  after_failures k (get_breaker self w) ->
  _with_retry self operation w = (Raise e, w') ->
  after_failures (S k) (get_breaker self w').
Proof.
  intros Hq [Hc Hs] H.
  rewrite with_retry_unfold in H.
  destruct (can_execute (clock w) (get_breaker self w)) as [ok b1] eqn:Hce.
  unfold can_execute in Hce.
  destruct (state (get_breaker self w)) eqn:St.
  - (* closed *)
    inversion Hce; subst ok b1; clear Hce.
    apply retry_loop_raise in H; [|exact Hq].
    destruct H as (t & ts & H). rewrite get_set_breaker in H.
    split; [rewrite H, failures_config; exact Hc|].
    destruct (failures_closed t ts _ St) as [Ho|[Hcl Hfc]].
    + now rewrite Hc.
    + rewrite H, Ho. rewrite <- H. rewrite H. apply failures_time.
    + rewrite H, Hcl. split; [lia|right; lia].
  - (* open *)
    destruct (last_failure_time (get_breaker self w)) as [t0|] eqn:Ht; [|congruence].
    destruct (recovery_timeout (config (get_breaker self w)) <=? clock w - t0).
    + inversion Hce; subst ok b1; clear Hce.
      apply retry_loop_raise in H; [|exact Hq].
      destruct H as (t & ts & H). rewrite get_set_breaker in H.
      split; [rewrite H, failures_config; exact Hc|].
      rewrite H. rewrite failures_not_closed.
      * apply failures_time.
      * right. split; [reflexivity|discriminate].
    + inversion Hce; subst ok b1; clear Hce.
      inversion H; subst. rewrite get_set_breaker.
      split; [exact Hc|]. rewrite St, Ht. discriminate.
  - destruct Hs.
Qed.

Lemma run_calls_failed {A} self (calls : list (Z * M A)) : forall k w results w',
  Forall (fun c => store_operation (snd c)) calls ->
  after_failures k (get_breaker self w) ->
  run_calls self calls w = (results, w') ->
  Forall failed results ->
  after_failures (k + length calls) (get_breaker self w').
Proof.
  induction calls as [|[dt operation] rest IH]; intros k w results w' Hq Hinv Hrun Hfail.
  - simpl in Hrun. inversion Hrun; subst. now rewrite Nat.add_0_r.
  - simpl in Hrun.
    destruct (_with_retry self operation (set_clock (clock w + dt) w)) as [r w1] eqn:H1.
    destruct (run_calls self rest w1) as [rs w2] eqn:H2.
    inversion Hrun; subst results w2; clear Hrun.
    inversion Hfail as [|? ? Hr Hrs]; subst.
    inversion Hq as [|? ? Hq1 Hq2]; subst.
    destruct r as [a|e]; [destruct Hr|].
    apply with_retry_failed_step with (k := k) in H1; auto.
    simpl length. replace (k + S (length rest))%nat with (S k + length rest)%nat by lia.
    eapply IH; eauto.
Qed.

Lemma open_breaker_is_registered self w :
  state (get_breaker self w) = OPEN ->
  assoc_get self (breakers w) = Some (get_breaker self w).
Proof.
  unfold get_breaker. destruct (assoc_get self (breakers w)); [reflexivity|discriminate].
Qed.

(** An open breaker inside its recovery window turns every call away, and
    the world stays as it is. *)
Lemma with_retry_rejects {A} self (operation : M A) w t0 :
  state (get_breaker self w) = OPEN ->
  last_failure_time (get_breaker self w) = Some t0 ->
  clock w - t0 < recovery_timeout (config (get_breaker self w)) ->
  _with_retry self operation w
  = (Raise (ConnectionError "Circuit breaker is OPEN - operation blocked" None), w).
Proof.
  intros Hs Ht Hw.
  rewrite with_retry_unfold. unfold can_execute.
  rewrite Hs, Ht.
  destruct (recovery_timeout (config (get_breaker self w)) <=? clock w - t0) eqn:E.
  - apply Z.leb_le in E. lia.
  - f_equal.
    unfold set_breaker. rewrite assoc_set_id.
    + now destruct w.
    + now apply open_breaker_is_registered.
Qed.

(** A retry loop that ends in an exception recorded its last failure at
    the time it ended. *)
Lemma retry_loop_raise_time {A} self (operation : M A) attempts last w e w' :
  retry_loop self operation 3 attempts last w = (Raise e, w') ->
  last_failure_time (get_breaker self w') = Some (clock w').
Proof.
  revert last w. induction attempts as [|attempt rest IH]; intros last w H.
  - unfold retry_loop, retries_exhausted, bind, breaker_record_failure, raise in H.
    inversion H; subst. rewrite get_set_breaker. apply record_failure_time.
  - simpl in H. destruct (operation w) as [[a|e0] w1] eqn:Hop.
    + unfold bind, breaker_record_success, ret in H. discriminate.
    + destruct (is_transient e0).
      * unfold bind at 1 in H. unfold breaker_record_failure at 1 in H.
        destruct (Nat.eqb attempt 3).
        -- unfold retries_exhausted, bind, breaker_record_failure, raise in H.
           inversion H; subst. rewrite get_set_breaker. apply record_failure_time.
        -- unfold bind at 1 in H. unfold sleep at 1 in H.
           now apply IH in H.
      * unfold bind, breaker_record_failure, raise in H. inversion H; subst.
        rewrite get_set_breaker. apply record_failure_time.
Qed.

(** A call that failed, and was not turned away, recorded a failure at
    the time it ended. *)
Lemma with_retry_failed_time {A} self (operation : M A) w r w' :
  _with_retry self operation w = (r, w') ->
  operation_failed r ->
  last_failure_time (get_breaker self w') = Some (clock w').
Proof.
  intros H [Hf Hr]. destruct r as [a|e]; [destruct Hf|].
  rewrite with_retry_unfold in H.
  destruct (can_execute (clock w) (get_breaker self w)) as [[|] b].
  - now apply retry_loop_raise_time in H.
  - inversion H; subst. exfalso. apply Hr. reflexivity.
Qed.

Lemma run_calls_failed_time {A} self (calls : list (Z * M A)) : forall w results w',
  calls <> [] ->
  run_calls self calls w = (results, w') ->
  Forall operation_failed results ->
  last_failure_time (get_breaker self w') = Some (clock w').
Proof.
  induction calls as [|[dt operation] rest IH]; intros w results w' Hne Hrun Hfail;
    [congruence|].
  simpl in Hrun.
  destruct (_with_retry self operation (set_clock (clock w + dt) w)) as [r w1] eqn:H1.
  destruct (run_calls self rest w1) as [rs w2] eqn:H2.
  inversion Hrun; subst results w2; clear Hrun.
  inversion Hfail as [|? ? Hr Hrs]; subst.
  destruct rest as [|c rest'].
  - simpl in H2. inversion H2; subst. eapply with_retry_failed_time; eauto.
  - eapply IH; eauto. discriminate.
Qed.

(** C10. Every failure of an operation run through [_with_retry], transient
    or not, is recorded on the breaker with the time of the failure.  So
    five consecutive calls whose operations were run and failed, starting
    on a closed breaker, leave it open with the end of the fifth call as
    the time of the last failure; and from then on every call made less
    than 60 seconds after the fifth failure, whatever its operation, is
    turned away with a [ConnectionError] while the world (store and fault
    script included) stays untouched. *)
Theorem circuit_breaker_opens_after_five_failures :
  forall (A : Type) (self : string) (calls : list (Z * M A)) (w w' : world)
         (results : list (pyresult A)),
    config (get_breaker self w) = default_config ->
    state (get_breaker self w) = CLOSED ->
    Forall (fun c => store_operation (snd c)) calls ->
    length calls = 5%nat ->
    run_calls self calls w = (results, w') ->
    Forall operation_failed results ->
    state (get_breaker self w') = OPEN
    /\ last_failure_time (get_breaker self w') = Some (clock w')
    /\ forall (B : Type) (operation : M B) (t : Z),
         t - clock w' < 60 ->
         _with_retry self operation (set_clock t w')
         = (Raise (ConnectionError "Circuit breaker is OPEN - operation blocked" None),
            set_clock t w').
Proof.
  intros A self calls w w' results Hc Hs Hq Hlen Hrun Hfail.
  assert (Hinv : after_failures 0 (get_breaker self w)).
  { split; [exact Hc|]. rewrite Hs. split; [lia|now left]. }
  assert (Hfail' : Forall failed results).
  { eapply Forall_impl; [|exact Hfail]. intros r [H _]. exact H. }
  pose proof (run_calls_failed self calls 0%nat w results w' Hq Hinv Hrun Hfail') as [Hc' Hs'].
  rewrite Hlen in Hs'. simpl in Hs'.
  assert (Ht : last_failure_time (get_breaker self w') = Some (clock w')).
  { apply (run_calls_failed_time self calls w results w'); try assumption.
    destruct calls; [discriminate|discriminate]. }
  destruct (state (get_breaker self w')) eqn:St.
  - destruct Hs' as [H1 [H2|H2]]; [discriminate|lia].
  - split; [reflexivity|]. split; [exact Ht|].
    intros B operation t Hw.
    assert (Hb : get_breaker self (set_clock t w') = get_breaker self w') by reflexivity.
    apply with_retry_rejects with (t0 := clock w').
    + now rewrite Hb.
    + now rewrite Hb.
    + rewrite Hb, Hc'. exact Hw.
  - destruct Hs'.
Qed.


Lemma get_coll_coll_of name d : get_coll name d = coll_of name (collections d).
Proof. reflexivity. Qed.

Lemma coll_of_set_same name c cs : coll_of name (assoc_set name c cs) = c.
Proof. unfold coll_of. now rewrite assoc_get_set_same. Qed.

Lemma coll_of_set_other name other c cs :
  String.eqb other name = false ->
  coll_of other (assoc_set name c cs) = coll_of other cs.
Proof. intros H. unfold coll_of. now rewrite assoc_get_set_other. Qed.




Section Frame.

Variable R : list (string * list doc) -> list (string * list doc) -> Prop.
Hypothesis R_pre : preorder_on R.

Let R_refl : forall cs, R cs cs := proj1 R_pre.
Let R_trans : forall a b c, R a b -> R b c -> R a c := proj2 R_pre.

Lemma keeps_ret {A} (a : A) : keeps R (ret a).
Proof. intros w. apply R_refl. Qed.

Lemma keeps_raise {A} e : keeps R (@raise A e).
Proof. intros w. apply R_refl. Qed.

Lemma keeps_lift {A} (r : pyresult A) : keeps R (lift r).
Proof. intros w. apply R_refl. Qed.

Lemma keeps_now : keeps R now.
Proof. intros w. apply R_refl. Qed.

Lemma keeps_sleep dt : keeps R (sleep dt).
Proof. intros w. apply R_refl. Qed.

Lemma keeps_breaker_can_execute self : keeps R (breaker_can_execute self).
Proof.
  intros w. unfold breaker_can_execute.
  destruct (can_execute _ _). apply R_refl.
Qed.

Lemma keeps_breaker_record_success self : keeps R (breaker_record_success self).
Proof. intros w. apply R_refl. Qed.

Lemma keeps_breaker_record_failure self : keeps R (breaker_record_failure self).
Proof. intros w. apply R_refl. Qed.

Lemma keeps_bind {A B} (c : M A) (k : A -> M B) :
  keeps R c -> (forall a, keeps R (k a)) -> keeps R (bind c k).
Proof.
  intros Hc Hk w. unfold bind. specialize (Hc w).
  destruct (c w) as [[a|e] w1]; simpl in *; [|exact Hc].
  eapply R_trans; [exact Hc|apply Hk].
Qed.

Lemma keeps_try_except {A} (c : M A) (h : exn -> M A) :
  keeps R c -> (forall e, keeps R (h e)) -> keeps R (try_except c h).
Proof.
  intros Hc Hh w. unfold try_except. specialize (Hc w).
  destruct (c w) as [[a|e] w1]; simpl in *; [exact Hc|].
  eapply R_trans; [exact Hc|apply Hh].
Qed.

Lemma keeps_driver {A} (op : database -> A * database) :
  (forall d, R (collections d) (collections (snd (op d)))) -> keeps R (driver op).
Proof.
  intros Hop w. unfold driver.
  destruct (faults w) as [|[e|] rest]; simpl.
  - specialize (Hop (db w)). destruct (op (db w)); exact Hop.
  - apply R_refl.
  - specialize (Hop (db w)). destruct (op (db w)); exact Hop.
Qed.

Lemma keeps_validate_object_id v : keeps R (_validate_object_id v).
Proof.
  destruct v; unfold _validate_object_id; try apply keeps_raise; try apply keeps_ret.
  - intros w. unfold keeps. destruct (fresh_oid (db w)) eqn:E. simpl.
    unfold fresh_oid in E. inversion E; subst. simpl. apply R_refl.
  - destruct (_ && _); [apply keeps_ret|apply keeps_raise].
Qed.

Lemma keeps_retry_loop {A} self (operation : M A) attempts last :
  keeps R operation -> keeps R (retry_loop self operation 3 attempts last).
Proof.
  intros Hop. revert last. induction attempts as [|attempt rest IH]; intros last.
  - apply keeps_bind; [apply keeps_breaker_record_failure|intros; apply keeps_raise].
  - intros w. simpl. specialize (Hop w).
    destruct (operation w) as [[a|e] w1]; simpl in Hop.
    + eapply R_trans; [exact Hop|].
      apply (keeps_bind (breaker_record_success self) (fun _ => ret a)).
      * apply keeps_breaker_record_success.
      * intros; apply keeps_ret.
    + eapply R_trans; [exact Hop|].
      destruct (is_transient e).
      * apply (keeps_bind (breaker_record_failure self)).
        -- apply keeps_breaker_record_failure.
        -- intros _. destruct (Nat.eqb attempt 3).
           ++ apply keeps_bind; [apply keeps_breaker_record_failure|intros; apply keeps_raise].
           ++ apply keeps_bind; [apply keeps_sleep|intros; apply IH].
      * apply (keeps_bind (breaker_record_failure self)).
        -- apply keeps_breaker_record_failure.
        -- intros; apply keeps_raise.
Qed.

Lemma keeps_with_retry {A} self (operation : M A) :
  keeps R operation -> keeps R (_with_retry self operation).
Proof.
  intros Hop. unfold _with_retry.
  apply keeps_bind; [apply keeps_breaker_can_execute|].
  intros ok. destruct (negb ok); [apply keeps_raise|now apply keeps_retry_loop].
Qed.

Lemma keeps_find_one self query : keeps R (find_one self query).
Proof.
  unfold find_one. apply keeps_bind; [apply keeps_lift|]. intros q.
  apply keeps_with_retry. apply keeps_bind; [|intros; apply keeps_ret].
  apply keeps_driver. intros d. apply R_refl.
Qed.

Lemma keeps_dict_item k d : keeps R (dict_item k d).
Proof. unfold dict_item. destruct (dict_get k d); [apply keeps_ret|apply keeps_raise]. Qed.

Lemma keeps_as_int v : keeps R (as_int v).
Proof. destruct v; simpl; try apply keeps_raise; apply keeps_ret. Qed.

Lemma keeps_py_len_value v : keeps R (py_len_value v).
Proof. destruct v; simpl; try apply keeps_raise; apply keeps_ret. Qed.

Lemma keeps_getattr_modified_count v : keeps R (getattr_modified_count v).
Proof. apply keeps_raise. Qed.

Lemma keeps_driver_find_one name query : keeps R (driver (coll_find_one name query)).
Proof. apply keeps_driver. intros d. apply R_refl. Qed.

Lemma keeps_get_crawl_configuration {rt : PyRuntime} site_id :
  keeps R (get_crawl_configuration site_id).
Proof.
  unfold get_crawl_configuration.
  apply keeps_try_except; [|intros; apply keeps_ret].
  apply keeps_bind; [apply keeps_validate_object_id|]. intros v.
  apply keeps_bind; [apply keeps_find_one|]. intros [d|]; [|apply keeps_ret].
  destruct (truthy (VDict d)); [|apply keeps_ret].
  apply keeps_bind; [apply keeps_dict_item|]. intros i.
  apply keeps_bind; [apply keeps_dict_item|]. intros n.
  apply keeps_bind; [apply keeps_dict_item|]. intros b.
  apply keeps_ret.
Qed.

Lemma keeps_bind_getattr {B} result (k : Z -> M B) :
  keeps R (bind (getattr_modified_count result) k).
Proof. intros w. apply R_refl. Qed.

End Frame.

Lemma returns_bind {A B} (P : B -> Prop) (c : M A) (k : A -> M B) :
  (forall a, returns P (k a)) -> returns P (bind c k).
Proof.
  intros Hk w b w' H. unfold bind in H.
  destruct (c w) as [[a|e] w1]; [|discriminate].
  eapply Hk; eauto.
Qed.

Lemma returns_raise {A} (P : A -> Prop) e : returns P (raise e).
Proof. intros w a w' H. discriminate. Qed.

Lemma returns_ret {A} (P : A -> Prop) a : P a -> returns P (ret a).
Proof. intros H w b w' E. inversion E; subst. exact H. Qed.

(** A method of the shape [try: body  except Exception: return False]
    answers [False] whenever its body cannot return [True]. *)
Lemma try_except_false (body : M bool) w :
  returns (fun b => b = false) body ->
  fst (try_except body (fun _ => ret false) w) = Ok false.
Proof.
  intros H. unfold try_except. destruct (body w) as [[b|e] w1] eqn:E; simpl; [|reflexivity].
  now rewrite (H _ _ _ E).
Qed.

(** ** [update_one] on an update document written with operators *)



Lemma stamp_only_refl name cs : stamp_only name cs cs.
Proof. reflexivity. Qed.

Lemma stamp_only_trans name a b c :
  stamp_only name a b -> stamp_only name b c -> stamp_only name a c.
Proof. unfold stamp_only. congruence. Qed.

Lemma untouched_refl name cs : untouched name cs cs.
Proof. reflexivity. Qed.

Lemma untouched_trans name a b c :
  untouched name a b -> untouched name b c -> untouched name a c.
Proof. unfold untouched. congruence. Qed.

Lemma stamp_only_pre name : preorder_on (stamp_only name).
Proof. split; [apply stamp_only_refl|apply stamp_only_trans]. Qed.

Lemma untouched_pre name : preorder_on (untouched name).
Proof. split; [apply untouched_refl|apply untouched_trans]. Qed.

Lemma unchanged_pre : preorder_on unchanged.
Proof. split; [reflexivity|]. unfold unchanged. intros a b c H1 H2. congruence. Qed.

Lemma without_updated_at_dict_set v d :
  without_updated_at (dict_set "updated_at" v d) = without_updated_at d.
Proof.
  induction d as [|[k x] r IH]; [reflexivity|].
  cbn [dict_set]. destruct (String.eqb "updated_at" k) eqn:E.
  - apply String.eqb_eq in E. subst k. reflexivity.
  - unfold without_updated_at in *. cbn [filter fst]. rewrite IH. reflexivity.
Qed.

Lemma update_first_map {B} (g : doc -> B) query f l old new l' :
  (forall d, g (f d) = g d) ->
  update_first query f l = Some (old, new, l') ->
  map g l' = map g l.
Proof.
  intros Hg. revert l'. induction l as [|d r IH]; intros l' H; simpl in H; [discriminate|].
  destruct (matches query d).
  - inversion H; subst. simpl. now rewrite Hg.
  - destruct (update_first query f r) as [[[o n] r']|]; [|discriminate].
    inversion H; subst. simpl. f_equal. now apply IH.
Qed.

Lemma set_coll_coll_of name other c d :
  coll_of other (collections (set_coll name c d))
  = if String.eqb other name then c else coll_of other (collections d).
Proof.
  unfold set_coll. simpl. destruct (String.eqb other name) eqn:E.
  - apply String.eqb_eq in E. subst. apply coll_of_set_same.
  - now apply coll_of_set_other.
Qed.

(** The store's [update_one] with a [$set] of [updated_at] alone. *)
Lemma coll_update_one_stamp self name query v d :
  stamp_only name (collections d)
    (collections (snd (coll_update_one self query
                         [("$set", VDict [("updated_at", v)])] false d))).
Proof.
  unfold coll_update_one.
  destruct (update_first query _ (get_coll self d)) as [[[old new] c']|] eqn:E; cbn [snd].
  - unfold stamp_only. rewrite set_coll_coll_of.
    destruct (String.eqb name self) eqn:En; [|reflexivity].
    apply String.eqb_eq in En. subst name.
    eapply update_first_map; [|exact E].
    intros x. apply without_updated_at_dict_set.
  - apply stamp_only_refl.
Qed.

Lemma coll_update_one_untouched self name query update upsert d :
  String.eqb name self = false ->
  untouched name (collections d)
    (collections (snd (coll_update_one self query update upsert d))).
Proof.
  intros Hne. unfold coll_update_one.
  destruct (update_first query _ (get_coll self d)) as [[[old new] c']|]; cbn [snd].
  - unfold untouched. rewrite set_coll_coll_of. now rewrite Hne.
  - destruct upsert; [|apply untouched_refl].
    unfold coll_insert_one.
    destruct (dict_get "_id" _); cbn [snd fresh_oid].
    + unfold untouched. rewrite set_coll_coll_of. now rewrite Hne.
    + unfold untouched. rewrite set_coll_coll_of. now rewrite Hne.
Qed.

Section Primitives.

Context {rt : PyRuntime}.

(** The sanitizer removes a whole update document whose keys are
    operators: [update_one] then sets [updated_at] and nothing else. *)
Lemma update_one_operator_document self query fields :
  update_one self query (VDict [("$set", VDict fields)]) false true
  = update_one self query (VDict []) false true.
Proof. reflexivity. Qed.

Lemma update_one_operator_document2 self query fields fields' :
  update_one self query (VDict [("$set", VDict fields); ("$inc", VDict fields')]) false true
  = update_one self query (VDict []) false true.
Proof. reflexivity. Qed.

Lemma keeps_update_one_stamp self name query :
  keeps (stamp_only name) (update_one self query (VDict []) false true).
Proof.
  pose proof (stamp_only_pre name) as P.
  intros w. unfold update_one.
  unfold bind at 1. unfold lift at 1.
  destruct (_sanitize_input query) as [q|e]; [|apply stamp_only_refl].
  apply (keeps_with_retry _ P).
  apply keeps_bind; [exact P| |intros; now apply keeps_ret].
  apply keeps_driver; [exact P|].
  intros d. apply coll_update_one_stamp.
Qed.

Lemma keeps_update_one_untouched self name query update upsert validate :
  String.eqb name self = false ->
  keeps (untouched name) (update_one self query update upsert validate).
Proof.
  intros Hne. pose proof (untouched_pre name) as P. unfold update_one.
  apply keeps_bind; [exact P|now apply keeps_lift|].
  intros q.
  apply keeps_bind; [exact P| |].
  - destruct validate; [now apply keeps_lift|].
    destruct update; try (now apply keeps_raise). now apply keeps_ret.
  - intros upd.
    apply keeps_bind; [exact P|now apply keeps_now|].
    intros t.
    apply keeps_with_retry; [exact P|].
    apply keeps_bind; [exact P| |intros; now apply keeps_ret].
    apply keeps_driver; [exact P|].
    intros d. now apply coll_update_one_untouched.
Qed.

End Primitives.

Lemma returns_getattr_modified_count {B} (P : B -> Prop) result (k : Z -> M B) :
  returns P (bind (getattr_modified_count result) k).
Proof. intros w a w' H. discriminate. Qed.

(** Structural steps of a frame proof. *)
Ltac frame_step P :=
  lazymatch goal with
  | |- keeps _ (ret _) => apply (keeps_ret _ P)
  | |- keeps _ (raise _) => apply (keeps_raise _ P)
  | |- keeps _ (lift _) => apply (keeps_lift _ P)
  | |- keeps _ now => apply (keeps_now _ P)
  | |- keeps _ (find_one _ _) => apply (keeps_find_one _ P)
  | |- keeps _ (_validate_object_id _) => apply (keeps_validate_object_id _ P)
  | |- keeps _ (dict_item _ _) => apply (keeps_dict_item _ P)
  | |- keeps _ (as_int _) => apply (keeps_as_int _ P)
  | |- keeps _ (py_len_value _) => apply (keeps_py_len_value _ P)
  | |- keeps _ (getattr_modified_count _) => apply (keeps_getattr_modified_count _ P)
  | |- keeps _ (bind (getattr_modified_count _) _) => apply (keeps_bind_getattr _ P)
  | |- keeps _ (driver (coll_find_one _ _)) => apply (keeps_driver_find_one _ P)
  | |- keeps _ (get_crawl_configuration _) => apply (keeps_get_crawl_configuration _ P)
  | |- keeps _ (bind _ _) => apply (keeps_bind _ P); [|intro]
  | |- keeps _ (try_except _ _) => apply (keeps_try_except _ P); [|intro]
  | |- keeps _ (match ?x with _ => _ end) => destruct x
  end.

Ltac frame P := repeat (frame_step P).

(** ** C2: [fail_task] *)

(** The update [fail_task] prepares follows the backoff schedule of the
    claim: 60 s, 120 s, 240 s for a task with [max_retries = 3], then
    [failed]. *)
Lemma fail_task_update_data_schedule (error : value) (t0 : Z) :
  dict_get "scheduled_at" (fail_task_update_data error true 0 3 t0) = Some (VDate (t0 + 60))
  /\ dict_get "scheduled_at" (fail_task_update_data error true 1 3 t0) = Some (VDate (t0 + 120))
  /\ dict_get "scheduled_at" (fail_task_update_data error true 2 3 t0) = Some (VDate (t0 + 240))
  /\ dict_get "status" (fail_task_update_data error true 2 3 t0) = Some (VStr "pending")
  /\ dict_get "status" (fail_task_update_data error true 3 3 t0) = Some (VStr "failed")
  /\ dict_get "failed_at" (fail_task_update_data error true 3 3 t0) = Some (VDate t0).
Proof. repeat split. Qed.

Lemma _calculate_next_retry_delay_spec (retry_count : Z) :
  0 <= retry_count ->
  _calculate_next_retry_delay retry_count = Z.min (60 * 2 ^ retry_count) 3600.
Proof.
  intros H. unfold _calculate_next_retry_delay.
  destruct (0 <=? retry_count) eqn:E; [reflexivity|].
  apply Z.leb_gt in E. lia.
Qed.

Section Queue.

Context {rt : PyRuntime}.

Lemma fail_task_returns_false task_id error retry w :
  fst (fail_task task_id error retry w) = Ok false.
Proof.
  unfold fail_task. apply try_except_false.
  apply returns_bind; intros validated_task_id.
  apply returns_bind; intros [task_doc|]; [|now apply returns_ret].
  apply returns_bind; intros retry_count.
  apply returns_bind; intros t.
  apply returns_bind; intros max_retries.
  apply returns_bind; intros result.
  apply returns_getattr_modified_count.
Qed.

Lemma fail_task_keeps_stamp task_id error retry name :
  keeps (stamp_only name) (fail_task task_id error retry).
Proof.
  pose proof (stamp_only_pre name) as P.
  unfold fail_task. frame P.
  rewrite update_one_operator_document. apply keeps_update_one_stamp.
Qed.

(** C2 (what the code does). [fail_task] answers [False] on every input, and
    the queue is afterwards what it was, [updated_at] stamps apart: no
    status, [scheduled_at], [retry_count], [worker_id], [started_at],
    [error_message] or [failed_at] is written.  The update it prepares (see
    [fail_task_update_data_schedule]) is wrapped in [$set], a key the
    sanitizer of [update_one] removes, and [update_one] answers a [bool], on
    which [.modified_count] raises.  In particular the leased task of
    [leased_task_world], failing at 10000 with [retry_count = 0] and
    [max_retries = 3], stays in status [processing] with its old
    [scheduled_at] and [retry_count = 0]. *)
Theorem fail_task_never_reschedules :
  (forall (task_id error : value) (retry : bool) (w : world),
      fst (fail_task task_id error retry w) = Ok false
      /\ contents processing_queue (snd (fail_task task_id error retry w))
         = contents processing_queue w)
  /\ (let w' := snd (fail_task (oid 40) (VStr "timeout") true leased_task_world) in
      stored_field processing_queue (oid 40) "status" w' = Some (VStr "processing")
      /\ stored_field processing_queue (oid 40) "scheduled_at" w' = Some (VDate 9000)
      /\ stored_field processing_queue (oid 40) "retry_count" w' = Some (VInt 0)
      /\ stored_field processing_queue (oid 40) "error_message" w' = None).
Proof.
  split.
  - intros tid err retry w. split.
    + apply fail_task_returns_false.
    + apply (fail_task_keeps_stamp tid err retry processing_queue w).
  - vm_compute. repeat split.
Qed.

End Queue.

(** ** C4: [complete_crawl_session] *)

Section Sessions.

Context {rt : PyRuntime}.

Lemma complete_crawl_session_returns_false session_id final_stats w :
  fst (complete_crawl_session session_id final_stats w) = Ok false.
Proof.
  unfold complete_crawl_session. apply try_except_false.
  apply returns_bind; intros validated_session_id.
  apply returns_bind; intros [session|]; [|apply returns_raise].
  apply returns_bind; intros t.
  apply returns_bind; intros started_at.
  apply returns_bind; intros duration.
  apply returns_bind; intros result.
  apply returns_getattr_modified_count.
Qed.

(** The subtraction always fails, so what follows it is never run. *)
Lemma keeps_bind_total_seconds_since R (P : preorder_on R) {B} t started_at (k : Q -> M B) :
  keeps R (bind (total_seconds_since t started_at) k).
Proof. intros w. unfold bind, total_seconds_since. destruct started_at; apply (proj1 P). Qed.

Lemma complete_crawl_session_keeps_all session_id final_stats :
  keeps unchanged (complete_crawl_session session_id final_stats).
Proof.
  pose proof unchanged_pre as P.
  unfold complete_crawl_session.
  apply keeps_try_except; [exact P| |intros; now apply keeps_ret].
  apply keeps_bind; [exact P|now apply keeps_validate_object_id|]. intros validated_session_id.
  apply keeps_bind; [exact P|now apply keeps_find_one|]. intros [session|].
  - apply keeps_bind; [exact P|now apply keeps_now|]. intros t.
    apply keeps_bind; [exact P|now apply keeps_dict_item|]. intros started_at.
    now apply keeps_bind_total_seconds_since.
  - now apply keeps_raise.
Qed.

(** C4 (what the code does). [complete_crawl_session] completes no session:
    on every input, whatever the store does, it answers [False] and every
    collection is what it was before the call.  The session keeps its
    status and gets neither [completed_at] nor final statistics, and the
    site's [monitoring.last_crawl_time] is not advanced.  The duration is
    taken as [datetime.now(UTC)] minus the [started_at] read from the
    store, an aware datetime minus a naive one, which raises [TypeError];
    the method catches it and answers [False] before any update is sent. *)
Theorem complete_crawl_session_never_completes :
  forall (session_id : value) (final_stats : CrawlStats) (w : world),
    fst (complete_crawl_session session_id final_stats w) = Ok false
    /\ collections (db (snd (complete_crawl_session session_id final_stats w)))
       = collections (db w).
Proof.
  intros session_id final_stats w. split.
  - apply complete_crawl_session_returns_false.
  - exact (complete_crawl_session_keeps_all session_id final_stats w).
Qed.

End Sessions.

(** The running session of [running_session_world], completed at 10000:
    the answer is [False], the session is still [running] with no
    [completed_at], and the site keeps its old [last_crawl_time], whatever
    the runtime. *)
Example complete_crawl_session_leaves_session_running :
  forall rt : PyRuntime,
    let out := complete_crawl_session (oid 50) final_stats running_session_world in
    fst out = Ok false
    /\ stored_field crawl_sessions (oid 50) "status" (snd out) = Some (VStr "running")
    /\ stored_field crawl_sessions (oid 50) "completed_at" (snd out) = None
    /\ stored_field sites_repository (oid 1) "monitoring.last_crawl_time" (snd out)
       = Some (VDate 5000).
Proof. intros rt. vm_compute. repeat split. Qed.

(** ** C9: the content hash *)

Section Pages.

Context {rt : PyRuntime}.

Lemma update_page_content_returns_false page_id content content_hash w :
  fst (update_page_content page_id content content_hash w) = Ok false.
Proof.
  unfold update_page_content. apply try_except_false.
  apply returns_bind; intros validated_page_id.
  apply returns_bind; intros content_length.
  apply returns_bind; intros t.
  apply returns_bind; intros result.
  apply returns_getattr_modified_count.
Qed.

Lemma update_page_content_keeps_stamp page_id content content_hash name :
  keeps (stamp_only name) (update_page_content page_id content content_hash).
Proof.
  pose proof (stamp_only_pre name) as P.
  unfold update_page_content. frame P.
  rewrite update_one_operator_document. apply keeps_update_one_stamp.
Qed.

(** C9 (what the code does). [update_page_content] answers [False] on every
    input and leaves the pages as they were, [updated_at] stamps apart:
    neither the new content nor any hash of it, recomputed or supplied by
    the caller, is stored.  The fields travel inside [$set], which the
    sanitizer of [update_one] drops before the test for a [content] key.
    In particular the page of [one_page_world] keeps its old content and
    its old hash. *)
Theorem update_page_content_stores_nothing :
  (forall (page_id content content_hash : value) (w : world),
      fst (update_page_content page_id content content_hash w) = Ok false
      /\ contents pages_repository (snd (update_page_content page_id content content_hash w))
         = contents pages_repository w)
  /\ (let w' := snd (update_page_content (oid 60) (VStr "new text")
                       (VStr "a hash of something else") one_page_world) in
      stored_field pages_repository (oid 60) "content" w' = Some (VStr "old text")
      /\ stored_field pages_repository (oid 60) "content_hash" w'
         = Some (VStr "hash of the old text")).
Proof.
  split.
  - intros pid content content_hash w. split.
    + apply update_page_content_returns_false.
    + apply (update_page_content_keeps_stamp pid content content_hash pages_repository w).
  - vm_compute. repeat split.
Qed.

End Pages.

(** ** C3: [create_alert] *)


Lemma grows_pre name : preorder_on (grows name).
Proof.
  split.
  - intros cs. exists []. now rewrite app_nil_r.
  - intros a b c [t1 H1] [t2 H2]. exists (t1 ++ t2)%list.
    rewrite H2, H1. now rewrite app_assoc.
Qed.

Lemma keeps_weaken (R R' : list (string * list doc) -> list (string * list doc) -> Prop)
    {A} (c : M A) :
  (forall a b, R a b -> R' a b) -> keeps R c -> keeps R' c.
Proof. intros H Hc w. apply H, Hc. Qed.

Lemma stamp_only_grows name a b : stamp_only name a b -> grows name a b.
Proof. intros H. exists []. rewrite app_nil_r. exact H. Qed.

Lemma coll_insert_one_grows self name document d :
  grows name (collections d) (collections (snd (coll_insert_one self document d))).
Proof.
  unfold coll_insert_one, grows.
  destruct (dict_get "_id" document); cbn [snd fresh_oid].
  - rewrite set_coll_coll_of. destruct (String.eqb name self) eqn:E.
    + apply String.eqb_eq in E. subst. rewrite map_app. eexists. reflexivity.
    + exists []. now rewrite app_nil_r.
  - rewrite set_coll_coll_of. destruct (String.eqb name self) eqn:E.
    + apply String.eqb_eq in E. subst. rewrite map_app. eexists. reflexivity.
    + exists []. now rewrite app_nil_r.
Qed.

Section Alerts.

Context {rt : PyRuntime}.

Lemma keeps_insert_one_grows self name document validate :
  keeps (grows name) (insert_one self document validate).
Proof.
  pose proof (grows_pre name) as P.
  unfold insert_one.
  apply (keeps_bind _ P).
  - destruct validate; [apply (keeps_lift _ P)|].
    destruct document; try apply (keeps_raise _ P). apply (keeps_ret _ P).
  - intros d. apply (keeps_bind _ P); [apply (keeps_now _ P)|]. intros t.
    apply (keeps_with_retry _ P).
    apply (keeps_bind _ P); [|intros; apply (keeps_ret _ P)].
    apply (keeps_driver _ P). intros d0. apply coll_insert_one_grows.
Qed.

Lemma keeps_is_alert_suppressed R alert_type :
  preorder_on R -> keeps R (_is_alert_suppressed alert_type).
Proof. intros P. unfold _is_alert_suppressed. frame P. Qed.

Lemma create_alert_keeps_grows alert name :
  keeps (grows name) (create_alert alert).
Proof.
  pose proof (grows_pre name) as P.
  unfold create_alert.
  destruct (negb (truthy (alert_type alert))); [apply (keeps_raise _ P)|].
  destruct (negb (truthy (alert_title alert))); [apply (keeps_raise _ P)|].
  destruct (negb (is_severity (alert_severity alert))); [apply (keeps_raise _ P)|].
  apply (keeps_bind _ P); [now apply keeps_is_alert_suppressed|].
  intros [|]; [apply (keeps_ret _ P)|].
  apply (keeps_bind _ P); [apply (keeps_find_one _ P)|].
  intros [existing|].
  - frame P. rewrite update_one_operator_document2.
    eapply keeps_weaken; [apply stamp_only_grows|apply keeps_update_one_stamp].
  - apply (keeps_bind _ P).
    + destruct (truthy (alert_site_id alert)); frame P.
    + intros _. apply (keeps_bind _ P); [apply (keeps_now _ P)|]. intros t.
      apply keeps_insert_one_grows.
Qed.

End Alerts.

(** C3 (what the code does). [create_alert] never changes an alert that is
    already stored, [updated_at] stamps apart: the alerts before the call
    are all there after it, at most followed by a new one.  So the
    [occurrence_count] of an active alert is not incremented and its
    [last_seen] is not bumped when the same alert is created again: the
    [$set] and [$inc] keys of the update are removed by the sanitizer of
    [update_one], and the [_id] it is addressed to is the string
    [find_one] made of the ObjectId.  In particular, three calls with the
    same alert at 500, 530 and 560 return the same id and leave one alert
    with [occurrence_count = 1] and [last_seen = 500]. *)
Theorem create_alert_never_counts :
  (forall (rt : PyRuntime) (alert : Alert) (w : world),
      exists tail,
        contents alerts (snd (create_alert alert w)) = (contents alerts w ++ tail)%list)
  /\ (let rt := symbolic_runtime in
      let '(id1, w1) := create_alert timeout_alert (quiet_alerts_world 500) in
      let '(id2, w2) := create_alert timeout_alert (set_clock 530 w1) in
      let '(id3, w3) := create_alert timeout_alert (set_clock 560 w2) in
      id1 = Ok (VStr "000000000000000000001000") /\ id2 = id1 /\ id3 = id1
      /\ length (get_coll alerts (db w3)) = 1%nat
      /\ stored_field alerts (oid 4096) "occurrence_count" w3 = Some (VInt 1)
      /\ stored_field alerts (oid 4096) "last_seen" w3 = Some (VDate 500)).
Proof.
  split.
  - intros rt alert w. exact (create_alert_keeps_grows alert alerts w).
  - vm_compute. repeat split.
Qed.

(** ** C10: witness *)

Lemma driver_store_operation {A} (op : database -> A * database) :
  store_operation (driver op).
Proof.
  intros w. unfold driver.
  destruct (faults w) as [|[e|] rest]; try reflexivity; destruct (op (db w)); reflexivity.
Qed.

Lemma circuit_breaker_opens_after_five_failures_witness :
  state (get_breaker "pages" (snd (run_calls "pages" five_inserts refusing_world))) = OPEN
  /\ last_failure_time (get_breaker "pages" (snd (run_calls "pages" five_inserts refusing_world)))
     = Some (clock (snd (run_calls "pages" five_inserts refusing_world)))
  /\ forall (B : Type) (operation : M B) (t : Z),
       t - clock (snd (run_calls "pages" five_inserts refusing_world)) < 60 ->
       _with_retry "pages" operation
         (set_clock t (snd (run_calls "pages" five_inserts refusing_world)))
       = (Raise (ConnectionError "Circuit breaker is OPEN - operation blocked" None),
          set_clock t (snd (run_calls "pages" five_inserts refusing_world))).
Proof.
  apply (circuit_breaker_opens_after_five_failures value "pages" five_inserts refusing_world
           (snd (run_calls "pages" five_inserts refusing_world))
           (fst (run_calls "pages" five_inserts refusing_world))).
  - reflexivity.
  - reflexivity.
  - repeat constructor; apply driver_store_operation.
  - reflexivity.
  - apply surjective_pairing.
  - vm_compute. repeat constructor; intros H; discriminate H.
Defined.

(** ** C1: [dequeue_next_task] *)

Lemma task_view_fields d r :
  task_view d = Some r ->
  dict_get "_id" d = Some (row_id r)
  /\ dict_get "status" d = Some (VStr (row_status r))
  /\ dict_get "priority" d = Some (VInt (row_priority r))
  /\ dict_get "created_at" d = Some (VDate (row_created_at r))
  /\ dict_get "scheduled_at" d = Some (VDate (row_scheduled_at r))
  /\ dict_get "task_type" d = Some (VStr (row_type r)).
Proof.
  unfold task_view.
  destruct (dict_get "_id" d) as [i|]; [|discriminate].
  destruct (dict_get "status" d) as [[]|]; try discriminate.
  destruct (dict_get "priority" d) as [[]|]; try discriminate.
  destruct (dict_get "created_at" d) as [[]|]; try discriminate.
  destruct (dict_get "scheduled_at" d) as [[]|]; try discriminate.
  destruct (dict_get "task_type" d) as [[]|]; try discriminate.
  intros [= <-]. simpl. repeat split.
Qed.



Lemma Qcompare_inject_Z a b : Qcompare (inject_Z a) (inject_Z b) = Z.compare a b.
Proof. unfold Qcompare, inject_Z. simpl. now rewrite !Z.mul_1_r. Qed.

Lemma eval_lte_dates t s :
  eval_operator "$lte" (VDate t) (Some (VDate s)) = (s <=? t).
Proof.
  unfold eval_operator, cmp_match, bson_compare. simpl.
  unfold Z.leb. destruct (Z.compare s t); reflexivity.
Qed.

Lemma matches_queue_query t task_type d r :
  task_type = VNone \/ (exists s, task_type = VStr s) ->
  task_view d = Some r ->
  matches (queue_query t task_type) d = true <-> eligible t (wanted_type task_type) r.
Proof.
  intros Hty Hv. apply task_view_fields in Hv.
  destruct Hv as (_ & Hs & _ & _ & Hsch & Htt).
  assert (Hbase :
    matches [("status", VStr "pending"); ("scheduled_at", VDict [("$lte", VDate t)])] d = true
    <-> row_status r = "pending" /\ row_scheduled_at r <= t).
  { unfold matches, match_field, get_path. cbn -[String.eqb Z.compare].
    rewrite Hs, Hsch. cbn -[String.eqb Z.compare].
    rewrite orb_false_r, !andb_true_r.
    rewrite andb_true_iff, String.eqb_eq.
    rewrite eval_lte_dates, Z.leb_le. reflexivity. }
  unfold eligible.
  destruct Hty as [->|[s ->]].
  - unfold queue_query. cbn [truthy wanted_type]. rewrite Hbase. intuition.
  - unfold queue_query. cbn [truthy wanted_type].
    destruct s as [|a s]; cbn [is_empty negb].
    + rewrite Hbase. intuition.
    + cbn [dict_set String.eqb Ascii.eqb Bool.eqb].
      change (matches [("status", VStr "pending");
                       ("scheduled_at", VDict [("$lte", VDate t)]);
                       ("task_type", VStr (String a s))] d)
        with (match_field d "status" (VStr "pending")
              && (match_field d "scheduled_at" (VDict [("$lte", VDate t)])
                  && (match_field d "task_type" (VStr (String a s)) && true))).
      assert (Ht : match_field d "task_type" (VStr (String a s)) = true
                   <-> row_type r = String a s).
      { unfold match_field, get_path. cbn -[String.eqb].
        rewrite Htt. cbn -[String.eqb]. rewrite orb_false_r. apply String.eqb_eq. }
      unfold matches in Hbase. cbn [forallb fst snd] in Hbase.
      rewrite andb_true_r in *.
      rewrite !andb_true_iff in *. rewrite Ht.
      split.
      * intros (H1 & H2 & H3). destruct (proj1 Hbase (conj H1 H2)). intuition.
      * intros (H1 & H2 & [H3|H3]); [discriminate|].
        destruct (proj2 Hbase (conj H1 H2)). intuition.
Qed.

Lemma sorts_before_queue a b ra rb :
  task_view a = Some ra -> task_view b = Some rb ->
  sorts_before queue_sort a b = true <-> outranks ra rb.
Proof.
  intros Ha Hb. apply task_view_fields in Ha, Hb.
  destruct Ha as (_ & _ & Hpa & Hca & _). destruct Hb as (_ & _ & Hpb & Hcb & _).
  unfold queue_sort, sorts_before, sort_key, get_path. cbn -[Z.compare Z.ltb bson_compare].
  rewrite Hpa, Hpb, Hca, Hcb.
  unfold bson_compare. cbn -[Z.compare Z.ltb Qcompare].
  rewrite Qcompare_inject_Z. unfold outranks.
  destruct (Z.compare (row_priority ra) (row_priority rb)) eqn:E.
  - apply Z.compare_eq in E.
    destruct (Z.compare (row_created_at ra) (row_created_at rb)) eqn:E2.
    + apply Z.compare_eq in E2. split; [discriminate|lia].
    + rewrite Z.compare_lt_iff in E2. split; [lia|reflexivity].
    + rewrite Z.compare_gt_iff in E2. split; [discriminate|lia].
  - rewrite Z.compare_lt_iff in E. split; [discriminate|lia].
  - rewrite Z.compare_gt_iff in E. split; [lia|reflexivity].
Qed.

(** What [select_first] picks from typed queue documents: a match that no
    match of the list sorts before, together with its place in the list. *)
Lemma select_first_queue query l :
  Forall (fun d => task_view d <> None) l ->
  match select_first query queue_sort l with
  | None => forall d, In d l -> matches query d = false
  | Some (pre, d, post) =>
      l = (pre ++ d :: post)%list
      /\ matches query d = true
      /\ forall d', In d' l -> matches query d' = true ->
                    sorts_before queue_sort d' d = false
  end.
Proof.
  induction l as [|x r IH]; intros Hty; cbn [select_first].
  - intros d H. inversion H.
  - inversion Hty as [|? ? Hx Hr]; subst. specialize (IH Hr).
    destruct (task_view x) as [rx|] eqn:Hvx; [|congruence]. clear Hx.
    destruct (select_first query queue_sort r) as [[[pre b] post]|].
    + destruct IH as (Hl & Hb & Hmin).
      assert (Hbin : In b r) by (rewrite Hl; apply in_elt).
      assert (Hvb : exists rb, task_view b = Some rb).
      { rewrite Forall_forall in Hr. specialize (Hr b Hbin).
        destruct (task_view b) as [rb|]; [now exists rb|congruence]. }
      destruct Hvb as [rb Hvb].
      destruct (matches query x) eqn:Hmx; cbn [andb].
      * destruct (sorts_before queue_sort b x) eqn:Hbx; cbn [negb].
        -- split; [now rewrite Hl|]. split; [exact Hb|].
           intros d' [Heq|Hin] Hm; [subst d'|].
           ++ destruct (sorts_before queue_sort x b) eqn:Hxb; [|reflexivity].
              apply (sorts_before_queue _ _ _ _ Hvx Hvb) in Hxb.
              apply (sorts_before_queue _ _ _ _ Hvb Hvx) in Hbx.
              unfold outranks in *. lia.
           ++ now apply Hmin.
        -- split; [reflexivity|]. split; [exact Hmx|].
           intros d' [Heq|Hin] Hm; [subst d'|].
           ++ destruct (sorts_before queue_sort x x) eqn:Hxx; [|reflexivity].
              apply (sorts_before_queue _ _ _ _ Hvx Hvx) in Hxx.
              unfold outranks in *. lia.
           ++ assert (Hvd : exists rd, task_view d' = Some rd).
              { rewrite Forall_forall in Hr. specialize (Hr d' Hin).
                destruct (task_view d') as [rd|]; [now exists rd|congruence]. }
              destruct Hvd as [rd Hvd].
              specialize (Hmin d' Hin Hm).
              destruct (sorts_before queue_sort d' x) eqn:Hdx; [|reflexivity].
              apply (sorts_before_queue _ _ _ _ Hvd Hvx) in Hdx.
              assert (Hnb : ~ outranks rd rb).
              { intros H. apply (sorts_before_queue _ _ _ _ Hvd Hvb) in H. congruence. }
              assert (Hnx : ~ outranks rb rx).
              { intros H. apply (sorts_before_queue _ _ _ _ Hvb Hvx) in H. congruence. }
              unfold outranks in *. lia.
      * split; [now rewrite Hl|]. split; [exact Hb|].
        intros d' [Heq|Hin] Hm; [subst d'; congruence|now apply Hmin].
    + destruct (matches query x) eqn:Hmx.
      * split; [reflexivity|]. split; [exact Hmx|].
        intros d' [Heq|Hin] Hm; [subst d'|].
        -- destruct (sorts_before queue_sort x x) eqn:Hxx; [|reflexivity].
           apply (sorts_before_queue _ _ _ _ Hvx Hvx) in Hxx.
           unfold outranks in *. lia.
        -- rewrite (IH d' Hin) in Hm. discriminate.
      * intros d [Heq|Hin]; [subst d; exact Hmx|now apply IH].
Qed.

Lemma dict_get_dict_set_other k k' v d :
  String.eqb k k' = false -> dict_get k (dict_set k' v d) = dict_get k d.
Proof.
  intros Hne. induction d as [|[k0 v0] r IH]; simpl.
  - now rewrite Hne.
  - destruct (String.eqb k' k0) eqn:E; simpl.
    + apply String.eqb_eq in E. subst k0. now rewrite Hne.
    + now rewrite IH.
Qed.

Lemma dict_get_dict_set_same k v d : dict_get k (dict_set k v d) = Some v.
Proof.
  induction d as [|[k0 v0] r IH]; simpl.
  - now rewrite String.eqb_refl.
  - destruct (String.eqb k k0) eqn:E; simpl; rewrite E; auto.
Qed.

(** The update of [dequeue_next_task], applied to a document. *)
Lemma apply_lease_update t d :
  apply_update
    [("$set", VDict [("status", VStr "processing");
                     ("started_at", VDate t);
                     ("last_update", VDate t)])] d
  = leased t d.
Proof. reflexivity. Qed.

Lemma driver_no_faults {A} (op : database -> A * database) w :
  faults w = [] ->
  driver op w = (Ok (fst (op (db w))), set_db (snd (op (db w))) w).
Proof. intros H. unfold driver. rewrite H. now destruct (op (db w)). Qed.

Lemma dict_set_nonempty k v d : truthy (VDict (dict_set k v d)) = true.
Proof. destruct d as [|[k0 v0] r]; simpl; [reflexivity|]. now destruct (String.eqb k k0). Qed.

Lemma leased_fields t d :
  dict_get "_id" (leased t d) = dict_get "_id" d
  /\ dict_get "status" (leased t d) = Some (VStr "processing")
  /\ dict_get "started_at" (leased t d) = Some (VDate t).
Proof.
  unfold leased. repeat split.
  - now rewrite !dict_get_dict_set_other.
  - rewrite !dict_get_dict_set_other by reflexivity. apply dict_get_dict_set_same.
  - rewrite dict_get_dict_set_other by reflexivity. apply dict_get_dict_set_same.
Qed.

Lemma leased_truthy t d : truthy (VDict (leased t d)) = true.
Proof. apply dict_set_nonempty. Qed.

Lemma set_db_same w : set_db (db w) w = w.
Proof. now destruct w. Qed.

Lemma dequeue_next_task_unfold task_type w :
  faults w = [] ->
  dequeue_next_task task_type w
  = match select_first (queue_query (clock w) task_type) queue_sort
            (get_coll processing_queue (db w)) with
    | None => (Ok None, w)
    | Some (pre, target, post) =>
        let w' := set_db (set_coll processing_queue
                            (pre ++ leased (clock w) target :: post)%list (db w)) w in
        match dict_get "_id" target with
        | Some id =>
            (task <- _document_to_task (leased (clock w) target) ;; ret (Some task)) w'
        | None => (Ok None, w')
        end
    end.
Proof.
  intros Hf. unfold dequeue_next_task, try_except, bind at 1, now.
  unfold bind at 1. rewrite driver_no_faults by exact Hf.
  unfold coll_find_one_and_update. fold (queue_query (clock w) task_type). fold queue_sort.
  destruct (select_first (queue_query (clock w) task_type) queue_sort
              (get_coll processing_queue (db w))) as [[[pre target] post]|];
    cbn [fst snd].
  - rewrite apply_lease_update. rewrite leased_truthy.
    unfold _document_to_task, bind, dict_item.
    destruct (leased_fields (clock w) target) as (Hid & _).
    rewrite Hid. destruct (dict_get "_id" target); reflexivity.
  - now rewrite set_db_same.
Qed.

(** C1 (amended). In a world whose driver does not fail and whose queue
    documents are well typed, [dequeue_next_task] leases the first task in
    the order priority descending, created_at ascending, among exactly the
    tasks with [status = pending] and [scheduled_at <= now] (and of the
    requested type, when one is given): no such task outranks the one
    returned.  That task is stamped [status = processing],
    [started_at = now] in place, and [None] is returned, the world left as
    it is, exactly when there is no such task.  Dependencies play no part,
    and ties on (priority, created_at) are left to the store. *)
Theorem dequeue_next_task_leases_highest_pending :
  forall (w : world) (task_type : value),
    faults w = [] ->
    Forall (fun d => task_view d <> None) (get_coll processing_queue (db w)) ->
    task_type = VNone \/ (exists s, task_type = VStr s) ->
    match dequeue_next_task task_type w with
    | (Ok None, w') =>
        w' = w
        /\ forall d r, In d (get_coll processing_queue (db w)) ->
                       task_view d = Some r ->
                       ~ eligible (clock w) (wanted_type task_type) r
    | (Ok (Some task), w') =>
        exists pre d post r,
          get_coll processing_queue (db w) = (pre ++ d :: post)%list
          /\ task_view d = Some r
          /\ eligible (clock w) (wanted_type task_type) r
          /\ (forall d' r', In d' (get_coll processing_queue (db w)) ->
                            task_view d' = Some r' ->
                            eligible (clock w) (wanted_type task_type) r' ->
                            ~ outranks r' r)
          /\ get_coll processing_queue (db w') = (pre ++ leased (clock w) d :: post)%list
          /\ task_id task = row_id r
          /\ task_status task = VStr "processing"
          /\ task_started_at task = VDate (clock w)
    | (Raise _, _) => False
    end.
Proof.
  intros w task_type Hf Hty Htt.
  rewrite dequeue_next_task_unfold by exact Hf.
  pose proof (select_first_queue (queue_query (clock w) task_type) _ Hty) as Hsel.
  destruct (select_first (queue_query (clock w) task_type) queue_sort
              (get_coll processing_queue (db w))) as [[[pre target] post]|].
  - destruct Hsel as (Hl & Hm & Hmin).
    assert (Hin : In target (get_coll processing_queue (db w))) by (rewrite Hl; apply in_elt).
    destruct (task_view target) as [r|] eqn:Hv.
    2:{ rewrite Forall_forall in Hty. now specialize (Hty _ Hin). }
    destruct (task_view_fields _ _ Hv) as (Hid & _).
    rewrite Hid. cbn zeta.
    unfold _document_to_task, bind, dict_item, ret.
    destruct (leased_fields (clock w) target) as (Hid' & Hst & Hsa).
    rewrite Hid', Hid.
    exists pre, target, post, r.
    split; [exact Hl|]. split; [exact Hv|].
    split; [now apply (matches_queue_query _ _ _ _ Htt Hv)|].
    split.
    { intros d' r' Hin' Hv' He' Hout.
      apply (matches_queue_query _ _ _ _ Htt Hv') in He'.
      specialize (Hmin d' Hin' He').
      apply (sorts_before_queue _ _ _ _ Hv' Hv) in Hout. congruence. }
    split.
    { rewrite get_coll_coll_of. cbn [db set_db]. rewrite set_coll_coll_of.
      now rewrite String.eqb_refl. }
    cbn [task_id task_status task_started_at].
    unfold dict_get_default. rewrite Hst, Hsa. repeat split.
  - split; [reflexivity|].
    intros d r Hin Hv He.
    apply (matches_queue_query _ _ _ _ Htt Hv) in He.
    rewrite (Hsel d Hin) in He. discriminate.
Qed.

Lemma dequeue_next_task_leases_highest_pending_witness :
  match dequeue_next_task VNone ordered_queue_world with
  | (Ok None, w') =>
      w' = ordered_queue_world
      /\ forall d r, In d (get_coll processing_queue (db ordered_queue_world)) ->
                     task_view d = Some r ->
                     ~ eligible (clock ordered_queue_world) (wanted_type VNone) r
  | (Ok (Some task), w') =>
      exists pre d post r,
        get_coll processing_queue (db ordered_queue_world) = (pre ++ d :: post)%list
        /\ task_view d = Some r
        /\ eligible (clock ordered_queue_world) (wanted_type VNone) r
        /\ (forall d' r', In d' (get_coll processing_queue (db ordered_queue_world)) ->
                          task_view d' = Some r' ->
                          eligible (clock ordered_queue_world) (wanted_type VNone) r' ->
                          ~ outranks r' r)
        /\ get_coll processing_queue (db w')
           = (pre ++ leased (clock ordered_queue_world) d :: post)%list
        /\ task_id task = row_id r
        /\ task_status task = VStr "processing"
        /\ task_started_at task = VDate (clock ordered_queue_world)
  | (Raise _, _) => False
  end.
Proof.
  apply (dequeue_next_task_leases_highest_pending ordered_queue_world VNone).
  - reflexivity.
  - repeat constructor; discriminate.
  - now left.
Defined.

(** The ordering scenario: the three tasks leave the queue second, third,
    first. *)
Example dequeue_order_three_tasks :
  let '(t1, w1) := dequeue_next_task VNone ordered_queue_world in
  let '(t2, w2) := dequeue_next_task VNone w1 in
  let '(t3, w3) := dequeue_next_task VNone w2 in
  let '(t4, _) := dequeue_next_task VNone w3 in
  (match t1 with Ok (Some t) => task_id t | _ => VNone end) = oid 31
  /\ (match t2 with Ok (Some t) => task_id t | _ => VNone end) = oid 32
  /\ (match t3 with Ok (Some t) => task_id t | _ => VNone end) = oid 30
  /\ t4 = Ok None.
Proof. vm_compute. repeat split. Qed.

(** C1 (as stated) fails: in [dependent_queue_world] task 10 lists task 11
    among its dependencies and task 11 is still being processed, yet task 10
    is dequeued. *)
Lemma dequeue_next_task_ignores_dependencies :
  stored_field processing_queue (oid 10) "dependencies" dependent_queue_world
  = Some (VList [oid 11])
  /\ stored_field processing_queue (oid 11) "status" dependent_queue_world
     = Some (VStr "processing")
  /\ exists task w',
      dequeue_next_task VNone dependent_queue_world = (Ok (Some task), w')
      /\ task_id task = oid 10
      /\ stored_field processing_queue (oid 10) "status" w' = Some (VStr "processing").
Proof.
  split; [reflexivity|]. split; [reflexivity|].
  eexists. eexists. split; [vm_compute; reflexivity|].
  split; vm_compute; reflexivity.
Qed.

(** Ties on priority and creation time: the task the store meets first is
    leased, here the one with the larger id. *)
Example dequeue_next_task_tie_is_natural_order :
  exists task w',
    dequeue_next_task VNone tied_queue_world = (Ok (Some task), w')
    /\ task_id task = oid 21.
Proof. eexists. eexists. split; vm_compute; reflexivity. Qed.

(** ** Calls the store answers at once *)

Lemma assoc_set_twice {A} (k : string) (v1 v2 : A) (l : list (string * A)) :
  assoc_set k v2 (assoc_set k v1 l) = assoc_set k v2 l.
Proof.
  induction l as [|[k' v'] r IH]; simpl.
  - now rewrite String.eqb_refl.
  - destruct (String.eqb k k') eqn:E; simpl; rewrite E; [reflexivity|now rewrite IH].
Qed.

Lemma set_breaker_twice self b1 b2 w :
  set_breaker self b2 (set_breaker self b1 w) = set_breaker self b2 w.
Proof. unfold set_breaker. simpl. now rewrite assoc_set_twice. Qed.

Lemma ready_answered self w : ready self w -> ready self (answered self w).
Proof.
  unfold ready, answered. intros H. rewrite get_set_breaker.
  unfold record_success. now rewrite H.
Qed.

Lemma ready_answered_other self other w :
  String.eqb other self = false -> ready other w -> ready other (answered self w).
Proof. unfold ready, answered. intros Hne H. now rewrite get_set_breaker_other. Qed.

Lemma ready_set_db self d w : ready self (set_db d w) <-> ready self w.
Proof. reflexivity. Qed.

Lemma retry_loop_first_ok {A} self (operation : M A) m attempt rest last w a w1 :
  operation w = (Ok a, w1) ->
  retry_loop self operation m (attempt :: rest) last w
  = (Ok a, set_breaker self (record_success (get_breaker self w1)) w1).
Proof. intros H. cbn [retry_loop]. rewrite H. reflexivity. Qed.

(** A call through [_with_retry] that the store answers at the first
    attempt. *)
Lemma with_retry_answered {A B} self (op : database -> A * database) (f : A -> B) w :
  faults w = [] ->
  ready self w ->
  _with_retry self (x <- driver op ;; ret (f x)) w
  = (Ok (f (fst (op (db w)))), set_db (snd (op (db w))) (answered self w)).
Proof.
  intros Hf Hr. rewrite with_retry_unfold. unfold can_execute. unfold ready in Hr. rewrite Hr.
  erewrite retry_loop_first_ok.
  2:{ unfold bind. rewrite driver_no_faults by exact Hf. reflexivity. }
  change (db (set_breaker self (get_breaker self w) w)) with (db w).
  change (get_breaker self (set_db (snd (op (db w))) (set_breaker self (get_breaker self w) w)))
    with (get_breaker self (set_breaker self (get_breaker self w) w)).
  rewrite get_set_breaker. f_equal.
  unfold answered, set_db, set_breaker. simpl. rewrite assoc_set_twice. reflexivity.
Qed.

Lemma find_one_answered self query w :
  faults w = [] ->
  ready self w ->
  sanitize_value (VDict query) = VDict query ->
  find_one self (VDict query) w
  = (Ok (let result := find (matches query) (get_coll self (db w)) in
         if truthy_doc result then option_map convert_doc result else None),
     answered self w).
Proof.
  intros Hf Hr Hs. unfold find_one, _sanitize_input. rewrite Hs.
  unfold bind at 1. unfold lift.
  rewrite with_retry_answered by assumption.
  reflexivity.
Qed.

Lemma answered_faults self w : faults (answered self w) = faults w.
Proof. reflexivity. Qed.

Lemma answered_db self w : db (answered self w) = db w.
Proof. reflexivity. Qed.

Lemma answered_clock self w : clock (answered self w) = clock w.
Proof. reflexivity. Qed.

Lemma convert_doc_nonempty d : truthy_doc (Some d) = true -> truthy_doc (Some (convert_doc d)) = true.
Proof. destruct d as [|[k v] r]; [discriminate|reflexivity]. Qed.

Lemma find_some_in {A} (p : A -> bool) l x : In x l -> p x = true -> exists y, find p l = Some y /\ p y = true.
Proof.
  induction l as [|a r IH]; intros Hin Hp; [destruct Hin|].
  simpl. destruct (p a) eqn:E; [now exists a|].
  destruct Hin as [->|Hin]; [congruence|auto].
Qed.

(** ** [create_page] for a site given by its ObjectId *)

Lemma convert_doc_cons k v r :
  convert_doc ((k, v) :: r) = (k, _convert_object_ids v) :: convert_doc r.
Proof. reflexivity. Qed.

Lemma dict_get_convert_doc k d :
  dict_get k (convert_doc d) = option_map _convert_object_ids (dict_get k d).
Proof.
  induction d as [|[k' v] r IH]; [reflexivity|].
  rewrite convert_doc_cons. simpl. destruct (String.eqb k k'); [reflexivity|exact IH].
Qed.

Lemma matches_oid h d :
  matches [("_id", VOid h)] d = eq_match (dict_get "_id" d) (VOid h).
Proof.
  unfold matches, match_field, get_path. cbn [forallb fst snd is_operator_doc].
  change (get_path_list (split_path "_id") d) with (dict_get "_id" d).
  apply andb_true_r.
Qed.

Lemma matches_oid_has_id h d :
  matches [("_id", VOid h)] d = true -> exists i, dict_get "_id" d = Some i.
Proof.
  rewrite matches_oid. destruct (dict_get "_id" d) as [i|]; [now exists i|discriminate].
Qed.

Section CreatePage.

Context {rt : PyRuntime}.

Lemma get_crawl_configuration_known h w :
  faults w = [] ->
  ready sites_repository w ->
  site_known (VOid h) w ->
  exists cfg,
    get_crawl_configuration (VOid h) w = (Ok (Some cfg), answered sites_repository w)
    /\ truthy_doc (Some cfg) = true.
Proof.
  intros Hf Hr (d & name & base_url & Hfind & Hname & Hbase).
  assert (Hm : matches [("_id", VOid h)] d = true).
  { apply find_some in Hfind. tauto. }
  destruct (matches_oid_has_id _ _ Hm) as [i Hi].
  unfold get_crawl_configuration, try_except, bind at 1.
  cbn [_validate_object_id ret].
  unfold bind at 1.
  rewrite find_one_answered by (assumption || reflexivity).
  cbn zeta. rewrite Hfind.
  assert (Hne : truthy_doc (Some d) = true).
  { destruct d; [discriminate|reflexivity]. }
  rewrite Hne. cbn [option_map].
  assert (Hne' : truthy (VDict (convert_doc d)) = true).
  { destruct d as [|[k v] r]; [discriminate|reflexivity]. }
  rewrite Hne'.
  unfold bind, dict_item. rewrite !dict_get_convert_doc, Hi, Hname, Hbase.
  cbn [option_map ret]. eexists. split; reflexivity.
Qed.

(** The pages filter of [create_page] on a stored page. *)
Lemma matches_site_url h url d :
  matches [("site_id", VOid h); ("url", VStr url)] d = true
  <-> eq_match (dict_get "site_id" d) (VOid h) = true
      /\ eq_match (dict_get "url" d) (VStr url) = true.
Proof.
  unfold matches, match_field, get_path. cbn [forallb fst snd is_operator_doc].
  change (get_path_list (split_path "site_id") d) with (dict_get "site_id" d).
  change (get_path_list (split_path "url") d) with (dict_get "url" d).
  rewrite andb_true_r. apply andb_true_iff.
Qed.

Lemma create_page_duplicate page_data h normalized existing w :
  faults w = [] ->
  ready sites_repository w ->
  ready pages_repository w ->
  pc_site_id page_data = VOid h ->
  site_known (VOid h) w ->
  _normalize_url (pc_url page_data) = Ok normalized ->
  In existing (get_coll pages_repository (db w)) ->
  dict_get "site_id" existing = Some (VOid h) ->
  dict_get "url" existing = Some (VStr normalized) ->
  create_page page_data w
  = (Raise (DuplicateResourceError "Page with this URL already exists for site"),
     answered pages_repository (answered sites_repository w)).
Proof.
  intros Hf Hrs Hrp Hsite Hknown Hnorm Hin Hsid Hurl.
  destruct (get_crawl_configuration_known h w Hf Hrs Hknown) as (cfg & Hcfg & Hcfgt).
  unfold create_page. rewrite Hsite. unfold bind at 1. rewrite Hcfg, Hcfgt.
  cbn [negb]. rewrite Hnorm. unfold bind at 1. unfold lift at 1.
  unfold bind at 1.
  rewrite find_one_answered; [| exact Hf | | reflexivity].
  2:{ apply ready_answered_other; [reflexivity|exact Hrp]. }
  cbn zeta. rewrite answered_db.
  destruct (find_some_in (matches [("site_id", VOid h); ("url", VStr normalized)])
              (get_coll pages_repository (db w)) existing Hin) as (p & Hfind & Hp).
  { apply matches_site_url. rewrite Hsid, Hurl. simpl.
    now rewrite !String.eqb_refl. }
  rewrite Hfind.
  assert (Hne : truthy_doc (Some p) = true).
  { destruct p; [discriminate|reflexivity]. }
  rewrite Hne. cbn [option_map]. rewrite (convert_doc_nonempty _ Hne).
  reflexivity.
Qed.

End CreatePage.

(** ** URLs: the fragment *)

Lemma sapp_assoc (a b c : string) : (a ++ b) ++ c = a ++ (b ++ c).
Proof. induction a as [|x a IH]; simpl; [reflexivity|now rewrite IH]. Qed.

Lemma sapp_nil_r (a : string) : a ++ "" = a.
Proof. induction a as [|x a IH]; simpl; [reflexivity|now rewrite IH]. Qed.

Lemma contains_char_app c (a b : string) :
  contains_char c (a ++ b) = contains_char c a || contains_char c b.
Proof.
  induction a as [|x a IH]; simpl; [reflexivity|].
  rewrite IH. now rewrite orb_assoc.
Qed.

Lemma lstrip_c0_hash u f : lstrip_c0 (u ++ String "#" f) = lstrip_c0 u ++ String "#" f.
Proof.
  induction u as [|x u IH]; [reflexivity|].
  simpl. destruct (Nat.leb (nat_of_ascii x) 32); [exact IH|reflexivity].
Qed.

Lemma remove_unsafe_app a b : remove_unsafe (a ++ b) = remove_unsafe a ++ remove_unsafe b.
Proof.
  induction a as [|x a IH]; simpl; [reflexivity|].
  destruct (is_unsafe_byte x); simpl; now rewrite IH.
Qed.

Lemma contains_char_lstrip_c0 c u :
  contains_char c u = false -> contains_char c (lstrip_c0 u) = false.
Proof.
  induction u as [|x u IH]; [reflexivity|].
  simpl. intros H. apply orb_false_iff in H. destruct H as [H1 H2].
  destruct (Nat.leb (nat_of_ascii x) 32); [now apply IH|].
  simpl. now rewrite H1, H2.
Qed.

Lemma contains_char_remove_unsafe c u :
  contains_char c u = false -> contains_char c (remove_unsafe u) = false.
Proof.
  induction u as [|x u IH]; [reflexivity|].
  simpl. intros H. apply orb_false_iff in H. destruct H as [H1 H2].
  destruct (is_unsafe_byte x); [now apply IH|].
  simpl. rewrite H1. now apply IH.
Qed.

Lemma split_once_spec c u p r :
  split_once c u = Some (p, r) ->
  u = p ++ String c r /\ contains_char c p = false.
Proof.
  revert p r. induction u as [|x u IH]; intros p r H; [discriminate|].
  simpl in H. destruct (Ascii.eqb x c) eqn:E.
  - inversion H; subst. apply Ascii.eqb_eq in E. subst. now split.
  - destruct (split_once c u) as [[p' r']|]; [|discriminate].
    inversion H; subst. destruct (IH p' r eq_refl) as [-> Hc].
    split; [reflexivity|]. simpl. now rewrite E.
Qed.

Lemma split_once_none c u : split_once c u = None <-> contains_char c u = false.
Proof.
  induction u as [|x u IH]; simpl; [tauto|].
  destruct (Ascii.eqb x c); simpl.
  - split; discriminate.
  - destruct (split_once c u) as [[p r]|].
    + split; [discriminate|]. intros H. apply IH in H. discriminate.
    + tauto.
Qed.

Lemma split_once_app_some c u x p r :
  split_once c u = Some (p, r) -> split_once c (u ++ x) = Some (p, r ++ x).
Proof.
  revert p r. induction u as [|a u IH]; intros p r H; [discriminate|].
  simpl in *. destruct (Ascii.eqb a c).
  - now inversion H.
  - destruct (split_once c u) as [[p' r']|]; [|discriminate].
    inversion H; subst. now rewrite (IH p' r eq_refl).
Qed.

Lemma split_once_app_none c u x :
  split_once c u = None ->
  split_once c (u ++ x)
  = match split_once c x with
    | Some (p, r) => Some (u ++ p, r)
    | None => None
    end.
Proof.
  induction u as [|a u IH]; intros H; simpl.
  - now destruct (split_once c x) as [[p r]|].
  - simpl in H. destruct (Ascii.eqb a c); [discriminate|].
    destruct (split_once c u) as [[p' r']|]; [discriminate|].
    rewrite IH by reflexivity. now destruct (split_once c x) as [[p r]|].
Qed.

Lemma split_once_here c r : split_once c (String c r) = Some ("", r).
Proof. simpl. now rewrite Ascii.eqb_refl. Qed.

Lemma string_forallb_app p a b :
  string_forallb p (a ++ b) = string_forallb p a && string_forallb p b.
Proof.
  induction a as [|x a IH]; simpl; [reflexivity|].
  rewrite IH. now rewrite andb_assoc.
Qed.

Lemma split_scheme_hash u f :
  contains_char "#" u = false ->
  split_scheme (u ++ String "#" f)
  = (fst (split_scheme u), snd (split_scheme u) ++ String "#" f).
Proof.
  intros Hu. unfold split_scheme.
  destruct (split_once ":" u) as [[p r]|] eqn:E.
  - rewrite (split_once_app_some _ _ _ _ _ E).
    destruct p as [|a pre]; [reflexivity|].
    destruct (is_alpha a && string_forallb is_scheme_char (String a pre)); reflexivity.
  - rewrite (split_once_app_none _ _ _ E). cbn [fst snd].
    destruct (split_once ":" (String "#" f)) as [[p r]|] eqn:E2; [|reflexivity].
    simpl in E2. destruct (split_once ":" f) as [[p' r']|]; [|discriminate].
    inversion E2; subst.
    destruct (u ++ String "#" p') as [|a pre] eqn:Eu; [reflexivity|].
    assert (Hf : string_forallb is_scheme_char (String a pre) = false).
    { rewrite <- Eu, string_forallb_app. simpl. apply andb_false_r. }
    rewrite Hf, andb_false_r. reflexivity.
Qed.

Lemma split_scheme_keeps_clean c u :
  contains_char c u = false -> contains_char c (snd (split_scheme u)) = false.
Proof.
  intros Hu. unfold split_scheme.
  destruct (split_once ":" u) as [[p r]|] eqn:E; [|exact Hu].
  destruct (split_once_spec _ _ _ _ E) as [-> _].
  rewrite contains_char_app in Hu. apply orb_false_iff in Hu. destruct Hu as [Hp Hr].
  simpl in Hr. apply orb_false_iff in Hr. destruct Hr as [Hc Hr].
  destruct p as [|a pre]; simpl.
  - now rewrite Hc.
  - destruct (is_alpha a && _); simpl; [exact Hr|].
    simpl in Hp. apply orb_false_iff in Hp. destruct Hp as [Hp1 Hp2].
    rewrite Hp1. simpl. rewrite contains_char_app, Hp2. simpl. now rewrite Hc.
Qed.

Lemma split_at_first_hash x f :
  split_at_first is_netloc_delim (x ++ String "#" f)
  = (fst (split_at_first is_netloc_delim x),
     snd (split_at_first is_netloc_delim x) ++ String "#" f).
Proof.
  induction x as [|a x IH]; [reflexivity|].
  simpl. destruct (is_netloc_delim a); [reflexivity|].
  rewrite IH. destruct (split_at_first is_netloc_delim x). reflexivity.
Qed.

Lemma split_at_first_keeps_clean p c x :
  contains_char c x = false -> contains_char c (snd (split_at_first p x)) = false.
Proof.
  induction x as [|a x IH]; [reflexivity|].
  simpl. intros H. destruct (p a); [exact H|].
  apply orb_false_iff in H. destruct H as [_ H].
  specialize (IH H). destruct (split_at_first p x). exact IH.
Qed.

Lemma split_netloc_hash r f :
  contains_char "#" r = false ->
  split_netloc (r ++ String "#" f)
  = (fst (split_netloc r), snd (split_netloc r) ++ String "#" f).
Proof.
  intros Hr. unfold split_netloc.
  destruct r as [|a [|b r']].
  - reflexivity.
  - simpl. destruct a as [[] [] [] [] [] [] [] []]; reflexivity.
  - simpl.
    destruct (Ascii.eqb a "/") eqn:Ea.
    + apply Ascii.eqb_eq in Ea. subst a.
      destruct (Ascii.eqb b "/") eqn:Eb.
      * apply Ascii.eqb_eq in Eb. subst b. apply split_at_first_hash.
      * assert (Hb : b <> "/"%char) by (now apply Ascii.eqb_neq).
        destruct b as [[] [] [] [] [] [] [] []]; try reflexivity. congruence.
    + assert (Hb : a <> "/"%char) by (now apply Ascii.eqb_neq).
      destruct a as [[] [] [] [] [] [] [] []]; try reflexivity. congruence.
Qed.

Lemma split_netloc_keeps_clean c r :
  contains_char c r = false -> contains_char c (snd (split_netloc r)) = false.
Proof.
  intros Hr. unfold split_netloc.
  destruct r as [|a [|b r']]; try exact Hr.
  - destruct a as [[] [] [] [] [] [] [] []]; exact Hr.
  - assert (H2 : contains_char c r' = false).
    { simpl in Hr. apply orb_false_iff in Hr. destruct Hr as [_ Hr].
      apply orb_false_iff in Hr. tauto. }
    destruct a as [[] [] [] [] [] [] [] []]; try exact Hr;
      destruct b as [[] [] [] [] [] [] [] []]; try exact Hr.
    now apply split_at_first_keeps_clean.
Qed.

Section UrlFragment.

Context {rt : PyRuntime}.

Lemma urlsplit_hash u f :
  contains_char "#" u = false ->
  urlsplit (u ++ String "#" f)
  = match urlsplit u with
    | Ok r => Ok (mkParseResult (scheme r) (netloc r) (path r) (params r) (query r)
                    (remove_unsafe f))
    | Raise e => Raise e
    end.
Proof.
  intros Hu. unfold urlsplit.
  rewrite lstrip_c0_hash, remove_unsafe_app.
  change (remove_unsafe (String "#" f)) with (String "#" (remove_unsafe f)).
  assert (Hu' : contains_char "#" (remove_unsafe (lstrip_c0 u)) = false)
    by now apply contains_char_remove_unsafe, contains_char_lstrip_c0.
  rewrite (split_scheme_hash _ _ Hu').
  pose proof (split_scheme_keeps_clean "#" _ Hu') as Hrest.
  destruct (split_scheme (remove_unsafe (lstrip_c0 u))) as [sch rest]. cbn [fst snd] in *.
  rewrite (split_netloc_hash _ _ Hrest).
  pose proof (split_netloc_keeps_clean "#" _ Hrest) as Hurl.
  destruct (split_netloc rest) as [nl url]. cbn [fst snd] in *.
  destruct (if xorb _ _ then _ else _); [|reflexivity].
  assert (Hnone : split_once "#" url = None) by now apply split_once_none.
  rewrite (split_once_app_none _ _ _ Hnone), split_once_here, sapp_nil_r, Hnone.
  destruct (split_once "?" url) as [[p q]|]; destruct (_checknetloc nl); reflexivity.
Qed.

Lemma urlparse_hash u f :
  contains_char "#" u = false ->
  urlparse (u ++ String "#" f)
  = match urlparse u with
    | Ok r => Ok (mkParseResult (scheme r) (netloc r) (path r) (params r) (query r)
                    (remove_unsafe f))
    | Raise e => Raise e
    end.
Proof.
  intros Hu. unfold urlparse. rewrite (urlsplit_hash _ _ Hu).
  destruct (urlsplit u) as [r|e]; [|reflexivity]. cbn [scheme path].
  destruct (existsb (String.eqb (scheme r)) uses_params && contains_char ";" (path r)).
  - destruct (_splitparams (path r)). reflexivity.
  - destruct r; reflexivity.
Qed.

(** The fragment of a URL plays no part in its normal form. *)
Lemma normalize_url_drops_fragment u f :
  contains_char "#" u = false ->
  _normalize_url (u ++ String "#" f) = _normalize_url u.
Proof.
  intros Hu. unfold _normalize_url. rewrite (urlparse_hash _ _ Hu).
  destruct (urlparse u) as [r|e]; reflexivity.
Qed.

End UrlFragment.

Section InsertOne.

Context {rt : PyRuntime}.

Lemma sanitize_input_dict d :
  exists d', _sanitize_input (VDict d) = Ok d'.
Proof.
  unfold _sanitize_input. destruct (sanitize_value (VDict d)) eqn:E; eauto.
Qed.

Lemma insert_one_answered self d d' w :
  faults w = [] ->
  ready self w ->
  _sanitize_input (VDict d) = Ok d' ->
  insert_one self (VDict d) true w
  = (Ok (VStr (py_str (fst (coll_insert_one self (stamped_for_insert d' (clock w)) (db w))))),
     set_db (snd (coll_insert_one self (stamped_for_insert d' (clock w)) (db w)))
       (answered self w)).
Proof.
  intros Hf Hr Hs. unfold insert_one. rewrite Hs.
  unfold bind at 1. unfold lift at 1. unfold bind at 1. unfold now at 1.
  fold (stamped_for_insert d' (clock w)).
  now rewrite with_retry_answered.
Qed.

End InsertOne.

Section CreatePageUnique.

Context {rt : PyRuntime}.

Lemma find_none_forall {A} (p : A -> bool) l :
  find p l = None -> forall x, In x l -> p x = false.
Proof.
  induction l as [|a r IH]; intros H x Hin; [destruct Hin|].
  simpl in H. destruct (p a) eqn:E; [discriminate|].
  destruct Hin as [->|Hin]; [exact E|now apply IH].
Qed.

Lemma value_eqb_oid_refl h : value_eqb (VOid h) (VOid h) = true.
Proof. simpl. apply String.eqb_refl. Qed.

Lemma value_eqb_str_refl s : value_eqb (VStr s) (VStr s) = true.
Proof. simpl. apply String.eqb_refl. Qed.

(** What [create_page] does to the pages when the store answers: nothing,
    or one page more, under a key no page had. *)
Lemma create_page_outcome page_data h normalized w :
  faults w = [] ->
  ready sites_repository w ->
  ready pages_repository w ->
  pc_site_id page_data = VOid h ->
  site_known (VOid h) w ->
  _normalize_url (pc_url page_data) = Ok normalized ->
  let pages := get_coll pages_repository (db w) in
  let pages' := get_coll pages_repository (db (snd (create_page page_data w))) in
  pages' = pages
  \/ ((forall p, In p pages -> page_key p <> Some (VOid h, VStr normalized))
      /\ exists d, pages' = (pages ++ [d])%list
                   /\ page_key d = Some (VOid h, VStr normalized)).
Proof.
  intros Hf Hrs Hrp Hsite Hknown Hnorm pages pages'. subst pages pages'.
  destruct (get_crawl_configuration_known h w Hf Hrs Hknown) as (cfg & Hcfg & Hcfgt).
  remember (create_page page_data w) as out eqn:Hout.
  unfold create_page in Hout. rewrite Hsite in Hout. unfold bind at 1 in Hout.
  rewrite Hcfg, Hcfgt in Hout.
  cbn [negb] in Hout. rewrite Hnorm in Hout. unfold bind at 1 in Hout.
  unfold lift at 1 in Hout. unfold bind at 1 in Hout.
  rewrite find_one_answered in Hout; [| exact Hf | | reflexivity].
  2:{ apply ready_answered_other; [reflexivity|exact Hrp]. }
  cbn zeta in Hout. rewrite answered_db in Hout.
  set (q := [("site_id", VOid h); ("url", VStr normalized)]) in *.
  destruct (find (matches q) (get_coll pages_repository (db w))) as [p|] eqn:Hfind.
  - assert (Hp : matches q p = true) by (apply find_some in Hfind; tauto).
    assert (Hne : truthy_doc (Some p) = true).
    { destruct p; [discriminate|reflexivity]. }
    cbn [option_map] in Hout. rewrite Hne, (convert_doc_nonempty _ Hne) in Hout.
    left. subst out. reflexivity.
  - cbn [truthy_doc option_map] in Hout.
    unfold bind at 1 in Hout. unfold now at 1 in Hout. unfold bind at 1 in Hout.
    set (w2 := answered pages_repository (answered sites_repository w)) in *.
    destruct ((if truthy (pc_content page_data)
               then py_len_value (pc_content page_data) else ret 0) w2)
      as [[n|e] w3] eqn:Hlen.
    2:{ left. subst out.
        destruct (truthy (pc_content page_data)); [|discriminate].
        destruct (pc_content page_data); inversion Hlen; reflexivity. }
    assert (Hw3 : w3 = w2).
    { destruct (truthy (pc_content page_data)); [|now inversion Hlen].
      destruct (pc_content page_data); inversion Hlen; reflexivity. }
    subst w3.
    match type of Hout with
    | context [insert_one pages_repository (VDict ?d) true w2] =>
        destruct (sanitize_input_dict d) as [d' Hd'];
        pose proof Hd' as Hd''; cbn in Hd''
    end.
    inversion Hd''; subst d'; clear Hd''.
    erewrite insert_one_answered in Hout; [| exact Hf | | exact Hd'].
    2:{ apply ready_answered. apply ready_answered_other; [reflexivity|exact Hrp]. }
    right. split.
    + intros p Hin Hkey.
      pose proof (find_none_forall _ _ Hfind p Hin) as Hm.
      assert (Hm' : matches q p = true).
      { apply matches_site_url. unfold page_key in Hkey.
        destruct (dict_get "site_id" p) as [s|]; [|discriminate].
        destruct (dict_get "url" p) as [u|]; [|discriminate].
        inversion Hkey; subst. simpl. now rewrite !String.eqb_refl. }
      congruence.
    + subst out. cbn [snd db set_db]. unfold coll_insert_one.
      match goal with
      | |- context [dict_get "_id" ?x] =>
          assert (Hnoid : dict_get "_id" x = None)
      end.
      { unfold stamped_for_insert. cbn -[_generate_content_hash]. reflexivity. }
      rewrite Hnoid. cbn [fresh_oid snd].
      rewrite get_coll_coll_of, set_coll_coll_of, String.eqb_refl.
      eexists. split; [reflexivity|].
      unfold page_key, stamped_for_insert. cbn -[_generate_content_hash]. reflexivity.
Qed.

End CreatePageUnique.

Lemma unique_pages_snoc pages d k :
  unique_pages pages ->
  page_key d = Some k ->
  (forall p, In p pages -> page_key p <> Some k) ->
  unique_pages (pages ++ [d])%list.
Proof.
  intros Hu Hk Hfresh i j d1 d2 k' H1 H2 K1 K2.
  assert (Hcase : forall n x, nth_error (pages ++ [d])%list n = Some x ->
            (nth_error pages n = Some x /\ (n < length pages)%nat)
            \/ (n = length pages /\ x = d)).
  { intros n x Hn.
    destruct (Nat.lt_ge_cases n (length pages)) as [Hlt|Hge].
    - left. rewrite nth_error_app1 in Hn by exact Hlt. now split.
    - right. rewrite nth_error_app2 in Hn by exact Hge.
      destruct (n - length pages)%nat as [|m] eqn:E.
      + simpl in Hn. inversion Hn. split; [lia|reflexivity].
      + simpl in Hn. destruct m; discriminate. }
  destruct (Hcase _ _ H1) as [[A1 L1]|[-> ->]], (Hcase _ _ H2) as [[A2 L2]|[-> ->]].
  - exact (Hu _ _ _ _ _ A1 A2 K1 K2).
  - exfalso. apply (Hfresh d1); [eapply nth_error_In; exact A1|]. congruence.
  - exfalso. apply (Hfresh d2); [eapply nth_error_In; exact A2|]. congruence.
  - reflexivity.
Qed.

Section CreatePageObjectId.

Context {rt : PyRuntime}.

Lemma create_page_bad_url page_data h e w :
  faults w = [] ->
  ready sites_repository w ->
  pc_site_id page_data = VOid h ->
  site_known (VOid h) w ->
  _normalize_url (pc_url page_data) = Raise e ->
  create_page page_data w = (Raise e, answered sites_repository w).
Proof.
  intros Hf Hrs Hsite Hknown Hnorm.
  destruct (get_crawl_configuration_known h w Hf Hrs Hknown) as (cfg & Hcfg & Hcfgt).
  unfold create_page. rewrite Hsite. unfold bind at 1. rewrite Hcfg, Hcfgt.
  cbn [negb]. rewrite Hnorm. reflexivity.
Qed.

(** While the store answers, [create_page] for a known site that is given
    by its ObjectId refuses a page whose site and normalised URL a stored
    page already has: it raises [DuplicateResourceError] and the pages are
    what they were.  So it does when the URL differs from the one a stored
    page was made from only by its fragment.  And pages that had pairwise
    different (site_id, url) keys before the call have them after it. *)
Theorem create_page_keeps_site_url_unique :
  forall (page_data : PageCreate) (h : string) (w : world),
    faults w = [] ->
    ready sites_repository w ->
    ready pages_repository w ->
    pc_site_id page_data = VOid h ->
    site_known (VOid h) w ->
    let pages := get_coll pages_repository (db w) in
    let out := create_page page_data w in
    let refused :=
      fst out = Raise (DuplicateResourceError "Page with this URL already exists for site")
      /\ get_coll pages_repository (db (snd out)) = pages in
    (forall normalized existing,
        _normalize_url (pc_url page_data) = Ok normalized ->
        In existing pages ->
        dict_get "site_id" existing = Some (VOid h) ->
        dict_get "url" existing = Some (VStr normalized) ->
        refused)
    /\ (forall base fragment fragment' stored existing,
        contains_char "#" base = false ->
        pc_url page_data = with_fragment base fragment ->
        _normalize_url (with_fragment base fragment') = Ok stored ->
        In existing pages ->
        dict_get "site_id" existing = Some (VOid h) ->
        dict_get "url" existing = Some (VStr stored) ->
        refused)
    /\ (unique_pages pages ->
        unique_pages (get_coll pages_repository (db (snd out)))).
Proof.
  intros page_data h w Hf Hrs Hrp Hsite Hknown pages out refused.
  assert (Hdup : forall normalized existing,
        _normalize_url (pc_url page_data) = Ok normalized ->
        In existing pages ->
        dict_get "site_id" existing = Some (VOid h) ->
        dict_get "url" existing = Some (VStr normalized) ->
        refused).
  { intros normalized existing Hnorm Hin Hs Hu. subst refused out.
    rewrite (create_page_duplicate page_data h normalized existing w)
      by assumption.
    split; [reflexivity|]. cbn [snd]. now rewrite !answered_db. }
  split; [exact Hdup|]. split.
  - intros base fragment fragment' stored existing Hbase Hurl Hstored.
    apply Hdup. rewrite Hurl.
    assert (Hn : forall o, _normalize_url (with_fragment base o) = _normalize_url base).
    { intros [f|]; [|reflexivity]. now apply normalize_url_drops_fragment. }
    rewrite Hn. now rewrite Hn in Hstored.
  - intros Hu. subst out.
    destruct (_normalize_url (pc_url page_data)) as [normalized|e] eqn:Hnorm.
    + destruct (create_page_outcome page_data h normalized w Hf Hrs Hrp Hsite Hknown Hnorm)
        as [Hsame|(Hfresh & d & Hd & Hk)].
      * now rewrite Hsame.
      * rewrite Hd. now apply (unique_pages_snoc _ d (VOid h, VStr normalized)).
    + rewrite (create_page_bad_url page_data h e w) by assumption.
      cbn [snd]. now rewrite answered_db.
Qed.

End CreatePageObjectId.

Lemma create_page_keeps_site_url_unique_witness :
  fst (create_page (rt := symbolic_runtime) a_page_again one_page_world)
  = Raise (DuplicateResourceError "Page with this URL already exists for site")
  /\ get_coll pages_repository
       (db (snd (create_page (rt := symbolic_runtime) a_page_again one_page_world)))
     = get_coll pages_repository (db one_page_world).
Proof.
  refine (proj1 (proj2 (create_page_keeps_site_url_unique (rt := symbolic_runtime)
            a_page_again "000000000000000000000001" one_page_world _ _ _ _ _))
            "https://plato.stanford.edu/entries/kant" (Some "life") None
            "https://plato.stanford.edu/entries/kant" a_page _ _ _ _ _ _).
  - reflexivity.
  - reflexivity.
  - reflexivity.
  - reflexivity.
  - exists a_site, (VStr "Stanford Encyclopedia of Philosophy"),
      (VStr "https://plato.stanford.edu/"). vm_compute. repeat split.
  - reflexivity.
  - reflexivity.
  - vm_compute. reflexivity.
  - vm_compute. left. reflexivity.
  - reflexivity.
  - reflexivity.
Defined.

Lemma value_in_truthy v l : value_in v l = true -> ~ In "" l -> truthy v = true.
Proof.
  unfold value_in. intros H Hn. apply existsb_exists in H as (s & Hin & Heq).
  destruct v; try discriminate. simpl in Heq. apply String.eqb_eq in Heq. subst.
  destruct s; [contradiction|reflexivity].
Qed.

Section RecordChange.

Context {rt : PyRuntime}.

(** A valid change of a stored page is recorded, when the store answers, as
    one more document, and its priority is the chosen one. *)
Lemma record_content_change_stored change h prio w :
  faults w = [] ->
  ready pages_repository w ->
  ready content_changes w ->
  cc_page_id change = VOid h ->
  value_in (cc_change_type change) CHANGE_TYPES = true ->
  truthy (cc_site_id change) = true ->
  (value_in (cc_change_type change) ["new"; "modified"] = true ->
   exists page,
     find (matches [("_id", VOid h)]) (get_coll pages_repository (db w)) = Some page) ->
  chosen_priority change = Ok prio ->
  exists d,
    get_coll content_changes (db (snd (record_content_change change w)))
    = (get_coll content_changes (db w) ++ [d])%list
    /\ dict_get "priority" d = Some (sanitize_value prio).
Proof.
  intros Hf Hrp Hrc Hpage Hct Hsite Hfind Hprio.
  remember (record_content_change change w) as out eqn:Hout.
  unfold record_content_change in Hout.
  rewrite Hpage, Hct, Hsite in Hout.
  rewrite (value_in_truthy _ _ Hct) in Hout.
  2:{ simpl. intuition discriminate. }
  cbn [negb orb truthy] in Hout.
  set (first_part := if value_in (cc_change_type change) ["new"; "modified"] then _ else _) in Hout.
  assert (H1 : exists ut w1, first_part w = (Ok ut, w1) /\ faults w1 = []
                 /\ ready content_changes w1 /\ db w1 = db w).
  { subst first_part. destruct (value_in (cc_change_type change) ["new"; "modified"]).
    - destruct (Hfind eq_refl) as [page Hpg].
      unfold bind at 1.
      rewrite find_one_answered; [| exact Hf | exact Hrp | reflexivity].
      cbn zeta. rewrite Hpg.
      assert (Hne : truthy_doc (Some page) = true).
      { apply find_some in Hpg as [_ Hm]. apply matches_oid_has_id in Hm.
        destruct page; [destruct Hm as [? ?]; discriminate|reflexivity]. }
      rewrite Hne. cbn [option_map].
      eexists _, _. split; [reflexivity|]. split; [exact Hf|]. split.
      + apply ready_answered_other; [reflexivity|exact Hrc].
      + apply answered_db.
    - eexists _, _. split; [reflexivity|]. repeat split; assumption. }
  destruct H1 as (ut & w1 & E1 & Hf1 & Hr1 & Hdb1).
  unfold bind at 1 in Hout. rewrite E1 in Hout.
  set (second_part := if truthy (cc_priority change) then _ else _) in Hout.
  assert (H2 : second_part w1 = (Ok prio, w1)).
  { subst second_part. unfold chosen_priority in Hprio.
    destruct (truthy (cc_priority change)).
    - inversion Hprio. reflexivity.
    - destruct (_determine_change_priority _ _) as [p|e]; [|discriminate].
      inversion Hprio. reflexivity. }
  unfold bind at 1 in Hout. rewrite H2 in Hout.
  unfold bind at 1 in Hout. unfold now at 1 in Hout.
  match type of Hout with
  | context [insert_one content_changes (VDict ?d) true w1] =>
      destruct (sanitize_input_dict d) as [d' Hd'];
      pose proof Hd' as Hd''; cbn in Hd''
  end.
  inversion Hd''; subst d'; clear Hd''.
  erewrite insert_one_answered in Hout; [| exact Hf1 | exact Hr1 | exact Hd'].
  subst out. cbn [snd db set_db]. unfold coll_insert_one.
  match goal with
  | |- context [dict_get "_id" ?x] =>
      assert (Hnoid : dict_get "_id" x = None)
  end.
  { unfold stamped_for_insert. cbn -[_generate_content_hash sanitize_value]. reflexivity. }
  rewrite Hnoid. cbn [fresh_oid snd].
  rewrite get_coll_coll_of, set_coll_coll_of, String.eqb_refl.
  rewrite ?answered_db, ?Hdb1.
  eexists. split; [reflexivity|].
  unfold stamped_for_insert. cbn -[_generate_content_hash sanitize_value].
  reflexivity.
Qed.

(** C8 (what the code does). A valid change of a stored page is recorded,
    when the store answers, as one more document.  Its priority is the one
    the change carries whenever that is a non-empty string; only a change
    without a priority gets the one derived from its type and context.  The
    derived priority is: high for a deleted page; for a new page high when
    the context has a truthy [author_known] or [philosophical_content],
    else medium; for a modified page high when [content_change_ratio] is
    above one half, medium when it is above one tenth, else low.  But a
    change built by the constructor without a priority carries the
    constructor's default: it is recorded as medium, whatever its type and
    context, and the derivation is not run. *)
Theorem record_content_change_priority :
  forall (change : ContentChange) (h : string) (w : world),
    faults w = [] ->
    ready pages_repository w ->
    ready content_changes w ->
    cc_page_id change = VOid h ->
    value_in (cc_change_type change) CHANGE_TYPES = true ->
    truthy (cc_site_id change) = true ->
    (value_in (cc_change_type change) ["new"; "modified"] = true ->
     exists page,
       find (matches [("_id", VOid h)]) (get_coll pages_repository (db w)) = Some page) ->
    let recorded_with := fun priority =>
      exists d,
        get_coll content_changes (db (snd (record_content_change change w)))
        = (get_coll content_changes (db w) ++ [d])%list
        /\ dict_get "priority" d = Some (VStr priority) in
    (forall given, cc_priority change = VStr given -> given <> "" ->
                   recorded_with given)
    /\ (forall derived,
          truthy (cc_priority change) = false ->
          _determine_change_priority (cc_change_type change) (cc_context change)
          = Ok derived ->
          recorded_with derived)
    /\ (forall context, _determine_change_priority (VStr "deleted") context = Ok "high")
    /\ (forall context,
          _determine_change_priority (VStr "new") (VDict context)
          = Ok (if truthy (dict_get_default "author_known" (VBool false) context)
                   || truthy (dict_get_default "philosophical_content" (VBool false) context)
                then "high" else "medium"))
    /\ (forall context ratio,
          as_number (dict_get_default "content_change_ratio" (VInt 0) context)
          = Some ratio ->
          _determine_change_priority (VStr "modified") (VDict context)
          = Ok (match ratio ?= 5 # 10 with
                | Gt => "high"
                | _ => match ratio ?= 1 # 10 with
                       | Gt => "medium"
                       | _ => "low"
                       end
                end)%Q)
    /\ (forall page_id change_type site_id kwargs,
          change = new_ContentChange page_id change_type site_id kwargs ->
          dict_get "priority" kwargs = None ->
          recorded_with "medium").
Proof.
  intros change h w Hf Hrp Hrc Hpage Hct Hsite Hfind recorded_with.
  split; [|split; [|split; [|split; [|split]]]].
  6:{ intros page_id change_type site_id kwargs Hchange Hkw.
      destruct (record_content_change_stored change h (VStr "medium") w) as (d & Hd & Hp);
        try assumption.
      - unfold chosen_priority. rewrite Hchange. unfold new_ContentChange.
        cbn [cc_priority]. unfold dict_get_default. rewrite Hkw. reflexivity.
      - exists d. split; assumption. }
  - intros given Hgiven Hne.
    destruct (record_content_change_stored change h (VStr given) w) as (d & Hd & Hp);
      try assumption.
    + unfold chosen_priority. rewrite Hgiven. simpl.
      destruct given; [contradiction|reflexivity].
    + exists d. split; assumption.
  - intros derived Hnone Hder.
    destruct (record_content_change_stored change h (VStr derived) w) as (d & Hd & Hp);
      try assumption.
    + unfold chosen_priority. now rewrite Hnone, Hder.
    + exists d. split; assumption.
  - intros context. unfold _determine_change_priority.
    destruct (if truthy context then context else VDict []); reflexivity.
  - intros context. unfold _determine_change_priority.
    destruct context as [|kv r]; cbn [truthy]; cbn -[dict_get_default truthy orb].
    + reflexivity.
    + destruct (truthy _ || truthy _); reflexivity.
  - intros context ratio Hr. unfold _determine_change_priority.
    destruct context as [|kv r].
    + cbn in Hr. inversion Hr; subst. reflexivity.
    + cbn [truthy]. cbn -[dict_get_default gt_float Qcompare].
      unfold gt_float. rewrite Hr.
      destruct (ratio ?= 5 # 10)%Q; try reflexivity;
        destruct (ratio ?= 1 # 10)%Q; reflexivity.
Qed.

End RecordChange.

Lemma record_content_change_priority_witness :
  exists d,
    get_coll content_changes
      (db (snd (record_content_change (rt := symbolic_runtime) an_unranked_change
                  one_page_world)))
    = (get_coll content_changes (db one_page_world) ++ [d])%list
    /\ dict_get "priority" d = Some (VStr "high").
Proof.
  refine (proj1 (proj2 (record_content_change_priority (rt := symbolic_runtime)
            an_unranked_change "00000000000000000000003c" one_page_world _ _ _ _ _ _ _))
            "high" _ _).
  - reflexivity.
  - reflexivity.
  - reflexivity.
  - reflexivity.
  - reflexivity.
  - reflexivity.
  - intros _. exists a_page. vm_compute. reflexivity.
  - reflexivity.
  - vm_compute. reflexivity.
Defined.

(** The failing input: a modified page whose content changed by six
    tenths, reported by a change that was given no priority, is recorded
    with the constructor's default priority, medium, and not with high,
    whatever the runtime. *)
Lemma record_content_change_keeps_default_priority :
  ~ (exists rt : PyRuntime,
        map (dict_get "priority")
          (get_coll content_changes
             (db (snd (record_content_change (rt := rt) a_change one_page_world))))
        = [Some (VStr "high")]).
Proof.
  intros [rt H]. vm_compute in H. discriminate H.
Qed.

(** The record that is stored instead. *)
Example record_content_change_default_is_medium :
  map (dict_get "priority")
    (get_coll content_changes
       (db (snd (record_content_change (rt := symbolic_runtime) a_change one_page_world))))
  = [Some (VStr "medium")].
Proof. vm_compute. reflexivity. Qed.

(** ** Archival *)

Lemma filter_all {A} (f : A -> bool) l :
  (forall x, In x l -> f x = true) -> filter f l = l.
Proof.
  induction l as [|a r IH]; intros H; [reflexivity|].
  simpl. rewrite (H a (or_introl eq_refl)). f_equal. apply IH.
  intros x Hx. apply H. now right.
Qed.

Lemma filter_none {A} (f : A -> bool) l :
  (forall x, In x l -> f x = false) -> filter f l = [].
Proof.
  induction l as [|a r IH]; intros H; [reflexivity|].
  simpl. rewrite (H a (or_introl eq_refl)). apply IH.
  intros x Hx. apply H. now right.
Qed.

Lemma NoDup_app_disjoint {A} (l1 l2 : list A) :
  NoDup (l1 ++ l2) -> forall x, In x l1 -> In x l2 -> False.
Proof.
  induction l1 as [|a r IH]; intros H x H1 H2; [destruct H1|].
  simpl in H. inversion H as [|? ? Hn Hr]; subst.
  destruct H1 as [->|H1].
  - apply Hn. apply in_or_app. now right.
  - exact (IH Hr x H1 H2).
Qed.

Lemma NoDup_app_l {A} (l1 l2 : list A) : NoDup (l1 ++ l2) -> NoDup l1.
Proof.
  induction l1 as [|a r IH]; intros H; [constructor|].
  simpl in H. inversion H as [|? ? Hn Hr]; subst. constructor.
  - intros Hin. apply Hn. apply in_or_app. now left.
  - now apply IH.
Qed.

Lemma NoDup_app_r {A} (l1 l2 : list A) : NoDup (l1 ++ l2) -> NoDup l2.
Proof.
  induction l1 as [|a r IH]; intros H; [exact H|].
  simpl in H. inversion H; subst. now apply IH.
Qed.

Lemma NoDup_app_drop_middle {A} (l1 l2 l3 : list A) :
  NoDup (l1 ++ l2 ++ l3) -> NoDup (l1 ++ l3).
Proof.
  induction l1 as [|a r IH]; intros H.
  - simpl in *. now apply NoDup_app_r in H.
  - simpl in *. inversion H as [|? ? Hn Hr]; subst. constructor.
    + intros Hin. apply Hn. apply in_app_or in Hin as [Hin|Hin].
      * apply in_or_app. now left.
      * apply in_or_app. right. apply in_or_app. now right.
    + now apply IH.
Qed.

Lemma distinct_oids_spec l :
  distinct_oids l = true ->
  Forall (fun d => oid_of d <> None) l /\ NoDup (map oid_of l).
Proof.
  induction l as [|d r IH]; intros H; [split; constructor|].
  simpl in H. destruct (oid_of d) as [h|] eqn:Hd; [|discriminate].
  apply andb_true_iff in H as [Hn Hr]. destruct (IH Hr) as [Hall Hnd].
  split.
  - constructor; [congruence|exact Hall].
  - simpl. rewrite Hd. constructor; [|exact Hnd].
    intros Hin. apply in_map_iff in Hin as (x & Hx & Hin).
    apply negb_true_iff in Hn.
    assert (existsb (fun x => match oid_of x with
                              | Some h' => String.eqb h' h
                              | None => false
                              end) r = true) as E.
    { apply existsb_exists. exists x. split; [exact Hin|].
      rewrite Hx. apply String.eqb_refl. }
    congruence.
Qed.

(** The [_id] of a document, as [doc['_id']] reads it. *)
Lemma oid_of_id d h : oid_of d = Some h -> dict_get "_id" d = Some (VOid h).
Proof.
  unfold oid_of. destruct (dict_get "_id" d) as [[]|]; try discriminate.
  now intros [= ->].
Qed.

Lemma doc_ids_oids batch w :
  Forall (fun d => oid_of d <> None) batch ->
  exists ids,
    doc_ids batch w = (Ok ids, w)
    /\ forall d h, oid_of d = Some h ->
         existsb (eq_match (Some (VOid h))) ids
         = existsb (fun x => match oid_of x with
                             | Some h' => String.eqb h' h
                             | None => false
                             end) batch.
Proof.
  induction 1 as [|d r Hd Hr IH].
  - exists []. split; reflexivity.
  - destruct IH as (ids & Hids & Hex).
    destruct (oid_of d) as [hd|] eqn:E; [|contradiction].
    exists (VOid hd :: ids). split.
    + cbn [doc_ids]. unfold bind at 1. unfold dict_item.
      rewrite (oid_of_id _ _ E). cbn [ret]. unfold bind at 1. rewrite Hids. reflexivity.
    + intros x h Hx. cbn [existsb]. rewrite (Hex x h Hx). rewrite E.
      f_equal. simpl. rewrite orb_false_r. apply String.eqb_sym.
Qed.

Lemma matches_id_in ids d h :
  oid_of d = Some h ->
  matches [("_id", VDict [("$in", VList ids)])] d = existsb (eq_match (Some (VOid h))) ids.
Proof.
  intros H. apply oid_of_id in H.
  unfold matches. cbn [forallb fst snd]. unfold match_field.
  cbn [is_operator_doc forallb fst snd]. 
  change (startswith "$" "$in") with true. cbn [andb forallb fst snd].
  change (get_path "_id" d) with (dict_get "_id" d). rewrite H.
  unfold eval_operator. cbn. rewrite !andb_true_r. reflexivity.
Qed.

Lemma In_oid_of (l : list doc) d h :
  In d l -> oid_of d = Some h ->
  existsb (fun x => match oid_of x with
                    | Some h' => String.eqb h' h
                    | None => false
                    end) l = true.
Proof.
  intros Hin Hd. apply existsb_exists. exists d. split; [exact Hin|].
  rewrite Hd. apply String.eqb_refl.
Qed.

Lemma not_In_oid_of (l : list doc) h :
  ~ In (Some h) (map oid_of l) ->
  existsb (fun x => match oid_of x with
                    | Some h' => String.eqb h' h
                    | None => false
                    end) l = false.
Proof.
  intros Hn. destruct (existsb _ l) eqn:E; [|reflexivity].
  exfalso. apply Hn. apply existsb_exists in E as (x & Hin & Hx).
  apply in_map_iff. exists x. split; [|exact Hin].
  destruct (oid_of x) as [h'|]; [|discriminate].
  apply String.eqb_eq in Hx. now subst.
Qed.

(** Deleting a batch by its ids removes the batch and nothing else. *)
Lemma delete_batch_by_ids (P B R : list doc) ids :
  Forall (fun d => oid_of d <> None) (P ++ B ++ R) ->
  NoDup (map oid_of (P ++ B ++ R)) ->
  (forall d h, oid_of d = Some h ->
     existsb (eq_match (Some (VOid h))) ids
     = existsb (fun x => match oid_of x with
                         | Some h' => String.eqb h' h
                         | None => false
                         end) B) ->
  filter (fun x => negb (matches [("_id", VDict [("$in", VList ids)])] x)) (P ++ B ++ R)
  = (P ++ R)%list.
Proof.
  intros Hall Hnd Hids.
  rewrite !map_app in Hnd.
  rewrite !filter_app.
  assert (Hm : forall x, In x (P ++ B ++ R) ->
             matches [("_id", VDict [("$in", VList ids)])] x
             = match oid_of x with
               | Some h => existsb (fun y => match oid_of y with
                                             | Some h' => String.eqb h' h
                                             | None => false
                                             end) B
               | None => false
               end).
  { intros x Hx. rewrite Forall_forall in Hall. specialize (Hall x Hx).
    destruct (oid_of x) as [h|] eqn:E; [|contradiction].
    rewrite (matches_id_in ids x h E). exact (Hids x h E). }
  rewrite (filter_all _ P), (filter_none _ B), (filter_all _ R); [reflexivity| | |].
  - intros x Hx. rewrite Hm by (apply in_or_app; right; apply in_or_app; now right).
    rewrite Forall_forall in Hall.
    assert (Hox := Hall x (in_or_app _ _ _ (or_intror (in_or_app _ _ _ (or_intror Hx))))).
    destruct (oid_of x) as [h|] eqn:E; [|contradiction].
    rewrite not_In_oid_of; [reflexivity|].
    intros HB. apply NoDup_app_r in Hnd.
    apply (NoDup_app_disjoint _ _ Hnd (Some h)); [exact HB|].
    rewrite <- E. now apply in_map.
  - intros x Hx. rewrite Hm by (apply in_or_app; right; apply in_or_app; now left).
    rewrite Forall_forall in Hall.
    assert (Hox := Hall x (in_or_app _ _ _ (or_intror (in_or_app _ _ _ (or_introl Hx))))).
    destruct (oid_of x) as [h|] eqn:E; [|contradiction].
    now rewrite (In_oid_of B x h Hx E).
  - intros x Hx. rewrite Hm by (apply in_or_app; now left).
    rewrite Forall_forall in Hall.
    assert (Hox := Hall x (in_or_app _ _ _ (or_introl Hx))).
    destruct (oid_of x) as [h|] eqn:E; [|contradiction].
    rewrite not_In_oid_of; [reflexivity|].
    intros HB.
    apply (NoDup_app_disjoint _ _ Hnd (Some h)).
    + rewrite <- E. now apply in_map.
    + apply in_or_app. now left.
Qed.

Section Archive.

Context {rt : PyRuntime}.

Lemma generate_archive_key_ok collection_name first_doc last_doc w :
  oid_of first_doc <> None -> oid_of last_doc <> None ->
  exists key, _generate_archive_key collection_name first_doc last_doc w = (Ok key, w).
Proof.
  intros H1 H2.
  destruct (oid_of first_doc) as [h1|] eqn:E1; [|contradiction].
  destruct (oid_of last_doc) as [h2|] eqn:E2; [|contradiction].
  unfold _generate_archive_key, bind, now, dict_item.
  rewrite (oid_of_id _ _ E1), (oid_of_id _ _ E2). cbn [ret]. eexists. reflexivity.
Qed.

Lemma archive_batch_to_s3_ok mgr documents s3_key compress w :
  dry_run mgr = false -> s3_faults w = [] ->
  _archive_batch_to_s3 mgr documents s3_key compress w
  = (Ok true, set_s3 (s3_objects w ++ [mkS3Object s3_key documents compress]) [] w).
Proof.
  intros Hd Hs. unfold _archive_batch_to_s3, try_except, bind. rewrite Hd. cbn [negb].
  unfold put_object. rewrite Hs. reflexivity.
Qed.

End Archive.

Lemma skipn_past {A} (P R : list A) skip :
  (length P <= skip)%nat -> (R <> [] -> length P = skip) ->
  skipn skip (P ++ R) = R.
Proof.
  intros Hle Heq. destruct R as [|r R].
  - rewrite app_nil_r. apply skipn_all2. exact Hle.
  - rewrite <- (Heq ltac:(discriminate)). rewrite skipn_app, Nat.sub_diag, skipn_all.
    reflexivity.
Qed.

Lemma Forall_app_drop_middle {A} (Q : A -> Prop) (l1 l2 l3 : list A) :
  Forall Q (l1 ++ l2 ++ l3) -> Forall Q (l1 ++ l3).
Proof.
  rewrite !Forall_app. tauto.
Qed.

Section ArchiveLoop.

Context {rt : PyRuntime}.
Variables (mgr : RetentionPolicyManager) (collection_name : string)
          (policy : RetentionPolicy) (query : doc) (batch_size : nat).
Hypothesis Hdry : dry_run mgr = false.
Hypothesis Hb : (1 <= batch_size)%nat.

Lemma archive_loop_calm fuel : forall P R skip count w,
  faults w = [] -> s3_faults w = [] ->
  get_coll collection_name (db w) = (P ++ R)%list ->
  (length P <= skip)%nat -> (R <> [] -> length P = skip) ->
  Forall (fun d => matches query d = true) (P ++ R) ->
  Forall (fun d => oid_of d <> None) (P ++ R) ->
  NoDup (map oid_of (P ++ R)) ->
  (length R < fuel)%nat ->
  exists w',
    archive_loop fuel mgr collection_name policy query batch_size skip count w
    = (Some (count + Z.of_nat (length (concat (archived_batches fuel batch_size R))), None), w')
    /\ get_coll collection_name (db w') = (P ++ passed_over fuel batch_size R)%list
    /\ map s3_documents (s3_objects w')
       = (map s3_documents (s3_objects w) ++ archived_batches fuel batch_size R)%list.
Proof.
  induction fuel as [|fuel IH]; intros P R skip count w Hf Hs Hc Hle Heq Hm Ho Hnd Hfuel;
    [lia|].
  cbn [archive_loop]. rewrite driver_no_faults by assumption.
  unfold coll_find. cbn [fst snd]. rewrite set_db_same, Hc.
  rewrite filter_all by (rewrite Forall_forall in Hm; exact Hm).
  rewrite (skipn_past P R skip Hle Heq).
  destruct R as [|r R0].
  - rewrite firstn_nil. cbn [archived_batches passed_over concat length].
    exists w. rewrite Z.add_0_r, !app_nil_r. repeat split. now rewrite Hc, app_nil_r.
  - destruct batch_size as [|b'] eqn:Eb; [lia|]. rewrite <- Eb in *.
    clear Eb b'.
    remember (firstn batch_size (r :: R0)) as B eqn:EB.
    remember (skipn batch_size (r :: R0)) as R1 eqn:ER1.
    assert (Hsplit : r :: R0 = (B ++ R1)%list).
    { subst B R1. symmetry. apply firstn_skipn. }
    assert (HlenB : length B = Nat.min batch_size (length (r :: R0))).
    { subst B. apply length_firstn. }
    destruct B as [|first_doc rest].
    { cbn [length] in HlenB. lia. }
    set (B := first_doc :: rest) in *.
    rewrite Hsplit in Hc, Hm, Ho, Hnd.
    assert (HoB : Forall (fun d => oid_of d <> None) B).
    { apply Forall_app in Ho as [_ Ho]. now apply Forall_app in Ho as [Ho _]. }
    assert (Hfirst : oid_of first_doc <> None).
    { rewrite Forall_forall in HoB. apply HoB. now left. }
    assert (Hlast : oid_of (last B first_doc) <> None).
    { rewrite Forall_forall in HoB. apply HoB.
      destruct (exists_last (l := B) ltac:(discriminate)) as (l' & a & Hl').
      rewrite Hl', last_last. apply in_or_app. right. now left. }
    destruct (generate_archive_key_ok collection_name first_doc (last B first_doc) w
                Hfirst Hlast) as [key Hkey].
    unfold bind at 1. rewrite Hkey.
    rewrite (archive_batch_to_s3_ok mgr B key (compression_enabled policy) w Hdry Hs).
    rewrite Hdry. cbn [negb].
    set (w2 := set_s3 _ [] w).
    destruct (doc_ids_oids B w2 HoB) as (ids & Hids & Hex).
    unfold bind at 1. rewrite Hids.
    rewrite driver_no_faults by exact Hf.
    unfold coll_delete_many. cbn [fst snd].
    change (db w2) with (db w). rewrite Hc.
    rewrite (delete_batch_by_ids P B R1 ids Ho Hnd Hex).
    set (w3 := set_db _ w2).
    assert (Hcount : Z.of_nat (length (P ++ B ++ R1)) - Z.of_nat (length (P ++ R1))
                     = Z.of_nat (length B)).
    { rewrite !length_app. lia. }
    rewrite Hcount.
    assert (Hc3 : get_coll collection_name (db w3)
                  = ((P ++ firstn batch_size R1) ++ skipn batch_size R1)%list).
    { subst w3. cbn [db set_db].
      rewrite get_coll_coll_of, set_coll_coll_of, String.eqb_refl.
      now rewrite <- app_assoc, firstn_skipn. }
    assert (HlenR1 : length R1 = (length (r :: R0) - batch_size)%nat).
    { subst R1. apply length_skipn. }
    destruct (IH (P ++ firstn batch_size R1)%list (skipn batch_size R1)
                (skip + batch_size)%nat (count + Z.of_nat (length B)) w3)
      as (w' & Hrun & Hcoll & Hs3).
    + exact Hf.
    + reflexivity.
    + exact Hc3.
    + rewrite length_app, length_firstn. lia.
    + intros Hne. rewrite length_app, length_firstn.
      assert (length (skipn batch_size R1) <> 0)%nat
        by (destruct (skipn batch_size R1); [contradiction|discriminate]).
      rewrite length_skipn in H.
      rewrite (Heq ltac:(discriminate)). lia.
    + rewrite <- app_assoc, firstn_skipn. now apply Forall_app_drop_middle in Hm.
    + rewrite <- app_assoc, firstn_skipn. now apply Forall_app_drop_middle in Ho.
    + rewrite <- app_assoc, firstn_skipn. rewrite !map_app in *.
      now apply NoDup_app_drop_middle in Hnd.
    + rewrite length_skipn. cbn [length] in *. lia.
    + exists w'.
      assert (Hskip2 : skipn (batch_size + batch_size) (B ++ R1) = skipn batch_size R1).
      { rewrite Hsplit in ER1, EB. rewrite <- skipn_skipn. now rewrite <- ER1. }
      cbn [archived_batches passed_over].
      rewrite <- Hsplit in *.
      rewrite Hrun. 
      rewrite Hskip2, <- EB, <- ER1.
      split; [|split].
      * cbn [concat]. rewrite length_app, Nat2Z.inj_add, Z.add_assoc. reflexivity.
      * rewrite Hcoll. now rewrite <- app_assoc.
      * rewrite Hs3. subst w3 w2. cbn [s3_objects set_db set_s3].
        rewrite map_app. cbn [map s3_documents]. now rewrite <- app_assoc.
Qed.

End ArchiveLoop.

Lemma archived_batches_nil rounds batch_size : archived_batches rounds batch_size [] = [].
Proof. now destruct rounds. Qed.

Lemma archived_batches_cons rounds batch_size l :
  l <> [] ->
  archived_batches (S rounds) batch_size l
  = firstn batch_size l
    :: archived_batches rounds batch_size (skipn (batch_size + batch_size) l).
Proof. destruct l; [contradiction|reflexivity]. Qed.

Lemma passed_over_nil rounds batch_size : passed_over rounds batch_size [] = [].
Proof. now destruct rounds. Qed.

Lemma passed_over_cons rounds batch_size l :
  l <> [] ->
  passed_over (S rounds) batch_size l
  = (firstn batch_size (skipn batch_size l)
     ++ passed_over rounds batch_size (skipn (batch_size + batch_size) l))%list.
Proof. destruct l; [contradiction|reflexivity]. Qed.

Lemma length_nonempty {A} (l : list A) : (0 < length l)%nat -> l <> [].
Proof. destruct l; simpl; [lia|discriminate]. Qed.

Lemma length_empty {A} (l : list A) : length l = 0%nat -> l = [].
Proof. destruct l; simpl; [reflexivity|discriminate]. Qed.

Section ArchiveClaim.

Context {rt : PyRuntime}.

(** C5. What [archive_old_documents] does when nothing fails: the read of
    the next batch skips as many documents as earlier batches held, although
    those have been deleted in between, so every second window of 1000 old
    documents is neither archived nor deleted.  Of 2500 old documents 1500
    are archived, in two objects, and documents 1001 to 2000 stay in the
    store, while the report says success. *)
Theorem archive_old_documents_passes_over_batches :
  forall (mgr : RetentionPolicyManager) (collection_name : string)
         (policy : RetentionPolicy) (days : Z) (bucket : string)
         (docs : list doc) (w : world),
    assoc_get collection_name (retention_policies mgr) = Some policy ->
    archive_enabled policy = true ->
    archive_after_days policy = Some days ->
    s3_client mgr = true ->
    s3_bucket mgr = Some bucket ->
    bucket <> "" ->
    dry_run mgr = false ->
    faults w = [] ->
    s3_faults w = [] ->
    get_coll collection_name (db w) = docs ->
    forallb (matches (archive_query policy days (clock w))) docs = true ->
    distinct_oids docs = true ->
    let out := archive_old_documents mgr collection_name w in
    let batches := archived_batches (S (length docs)) 1000 docs in
    let left := passed_over (S (length docs)) 1000 docs in
    fst out
    = Ok (Some (mkArchiveReport (Z.of_nat (length (concat batches))) "success"
                  (Some (clock w - days * seconds_per_day)) None))
    /\ get_coll collection_name (db (snd out)) = left
    /\ map s3_documents (s3_objects (snd out))
       = (map s3_documents (s3_objects w) ++ batches)%list
    /\ (length docs = 2500%nat ->
        batches = [firstn 1000 docs; skipn 2000 docs]
        /\ Z.of_nat (length (concat batches)) = 1500
        /\ left = firstn 1000 (skipn 1000 docs)
        /\ length left = 1000%nat).
Proof.
  intros mgr collection_name policy days bucket docs w Hpol Hen Hdays Hcl Hbk Hne Hdry
         Hf Hs Hc Hold Hids out batches left.
  destruct (distinct_oids_spec docs Hids) as [Ho Hnd].
  assert (Hm : Forall (fun d => matches (archive_query policy days (clock w)) d = true) docs).
  { apply Forall_forall. now apply forallb_forall. }
  destruct (archive_loop_calm mgr collection_name policy
              (archive_query policy days (clock w)) 1000 Hdry ltac:(lia)
              (S (length docs)) [] docs 0%nat 0 w Hf Hs Hc (Nat.le_refl 0)
              (fun _ => eq_refl) Hm Ho Hnd (Nat.lt_succ_diag_r _))
    as (w' & Hrun & Hcoll & Hs3).
  assert (Hout : out
                 = (Ok (Some (mkArchiveReport (Z.of_nat (length (concat batches))) "success"
                                (Some (clock w - days * seconds_per_day)) None)), w')).
  { subst out. unfold archive_old_documents, archive_old_documents_with.
    rewrite Hpol, Hen, Hdays, Hcl, Hbk. cbn [negb orb].
    assert (Hbne : negb (is_empty bucket) = true) by (destruct bucket; [contradiction|reflexivity]).
    rewrite Hbne. cbn [negb]. rewrite Hc.
    unfold archive_query in Hrun. rewrite Hrun. reflexivity. }
  rewrite Hout. cbn [fst snd].
  split; [reflexivity|]. split; [exact Hcoll|]. split; [exact Hs3|].
  intros Hlen. subst batches left.
  assert (H2000 : length (skipn (1000 + 1000) docs) = 500%nat)
    by (rewrite length_skipn; lia).
  assert (H4000 : skipn (1000 + 1000) (skipn (1000 + 1000) docs) = []).
  { apply length_empty. rewrite !length_skipn. lia. }
  assert (Hb : archived_batches (S (length docs)) 1000 docs
               = [firstn 1000 docs; skipn 2000 docs]).
  { rewrite archived_batches_cons by (apply length_nonempty; lia).
    rewrite Hlen.
    rewrite archived_batches_cons by (apply length_nonempty; lia).
    rewrite H4000, archived_batches_nil.
    rewrite (firstn_all2 (skipn (1000 + 1000) docs)) by lia. reflexivity. }
  assert (Hl : passed_over (S (length docs)) 1000 docs = firstn 1000 (skipn 1000 docs)).
  { rewrite passed_over_cons by (apply length_nonempty; lia).
    rewrite Hlen.
    rewrite passed_over_cons by (apply length_nonempty; lia).
    rewrite H4000, passed_over_nil, app_nil_r.
    replace (firstn 1000 (skipn 1000 (skipn (1000 + 1000) docs))) with (@nil doc).
    - now rewrite app_nil_r.
    - symmetry. apply length_empty. rewrite length_firstn, !length_skipn. lia. }
  rewrite Hb, Hl. split; [reflexivity|]. split; [|split; [reflexivity|]].
  - cbn [concat]. rewrite !length_app, length_firstn, length_skipn. cbn [length]. lia.
  - rewrite length_firstn, length_skipn. lia.
Qed.

End ArchiveClaim.

Lemma archive_old_documents_passes_over_batches_witness :
  fst (archive_old_documents (rt := symbolic_runtime) archiving_manager "crawl_sessions"
         (old_sessions_world 3))
  = Ok (Some (mkArchiveReport 3 "success" (Some 864000) None)).
Proof.
  refine (proj1 (archive_old_documents_passes_over_batches (rt := symbolic_runtime)
            archiving_manager "crawl_sessions"
            (mkRetentionPolicy "crawl_sessions" "start_time" 90 true (Some 90) true)
            90 "archive-bucket" (map an_old_session (seq 1 3)) (old_sessions_world 3)
            _ _ _ _ _ _ _ _ _ _ _ _)).
  - reflexivity.
  - reflexivity.
  - reflexivity.
  - reflexivity.
  - reflexivity.
  - discriminate.
  - reflexivity.
  - reflexivity.
  - reflexivity.
  - reflexivity.
  - vm_compute. reflexivity.
  - vm_compute. reflexivity.
Defined.

(** The same loop on five old sessions read in batches of two: the third
    and the fourth are passed over. *)
Example archive_five_in_batches_of_two :
  let out := archive_old_documents_with (rt := symbolic_runtime) 2 archiving_manager
               "crawl_sessions" (old_sessions_world 5) in
  fst out = Ok (Some (mkArchiveReport 3 "success" (Some 864000) None))
  /\ get_coll "crawl_sessions" (db (snd out)) = [an_old_session 3; an_old_session 4]
  /\ map s3_documents (s3_objects (snd out))
     = [[an_old_session 1; an_old_session 2]; [an_old_session 5]].
Proof. vm_compute. repeat split. Qed.

(** ** The normal form of a URL, part by part *)

Lemma is_empty_app a b : is_empty (a ++ b) = is_empty a && is_empty b.
Proof. now destruct a. Qed.

Lemma rstrip_app c a b :
  rstrip c (a ++ b) = if is_empty (rstrip c b) then rstrip c a else a ++ rstrip c b.
Proof.
  induction a as [|x a IH]; simpl.
  - destruct (rstrip c b); reflexivity.
  - rewrite IH. destruct (is_empty (rstrip c b)) eqn:E; [reflexivity|].
    rewrite is_empty_app, E, andb_false_r, andb_false_r. reflexivity.
Qed.

Lemma rstrip_idempotent c s : rstrip c (rstrip c s) = rstrip c s.
Proof.
  induction s as [|x s IH]; [reflexivity|].
  simpl. destruct (Ascii.eqb x c && is_empty (rstrip c s)) eqn:E; [reflexivity|].
  simpl. rewrite IH, E. reflexivity.
Qed.

Lemma rstrip_without c s : contains_char c s = false -> rstrip c s = s.
Proof.
  induction s as [|x s IH]; [reflexivity|].
  simpl. intros H. apply orb_false_iff in H as [Hx Hs].
  rewrite Hx, (IH Hs). reflexivity.
Qed.

Lemma printable_app a b : printable (a ++ b) = printable a && printable b.
Proof. apply string_forallb_app. Qed.

Lemma remove_unsafe_printable s : printable s = true -> remove_unsafe s = s.
Proof.
  induction s as [|x s IH]; [reflexivity|].
  unfold printable. simpl. intros H. apply andb_true_iff in H as [Hx Hs].
  unfold is_unsafe_byte. apply Nat.ltb_lt in Hx.
  replace (Nat.eqb (nat_of_ascii x) 9) with false by (symmetry; apply Nat.eqb_neq; lia).
  replace (Nat.eqb (nat_of_ascii x) 10) with false by (symmetry; apply Nat.eqb_neq; lia).
  replace (Nat.eqb (nat_of_ascii x) 13) with false by (symmetry; apply Nat.eqb_neq; lia).
  simpl. now rewrite (IH Hs).
Qed.

Lemma lstrip_c0_printable s : printable s = true -> lstrip_c0 s = s.
Proof.
  destruct s as [|x s]; [reflexivity|].
  unfold printable. simpl. intros H. apply andb_true_iff in H as [Hx _].
  apply Nat.ltb_lt in Hx.
  replace (Nat.leb (nat_of_ascii x) 32) with false by (symmetry; apply Nat.leb_gt; lia).
  reflexivity.
Qed.

Lemma is_scheme_char_printable a :
  is_scheme_char a = true ->
  Nat.ltb 32 (nat_of_ascii a) = true /\ Ascii.eqb a ":" = false.
Proof. destruct a as [[] [] [] [] [] [] [] []]; vm_compute; intuition discriminate. Qed.

Lemma scheme_chars_printable s :
  string_forallb is_scheme_char s = true ->
  printable s = true /\ contains_char ":" s = false.
Proof.
  induction s as [|x s IH]; [now split|].
  unfold printable. simpl. intros H. apply andb_true_iff in H as [Hx Hs].
  destruct (is_scheme_char_printable x Hx) as [H1 H2]. destruct (IH Hs) as [H3 H4].
  unfold printable in H3. now rewrite H1, H2, H3, H4.
Qed.

Lemma split_once_at c a b :
  contains_char c a = false -> split_once c (a ++ String c b) = Some (a, b).
Proof.
  intros H. apply split_once_none in H.
  rewrite (split_once_app_none _ _ _ H), split_once_here, sapp_nil_r. reflexivity.
Qed.

Lemma split_at_first_app p host tail :
  string_forallb (fun a => negb (p a)) host = true ->
  match tail with EmptyString => true | String d _ => p d end = true ->
  split_at_first p (host ++ tail) = (host, tail).
Proof.
  intros Hh Ht. induction host as [|x host IH].
  - simpl. destruct tail as [|d t]; [reflexivity|]. simpl. now rewrite Ht.
  - simpl in Hh. apply andb_true_iff in Hh as [Hx Hh].
    simpl. apply negb_true_iff in Hx. rewrite Hx, (IH Hh). reflexivity.
Qed.

Lemma no_netloc_delim host :
  contains_char "/" host = false -> contains_char "?" host = false ->
  contains_char "#" host = false ->
  string_forallb (fun a => negb (is_netloc_delim a)) host = true.
Proof.
  induction host as [|x host IH]; [reflexivity|].
  simpl. intros H1 H2 H3.
  apply orb_false_iff in H1 as [A1 B1]. apply orb_false_iff in H2 as [A2 B2].
  apply orb_false_iff in H3 as [A3 B3].
  unfold is_netloc_delim. rewrite A1, A2, A3. simpl. now apply IH.
Qed.

Lemma is_empty_eq s : is_empty s = true -> s = "".
Proof. destruct s; [reflexivity|discriminate]. Qed.

Lemma rstrip_app_keep c a b :
  is_empty (rstrip c b) = false -> rstrip c (a ++ b) = a ++ rstrip c b.
Proof. intros H. now rewrite rstrip_app, H. Qed.

Lemma rstrip_cons_keep c a s :
  is_empty (rstrip c s) = false -> rstrip c (String a s) = String a (rstrip c s).
Proof. intros H. cbn [rstrip]. now rewrite H, andb_false_r. Qed.

Lemma rstrip_other c a s :
  Ascii.eqb a c = false -> rstrip c (String a s) = String a (rstrip c s).
Proof. intros H. cbn [rstrip]. now rewrite H. Qed.

Lemma rstrip_after_host host p :
  is_empty host = false -> contains_char "/" host = false ->
  rstrip "/" (host ++ p) = host ++ rstrip "/" p
  /\ is_empty (host ++ rstrip "/" p) = false.
Proof.
  intros He Hs. split.
  - rewrite rstrip_app. destruct (is_empty (rstrip "/" p)) eqn:E; [|reflexivity].
    rewrite (is_empty_eq _ E), sapp_nil_r. now apply rstrip_without.
  - now rewrite is_empty_app, He.
Qed.

Section NormalizeUrl.

Context {rt : PyRuntime}.

(** [urlparse] finds the parts a URL without fragment was written from,
    when [urlsplit] accepts the netloc. *)
Lemma urlparse_parts sch host p q :
  is_scheme sch = true -> is_host host = true -> is_path p = true -> is_query q = true ->
  urlparse (url_of sch host p q "")
  = match netloc_checks host with
    | Raise e => Raise e
    | Ok _ =>
        Ok (mkParseResult (lower sch) host (kept_path (lower sch) p)
              (if existsb (String.eqb (lower sch)) uses_params && contains_char ";" p
               then snd (_splitparams p) else "")
              q "")
    end
  /\ contains_char "#" (url_of sch host p q "") = false.
Proof.
  intros Hs Hh Hp Hq.
  unfold is_scheme in Hs. destruct sch as [|a pre]; [discriminate|].
  apply andb_true_iff in Hs as [Ha Hsc].
  destruct (scheme_chars_printable _ Hsc) as [Hsp Hscolon].
  unfold is_host in Hh. rewrite !andb_true_iff, !negb_true_iff in Hh.
  destruct Hh as ((((Hhe & Hhp) & Hh1) & Hh2) & Hh3).
  unfold is_path in Hp. rewrite !andb_true_iff, !negb_true_iff in Hp.
  destruct Hp as (((Hps & Hpp) & Hp1) & Hp2).
  unfold is_query in Hq. rewrite !andb_true_iff, !negb_true_iff in Hq.
  destruct Hq as (Hqp & Hq1).
  set (qpart := if is_empty q then "" else String "?" q).
  assert (Hqpp : printable qpart = true).
  { subst qpart. destruct (is_empty q); [reflexivity|]. unfold printable in *. simpl. exact Hqp. }
  assert (Hqh : contains_char "#" qpart = false).
  { subst qpart. destruct (is_empty q); [reflexivity|]. simpl. exact Hq1. }
  set (tail := p ++ qpart).
  assert (Hurl : url_of (String a pre) host p q ""
                 = String a pre ++ String ":" ("//" ++ host ++ tail)).
  { unfold url_of. cbn [is_empty]. subst tail qpart.
    rewrite sapp_nil_r. reflexivity. }
  assert (Htail_hash : contains_char "#" tail = false).
  { subst tail. rewrite contains_char_app. now rewrite Hp2, Hqh. }
  assert (Htail_start : match tail with
                        | EmptyString => true
                        | String d _ => is_netloc_delim d
                        end = true).
  { subst tail. destruct p as [|x p'].
    - subst qpart. simpl. destruct (is_empty q); reflexivity.
    - cbn [is_empty orb] in Hps. unfold startswith in Hps. cbn [String.prefix] in Hps.
      destruct (Ascii.ascii_dec "/" x) as [Hx|Hx]; [subst x; reflexivity|discriminate]. }
  assert (Hprint : printable (String a pre ++ String ":" ("//" ++ host ++ tail)) = true).
  { rewrite printable_app, Hsp. unfold printable. simpl.
    change (string_forallb _ (host ++ tail)) with (printable (host ++ tail)).
    subst tail. now rewrite !printable_app, Hhp, Hpp, Hqpp. }
  rewrite Hurl. split.
  2:{ assert (Hsh : contains_char "#" (String a pre) = false).
      { clear - Hsc. induction (String a pre) as [|x s IH]; [reflexivity|].
        simpl in *. apply andb_true_iff in Hsc as [Hx Hs]. rewrite (IH Hs).
        destruct x as [[] [] [] [] [] [] [] []]; try reflexivity; discriminate Hx. }
      rewrite contains_char_app, Hsh. cbn [append contains_char].
      rewrite contains_char_app, Hh3, Htail_hash. reflexivity. }
  unfold urlparse, urlsplit, netloc_checks.
  rewrite (lstrip_c0_printable _ Hprint), (remove_unsafe_printable _ Hprint).
  unfold split_scheme. rewrite (split_once_at _ _ _ Hscolon).
  rewrite Ha, Hsc. cbn [andb].
  change (split_netloc ("//" ++ host ++ tail))
    with (split_at_first is_netloc_delim (host ++ tail)).
  rewrite (split_at_first_app _ _ _ (no_netloc_delim _ Hh1 Hh2 Hh3) Htail_start).
  destruct (if xorb (contains_char "[" host) (contains_char "]" host)
            then Raise (ValueError "Invalid IPv6 URL")
            else if contains_char "[" host && contains_char "]" host
                 then _check_bracketed_netloc host else Ok tt) as [u|e]; [|reflexivity].
  assert (Hnone : split_once "#" tail = None) by (now apply split_once_none).
  rewrite Hnone.
  assert (Hq' : match split_once "?" tail with
                | Some (u, q0) => (u, q0)
                | None => (tail, "")
                end = (p, q)).
  { subst tail qpart. destruct q as [|x q'].
    - cbn [is_empty]. rewrite sapp_nil_r.
      apply split_once_none in Hp1. now rewrite Hp1.
    - cbn [is_empty]. now rewrite (split_once_at _ _ _ Hp1). }
  rewrite Hq'.
  destruct (_checknetloc host) as [u'|e]; [|reflexivity].
  cbn [path scheme netloc query fragment params]. unfold kept_path.
  destruct (existsb (String.eqb (lower (String a pre))) uses_params && contains_char ";" p).
  - destruct (_splitparams p). reflexivity.
  - reflexivity.
Qed.

(** The normal form of a URL given by its parts. *)
Lemma normalize_url_of_parts :
  forall sch host p q f : string,
    is_scheme sch = true ->
    is_host host = true ->
    is_path p = true ->
    is_query q = true ->
    _normalize_url (url_of sch host p q f)
    = match netloc_checks host with
      | Raise e => Raise e
      | Ok _ =>
          Ok (lower sch ++ "://" ++ host ++ rstrip "/" (kept_path (lower sch) p)
              ++ (if is_empty q then "" else String "?" (rstrip "/" q)))
      end.
Proof.
  intros sch host p q f Hs Hh Hp Hq.
  destruct (urlparse_parts sch host p q Hs Hh Hp Hq) as [Hparse Hhash].
  assert (Hdrop : _normalize_url (url_of sch host p q f)
                  = _normalize_url (url_of sch host p q "")).
  { destruct f as [|x f']; [reflexivity|].
    rewrite <- (normalize_url_drops_fragment _ (String x f') Hhash).
    f_equal. unfold url_of. cbn [is_empty].
    rewrite sapp_nil_r. now rewrite !sapp_assoc. }
  rewrite Hdrop. unfold _normalize_url. rewrite Hparse.
  destruct (netloc_checks host) as [u|e]; [|reflexivity].
  cbn [scheme netloc path query].
  set (kp := kept_path (lower sch) p).
  unfold is_host in Hh. rewrite !andb_true_iff, !negb_true_iff in Hh.
  destruct Hh as ((((Hhe & Hhp) & Hh1) & Hh2) & Hh3).
  destruct (rstrip_after_host host kp Hhe Hh1) as [Hr Hne].
  assert (Hn : rstrip "/" (lower sch ++ "://" ++ host ++ kp)
               = lower sch ++ "://" ++ host ++ rstrip "/" kp).
  { assert (H0 : rstrip "/" ("://" ++ host ++ kp) = "://" ++ host ++ rstrip "/" kp).
    { change ("://" ++ host ++ kp) with (String ":" (String "/" (String "/" (host ++ kp)))).
      assert (H1 : rstrip "/" (String "/" (host ++ kp)) = String "/" (host ++ rstrip "/" kp)).
      { rewrite rstrip_cons_keep; rewrite Hr; [reflexivity|exact Hne]. }
      assert (H2 : rstrip "/" (String "/" (String "/" (host ++ kp)))
                   = String "/" (String "/" (host ++ rstrip "/" kp))).
      { rewrite rstrip_cons_keep; rewrite H1; reflexivity. }
      rewrite rstrip_cons_keep; rewrite H2; reflexivity. }
    rewrite rstrip_app_keep; rewrite H0; reflexivity. }
  rewrite Hn. destruct q as [|x q'].
  - cbn [is_empty negb]. rewrite <- Hn at 1. rewrite rstrip_idempotent, Hn.
    now rewrite sapp_nil_r.
  - cbn [is_empty negb].
    change ("?" ++ String x q') with (String "?" (String x q')).
    assert (Hq2 : rstrip "/" (String "?" (String x q'))
                  = String "?" (rstrip "/" (String x q'))).
    { now apply rstrip_other. }
    rewrite rstrip_app_keep; rewrite Hq2; [|reflexivity].
    now rewrite !sapp_assoc.
Qed.

(** [urlsplit] accepts every ASCII netloc without brackets. *)
Lemma netloc_checks_ascii host :
  isascii host = true ->
  contains_char "[" host = false ->
  contains_char "]" host = false ->
  netloc_checks host = Ok tt.
Proof.
  intros Ha H1 H2. unfold netloc_checks, _checknetloc.
  rewrite H1, H2, Ha. cbn [xorb andb]. now rewrite orb_true_r.
Qed.

(** C6 (amended). The normal form of a URL written from a scheme, a netloc,
    a path, a query and a fragment.  When [urlsplit] refuses the netloc
    (brackets that do not enclose an address, or a netloc outside ASCII
    that gains one of [/?#@:] under NFKC), the normalization fails with its
    [ValueError].  Otherwise the normal form is: the scheme in lower case,
    the netloc as it was written (it is not put in lower case), the path
    without the parameters of its last segment when the scheme uses
    parameters (as http and https do) and without its trailing slashes (a
    root path becomes empty), and the query, when there is one, without
    its trailing slashes; the fragment is dropped.  Every ASCII netloc
    without brackets is accepted. *)
Theorem normalize_url_by_parts :
  forall sch host p q f : string,
    is_scheme sch = true ->
    is_host host = true ->
    is_path p = true ->
    is_query q = true ->
    _normalize_url (url_of sch host p q f)
    = match netloc_checks host with
      | Raise e => Raise e
      | Ok _ =>
          Ok (lower sch ++ "://" ++ host ++ rstrip "/" (kept_path (lower sch) p)
              ++ (if is_empty q then "" else String "?" (rstrip "/" q)))
      end
    /\ (isascii host = true ->
        contains_char "[" host = false ->
        contains_char "]" host = false ->
        netloc_checks host = Ok tt).
Proof.
  intros sch host p q f Hs Hh Hp Hq. split.
  - now apply normalize_url_of_parts.
  - apply netloc_checks_ascii.
Qed.

End NormalizeUrl.

Lemma normalize_url_by_parts_witness :
  _normalize_url (rt := symbolic_runtime)
    "HTTPS://Plato.Stanford.EDU/entries/kant;v=2/?q=a/b/#life"
  = Ok "https://Plato.Stanford.EDU/entries/kant;v=2?q=a/b"
  /\ _normalize_url (rt := symbolic_runtime)
       "HTTPS://Plato.Stanford.EDU/entries/kant;v=2?q=a/b/#life"
     = Ok "https://Plato.Stanford.EDU/entries/kant?q=a/b".
Proof.
  split.
  - pose proof (normalize_url_by_parts (rt := symbolic_runtime)
                  "HTTPS" "Plato.Stanford.EDU" "/entries/kant;v=2/" "q=a/b/" "life"
                  eq_refl eq_refl eq_refl eq_refl) as [H1 H2].
    rewrite (H2 eq_refl eq_refl eq_refl) in H1. exact H1.
  - pose proof (normalize_url_by_parts (rt := symbolic_runtime)
                  "HTTPS" "Plato.Stanford.EDU" "/entries/kant;v=2" "q=a/b/" "life"
                  eq_refl eq_refl eq_refl eq_refl) as [H1 H2].
    rewrite (H2 eq_refl eq_refl eq_refl) in H1. exact H1.
Defined.

(** C6 (as stated) fails: whatever the runtime, the host of
    [HTTP://Example.COM/] is not put in lower case, and the root path is
    not kept. *)
Lemma normalize_url_keeps_host_case :
  ~ (exists rt : PyRuntime, _normalize_url "HTTP://Example.COM/" = Ok "http://example.com/").
Proof. intros [rt H]. vm_compute in H. discriminate H. Qed.

(** What the normalization makes of a host in capitals, a root path, a
    query that ends in a slash, path parameters, and a netloc that NFKC
    turns into one with a slash. *)
Example normalize_url_examples :
  let rt := symbolic_runtime in
  _normalize_url "HTTP://Example.COM/" = Ok "http://Example.COM"
  /\ _normalize_url "http://example.com/?next=/a/" = Ok "http://example.com?next=/a"
  /\ _normalize_url "http://example.com/a;v=1" = Ok "http://example.com/a"
  /\ _normalize_url "http://example.com/a;v=1/" = Ok "http://example.com/a;v=1"
  /\ _normalize_url ("http://ex" ++ String "226" (String "132" (String "128" "mple.com/a")))
     = Raise (ValueError ("netloc 'ex" ++ String "226" (String "132" (String "128" "mple.com"))
                          ++ "' contains invalid characters under NFKC normalization")).
Proof. cbv zeta. repeat split; reflexivity. Qed.

(** * Further properties of the code *)

(** ** The retry loop *)

Lemma failures_app ts1 ts2 b : failures (ts1 ++ ts2) b = failures ts2 (failures ts1 b).
Proof. unfold failures. apply fold_left_app. Qed.

Lemma failures_below ts : forall b,
  state b = CLOSED ->
  (failure_count b + length ts < failure_threshold (config b))%nat ->
  state (failures ts b) = CLOSED
  /\ failure_count (failures ts b) = (failure_count b + length ts)%nat
  /\ config (failures ts b) = config b.
Proof.
  induction ts as [|t ts IH]; intros b Hs Hlt.
  - simpl. repeat split; [exact Hs|lia].
  - change (failures (t :: ts) b) with (failures ts (record_failure t b)).
    assert (Hstep : state (record_failure t b) = CLOSED
                    /\ failure_count (record_failure t b) = S (failure_count b)
                    /\ config (record_failure t b) = config b).
    { unfold record_failure. rewrite Hs.
      destruct (Nat.leb (failure_threshold (config b)) (S (failure_count b))) eqn:E.
      - apply Nat.leb_le in E. simpl in Hlt. lia.
      - repeat split. }
    destruct Hstep as (S1 & S2 & S3).
    destruct (IH (record_failure t b) S1) as (I1 & I2 & I3).
    + rewrite S2, S3. simpl in Hlt. lia.
    + repeat split; [exact I1| |congruence]. rewrite I2, S2. simpl. lia.
Qed.

Lemma seq_attempts a : (a <= 3)%nat -> seq a (4 - a) = a :: seq (S a) (4 - S a).
Proof.
  intros H. destruct a as [|[|[|[|a]]]]; try reflexivity. lia.
Qed.

Lemma driver_fault {A} (op : database -> A * database) e rest w :
  faults w = Some e :: rest -> driver op w = (Raise e, set_faults rest w).
Proof. intros H. unfold driver. now rewrite H. Qed.

Lemma driver_answer {A} (op : database -> A * database) tail w :
  faults w = tail ->
  match tail with [] => True | None :: _ => True | Some _ :: _ => False end ->
  driver op w = (Ok (fst (op (db w))), set_db (snd (op (db w))) (set_faults (tl tail) w)).
Proof.
  intros H Ht. unfold driver. rewrite H.
  destruct tail as [|[e|] rest]; [|destruct Ht|]; destruct (op (db w)); cbn [fst snd tl].
  - f_equal. destruct w; cbn in *. now subst.
  - reflexivity.
Qed.

Lemma retry_loop_transient_step {A} self (op : database -> A * database) e rest a last w :
  faults w = Some e :: rest ->
  is_transient e = true ->
  (a < 3)%nat ->
  retry_loop self (driver op) 3 (seq a (4 - a)) last w
  = retry_loop self (driver op) 3 (seq (S a) (4 - S a)) (Some e)
      (set_clock (clock w + 2 ^ Z.of_nat a)
         (set_breaker self (record_failure (clock w) (get_breaker self w))
            (set_faults rest w))).
Proof.
  intros Hf He Ha.
  rewrite seq_attempts by lia. cbn [retry_loop].
  rewrite (driver_fault op e _ w Hf). rewrite He.
  unfold bind at 1. unfold breaker_record_failure at 1.
  assert (Ha3 : Nat.eqb a 3 = false) by (apply Nat.eqb_neq; lia).
  rewrite Ha3. unfold bind at 1. unfold sleep at 1.
  replace (Z.min (1 * 2 ^ Z.of_nat a) 60) with (2 ^ Z.of_nat a)
    by (destruct a as [|[|[|a]]]; try reflexivity; lia).
  reflexivity.
Qed.

Lemma retry_loop_answer_step {A} self (op : database -> A * database) tail a last w :
  match tail with [] => True | None :: _ => True | Some _ :: _ => False end ->
  faults w = tail ->
  (a <= 3)%nat ->
  retry_loop self (driver op) 3 (seq a (4 - a)) last w
  = (Ok (fst (op (db w))),
     set_breaker self (record_success (get_breaker self w))
       (set_db (snd (op (db w))) (set_faults (tl tail) w))).
Proof.
  intros Htail Hf Ha.
  rewrite seq_attempts by lia. cbn [retry_loop].
  rewrite (driver_answer op tail w Hf Htail).
  reflexivity.
Qed.

(** The loop over a driver call that meets [length es] transient faults and
    then an answer. *)
Lemma retry_loop_after_transients {A} self (op : database -> A * database) tail :
  match tail with [] => True | None :: _ => True | Some _ :: _ => False end ->
  forall es a last w,
    Forall (fun e => is_transient e = true) es ->
    (a + length es <= 3)%nat ->
    faults w = (map Some es ++ tail)%list ->
    let out := retry_loop self (driver op) 3 (seq a (4 - a)) last w in
    fst out = Ok (fst (op (db w)))
    /\ db (snd out) = snd (op (db w))
    /\ faults (snd out) = tl tail
    /\ clock (snd out) = clock w + (2 ^ Z.of_nat (a + length es) - 2 ^ Z.of_nat a)
    /\ exists ts, length ts = length es
         /\ get_breaker self (snd out)
            = record_success (failures ts (get_breaker self w)).
Proof.
  intros Htail. induction es as [|e es IH]; intros a last w Htr Hle Hf out; subst out.
  - cbn [map app length] in *. rewrite Nat.add_0_r in *.
    rewrite (retry_loop_answer_step self op tail a last w Htail Hf Hle).
    cbn [fst snd]. repeat split; try reflexivity.
    + cbn. lia.
    + exists []. split; [reflexivity|]. now rewrite get_set_breaker.
  - cbn [map app length] in *.
    inversion Htr as [|? ? He Hes]; subst.
    rewrite (retry_loop_transient_step self op e _ a last w Hf He ltac:(lia)).
    set (w2 := set_clock _ _).
    destruct (IH (S a) (Some e) w2 Hes ltac:(lia) eq_refl)
      as (I1 & I2 & I3 & I4 & ts & Hlen & Hb).
    repeat split.
    + exact I1.
    + exact I2.
    + exact I3.
    + rewrite I4. subst w2. cbn [clock set_clock set_breaker set_faults].
      replace (a + S (length es))%nat with (S a + length es)%nat by lia.
      rewrite Nat2Z.inj_succ, Z.pow_succ_r by lia. lia.
    + exists (clock w :: ts). split; [simpl; lia|].
      rewrite Hb. subst w2. rewrite get_breaker_set_clock, get_set_breaker.
      reflexivity.
Qed.

Lemma answers_next_spec tail :
  answers_next tail = true ->
  match tail with [] => True | None :: _ => True | Some _ :: _ => False end.
Proof. destruct tail as [|[e|] r]; simpl; [trivial|discriminate|trivial]. Qed.

Lemma can_execute_closed t b : state b = CLOSED -> can_execute t b = (true, b).
Proof. intros H. unfold can_execute. now rewrite H. Qed.

(** [_with_retry] over transient faults: a driver call that meets up to
    three transient errors and is then answered is run to its answer.  The
    store operation takes effect once, the wait before the k-th retry is
    [2^(k-1)] seconds, and a breaker that was closed and stays below its
    threshold is closed with no failure counted afterwards. *)
Theorem with_retry_survives_transient_faults :
  forall (A : Type) (self : string) (op : database -> A * database)
         (es : list exn) (tail : list (option exn)) (w : world),
    state (get_breaker self w) = CLOSED ->
    (failure_count (get_breaker self w) + length es
     < failure_threshold (config (get_breaker self w)))%nat ->
    Forall (fun e => is_transient e = true) es ->
    (length es <= 3)%nat ->
    faults w = (map Some es ++ tail)%list ->
    answers_next tail = true ->
    let out := _with_retry self (driver op) w in
    fst out = Ok (fst (op (db w)))
    /\ db (snd out) = snd (op (db w))
    /\ faults (snd out) = tl tail
    /\ clock (snd out) = clock w + (2 ^ Z.of_nat (length es) - 1)
    /\ state (get_breaker self (snd out)) = CLOSED
    /\ failure_count (get_breaker self (snd out)) = 0%nat.
Proof.
  intros A self op es tail w Hs Hlt Htr Hle Hf Hta out. subst out.
  rewrite with_retry_unfold, (can_execute_closed _ _ Hs). cbv beta iota.
  set (w1 := set_breaker self (get_breaker self w) w).
  assert (Hb1 : get_breaker self w1 = get_breaker self w) by apply get_set_breaker.
  destruct (retry_loop_after_transients self op tail (answers_next_spec _ Hta)
              es 0%nat None w1 Htr ltac:(lia) Hf)
    as (I1 & I2 & I3 & I4 & ts & Hlen & Hb).
  change (seq 0 (4 - 0)) with [0; 1; 2; 3]%nat in *.
  split; [exact I1|]. split; [exact I2|]. split; [exact I3|]. split; [|split].
  - rewrite I4. reflexivity.
  - rewrite Hb, Hb1.
    destruct (failures_below ts (get_breaker self w) Hs ltac:(lia)) as (F1 & F2 & F3).
    unfold record_success. now rewrite F1.
  - rewrite Hb, Hb1.
    destruct (failures_below ts (get_breaker self w) Hs ltac:(lia)) as (F1 & F2 & F3).
    unfold record_success. now rewrite F1.
Qed.

Lemma with_retry_survives_transient_faults_witness :
  let w := mkWorld 100 (mkDatabase [] 4096) []
             [Some NetworkTimeout; Some AutoReconnect; None] [] [] in
  let out := _with_retry "pages"
               (driver (coll_insert_one "pages" [("url", VStr "https://example.com/a")])) w in
  fst out = Ok (oid 4096)
  /\ get_coll "pages" (db (snd out))
     = [[("_id", oid 4096); ("url", VStr "https://example.com/a")]]
  /\ faults (snd out) = []
  /\ clock (snd out) = 103.
Proof.
  intros w out.
  destruct (with_retry_survives_transient_faults value "pages"
              (coll_insert_one "pages" [("url", VStr "https://example.com/a")])
              [NetworkTimeout; AutoReconnect] [None] w)
    as (H1 & H2 & H3 & H4 & _).
  - reflexivity.
  - vm_compute. lia.
  - repeat constructor.
  - simpl. lia.
  - reflexivity.
  - reflexivity.
  - subst out. rewrite H1, H2, H3, H4. repeat split.
Defined.

(** [_with_retry] at the end of its retries: a driver call that meets four
    transient errors in a row is given up with a [ConnectionError] that
    carries the last of them.  The waits were 1, 2 and 4 seconds, the store
    is as it was, and five failures have been recorded, the last attempt
    counting twice; so this one call opens a breaker that had counted
    none. *)
Theorem with_retry_exhausted_opens_breaker :
  forall (A : Type) (self : string) (op : database -> A * database)
         (e1 e2 e3 e4 : exn) (rest : list (option exn)) (w : world),
    state (get_breaker self w) = CLOSED ->
    failure_count (get_breaker self w) = 0%nat ->
    config (get_breaker self w) = default_config ->
    is_transient e1 = true -> is_transient e2 = true ->
    is_transient e3 = true -> is_transient e4 = true ->
    faults w = Some e1 :: Some e2 :: Some e3 :: Some e4 :: rest ->
    let out := _with_retry self (driver op) w in
    fst out = Raise (ConnectionError "Operation failed after all attempts" (Some e4))
    /\ db (snd out) = db w
    /\ faults (snd out) = rest
    /\ clock (snd out) = clock w + 7
    /\ state (get_breaker self (snd out)) = OPEN
    /\ failure_count (get_breaker self (snd out)) = 5%nat
    /\ last_failure_time (get_breaker self (snd out)) = Some (clock w + 7).
Proof.
  intros A self op e1 e2 e3 e4 rest w Hs Hc Hcfg T1 T2 T3 T4 Hf out. subst out.
  rewrite with_retry_unfold, (can_execute_closed _ _ Hs). cbv beta iota.
  change [0; 1; 2; 3]%nat with (seq 0 (4 - 0)).
  rewrite (retry_loop_transient_step self op e1 _ 0 None
             (set_breaker self (get_breaker self w) w) Hf T1 ltac:(lia)).
  erewrite (retry_loop_transient_step self op e2 _ 1);
    [|cbn [faults set_clock set_breaker set_faults]; reflexivity|exact T2|lia].
  erewrite (retry_loop_transient_step self op e3 _ 2);
    [|cbn [faults set_clock set_breaker set_faults]; reflexivity|exact T3|lia].
  cbn [seq Nat.sub retry_loop].
  erewrite (driver_fault op e4 rest);
    [|cbn [faults set_clock set_breaker set_faults]; reflexivity].
  rewrite T4.
  unfold bind, breaker_record_failure, retries_exhausted, raise.
  cbn [Nat.eqb fst snd].
  repeat rewrite ?get_set_breaker, ?get_breaker_set_clock.
  change (get_breaker self (set_faults _ ?x)) with (get_breaker self x).
  repeat rewrite ?get_set_breaker, ?get_breaker_set_clock.
  change (get_breaker self (set_faults _ ?x)) with (get_breaker self x).
  repeat rewrite ?get_set_breaker, ?get_breaker_set_clock.
  change (get_breaker self (set_faults _ ?x)) with (get_breaker self x).
  repeat rewrite ?get_set_breaker, ?get_breaker_set_clock.
  change (get_breaker self (set_faults _ ?x)) with (get_breaker self x).
  repeat rewrite ?get_set_breaker, ?get_breaker_set_clock.
  destruct (get_breaker self w) as [cfg st fc sc lt]. cbn in Hs, Hc, Hcfg. subst.
  cbn. rewrite !get_set_breaker. cbn.
  repeat split; try reflexivity; try (f_equal; lia); lia.
Qed.

Lemma with_retry_exhausted_opens_breaker_witness :
  state (get_breaker "pages"
           (snd (_with_retry "pages"
                   (driver (coll_insert_one "pages" [("url", VStr "https://example.com/a")]))
                   (mkWorld 100 (mkDatabase [] 4096) []
                      (repeat (Some NetworkTimeout) 4) [] []))))
  = OPEN.
Proof.
  refine (proj1 (proj2 (proj2 (proj2 (proj2
            (with_retry_exhausted_opens_breaker value "pages"
               (coll_insert_one "pages" [("url", VStr "https://example.com/a")])
               NetworkTimeout NetworkTimeout NetworkTimeout NetworkTimeout []
               (mkWorld 100 (mkDatabase [] 4096) [] (repeat (Some NetworkTimeout) 4) [] [])
               _ _ _ _ _ _ _ _)))))); reflexivity.
Defined.

(** [_with_retry] on an error that is not transient: the call is not
    repeated.  One entry of the fault script is used, no time passes, the
    store is as it was, the error comes back wrapped in a
    [RepositoryError], and one failure is recorded. *)
Theorem with_retry_does_not_repeat_other_errors :
  forall (A : Type) (self : string) (op : database -> A * database)
         (e : exn) (rest : list (option exn)) (w : world),
    state (get_breaker self w) = CLOSED ->
    is_transient e = false ->
    faults w = Some e :: rest ->
    let out := _with_retry self (driver op) w in
    fst out = Raise (RepositoryError e)
    /\ db (snd out) = db w
    /\ faults (snd out) = rest
    /\ clock (snd out) = clock w
    /\ get_breaker self (snd out) = record_failure (clock w) (get_breaker self w).
Proof.
  intros A self op e rest w Hs He Hf out. subst out.
  rewrite with_retry_unfold, (can_execute_closed _ _ Hs). cbv beta iota.
  cbn [retry_loop].
  rewrite (driver_fault op e rest (set_breaker self (get_breaker self w) w) Hf).
  rewrite He.
  unfold bind, breaker_record_failure, raise. cbn [fst snd].
  repeat split. rewrite get_set_breaker. cbn [clock set_faults set_breaker].
  f_equal. exact (get_set_breaker self _ w).
Qed.

Lemma with_retry_does_not_repeat_other_errors_witness :
  faults (snd (_with_retry "pages"
                 (driver (coll_insert_one "pages" [("url", VStr "https://example.com/a")]))
                 refusing_world))
  = repeat (Some (PyMongoError "E11000 duplicate key error")) 4.
Proof.
  refine (proj1 (proj2 (proj2
            (with_retry_does_not_repeat_other_errors value "pages"
               (coll_insert_one "pages" [("url", VStr "https://example.com/a")])
               (PyMongoError "E11000 duplicate key error")
               (repeat (Some (PyMongoError "E11000 duplicate key error")) 4)
               refusing_world _ _ _)))); reflexivity.
Defined.

(** ** The breaker on its way back *)

Lemma with_retry_answer {A} self (op : database -> A * database) w b1 :
  answers_next (faults w) = true ->
  can_execute (clock w) (get_breaker self w) = (true, b1) ->
  let out := _with_retry self (driver op) w in
  fst out = Ok (fst (op (db w)))
  /\ db (snd out) = snd (op (db w))
  /\ faults (snd out) = tl (faults w)
  /\ clock (snd out) = clock w
  /\ get_breaker self (snd out) = record_success b1.
Proof.
  intros Hn Hce out. subst out.
  rewrite with_retry_unfold, Hce. cbv beta iota.
  change [0; 1; 2; 3]%nat with (seq 0 (4 - 0)).
  rewrite (retry_loop_answer_step self op (faults w) 0 None (set_breaker self b1 w)
             (answers_next_spec _ Hn) eq_refl ltac:(lia)).
  cbn [fst snd]. repeat split. now rewrite !get_set_breaker.
Qed.

Lemma tl_answers_next (l : list (option exn)) : l = [] -> answers_next (tl l) = true.
Proof. now intros ->. Qed.

(** An open breaker lets calls through again once the recovery time has
    passed since the last failure, and three calls in a row that the store
    answers close it and clear its failure count; until the third it is
    half open. *)
Theorem breaker_closes_after_three_answers :
  forall (A : Type) (self : string) (op1 op2 op3 : database -> A * database)
         (dt1 dt2 dt3 t0 : Z) (w : world),
    state (get_breaker self w) = OPEN ->
    last_failure_time (get_breaker self w) = Some t0 ->
    config (get_breaker self w) = default_config ->
    faults w = [] ->
    60 <= clock w + dt1 - t0 ->
    let w1 := snd (run_calls self [(dt1, driver op1)] w) in
    let w2 := snd (run_calls self [(dt1, driver op1); (dt2, driver op2)] w) in
    let out := run_calls self [(dt1, driver op1); (dt2, driver op2); (dt3, driver op3)] w in
    Forall (fun r => ~ failed r) (fst out)
    /\ length (fst out) = 3%nat
    /\ state (get_breaker self w1) = HALF_OPEN
    /\ state (get_breaker self w2) = HALF_OPEN
    /\ state (get_breaker self (snd out)) = CLOSED
    /\ failure_count (get_breaker self (snd out)) = 0%nat.
Proof.
  intros A self op1 op2 op3 dt1 dt2 dt3 t0 w Hs Ht Hcfg Hf Hdt w1 w2 out.
  (* first call *)
  set (b0 := get_breaker self w) in *.
  set (wa := set_clock (clock w + dt1) w).
  assert (Hce1 : can_execute (clock wa) (get_breaker self wa)
                 = (true, mkCircuitBreaker default_config HALF_OPEN (failure_count b0) 0
                            (Some t0))).
  { unfold can_execute. change (get_breaker self wa) with b0.
    rewrite Hs, Ht, Hcfg. cbn [recovery_timeout default_config clock wa set_clock].
    destruct (60 <=? clock w + dt1 - t0) eqn:E; [reflexivity|].
    apply Z.leb_gt in E. lia. }
  destruct (with_retry_answer self op1 wa _ ltac:(now cbn; rewrite Hf) Hce1)
    as (A1 & A2 & A3 & A4 & A5).
  destruct (_with_retry self (driver op1) wa) as [r1 wb] eqn:E1. cbn [fst snd] in *.
  assert (Hfb : faults wb = []) by (rewrite A3; cbn; now rewrite Hf).
  (* second call *)
  set (wc := set_clock (clock wb + dt2) wb).
  assert (Hce2 : can_execute (clock wc) (get_breaker self wc)
                 = (true, get_breaker self wb)).
  { unfold can_execute. change (get_breaker self wc) with (get_breaker self wb).
    rewrite A5. reflexivity. }
  destruct (with_retry_answer self op2 wc _ ltac:(now cbn; rewrite Hfb) Hce2)
    as (B1 & B2 & B3 & B4 & B5).
  destruct (_with_retry self (driver op2) wc) as [r2 wd] eqn:E2. cbn [fst snd] in *.
  assert (Hfd : faults wd = []) by (rewrite B3; cbn; now rewrite Hfb).
  (* third call *)
  set (we := set_clock (clock wd + dt3) wd).
  assert (Hce3 : can_execute (clock we) (get_breaker self we)
                 = (true, get_breaker self wd)).
  { unfold can_execute. change (get_breaker self we) with (get_breaker self wd).
    rewrite B5, A5. reflexivity. }
  destruct (with_retry_answer self op3 we _ ltac:(now cbn; rewrite Hfd) Hce3)
    as (C1 & C2 & C3 & C4 & C5).
  destruct (_with_retry self (driver op3) we) as [r3 wf] eqn:E3. cbn [fst snd] in *.
  subst w1 w2 out. cbn [run_calls]. fold wa. rewrite E1. fold wc. rewrite E2.
  fold we. rewrite E3. cbn [fst snd].
  rewrite A1, B1, C1, C5, B5, A5.
  split; [repeat constructor; intros []|].
  repeat split.
Qed.

Lemma breaker_closes_after_three_answers_witness :
  state (get_breaker "pages"
           (snd (run_calls "pages"
                   [(61, driver (coll_find_one "pages" []));
                    (0, driver (coll_find_one "pages" []));
                    (0, driver (coll_find_one "pages" []))]
                   (mkWorld 1000 (mkDatabase [] 4096)
                      [("pages", mkCircuitBreaker default_config OPEN 5 0 (Some 1000))]
                      [] [] []))))
  = CLOSED.
Proof.
  refine (proj1 (proj2 (proj2 (proj2 (proj2
            (breaker_closes_after_three_answers (option doc) "pages"
               (coll_find_one "pages" []) (coll_find_one "pages" [])
               (coll_find_one "pages" []) 61 0 0 1000
               (mkWorld 1000 (mkDatabase [] 4096)
                  [("pages", mkCircuitBreaker default_config OPEN 5 0 (Some 1000))]
                  [] [] [])
               _ _ _ _ _)))))); try reflexivity.
  vm_compute. discriminate.
Defined.

(** ** The sanitizer *)

Lemma value_nested_ind (P : value -> Prop) :
  P VNone -> (forall b, P (VBool b)) -> (forall z, P (VInt z)) ->
  (forall q, P (VFloat q)) -> (forall s, P (VStr s)) -> (forall t, P (VDate t)) ->
  (forall h, P (VOid h)) ->
  (forall l, Forall P l -> P (VList l)) ->
  (forall d, Forall (fun kv => P (snd kv)) d -> P (VDict d)) ->
  forall v, P v.
Proof.
  intros HN HB HI HF HS HT HO HL HD.
  fix IH 1. intros v. destruct v as [|b|z|q|s|t|h|l|d].
  - exact HN.
  - apply HB.
  - apply HI.
  - apply HF.
  - apply HS.
  - apply HT.
  - apply HO.
  - apply HL.
    exact ((fix go (l : list value) : Forall P l :=
              match l with
              | [] => Forall_nil P
              | x :: r => Forall_cons x (IH x) (go r)
              end) l).
  - apply HD.
    exact ((fix go (d : list (string * value)) : Forall (fun kv => P (snd kv)) d :=
              match d with
              | [] => Forall_nil _
              | kv :: r => Forall_cons kv (IH (snd kv)) (go r)
              end) d).
Qed.

Lemma sanitize_dict d : sanitize_value (VDict d) = VDict (sanitize_items d).
Proof. reflexivity. Qed.

Lemma sanitize_list l : sanitize_value (VList l) = VList (sanitize_elems l).
Proof. reflexivity. Qed.

Lemma sanitize_items_cons k x r :
  sanitize_items ((k, x) :: r)
  = if startswith "$" k then sanitize_items r else (k, sanitize_value x) :: sanitize_items r.
Proof. unfold sanitize_items. cbn [sanitize_value]. now destruct (startswith "$" k). Qed.

Lemma sanitize_elems_cons x r :
  sanitize_elems (x :: r)
  = match x with VDict _ => sanitize_value x | _ => x end :: sanitize_elems r.
Proof. reflexivity. Qed.

Lemma operator_free_dict_cons k x r :
  operator_free (VDict ((k, x) :: r))
  = negb (startswith "$" k) && operator_free x && operator_free (VDict r).
Proof. reflexivity. Qed.

Lemma operator_free_list_cons x r :
  operator_free (VList (x :: r))
  = match x with VDict _ => operator_free x | _ => true end && operator_free (VList r).
Proof. reflexivity. Qed.

Lemma sanitize_value_operator_free v : operator_free (sanitize_value v) = true.
Proof.
  induction v using value_nested_ind; try reflexivity.
  - rewrite sanitize_list. induction H as [|x r Hx Hr IH]; [reflexivity|].
    rewrite sanitize_elems_cons, operator_free_list_cons, IH, andb_true_r.
    destruct x; try reflexivity. exact Hx.
  - rewrite sanitize_dict. induction H as [|[k x] r Hx Hr IH]; [reflexivity|].
    rewrite sanitize_items_cons. destruct (startswith "$" k) eqn:E; [exact IH|].
    rewrite operator_free_dict_cons, E, IH. cbn [snd] in Hx. now rewrite Hx.
Qed.

Lemma sanitize_value_idempotent v : sanitize_value (sanitize_value v) = sanitize_value v.
Proof.
  induction v using value_nested_ind; try reflexivity.
  - rewrite !sanitize_list. f_equal. induction H as [|x r Hx Hr IH]; [reflexivity|].
    rewrite !sanitize_elems_cons. rewrite IH. f_equal.
    destruct x; try reflexivity.
    rewrite sanitize_dict in *. rewrite Hx. reflexivity.
  - rewrite !sanitize_dict. f_equal. induction H as [|[k x] r Hx Hr IH]; [reflexivity|].
    rewrite sanitize_items_cons. destruct (startswith "$" k) eqn:E; [exact IH|].
    rewrite sanitize_items_cons, E, IH. cbn [snd] in Hx. now rewrite Hx.
Qed.

Lemma sanitize_items_keys d :
  map fst (sanitize_items d)
  = filter (fun k => negb (startswith "$" k)) (map fst d).
Proof.
  induction d as [|[k x] r IH]; [reflexivity|].
  rewrite sanitize_items_cons. cbn [map fst filter].
  destruct (startswith "$" k); cbn [negb map fst]; now rewrite IH.
Qed.

(** [_sanitize_input] refuses what is not a dict and nothing else.  Of a
    dict it keeps, in their order, exactly the keys that do not start with
    the operator sigil; what it returns has no such key in any embedded
    document it reaches, and sanitizing it again changes nothing. *)
Theorem sanitize_input_removes_operators :
  forall data : value,
    match data, _sanitize_input data with
    | VDict d, Ok d' =>
        map fst d' = filter (fun k => negb (startswith "$" k)) (map fst d)
        /\ operator_free (VDict d') = true
        /\ _sanitize_input (VDict d') = Ok d'
    | VDict _, Raise _ => False
    | _, Ok _ => False
    | _, Raise e => e = ValidationError "Input must be a dictionary"
    end.
Proof.
  intros data. destruct data as [|b|z|q|s|t|h|l|d]; try reflexivity.
  unfold _sanitize_input. rewrite !sanitize_dict.
  split; [apply sanitize_items_keys|]. split.
  - rewrite <- sanitize_dict. apply sanitize_value_operator_free.
  - pose proof (sanitize_value_idempotent (VDict d)) as H.
    rewrite !sanitize_dict in H. inversion H as [H1]. now rewrite !H1.
Qed.

(** ** [insert_one] and [update_one] on plain documents *)

Lemma sanitize_input_items d : _sanitize_input (VDict d) = Ok (sanitize_items d).
Proof. reflexivity. Qed.

Section PlainDocuments.

Context {rt : PyRuntime}.

Lemma stamped_for_insert_get k d t :
  String.eqb k "created_at" = false ->
  String.eqb k "updated_at" = false ->
  String.eqb k "content_hash" = false ->
  dict_get k (stamped_for_insert d t) = dict_get k d.
Proof.
  intros H1 H2 H3. unfold stamped_for_insert, dict_update. cbn [fold_left fst snd].
  destruct (dict_get "content" _);
    rewrite ?(dict_get_dict_set_other _ _ _ _ H3), (dict_get_dict_set_other _ _ _ _ H2),
      (dict_get_dict_set_other _ _ _ _ H1); reflexivity.
Qed.

Lemma stamped_for_insert_stamps d t :
  dict_get "created_at" (stamped_for_insert d t) = Some (VDate t)
  /\ dict_get "updated_at" (stamped_for_insert d t) = Some (VDate t).
Proof.
  unfold stamped_for_insert, dict_update. cbn [fold_left fst snd].
  destruct (dict_get "content" _); split;
    rewrite ?(dict_get_dict_set_other _ "content_hash") by reflexivity;
    rewrite ?dict_get_dict_set_same; try reflexivity;
    rewrite (dict_get_dict_set_other _ "updated_at") by reflexivity;
    apply dict_get_dict_set_same.
Qed.

Lemma stamped_for_insert_hash d t content :
  dict_get "content" d = Some content ->
  dict_get "content_hash" (stamped_for_insert d t)
  = Some (VStr (_generate_content_hash content)).
Proof.
  intros H. unfold stamped_for_insert, dict_update. cbn [fold_left fst snd].
  rewrite !(dict_get_dict_set_other "content") by reflexivity. rewrite H.
  apply dict_get_dict_set_same.
Qed.

(** [insert_one] of a document that brings no [_id], when the store
    answers: one document more, under a fresh ObjectId whose text is
    returned; it is stamped with the time of the call, its [content_hash]
    is the digest of its content whatever hash the caller put there, and
    every other field is what the sanitizer left of the caller's. *)
Theorem insert_one_stamps_and_hashes :
  forall (self : string) (d : doc) (w : world),
    faults w = [] ->
    ready self w ->
    dict_get "_id" (sanitize_items d) = None ->
    let out := insert_one self (VDict d) true w in
    let id := hex_fixed 24 (next_id (db w)) in
    exists stored,
      fst out = Ok (VStr id)
      /\ get_coll self (db (snd out)) = (get_coll self (db w) ++ [stored])%list
      /\ dict_get "_id" stored = Some (VOid id)
      /\ dict_get "created_at" stored = Some (VDate (clock w))
      /\ dict_get "updated_at" stored = Some (VDate (clock w))
      /\ (forall content,
            dict_get "content" (sanitize_items d) = Some content ->
            dict_get "content_hash" stored = Some (VStr (sha256_hex (py_str content))))
      /\ (forall k,
            String.eqb k "_id" = false ->
            String.eqb k "created_at" = false ->
            String.eqb k "updated_at" = false ->
            String.eqb k "content_hash" = false ->
            dict_get k stored = dict_get k (sanitize_items d)).
Proof.
  intros self d w Hf Hr Hid out id. subst out.
  rewrite (insert_one_answered self d (sanitize_items d) w Hf Hr (sanitize_input_items d)).
  assert (Hnoid : dict_get "_id" (stamped_for_insert (sanitize_items d) (clock w)) = None).
  { rewrite stamped_for_insert_get by reflexivity. exact Hid. }
  unfold coll_insert_one. rewrite Hnoid. cbn [fresh_oid fst snd db set_db py_str].
  rewrite get_coll_coll_of, set_coll_coll_of, String.eqb_refl.
  destruct (stamped_for_insert_stamps (sanitize_items d) (clock w)) as [Hc Hu].
  eexists. split; [reflexivity|]. split; [reflexivity|].
  split; [reflexivity|]. split; [exact Hc|]. split; [exact Hu|]. split.
  - intros content Hcontent. cbn [dict_get]. change (String.eqb "content_hash" "_id") with false.
    cbv iota. now apply stamped_for_insert_hash.
  - intros k K1 K2 K3 K4. cbn [dict_get]. rewrite K1.
    now apply stamped_for_insert_get.
Qed.

End PlainDocuments.

Lemma insert_one_stamps_and_hashes_witness :
  exists stored,
    fst (insert_one (rt := symbolic_runtime) "pages"
           (VDict [("url", VStr "https://example.com/a"); ("content", VStr "text");
                   ("content_hash", VStr "not the hash")]) true one_page_world)
    = Ok (VStr "000000000000000000001000")
    /\ get_coll "pages"
         (db (snd (insert_one (rt := symbolic_runtime) "pages"
                     (VDict [("url", VStr "https://example.com/a"); ("content", VStr "text");
                             ("content_hash", VStr "not the hash")]) true one_page_world)))
       = [a_page; stored]
    /\ dict_get "content_hash" stored = Some (VStr "sha256(text)").
Proof.
  destruct (insert_one_stamps_and_hashes (rt := symbolic_runtime) "pages"
              [("url", VStr "https://example.com/a"); ("content", VStr "text");
               ("content_hash", VStr "not the hash")] one_page_world)
    as (stored & H1 & H2 & _ & _ & _ & H6 & _).
  - reflexivity.
  - reflexivity.
  - reflexivity.
  - exists stored. split; [exact H1|]. split; [exact H2|].
    exact (H6 (VStr "text") eq_refl).
Defined.

Lemma split_all_without c s : contains_char c s = false -> split_all c s = [s].
Proof.
  induction s as [|a s IH]; [reflexivity|].
  simpl. intros H. apply orb_false_iff in H as [Ha Hs]. rewrite Ha, (IH Hs). reflexivity.
Qed.

Lemma set_path_flat k v d : contains_char "." k = false -> set_path k v d = dict_set k v d.
Proof. intros H. unfold set_path, split_path. now rewrite (split_all_without _ _ H). Qed.

Lemma dict_has_get k d : dict_has k d = false <-> dict_get k d = None.
Proof.
  induction d as [|[k' v'] r IH]; simpl; [tauto|].
  destruct (String.eqb k k'); simpl; [split; discriminate|exact IH].
Qed.

Lemma dict_has_dict_set k k' v d :
  dict_has k (dict_set k' v d) = String.eqb k k' || dict_has k d.
Proof.
  induction d as [|[k0 v0] r IH]; simpl.
  - now rewrite orb_false_r.
  - destruct (String.eqb k' k0) eqn:E; simpl.
    + apply String.eqb_eq in E. subst k0.
      destruct (String.eqb k k'); reflexivity.
    + rewrite IH. destruct (String.eqb k k0), (String.eqb k k'); reflexivity.
Qed.

Lemma distinct_keys_dict_set k v d :
  distinct_keys d = true -> distinct_keys (dict_set k v d) = true.
Proof.
  induction d as [|[k0 v0] r IH]; simpl; [reflexivity|].
  intros H. apply andb_true_iff in H as [H1 H2].
  destruct (String.eqb k k0) eqn:E; simpl.
  - now rewrite H1, H2.
  - rewrite dict_has_dict_set, (IH H2).
    rewrite String.eqb_sym, E. cbn [orb]. now rewrite H1.
Qed.

Lemma flat_keys_dict_set k v d :
  contains_char "." k = false -> flat_keys d = true -> flat_keys (dict_set k v d) = true.
Proof.
  intros Hk. unfold flat_keys. induction d as [|[k0 v0] r IH]; simpl.
  - now rewrite Hk.
  - intros H. apply andb_true_iff in H as [H1 H2].
    destruct (String.eqb k k0); simpl; rewrite H1; [exact H2|now apply IH].
Qed.

Lemma dict_has_sanitize_items k d :
  dict_has k d = false -> dict_has k (sanitize_items d) = false.
Proof.
  induction d as [|[k0 v0] r IH]; [reflexivity|].
  simpl. intros H. apply orb_false_iff in H as [H1 H2].
  rewrite sanitize_items_cons. destruct (startswith "$" k0); [now apply IH|].
  simpl. now rewrite H1, (IH H2).
Qed.

Lemma distinct_keys_sanitize_items d :
  distinct_keys d = true -> distinct_keys (sanitize_items d) = true.
Proof.
  induction d as [|[k0 v0] r IH]; [reflexivity|].
  simpl. intros H. apply andb_true_iff in H as [H1 H2].
  rewrite sanitize_items_cons. destruct (startswith "$" k0); [now apply IH|].
  simpl. apply negb_true_iff in H1. now rewrite (dict_has_sanitize_items _ _ H1), (IH H2).
Qed.

Lemma flat_keys_sanitize_items d :
  flat_keys d = true -> flat_keys (sanitize_items d) = true.
Proof.
  unfold flat_keys. induction d as [|[k0 v0] r IH]; [reflexivity|].
  simpl. intros H. apply andb_true_iff in H as [H1 H2].
  rewrite sanitize_items_cons. destruct (startswith "$" k0); [now apply IH|].
  simpl. now rewrite H1, (IH H2).
Qed.

(** A [$set] of flat fields, field by field. *)
Lemma set_fields_other fields : forall k d,
  flat_keys fields = true ->
  dict_has k fields = false ->
  dict_get k (fold_left (fun a kv => set_path (fst kv) (snd kv) a) fields d) = dict_get k d.
Proof.
  induction fields as [|[k0 v0] r IH]; intros k d Hflat Hk; [reflexivity|].
  unfold flat_keys in Hflat. simpl in Hflat, Hk.
  apply andb_true_iff in Hflat as [F1 F2]. apply orb_false_iff in Hk as [K1 K2].
  apply negb_true_iff in F1.
  cbn [fold_left fst snd]. rewrite (IH k _ F2 K2), (set_path_flat _ _ _ F1).
  now apply dict_get_dict_set_other.
Qed.

Lemma set_fields_same fields : forall k v d,
  flat_keys fields = true ->
  distinct_keys fields = true ->
  dict_get k fields = Some v ->
  dict_get k (fold_left (fun a kv => set_path (fst kv) (snd kv) a) fields d) = Some v.
Proof.
  induction fields as [|[k0 v0] r IH]; intros k v d Hflat Hd Hk; [discriminate|].
  pose proof Hflat as Hflat0.
  unfold flat_keys in Hflat. simpl in Hflat, Hd, Hk.
  apply andb_true_iff in Hflat as [F1 F2]. apply andb_true_iff in Hd as [D1 D2].
  apply negb_true_iff in F1. apply negb_true_iff in D1.
  cbn [fold_left fst snd]. rewrite (set_path_flat _ _ _ F1).
  destruct (String.eqb k k0) eqn:E.
  - apply String.eqb_eq in E. subst k0. inversion Hk; subst v0.
    rewrite (set_fields_other r k _ F2 D1). apply dict_get_dict_set_same.
  - now apply IH.
Qed.

Lemma update_first_split query f pre target post :
  (forall d, In d pre -> matches query d = false) ->
  matches query target = true ->
  update_first query f (pre ++ target :: post)
  = Some (target, f target, (pre ++ f target :: post)%list).
Proof.
  intros Hpre Ht. induction pre as [|p pre IH].
  - simpl. now rewrite Ht.
  - simpl. rewrite (Hpre p (or_introl eq_refl)).
    rewrite IH; [reflexivity|]. intros d Hd. apply Hpre. now right.
Qed.

Section UpdateOne.

Context {rt : PyRuntime}.

(** [update_one] with a plain dict of fields, when the store answers and
    the filter has a first match: that document gets every field the
    sanitizer left of the update, [updated_at] is the time of the call,
    [content_hash] is the digest of the new content when content is among
    the fields, whatever hash came with it, fields the update does not
    name are as before, no other document changes, and the answer is
    whether the document changed. *)
Theorem update_one_sets_fields_and_hash :
  forall (self : string) (query u : doc) (pre post : list doc) (target : doc) (w : world),
    faults w = [] ->
    ready self w ->
    sanitize_items query = query ->
    distinct_keys u = true ->
    flat_keys u = true ->
    get_coll self (db w) = (pre ++ target :: post)%list ->
    (forall d, In d pre -> matches query d = false) ->
    matches query target = true ->
    let out := update_one self (VDict query) (VDict u) false true w in
    exists new,
      get_coll self (db (snd out)) = (pre ++ new :: post)%list
      /\ fst out = Ok (VBool (negb (doc_eqb target new)))
      /\ dict_get "updated_at" new = Some (VDate (clock w))
      /\ (forall content,
            dict_get "content" (sanitize_items u) = Some content ->
            dict_get "content_hash" new = Some (VStr (sha256_hex (py_str content))))
      /\ (forall k v,
            dict_get k (sanitize_items u) = Some v ->
            String.eqb k "updated_at" = false ->
            String.eqb k "content_hash" = false ->
            dict_get k new = Some v)
      /\ (forall k,
            dict_get k (sanitize_items u) = None ->
            String.eqb k "updated_at" = false ->
            String.eqb k "content_hash" = false ->
            dict_get k new = dict_get k target).
Proof.
  intros self query u pre post target w Hf Hr Hq Hdist Hflat Hc Hpre Ht out.
  set (fields := stamped_for_update (sanitize_items u) (clock w)).
  set (new := apply_update [("$set", VDict fields)] target).
  assert (Hout : out = (Ok (VBool (negb (doc_eqb target new))),
                        set_db (set_coll self (pre ++ new :: post)%list (db w))
                          (answered self w))).
  { subst out. unfold update_one.
    rewrite !sanitize_input_items, Hq.
    unfold bind at 1. unfold lift at 1. unfold bind at 1. unfold lift at 1.
    unfold bind at 1. unfold now at 1.
    fold (stamped_for_update (sanitize_items u) (clock w)). fold fields.
    rewrite with_retry_answered by assumption.
    unfold coll_update_one. rewrite Hc.
    rewrite (update_first_split query _ pre target post Hpre Ht).
    fold new. cbn [fst snd modified_count upserted_id andb orb].
    destruct (doc_eqb target new); reflexivity. }
  assert (Hfields_flat : flat_keys fields = true /\ distinct_keys fields = true).
  { subst fields. unfold stamped_for_update.
    pose proof (flat_keys_sanitize_items u Hflat) as F.
    pose proof (distinct_keys_sanitize_items u Hdist) as D.
    destruct (dict_get "content" _); split;
      repeat first [apply flat_keys_dict_set; [reflexivity|]
                   |apply distinct_keys_dict_set]; assumption. }
  destruct Hfields_flat as [Ff Fd].
  assert (Hnew : forall k, dict_get k new
                           = match dict_get k fields with
                             | Some v => Some v
                             | None => dict_get k target
                             end).
  { intros k. subst new. unfold apply_update. cbn [fold_left].
    change (String.eqb "$set" "$set") with true. cbv iota.
    destruct (dict_get k fields) as [v|] eqn:E.
    - now apply set_fields_same.
    - apply set_fields_other; [exact Ff|]. now apply dict_has_get. }
  assert (Hupd : dict_get "updated_at" fields = Some (VDate (clock w))).
  { subst fields. unfold stamped_for_update.
    destruct (dict_get "content" _);
      rewrite ?(dict_get_dict_set_other _ "content_hash") by reflexivity;
      apply dict_get_dict_set_same. }
  assert (Hother : forall k, String.eqb k "updated_at" = false ->
                             String.eqb k "content_hash" = false ->
                             dict_get k fields = dict_get k (sanitize_items u)).
  { intros k K1 K2. subst fields. unfold stamped_for_update.
    destruct (dict_get "content" _);
      rewrite ?(dict_get_dict_set_other _ _ _ _ K2), (dict_get_dict_set_other _ _ _ _ K1);
      reflexivity. }
  exists new. rewrite Hout. cbn [fst snd db set_db].
  split. { now rewrite get_coll_coll_of, set_coll_coll_of, String.eqb_refl. }
  split; [reflexivity|]. split. { now rewrite Hnew, Hupd. }
  split; [|split].
  - intros content Hcontent. rewrite Hnew.
    assert (dict_get "content_hash" fields = Some (VStr (sha256_hex (py_str content)))) as ->;
      [|reflexivity].
    subst fields. unfold stamped_for_update.
    rewrite (dict_get_dict_set_other "content" "updated_at") by reflexivity.
    rewrite Hcontent. apply dict_get_dict_set_same.
  - intros k v Hk K1 K2. now rewrite Hnew, (Hother k K1 K2), Hk.
  - intros k Hk K1 K2. now rewrite Hnew, (Hother k K1 K2), Hk.
Qed.

End UpdateOne.

Lemma update_one_sets_fields_and_hash_witness :
  exists new,
    get_coll "pages"
      (db (snd (update_one (rt := symbolic_runtime) "pages" (VDict [("_id", oid 60)])
                  (VDict [("content", VStr "new text");
                          ("content_hash", VStr "a hash of something else")])
                  false true one_page_world)))
    = [new]
    /\ dict_get "content" new = Some (VStr "new text")
    /\ dict_get "content_hash" new = Some (VStr "sha256(new text)").
Proof.
  destruct (update_one_sets_fields_and_hash (rt := symbolic_runtime) "pages"
              [("_id", oid 60)]
              [("content", VStr "new text");
               ("content_hash", VStr "a hash of something else")]
              [] [] a_page one_page_world)
    as (new & H1 & _ & _ & H4 & H5 & _).
  - reflexivity.
  - reflexivity.
  - reflexivity.
  - reflexivity.
  - reflexivity.
  - reflexivity.
  - intros d [].
  - reflexivity.
  - exists new. split; [exact H1|]. split.
    + apply H5; reflexivity.
    + exact (H4 (VStr "new text") eq_refl).
Defined.

(** ** The queue *)

(** The retry delay doubles from one minute and is capped at one hour: it
    never shrinks as the retry count grows, it is [60 * 2^n] up to the
    fifth retry and one hour from the sixth on. *)
Theorem retry_delay_doubles_up_to_an_hour :
  forall n m : Z,
    0 <= n <= m ->
    60 <= _calculate_next_retry_delay n
    /\ _calculate_next_retry_delay n <= _calculate_next_retry_delay m
    /\ _calculate_next_retry_delay m <= 3600
    /\ (n <= 5 -> _calculate_next_retry_delay n = 60 * 2 ^ n)
    /\ (6 <= n -> _calculate_next_retry_delay n = 3600).
Proof.
  intros n m [Hn Hnm].
  rewrite !_calculate_next_retry_delay_spec by lia.
  assert (Hpos : 1 <= 2 ^ n) by (pose proof (Z.pow_pos_nonneg 2 n); lia).
  assert (Hmono : 2 ^ n <= 2 ^ m) by (apply Z.pow_le_mono_r; lia).
  repeat split.
  - apply Z.min_glb; lia.
  - apply Z.min_le_compat_r. lia.
  - apply Z.le_min_r.
  - intros H5. apply Z.min_l.
    assert (2 ^ n <= 2 ^ 5) by (apply Z.pow_le_mono_r; lia).
    change (2 ^ 5) with 32 in H. lia.
  - intros H6. apply Z.min_r.
    assert (2 ^ 6 <= 2 ^ n) by (apply Z.pow_le_mono_r; lia).
    change (2 ^ 6) with 64 in H. lia.
Qed.

Lemma retry_delay_doubles_up_to_an_hour_witness :
  _calculate_next_retry_delay 7 = 3600.
Proof.
  apply (retry_delay_doubles_up_to_an_hour 7 9); lia.
Defined.


Section QueueMarks.

Context {rt : PyRuntime}.

Lemma mark_task_processing_returns_false tid worker_id w :
  fst (mark_task_processing tid worker_id w) = Ok false.
Proof.
  unfold mark_task_processing. apply try_except_false.
  apply returns_bind; intros validated_task_id.
  apply returns_bind; intros t.
  apply returns_bind; intros result.
  apply returns_getattr_modified_count.
Qed.

Lemma complete_task_returns_false tid result w :
  fst (complete_task tid result w) = Ok false.
Proof.
  unfold complete_task. apply try_except_false.
  apply returns_bind; intros validated_task_id.
  apply returns_bind; intros t.
  apply returns_bind; intros r.
  apply returns_getattr_modified_count.
Qed.

Lemma mark_task_processing_keeps_stamp tid worker_id name :
  keeps (stamp_only name) (mark_task_processing tid worker_id).
Proof.
  pose proof (stamp_only_pre name) as P.
  unfold mark_task_processing. frame P.
  rewrite update_one_operator_document. apply keeps_update_one_stamp.
Qed.

Lemma complete_task_keeps_stamp tid result name :
  keeps (stamp_only name) (complete_task tid result).
Proof.
  pose proof (stamp_only_pre name) as P.
  unfold complete_task. frame P.
  rewrite update_one_operator_document. apply keeps_update_one_stamp.
Qed.

(** [mark_task_processing] and [complete_task] answer [False] on every
    input and leave every task as it is, [updated_at] stamps apart: no
    worker is recorded and no task becomes [completed].  Their updates
    travel inside [$set], which the sanitizer of [update_one] removes, and
    [.modified_count] is read on the [bool] that [update_one] returns. *)
Theorem queue_marks_store_nothing :
  forall (tid v : value) (w : world),
    (fst (mark_task_processing tid v w) = Ok false
     /\ contents processing_queue (snd (mark_task_processing tid v w))
        = contents processing_queue w)
    /\ (fst (complete_task tid v w) = Ok false
        /\ contents processing_queue (snd (complete_task tid v w))
           = contents processing_queue w).
Proof.
  intros tid v w. split; split.
  - apply mark_task_processing_returns_false.
  - apply (mark_task_processing_keeps_stamp tid v processing_queue w).
  - apply complete_task_returns_false.
  - apply (complete_task_keeps_stamp tid v processing_queue w).
Qed.

End QueueMarks.

Lemma select_first_only_last query sort l x :
  (forall d, In d l -> matches query d = false) ->
  matches query x = true ->
  select_first query sort (l ++ [x]) = Some (l, x, []).
Proof.
  intros Hl Hx. induction l as [|d r IH].
  - simpl. now rewrite Hx.
  - cbn [app select_first]. rewrite IH by (intros y Hy; apply Hl; now right).
    now rewrite (Hl d (or_introl eq_refl)).
Qed.

Section EnqueueDequeue.

Context {rt : PyRuntime}.

(** A task that is enqueued to run at once, while no task of the queue is
    due, is the task the next [dequeue_next_task] leases, at whatever time
    from then on: it comes back under the id [enqueue_task] returned, in
    status [processing], started at the time of the lease, with no retry
    counted. *)
Theorem enqueued_task_is_dequeued_next :
  forall (task : ProcessingTask) (t' : Z) (w : world),
    faults w = [] ->
    ready processing_queue w ->
    truthy (task_type task) = true ->
    json_serializable (task_payload task) = true ->
    task_scheduled_at task = VNone ->
    clock w <= t' ->
    (forall d, In d (get_coll processing_queue (db w)) ->
               matches (queue_query t' VNone) d = false) ->
    let out1 := enqueue_task task w in
    let out2 := dequeue_next_task VNone (set_clock t' (snd out1)) in
    exists h got,
      fst out1 = Ok (VStr h)
      /\ fst out2 = Ok (Some got)
      /\ task_id got = VOid h
      /\ task_type got = sanitize_value (task_type task)
      /\ task_priority got = sanitize_value (task_priority task)
      /\ task_status got = VStr "processing"
      /\ task_started_at got = VDate t'
      /\ task_scheduled_at got = VDate (clock w)
      /\ task_retry_count got = VInt 0.
Proof.
  intros task t' w Hf Hr Htype Hjson Hsched Ht' Hnone out1 out2.
  assert (H1 : exists stored,
             out1 = (Ok (VStr (hex_fixed 24 (next_id (db w)))),
                     set_db (set_coll processing_queue
                               (get_coll processing_queue (db w) ++ [stored])%list
                               (mkDatabase (collections (db w)) (N.succ (next_id (db w)))))
                       (answered processing_queue w))
             /\ dict_get "_id" stored = Some (VOid (hex_fixed 24 (next_id (db w))))
             /\ dict_get "status" stored = Some (VStr "pending")
             /\ dict_get "scheduled_at" stored = Some (VDate (clock w))
             /\ dict_get "task_type" stored = Some (sanitize_value (task_type task))
             /\ dict_get "priority" stored = Some (sanitize_value (task_priority task))
             /\ dict_get "retry_count" stored = Some (VInt 0)
             /\ dict_get "started_at" stored = None).
  { subst out1. unfold enqueue_task. rewrite Htype, Hjson, Hsched.
    cbn [negb andb truthy]. rewrite andb_false_r.
    unfold bind at 1. unfold now at 1.
    erewrite insert_one_answered; [|exact Hf|exact Hr|apply sanitize_input_items].
    rewrite !sanitize_items_cons. cbn [startswith String.prefix]. 
    change (sanitize_items []) with (@nil (string * value)).
    unfold coll_insert_one, stamped_for_insert, dict_update.
    cbn -[sanitize_value hex_fixed _generate_content_hash].
    eexists. split; [reflexivity|]. cbn -[sanitize_value hex_fixed]. repeat split. }
  destruct H1 as (stored & Hout1 & Sid & Sst & Ssch & Sty & Spr & Src & Ssa).
  set (w1 := set_clock t' (snd out1)) in *.
  assert (Hf1 : faults w1 = []) by (subst w1; rewrite Hout1; exact Hf).
  assert (Hq1 : get_coll processing_queue (db w1)
                = (get_coll processing_queue (db w) ++ [stored])%list).
  { subst w1. rewrite Hout1. cbn [snd db set_clock set_db].
    now rewrite get_coll_coll_of, set_coll_coll_of, String.eqb_refl. }
  assert (Hm : matches (queue_query t' VNone) stored = true).
  { unfold queue_query. cbn [truthy]. unfold matches, match_field.
    cbn [forallb fst snd is_operator_doc].
    change (get_path "status" stored) with (dict_get "status" stored).
    change (get_path "scheduled_at" stored) with (dict_get "scheduled_at" stored).
    rewrite Sst, Ssch. cbn [startswith String.prefix forallb fst snd andb].
    rewrite eval_lte_dates. cbn. rewrite ?andb_true_r. apply Z.leb_le. exact Ht'. }
  subst out2. rewrite (dequeue_next_task_unfold VNone w1 Hf1).
  change (clock w1) with t'. rewrite Hq1.
  rewrite (select_first_only_last _ queue_sort _ stored Hnone Hm).
  cbv zeta. rewrite Sid.
  unfold _document_to_task, bind, dict_item.
  destruct (leased_fields t' stored) as (Lid & Lst & Lsa).
  rewrite Lid, Sid. cbn [ret fst].
  exists (hex_fixed 24 (next_id (db w))). eexists.
  split; [now rewrite Hout1|]. split; [reflexivity|].
  cbn [task_id task_type task_priority task_status task_started_at task_scheduled_at
       task_retry_count].
  unfold dict_get_default. rewrite Lst, Lsa.
  unfold leased. rewrite !dict_get_dict_set_other by reflexivity.
  rewrite Sty, Spr, Ssch, Src. repeat split.
Qed.

End EnqueueDequeue.

Lemma enqueued_task_is_dequeued_next_witness :
  exists h got,
    fst (enqueue_task (rt := symbolic_runtime) a_new_task leased_task_world) = Ok (VStr h)
    /\ fst (dequeue_next_task VNone
              (set_clock 10005
                 (snd (enqueue_task (rt := symbolic_runtime) a_new_task leased_task_world))))
       = Ok (Some got)
    /\ task_id got = VOid h.
Proof.
  destruct (enqueued_task_is_dequeued_next (rt := symbolic_runtime) a_new_task 10005
              leased_task_world)
    as (h & got & H1 & H2 & H3 & _).
  - reflexivity.
  - reflexivity.
  - reflexivity.
  - reflexivity.
  - reflexivity.
  - vm_compute. discriminate.
  - intros d [Hd|[]]. subst d. reflexivity.
  - exists h, got. split; [exact H1|]. split; [exact H2|exact H3].
Defined.

(** ** Pages *)

Lemma matches_url n d :
  matches [("url", VStr n)] d = eq_match (dict_get "url" d) (VStr n).
Proof.
  unfold matches, match_field, get_path. cbn [forallb fst snd is_operator_doc].
  change (get_path_list (split_path "url") d) with (dict_get "url" d).
  apply andb_true_r.
Qed.

Lemma find_app_last {A} (p : A -> bool) l x :
  (forall y, In y l -> p y = false) -> p x = true -> find p (l ++ [x]) = Some x.
Proof.
  intros Hl Hx. induction l as [|a r IH]; simpl.
  - now rewrite Hx.
  - rewrite (Hl a (or_introl eq_refl)). apply IH. intros y Hy. apply Hl. now right.
Qed.

Section PageRoundTrip.

Context {rt : PyRuntime}.

(** A page that [create_page] stores can be read back with
    [get_page_by_url], under the URL it was created with or any URL with
    the same normal form (another fragment, say), as long as no page of
    any site had that normal form before: the look-up is by URL alone.  The
    page comes back under the id [create_page] returned, with the normal
    form as its URL, the digest of its content, and status [pending]; its
    id and site id are texts, as [find_one] makes them. *)
Theorem created_page_is_found_by_url :
  forall (page_data : PageCreate) (h normalized content url' : string) (w : world),
    faults w = [] ->
    ready sites_repository w ->
    ready pages_repository w ->
    pc_site_id page_data = VOid h ->
    site_known (VOid h) w ->
    pc_content page_data = VStr content ->
    _normalize_url (pc_url page_data) = Ok normalized ->
    _normalize_url url' = Ok normalized ->
    (forall p, In p (get_coll pages_repository (db w)) ->
               matches [("url", VStr normalized)] p = false) ->
    let out1 := create_page page_data w in
    let out2 := get_page_by_url url' (snd out1) in
    exists id page,
      fst out1 = Ok (VStr id)
      /\ fst out2 = Ok (Some page)
      /\ page_id page = VStr id
      /\ page_site_id page = VStr h
      /\ page_url page = VStr normalized
      /\ page_content page = VStr content
      /\ page_content_hash page = VStr (sha256_hex content)
      /\ page_processing_status page = VStr "pending".
Proof.
  intros page_data h normalized content url' w Hf Hrs Hrp Hsite Hknown Hcontent Hnorm Hnorm'
         Hfresh out1 out2.
  destruct (get_crawl_configuration_known h w Hf Hrs Hknown) as (cfg & Hcfg & Hcfgt).
  set (w0 := answered pages_repository (answered sites_repository w)).
  assert (Hr0 : ready pages_repository w0).
  { apply ready_answered. apply ready_answered_other; [reflexivity|exact Hrp]. }
  assert (Hnone : find (matches [("site_id", VOid h); ("url", VStr normalized)])
                    (get_coll pages_repository (db w)) = None).
  { destruct (find _ _) as [p|] eqn:E; [|reflexivity]. exfalso.
    apply find_some in E as [Hin Hm]. apply matches_site_url in Hm as [_ Hm].
    rewrite <- matches_url in Hm. rewrite (Hfresh p Hin) in Hm. discriminate. }
  assert (H1 : exists stored,
             out1 = (Ok (VStr (hex_fixed 24 (next_id (db w)))),
                     set_db (set_coll pages_repository
                               (get_coll pages_repository (db w) ++ [stored])%list
                               (mkDatabase (collections (db w)) (N.succ (next_id (db w)))))
                       (answered pages_repository w0))
             /\ dict_get "_id" stored = Some (VOid (hex_fixed 24 (next_id (db w))))
             /\ dict_get "site_id" stored = Some (VOid h)
             /\ dict_get "url" stored = Some (VStr normalized)
             /\ dict_get "content" stored = Some (VStr content)
             /\ dict_get "content_hash" stored = Some (VStr (sha256_hex content))
             /\ dict_get "processing_status" stored = Some (VStr "pending")).
  { subst out1. unfold create_page. rewrite Hsite. unfold bind at 1. rewrite Hcfg, Hcfgt.
    cbn [negb]. rewrite Hnorm. unfold bind at 1. unfold lift at 1.
    unfold bind at 1.
    rewrite find_one_answered; [| exact Hf | | reflexivity].
    2:{ apply ready_answered_other; [reflexivity|exact Hrp]. }
    cbn zeta. rewrite answered_db, Hnone. cbn [truthy_doc].
    rewrite Hcontent.
    unfold bind at 1. unfold now at 1. unfold bind at 1.
    fold w0.
    destruct (truthy (VStr content)) eqn:Etr; cbn [py_len_value ret].
    - erewrite insert_one_answered;
        [|exact Hf|exact Hr0|apply sanitize_input_items].
      rewrite !sanitize_items_cons. cbn [startswith String.prefix].
      change (sanitize_items []) with (@nil (string * value)).
      unfold coll_insert_one, stamped_for_insert, dict_update.
      cbn -[hex_fixed sha256_hex py_len].
      eexists. split; [reflexivity|]. cbn -[hex_fixed sha256_hex py_len]. repeat split.
    - erewrite insert_one_answered;
        [|exact Hf|exact Hr0|apply sanitize_input_items].
      rewrite !sanitize_items_cons. cbn [startswith String.prefix].
      change (sanitize_items []) with (@nil (string * value)).
      unfold coll_insert_one, stamped_for_insert, dict_update.
      cbn -[hex_fixed sha256_hex py_len].
      eexists. split; [reflexivity|]. cbn -[hex_fixed sha256_hex py_len]. repeat split. }
  destruct H1 as (stored & Hout1 & Sid & Ssite & Surl & Scont & Shash & Sstat).
  set (w1 := snd out1) in *.
  assert (Hw1 : w1 = set_db (set_coll pages_repository
                               (get_coll pages_repository (db w) ++ [stored])%list
                               (mkDatabase (collections (db w)) (N.succ (next_id (db w)))))
                       (answered pages_repository w0)).
  { subst w1. now rewrite Hout1. }
  assert (Hf1 : faults w1 = []) by (rewrite Hw1; exact Hf).
  assert (Hr1 : ready pages_repository w1).
  { rewrite Hw1. apply ready_set_db. now apply ready_answered. }
  assert (Hq1 : get_coll pages_repository (db w1)
                = (get_coll pages_repository (db w) ++ [stored])%list).
  { rewrite Hw1. cbn [db set_db].
    now rewrite get_coll_coll_of, set_coll_coll_of, String.eqb_refl. }
  assert (Hm : matches [("url", VStr normalized)] stored = true).
  { rewrite matches_url, Surl. simpl. now rewrite String.eqb_refl. }
  assert (Hne : truthy_doc (Some stored) = true).
  { destruct stored; [discriminate|reflexivity]. }
  exists (hex_fixed 24 (next_id (db w))).
  subst out2. unfold get_page_by_url, try_except. rewrite Hnorm'.
  unfold bind at 1. unfold lift at 1. unfold bind at 1.
  rewrite find_one_answered; [|exact Hf1|exact Hr1|reflexivity].
  cbn zeta. rewrite Hq1, (find_app_last _ _ stored Hfresh Hm), Hne.
  cbn [option_map].
  assert (Hne' : truthy (VDict (convert_doc stored)) = true).
  { destruct stored as [|[k v] r]; [discriminate|reflexivity]. }
  rewrite Hne'.
  unfold _document_to_page, bind, dict_item, dict_get_default.
  rewrite !dict_get_convert_doc, Sid, Ssite, Surl, Scont, Shash, Sstat.
  cbn [option_map _convert_object_ids ret fst].
  eexists. split; [now rewrite Hout1|]. split; [reflexivity|]. repeat split.
Qed.

End PageRoundTrip.

Lemma created_page_is_found_by_url_witness :
  exists id page,
    fst (create_page (rt := symbolic_runtime) a_new_page one_page_world) = Ok (VStr id)
    /\ fst (get_page_by_url (rt := symbolic_runtime) "https://plato.stanford.edu/entries/hume/"
              (snd (create_page (rt := symbolic_runtime) a_new_page one_page_world)))
       = Ok (Some page)
    /\ page_id page = VStr id
    /\ page_url page = VStr "https://plato.stanford.edu/entries/hume".
Proof.
  destruct (created_page_is_found_by_url (rt := symbolic_runtime) a_new_page
              "000000000000000000000001" "https://plato.stanford.edu/entries/hume"
              "text on Hume" "https://plato.stanford.edu/entries/hume/" one_page_world)
    as (id & page & H1 & H2 & H3 & _ & H5 & _).
  - reflexivity.
  - reflexivity.
  - reflexivity.
  - reflexivity.
  - exists a_site, (VStr "Stanford Encyclopedia of Philosophy"),
      (VStr "https://plato.stanford.edu/"). vm_compute. repeat split.
  - reflexivity.
  - reflexivity.
  - reflexivity.
  - intros p [Hp|[]]. subst p. reflexivity.
  - exists id, page. repeat split; assumption.
Defined.

(** ** Site ids given as text *)

Section CreatePageTextId.

Context {rt : PyRuntime}.

(** A site id given as text is validated, and only then looked up. *)
Lemma get_crawl_configuration_text h w :
  is_object_id_text h = true ->
  get_crawl_configuration (VStr h) w = get_crawl_configuration (VOid (lower h)) w.
Proof.
  intros Hh. unfold get_crawl_configuration. cbn [_validate_object_id].
  unfold is_object_id_text in Hh. rewrite Hh. reflexivity.
Qed.

(** The pages filter of [create_page] when the site is given as text: no
    page that names its site by an ObjectId satisfies it. *)
Lemma matches_text_site h url d :
  site_by_object_id d = true ->
  matches [("site_id", VStr h); ("url", VStr url)] d = false.
Proof.
  intros Hd. unfold matches, match_field, get_path. cbn [forallb fst snd is_operator_doc].
  change (get_path_list (split_path "site_id") d) with (dict_get "site_id" d).
  unfold site_by_object_id in Hd.
  destruct (dict_get "site_id" d) as [[]|]; try discriminate. reflexivity.
Qed.

(** C7 (what the code does). [create_page] takes the site id as it is
    given, for the look-up of a page with the same URL and for the page it
    stores; only the check that the site exists parses it.  So a page
    whose site is given by the text of its ObjectId is never found to be a
    duplicate of a page stored under the ObjectId: when the store answers,
    and the pages name their sites by ObjectIds, the call returns the id of
    a new page, stored under the text, with the normalized URL that a page
    of the same site already has. *)
Theorem create_page_duplicates_under_text_id :
  forall (page_data : PageCreate) (h normalized : string) (existing : doc) (w : world),
    faults w = [] ->
    ready sites_repository w ->
    ready pages_repository w ->
    pc_site_id page_data = VStr h ->
    is_object_id_text h = true ->
    site_known (VOid (lower h)) w ->
    (pc_content page_data = VNone \/ exists content, pc_content page_data = VStr content) ->
    _normalize_url (pc_url page_data) = Ok normalized ->
    forallb site_by_object_id (get_coll pages_repository (db w)) = true ->
    In existing (get_coll pages_repository (db w)) ->
    dict_get "site_id" existing = Some (VOid (lower h)) ->
    dict_get "url" existing = Some (VStr normalized) ->
    let out := create_page page_data w in
    exists id stored,
      fst out = Ok (VStr id)
      /\ get_coll pages_repository (db (snd out))
         = (get_coll pages_repository (db w) ++ [stored])%list
      /\ dict_get "_id" stored = Some (VOid id)
      /\ dict_get "site_id" stored = Some (VStr h)
      /\ dict_get "url" stored = Some (VStr normalized).
Proof.
  intros page_data h normalized existing w Hf Hrs Hrp Hsite Hh Hknown Hcontent Hnorm
         Hoids Hin Hsid Hurl out.
  destruct (get_crawl_configuration_known (lower h) w Hf Hrs Hknown) as (cfg & Hcfg & Hcfgt).
  rewrite <- (get_crawl_configuration_text h w Hh) in Hcfg.
  set (w0 := answered pages_repository (answered sites_repository w)).
  assert (Hr0 : ready pages_repository w0).
  { apply ready_answered. apply ready_answered_other; [reflexivity|exact Hrp]. }
  assert (Hnone : find (matches [("site_id", VStr h); ("url", VStr normalized)])
                    (get_coll pages_repository (db w)) = None).
  { destruct (find _ _) as [p|] eqn:E; [|reflexivity]. exfalso.
    apply find_some in E as [Hp Hm].
    rewrite (matches_text_site h normalized p) in Hm; [discriminate|].
    rewrite forallb_forall in Hoids. now apply Hoids. }
  assert (H1 : exists stored,
             out = (Ok (VStr (hex_fixed 24 (next_id (db w)))),
                    set_db (set_coll pages_repository
                              (get_coll pages_repository (db w) ++ [stored])%list
                              (mkDatabase (collections (db w)) (N.succ (next_id (db w)))))
                      (answered pages_repository w0))
             /\ dict_get "_id" stored = Some (VOid (hex_fixed 24 (next_id (db w))))
             /\ dict_get "site_id" stored = Some (VStr h)
             /\ dict_get "url" stored = Some (VStr normalized)).
  { subst out. unfold create_page. rewrite Hsite. unfold bind at 1. rewrite Hcfg, Hcfgt.
    cbn [negb]. rewrite Hnorm. unfold bind at 1. unfold lift at 1.
    unfold bind at 1.
    rewrite find_one_answered; [| exact Hf | | reflexivity].
    2:{ apply ready_answered_other; [reflexivity|exact Hrp]. }
    cbn zeta. rewrite answered_db, Hnone. cbn [truthy_doc].
    assert (Hlen : exists n,
               (if truthy (pc_content page_data)
                then py_len_value (pc_content page_data) else ret 0) w0 = (Ok n, w0)).
    { destruct Hcontent as [Hc|[content Hc]]; rewrite Hc.
      - now exists 0.
      - cbn [py_len_value]. destruct (truthy (VStr content)); eexists; reflexivity. }
    destruct Hlen as [n Hlen].
    unfold bind at 1. unfold now at 1. unfold bind at 1.
    fold w0. rewrite Hlen.
    erewrite insert_one_answered;
      [|exact Hf|exact Hr0|apply sanitize_input_items].
    rewrite !sanitize_items_cons. cbn [startswith String.prefix].
    change (sanitize_items []) with (@nil (string * value)).
    unfold coll_insert_one, stamped_for_insert, dict_update.
    cbn -[hex_fixed sha256_hex py_len sanitize_value truthy _generate_content_hash].
    destruct (truthy (pc_content page_data));
      (eexists; split; [reflexivity|];
       cbn -[hex_fixed sha256_hex py_len sanitize_value _generate_content_hash];
       repeat split). }
  destruct H1 as (stored & Hout1 & Sid & Ssite & Surl).
  exists (hex_fixed 24 (next_id (db w))), stored.
  rewrite Hout1. cbn [fst snd db set_db].
  split; [reflexivity|]. split.
  - now rewrite get_coll_coll_of, set_coll_coll_of, String.eqb_refl.
  - repeat split; assumption.
Qed.

End CreatePageTextId.

Lemma create_page_duplicates_under_text_id_witness :
  exists id stored,
    fst (create_page (rt := symbolic_runtime) a_page_by_text_id one_page_world) = Ok (VStr id)
    /\ get_coll pages_repository
         (db (snd (create_page (rt := symbolic_runtime) a_page_by_text_id one_page_world)))
       = [a_page; stored]
    /\ dict_get "_id" stored = Some (VOid id)
    /\ dict_get "site_id" stored = Some (VStr "000000000000000000000001")
    /\ dict_get "url" stored = Some (VStr "https://plato.stanford.edu/entries/kant").
Proof.
  apply (create_page_duplicates_under_text_id (rt := symbolic_runtime) a_page_by_text_id
           "000000000000000000000001" "https://plato.stanford.edu/entries/kant"
           a_page one_page_world).
  - reflexivity.
  - reflexivity.
  - reflexivity.
  - reflexivity.
  - reflexivity.
  - exists a_site, (VStr "Stanford Encyclopedia of Philosophy"),
      (VStr "https://plato.stanford.edu/"). vm_compute. repeat split.
  - right. exists "new text". reflexivity.
  - reflexivity.
  - reflexivity.
  - left. reflexivity.
  - reflexivity.
  - reflexivity.
Defined.

Section PageMarks.

Context {rt : PyRuntime}.

Lemma mark_page_processed_returns_false pid info w :
  fst (mark_page_processed pid info w) = Ok false.
Proof.
  unfold mark_page_processed. apply try_except_false.
  apply returns_bind; intros validated_page_id.
  apply returns_bind; intros t.
  apply returns_bind; intros result.
  apply returns_getattr_modified_count.
Qed.

Lemma mark_page_processed_keeps_stamp pid info name :
  keeps (stamp_only name) (mark_page_processed pid info).
Proof.
  pose proof (stamp_only_pre name) as P.
  unfold mark_page_processed. frame P.
  rewrite update_one_operator_document. apply keeps_update_one_stamp.
Qed.

(** [mark_page_processed] answers [False] on every input and leaves every
    page as it is, [updated_at] stamps apart: no page gets the status
    [processed].  Its update travels inside [$set], which the sanitizer of
    [update_one] removes, and [.modified_count] is read on a [bool]. *)
Theorem mark_page_processed_stores_nothing :
  forall (pid info : value) (w : world),
    fst (mark_page_processed pid info w) = Ok false
    /\ contents pages_repository (snd (mark_page_processed pid info w))
       = contents pages_repository w.
Proof.
  intros pid info w. split.
  - apply mark_page_processed_returns_false.
  - apply (mark_page_processed_keeps_stamp pid info pages_repository w).
Qed.

End PageMarks.

Lemma matches_content_hash h d :
  matches [("content_hash", VStr h)] d = eq_match (dict_get "content_hash" d) (VStr h).
Proof.
  unfold matches, match_field, get_path. cbn [forallb fst snd is_operator_doc].
  change (get_path_list (split_path "content_hash") d) with (dict_get "content_hash" d).
  apply andb_true_r.
Qed.

Lemma find_existsb {A} (p : A -> bool) l :
  existsb p l = match find p l with Some _ => true | None => false end.
Proof.
  induction l as [|a r IH]; [reflexivity|]. simpl. destruct (p a); [reflexivity|exact IH].
Qed.

Lemma find_ext_eq {A} (p q : A -> bool) l :
  (forall x, p x = q x) -> find p l = find q l.
Proof.
  intros H. induction l as [|a r IH]; [reflexivity|]. simpl. now rewrite H, IH.
Qed.

Lemma check_content_exists_keeps content_hash name :
  keeps (untouched name) (check_content_exists content_hash).
Proof.
  pose proof (untouched_pre name) as P.
  unfold check_content_exists. frame P.
Qed.

(** [check_content_exists] never raises and never writes: whatever the
    store does, it answers a [bool] and every collection is what it was.
    When the store answers, the answer is whether some page carries the
    hash; a store that fails makes it answer [False] instead of failing. *)
Theorem check_content_exists_reads_only :
  forall (content_hash : string) (w : world),
    let out := check_content_exists (VStr content_hash) w in
    (exists b, fst out = Ok b)
    /\ (forall name, get_coll name (db (snd out)) = get_coll name (db w))
    /\ (answers_next (faults w) = false ->
        state (get_breaker pages_repository w) = CLOSED ->
        (forall e, hd None (faults w) = Some e -> is_transient e = false) ->
        fst out = Ok false)
    /\ (faults w = [] -> ready pages_repository w ->
        fst out
        = Ok (existsb (fun p => eq_match (dict_get "content_hash" p) (VStr content_hash))
                (get_coll pages_repository (db w)))).
Proof.
  intros content_hash w out. split; [|split; [|split]].
  - subst out. unfold check_content_exists, try_except.
    destruct ((doc <- find_one pages_repository (VDict [("content_hash", VStr content_hash)]) ;;
               ret (match doc with Some _ => true | None => false end)) w) as [[b|e] w'].
    + now exists b.
    + now exists false.
  - intros name. subst out.
    pose proof (check_content_exists_keeps (VStr content_hash) name w) as H.
    unfold untouched in H. now rewrite !get_coll_coll_of.
  - intros Hn Hs He. subst out.
    destruct (faults w) as [|[e|] rest] eqn:Hf; try discriminate.
    unfold check_content_exists, try_except, bind at 1, find_one.
    unfold bind at 1. cbn [_sanitize_input sanitize_value lift startswith String.prefix].
    rewrite with_retry_unfold, (can_execute_closed _ _ Hs). cbv beta iota.
    cbn [retry_loop]. unfold bind at 1.
    erewrite driver_fault; [|cbn [faults set_breaker]; exact Hf].
    rewrite (He e eq_refl). reflexivity.
  - intros Hf Hr. subst out.
    unfold check_content_exists, try_except, bind at 1.
    rewrite find_one_answered by (assumption || reflexivity). cbn zeta.
    rewrite find_existsb.
    rewrite (find_ext_eq (fun p => eq_match (dict_get "content_hash" p) (VStr content_hash))
               (matches [("content_hash", VStr content_hash)])).
    + destruct (find _ _) as [p|] eqn:E; [|reflexivity].
      apply find_some in E as [_ Hm]. rewrite matches_content_hash in Hm.
      destruct p; [discriminate|reflexivity].
    + intros p. symmetry. apply matches_content_hash.
Qed.

(** ** The normal form is a fixed point *)

Lemma lower_char_scheme a :
  is_scheme_char a = true ->
  is_scheme_char (lower_char a) = true
  /\ is_alpha (lower_char a) = is_alpha a
  /\ lower_char (lower_char a) = lower_char a.
Proof. destruct a as [[] [] [] [] [] [] [] []]; vm_compute; intuition discriminate. Qed.

Lemma lower_scheme s :
  is_scheme s = true -> is_scheme (lower s) = true /\ lower (lower s) = lower s.
Proof.
  unfold is_scheme. destruct s as [|a r]; [discriminate|].
  intros H. apply andb_true_iff in H as [Ha Hs].
  assert (Hall : string_forallb is_scheme_char (lower (String a r)) = true
                 /\ lower (lower (String a r)) = lower (String a r)).
  { clear Ha. induction (String a r) as [|x s IH]; [now split|].
    cbn [string_forallb lower] in *. apply andb_true_iff in Hs as [Hx Hs].
    destruct (lower_char_scheme x Hx) as (L1 & _ & L3). destruct (IH Hs) as [I1 I2].
    now rewrite L1, I1, L3, I2. }
  destruct Hall as [H1 H2]. split; [|exact H2].
  cbn [lower] in *. rewrite H1.
  cbn [string_forallb] in Hs. apply andb_true_iff in Hs as [Hx _].
  destruct (lower_char_scheme a Hx) as (_ & L2 & _). now rewrite L2, Ha.
Qed.

Lemma rstrip_prefix c s : exists r, s = rstrip c s ++ r.
Proof.
  induction s as [|a s [r IH]]; [now exists ""|].
  cbn [rstrip]. destruct (Ascii.eqb a c && is_empty (rstrip c s)).
  - now exists (String a s).
  - exists r. cbn [append]. now rewrite <- IH.
Qed.

Lemma rstrip_keeps_clean c x s :
  contains_char x s = false -> contains_char x (rstrip c s) = false.
Proof.
  intros H. destruct (rstrip_prefix c s) as [r Hr]. rewrite Hr in H.
  rewrite contains_char_app in H. now apply orb_false_iff in H as [H _].
Qed.

Lemma rstrip_printable c s : printable s = true -> printable (rstrip c s) = true.
Proof.
  intros H. destruct (rstrip_prefix c s) as [r Hr]. rewrite Hr in H.
  rewrite printable_app in H. now apply andb_true_iff in H as [H _].
Qed.

Lemma rstrip_starts c s :
  is_empty s || startswith "/" s = true ->
  is_empty (rstrip c s) || startswith "/" (rstrip c s) = true.
Proof.
  destruct s as [|a s]; [reflexivity|]. cbn [is_empty orb]. intros H.
  cbn [rstrip]. destruct (Ascii.eqb a c && is_empty (rstrip c s)); [reflexivity|].
  cbn [is_empty orb]. unfold startswith in *. cbn [String.prefix] in *.
  destruct (Ascii.ascii_dec "/" a); [now destruct (rstrip c s)|discriminate].
Qed.

Lemma kept_path_plain scheme p : contains_char ";" p = false -> kept_path scheme p = p.
Proof. intros H. unfold kept_path. now rewrite H, andb_false_r. Qed.

Section NormalForm.

Context {rt : PyRuntime}.

(** Normalizing a normal form changes nothing, for a URL written from a
    scheme, a netloc, a path without parameters and a query, unless the
    query consists of slashes only (the normal form then ends in a
    question mark, which a second normalization drops). *)
Theorem normalize_url_idempotent :
  forall sch host p q f normalized : string,
    is_scheme sch = true ->
    is_host host = true ->
    is_path p = true ->
    contains_char ";" p = false ->
    is_query q = true ->
    is_empty q = is_empty (rstrip "/" q) ->
    _normalize_url (url_of sch host p q f) = Ok normalized ->
    _normalize_url normalized = Ok normalized.
Proof.
  intros sch host p q f normalized Hs Hh Hp Hsemi Hq Hqe Hn.
  rewrite (normalize_url_of_parts sch host p q f Hs Hh Hp Hq) in Hn.
  destruct (netloc_checks host) as [u|e] eqn:Hc; [|discriminate].
  rewrite (kept_path_plain _ _ Hsemi) in Hn.
  assert (Hn' : normalized
                = lower sch ++ "://" ++ host ++ rstrip "/" p
                  ++ (if is_empty q then "" else String "?" (rstrip "/" q)))
    by congruence.
  clear Hn. subst normalized.
  destruct (lower_scheme sch Hs) as [Hls Hll].
  assert (Hp' : is_path (rstrip "/" p) = true).
  { unfold is_path in *. rewrite !andb_true_iff, !negb_true_iff in *.
    destruct Hp as (((P1 & P2) & P3) & P4).
    repeat split; [now apply rstrip_starts|now apply rstrip_printable| |];
      now apply rstrip_keeps_clean. }
  assert (Hsemi' : contains_char ";" (rstrip "/" p) = false)
    by (now apply rstrip_keeps_clean).
  assert (Hq' : is_query (rstrip "/" q) = true).
  { unfold is_query in *. rewrite !andb_true_iff, !negb_true_iff in *.
    destruct Hq as (Q1 & Q2).
    split; [now apply rstrip_printable|now apply rstrip_keeps_clean]. }
  assert (Hurl : lower sch ++ "://" ++ host ++ rstrip "/" p
                 ++ (if is_empty q then "" else String "?" (rstrip "/" q))
                 = url_of (lower sch) host (rstrip "/" p) (rstrip "/" q) "").
  { unfold url_of. rewrite <- Hqe. cbn [is_empty].
    destruct (is_empty q); now rewrite ?sapp_nil_r. }
  rewrite Hurl.
  rewrite (normalize_url_of_parts (lower sch) host (rstrip "/" p) (rstrip "/" q) ""
             Hls Hh Hp' Hq').
  rewrite Hc, (kept_path_plain _ _ Hsemi').
  rewrite Hll, !rstrip_idempotent, <- Hqe. unfold url_of. cbn [is_empty].
  rewrite <- Hqe. destruct (is_empty q); now rewrite ?sapp_nil_r.
Qed.

End NormalForm.

Lemma normalize_url_idempotent_witness :
  _normalize_url (rt := symbolic_runtime) "https://Plato.Stanford.EDU/entries/kant?q=a/b"
  = Ok "https://Plato.Stanford.EDU/entries/kant?q=a/b".
Proof.
  apply (normalize_url_idempotent (rt := symbolic_runtime)
           "HTTPS" "Plato.Stanford.EDU" "/entries/kant/" "q=a/b/" "life");
    reflexivity.
Defined.

(** The exceptions: a query of slashes only, and parameters in a path that
    ends in a slash.  The normal form of such a URL is not the normal form
    of itself. *)
Example normalize_url_not_idempotent_on_empty_query :
  let rt := symbolic_runtime in
  (_normalize_url "http://example.com/a?/" = Ok "http://example.com/a?"
   /\ _normalize_url "http://example.com/a?" = Ok "http://example.com/a")
  /\ (_normalize_url "http://example.com/a;x/" = Ok "http://example.com/a;x"
      /\ _normalize_url "http://example.com/a;x" = Ok "http://example.com/a").
Proof. cbv zeta. repeat split; reflexivity. Qed.

(** ** Archival under failures *)

Lemma driver_outcome {A} (op : database -> A * database) w :
  (exists e, fst (driver op w) = Raise e /\ db (snd (driver op w)) = db w
             /\ s3_objects (snd (driver op w)) = s3_objects w)
  \/ (fst (driver op w) = Ok (fst (op (db w)))
      /\ db (snd (driver op w)) = snd (op (db w))
      /\ s3_objects (snd (driver op w)) = s3_objects w).
Proof.
  unfold driver. destruct (faults w) as [|[e|] rest].
  - right. destruct (op (db w)); repeat split.
  - left. exists e. repeat split.
  - right. destruct (op (db w)); repeat split.
Qed.

Lemma doc_ids_world batch w : snd (doc_ids batch w) = w.
Proof.
  revert w. induction batch as [|d r IH]; intros w; [reflexivity|].
  cbn [doc_ids]. unfold bind at 1, dict_item.
  destruct (dict_get "_id" d) as [i|]; [|reflexivity].
  cbn [ret]. unfold bind. specialize (IH w).
  destruct (doc_ids r w) as [[ids|e] w']; cbn [snd] in *; now subst.
Qed.

Lemma doc_ids_ok batch w ids w' :
  doc_ids batch w = (Ok ids, w') ->
  Forall2 (fun d i => dict_get "_id" d = Some i) batch ids.
Proof.
  revert ids w w'. induction batch as [|d r IH]; intros ids w w' H.
  - inversion H. constructor.
  - cbn [doc_ids] in H. unfold bind at 1, dict_item in H.
    destruct (dict_get "_id" d) as [i|] eqn:E; [|discriminate].
    cbn [ret] in H. unfold bind in H.
    destruct (doc_ids r w) as [[ids'|e] w1] eqn:E1; [|discriminate].
    inversion H; subst. constructor; [exact E|]. eapply IH. exact E1.
Qed.

Section ArchiveSteps.

Context {rt : PyRuntime}.

(** Making the key and uploading touch neither the store nor, when the
    upload fails or the run is dry, the bucket. *)
Lemma upload_step mgr collection_name policy batch first_doc w :
  let out := (archive_key <- _generate_archive_key collection_name first_doc
                               (last batch first_doc) ;;
              _archive_batch_to_s3 mgr batch archive_key (compression_enabled policy)) w in
  db (snd out) = db w
  /\ (fst out = Ok true ->
      if dry_run mgr then s3_objects (snd out) = s3_objects w
      else exists o, s3_objects (snd out) = (s3_objects w ++ [o])%list
                     /\ s3_documents o = batch)
  /\ (fst out <> Ok true -> s3_objects (snd out) = s3_objects w).
Proof.
  intros out.
  assert (Hout : out = (archive_key <- _generate_archive_key collection_name first_doc
                                         (last batch first_doc) ;;
                        _archive_batch_to_s3 mgr batch archive_key
                          (compression_enabled policy)) w) by reflexivity.
  clearbody out. unfold bind at 1 in Hout.
  destruct (_generate_archive_key collection_name first_doc (last batch first_doc) w)
    as [[key|e] w1] eqn:Ek.
  - assert (Hw1 : w1 = w).
    { unfold _generate_archive_key, bind, now, dict_item in Ek.
      destruct (dict_get "_id" first_doc); [|inversion Ek; reflexivity].
      destruct (dict_get "_id" (last batch first_doc)); inversion Ek; reflexivity. }
    subst w1. unfold _archive_batch_to_s3, try_except, bind in Hout.
    destruct (dry_run mgr) eqn:Ed; cbn [negb ret] in Hout.
    + subst out. cbn [fst snd]. split; [reflexivity|]. split; [intros _; reflexivity|].
      intros H. exfalso. apply H. reflexivity.
    + unfold put_object in Hout.
      destruct (s3_faults w) as [|[e|] rest]; subst out; cbn [fst snd].
      * split; [reflexivity|]. split; [|intros H; exfalso; apply H; reflexivity].
        intros _. eexists. split; reflexivity.
      * split; [reflexivity|]. split; [discriminate|reflexivity].
      * split; [reflexivity|]. split; [|intros H; exfalso; apply H; reflexivity].
        intros _. eexists. split; reflexivity.
  - assert (Hw1 : w1 = w).
    { unfold _generate_archive_key, bind, now, dict_item in Ek.
      destruct (dict_get "_id" first_doc); [|inversion Ek; reflexivity].
      destruct (dict_get "_id" (last batch first_doc)); inversion Ek; reflexivity. }
    subst w1 out. cbn [fst snd]. split; [reflexivity|]. split; [discriminate|reflexivity].
Qed.

End ArchiveSteps.

Lemma NoDup_map_injective {A B} (f : A -> B) l x y :
  NoDup (map f l) -> In x l -> In y l -> f x = f y -> x = y.
Proof.
  induction l as [|a r IH]; intros Hnd Hx Hy Hxy; [destruct Hx|].
  simpl in Hnd. inversion Hnd as [|? ? Hn Hr]; subst.
  destruct Hx as [->|Hx], Hy as [->|Hy].
  - reflexivity.
  - exfalso. apply Hn. rewrite Hxy. now apply in_map.
  - exfalso. apply Hn. rewrite <- Hxy. now apply in_map.
  - now apply IH.
Qed.

Lemma NoDup_map_filter {A B} (f : A -> B) (g : A -> bool) l :
  NoDup (map f l) -> NoDup (map f (filter g l)).
Proof.
  induction l as [|a r IH]; intros H; [constructor|].
  simpl in H. inversion H as [|? ? Hn Hr]; subst. simpl.
  destruct (g a); [|now apply IH]. simpl. constructor; [|now apply IH].
  intros Hin. apply Hn. apply in_map_iff in Hin as (x & Hx & Hin).
  apply filter_In in Hin as [Hin _]. apply in_map_iff. now exists x.
Qed.

Lemma Forall_filter {A} (Q : A -> Prop) (g : A -> bool) l :
  Forall Q l -> Forall Q (filter g l).
Proof.
  intros H. apply Forall_forall. intros x Hx. apply filter_In in Hx as [Hx _].
  rewrite Forall_forall in H. now apply H.
Qed.

Lemma Forall2_in_right {A B} (R : A -> B -> Prop) l l' y :
  Forall2 R l l' -> In y l' -> exists x, In x l /\ R x y.
Proof.
  induction 1 as [|a b r r' Hab Hr IH]; intros Hin; [destruct Hin|].
  destruct Hin as [->|Hin].
  - exists a. split; [now left|exact Hab].
  - destruct (IH Hin) as (x & Hx & Hxy). exists x. split; [now right|exact Hxy].
Qed.

Lemma in_firstn {A} (n : nat) (l : list A) x : In x (firstn n l) -> In x l.
Proof.
  revert l. induction n as [|n IH]; intros [|a r] H; try destruct H.
  - now left.
  - right. apply IH. exact H.
Qed.

Lemma in_skipn {A} (n : nat) (l : list A) x : In x (skipn n l) -> In x l.
Proof.
  revert l. induction n as [|n IH]; intros l H; [exact H|].
  destruct l as [|a r]; [destruct H|]. right. apply IH. exact H.
Qed.

Lemma batch_incl (query : doc) (skip batch_size : nat) (l : list doc) d :
  In d (firstn batch_size (skipn skip (filter (matches query) l))) -> In d l.
Proof.
  intros H. apply in_firstn in H. apply in_skipn in H.
  apply filter_In in H. tauto.
Qed.

(** What [delete_many] by the ids of a batch removes was in the batch. *)
Lemma deleted_was_in_batch (coll batch : list doc) ids d :
  Forall (fun x => oid_of x <> None) coll ->
  NoDup (map oid_of coll) ->
  (forall b, In b batch -> In b coll) ->
  Forall2 (fun b i => dict_get "_id" b = Some i) batch ids ->
  In d coll ->
  matches [("_id", VDict [("$in", VList ids)])] d = true ->
  In d batch.
Proof.
  intros Hall Hnd Hincl Hids Hd Hm.
  rewrite Forall_forall in Hall.
  destruct (oid_of d) as [h|] eqn:Eh; [|now apply Hall in Hd].
  rewrite (matches_id_in ids d h Eh) in Hm.
  apply existsb_exists in Hm as (i & Hi & Heq).
  destruct (Forall2_in_right _ _ _ _ Hids Hi) as (b & Hb & Hbi).
  assert (Hob : oid_of b = Some h).
  { pose proof (Hall b (Hincl b Hb)) as Hsome.
    unfold oid_of in *. rewrite Hbi in *.
    destruct i; try contradiction. simpl in Heq. rewrite orb_false_r in Heq.
    apply String.eqb_eq in Heq. now subst. }
  assert (d = b) as ->; [|exact Hb].
  apply (NoDup_map_injective oid_of coll); auto. congruence.
Qed.

Section ArchiveSafety.

Context {rt : PyRuntime}.
Variables (mgr : RetentionPolicyManager) (collection_name : string)
          (policy : RetentionPolicy) (query : doc) (batch_size : nat).
Hypothesis Hdry : dry_run mgr = false.

Lemma archive_loop_keeps_or_archives fuel : forall skip count w,
  Forall (fun x => oid_of x <> None) (get_coll collection_name (db w)) ->
  NoDup (map oid_of (get_coll collection_name (db w))) ->
  let out := archive_loop fuel mgr collection_name policy query batch_size skip count w in
  (forall o, In o (s3_objects w) -> In o (s3_objects (snd out)))
  /\ forall d, In d (get_coll collection_name (db w)) ->
       In d (get_coll collection_name (db (snd out)))
       \/ exists o, In o (s3_objects (snd out)) /\ In d (s3_documents o).
Proof.
  induction fuel as [|fuel IH]; intros skip count w Hall Hnd out.
  { subst out. cbn [archive_loop snd]. split; [auto|]. intros d Hd. now left. }
  assert (Hout : out = archive_loop (S fuel) mgr collection_name policy query batch_size
                         skip count w) by reflexivity.
  clearbody out. cbn [archive_loop] in Hout.
  pose proof (driver_outcome (coll_find collection_name query skip batch_size) w) as Hfind.
  destruct (driver (coll_find collection_name query skip batch_size) w)
    as [[batch|e] w1] eqn:Efind; cbn [fst snd] in Hfind.
  2:{ destruct Hfind as [(e' & _ & Hdb & Hs3)|(Habs & _)]; [|discriminate].
      subst out. cbn [snd]. rewrite Hdb, Hs3. split; [auto|]. intros d Hd. now left. }
  destruct Hfind as [(e' & Habs & _)|(Hb & Hdb1 & Hs31)]; [discriminate|].
  unfold coll_find in Hb, Hdb1. cbn [fst snd] in Hb, Hdb1.
  inversion Hb as [Hbatch]; clear Hb.
  destruct batch as [|first_doc rest].
  { subst out. cbn [snd]. rewrite Hdb1, Hs31. split; [auto|]. intros d Hd. now left. }
  set (batch := first_doc :: rest) in *.
  pose proof (upload_step mgr collection_name policy batch first_doc w1) as Hup.
  cbv zeta in Hup.
  destruct ((archive_key <- _generate_archive_key collection_name first_doc
                              (last batch first_doc) ;;
             _archive_batch_to_s3 mgr batch archive_key (compression_enabled policy)) w1)
    as [r w2] eqn:Eup.
  cbn [fst snd] in Hup. destruct Hup as (Hdb2 & Hok & Hnok).
  destruct r as [[|]|e].
  2:{ subst out. cbn [snd]. rewrite Hdb2, Hdb1, (Hnok ltac:(discriminate)), Hs31.
      split; [auto|]. intros d Hd. now left. }
  2:{ subst out. cbn [snd]. rewrite Hdb2, Hdb1, (Hnok ltac:(discriminate)), Hs31.
      split; [auto|]. intros d Hd. now left. }
  specialize (Hok eq_refl). rewrite Hdry in Hok, Hout. cbn [negb] in Hout.
  destruct Hok as (o & Hs32 & Hdocs).
  unfold bind at 1 in Hout.
  pose proof (doc_ids_world batch w2) as Hidw.
  destruct (doc_ids batch w2) as [[ids|e] w2'] eqn:Eids; cbn [snd] in Hidw; subst w2'.
  2:{ subst out. cbn [snd]. rewrite Hdb2, Hdb1, Hs32, Hs31.
      split; [intros x Hx; apply in_or_app; now left|]. intros d Hd. now left. }
  apply doc_ids_ok in Eids.
  pose proof (driver_outcome (coll_delete_many collection_name
                                [("_id", VDict [("$in", VList ids)])]) w2) as Hdel.
  destruct (driver (coll_delete_many collection_name
                      [("_id", VDict [("$in", VList ids)])]) w2)
    as [[deleted|e] w3] eqn:Edel; cbn [fst snd] in Hdel.
  2:{ destruct Hdel as [(e' & _ & Hdb3 & Hs33)|(Habs & _)]; [|discriminate].
      subst out. cbn [snd]. rewrite Hdb3, Hs33, Hdb2, Hdb1, Hs32, Hs31.
      split; [intros x Hx; apply in_or_app; now left|]. intros d Hd. now left. }
  destruct Hdel as [(e' & Habs & _)|(_ & Hdb3 & Hs33)]; [discriminate|].
  unfold coll_delete_many in Hdb3. cbn [snd] in Hdb3.
  rewrite Hdb2, Hdb1 in Hdb3.
  set (kept := filter (fun x => negb (matches [("_id", VDict [("$in", VList ids)])] x))
                 (get_coll collection_name (db w))) in *.
  assert (Hc3 : get_coll collection_name (db w3) = kept).
  { rewrite Hdb3. now rewrite get_coll_coll_of, set_coll_coll_of, String.eqb_refl. }
  destruct (IH (skip + batch_size)%nat (count + deleted) w3) as [Hmono Hsafe].
  { rewrite Hc3. now apply Forall_filter. }
  { rewrite Hc3. now apply NoDup_map_filter. }
  rewrite <- Hout in Hmono, Hsafe.
  assert (Hs3w : forall x, In x (s3_objects w) -> In x (s3_objects w3)).
  { intros x Hx. rewrite Hs33, Hs32, Hs31. apply in_or_app. now left. }
  split; [intros x Hx; apply Hmono; now apply Hs3w|].
  intros d Hd.
  destruct (matches [("_id", VDict [("$in", VList ids)])] d) eqn:Em.
  - right. exists o. split.
    + apply Hmono. rewrite Hs33, Hs32. apply in_or_app. right. now left.
    + rewrite Hdocs.
      apply (deleted_was_in_batch (get_coll collection_name (db w)) batch ids d);
        try assumption.
      intros b Hbin. subst batch. rewrite Hbatch in Hbin.
      now apply batch_incl in Hbin.
  - apply Hsafe. rewrite Hc3. subst kept. apply filter_In. split; [exact Hd|].
    now rewrite Em.
Qed.

End ArchiveSafety.

Section ArchiveTheorems.

Context {rt : PyRuntime}.

(** No document is lost to archival: whatever fails on the way (the store,
    the upload, a missing id), every document that was in the collection
    before [archive_old_documents] ran is afterwards still in the
    collection or in an object of the bucket.  A batch is deleted only
    after its upload has succeeded. *)
Theorem archive_never_loses_documents :
  forall (mgr : RetentionPolicyManager) (collection_name : string) (w : world),
    dry_run mgr = false ->
    distinct_oids (get_coll collection_name (db w)) = true ->
    let out := archive_old_documents mgr collection_name w in
    forall d, In d (get_coll collection_name (db w)) ->
      In d (get_coll collection_name (db (snd out)))
      \/ exists o, In o (s3_objects (snd out)) /\ In d (s3_documents o).
Proof.
  intros mgr collection_name w Hdry Hids out d Hd.
  destruct (distinct_oids_spec _ Hids) as [Hall Hnd].
  subst out. unfold archive_old_documents, archive_old_documents_with.
  destruct (assoc_get collection_name (retention_policies mgr)) as [policy|];
    [|now left].
  destruct (negb (archive_enabled policy)); [now left|].
  destruct (negb (s3_client mgr) || _); [now left|].
  destruct (archive_after_days policy) as [days|]; [|now left].
  pose proof (archive_loop_keeps_or_archives mgr collection_name policy
                [(ttl_field policy, VDict [("$lt", VDate (clock w - days * seconds_per_day))])]
                1000 Hdry (S (length (get_coll collection_name (db w)))) 0%nat 0 w Hall Hnd)
    as [_ Hsafe].
  cbv zeta in Hsafe. specialize (Hsafe d Hd).
  destruct (archive_loop _ mgr collection_name policy _ 1000 0 0 w) as [[[n [e|]]|] w'];
    exact Hsafe.
Qed.

Lemma archive_loop_dry_run mgr collection_name policy query batch_size fuel :
  dry_run mgr = true ->
  forall skip count w,
    let out := archive_loop fuel mgr collection_name policy query batch_size skip count w in
    db (snd out) = db w /\ s3_objects (snd out) = s3_objects w.
Proof.
  intros Hdry. induction fuel as [|fuel IH]; intros skip count w out.
  { now split. }
  assert (Hout : out = archive_loop (S fuel) mgr collection_name policy query batch_size
                         skip count w) by reflexivity.
  clearbody out. cbn [archive_loop] in Hout.
  pose proof (driver_outcome (coll_find collection_name query skip batch_size) w) as Hfind.
  destruct (driver (coll_find collection_name query skip batch_size) w)
    as [[batch|e] w1] eqn:Efind; cbn [fst snd] in Hfind.
  2:{ destruct Hfind as [(e' & _ & Hdb & Hs3)|(Habs & _)]; [|discriminate].
      subst out. now split. }
  destruct Hfind as [(e' & Habs & _)|(_ & Hdb1 & Hs31)]; [discriminate|].
  unfold coll_find in Hdb1. cbn [snd] in Hdb1.
  destruct batch as [|first_doc rest]; [subst out; now split|].
  pose proof (upload_step mgr collection_name policy (first_doc :: rest) first_doc w1) as Hup.
  cbv zeta in Hup.
  destruct ((archive_key <- _generate_archive_key collection_name first_doc
                              (last (first_doc :: rest) first_doc) ;;
             _archive_batch_to_s3 mgr (first_doc :: rest) archive_key
               (compression_enabled policy)) w1)
    as [r w2] eqn:Eup.
  cbn [fst snd] in Hup. destruct Hup as (Hdb2 & Hok & Hnok).
  destruct r as [[|]|e].
  2:{ subst out. cbn [snd]. rewrite Hdb2, (Hnok ltac:(discriminate)). now split. }
  2:{ subst out. cbn [snd]. rewrite Hdb2, (Hnok ltac:(discriminate)). now split. }
  specialize (Hok eq_refl). rewrite Hdry in Hok, Hout. cbn [negb] in Hout.
  destruct (IH (skip + batch_size)%nat
              (count + Z.of_nat (length (first_doc :: rest))) w2) as [I1 I2].
  rewrite <- Hout in I1, I2. rewrite I1, I2, Hdb2, Hok. now split.
Qed.

(** A dry run changes nothing: neither the store nor the bucket, whatever
    the collection holds and whatever fails. *)
Theorem archive_dry_run_changes_nothing :
  forall (mgr : RetentionPolicyManager) (collection_name : string) (w : world),
    dry_run mgr = true ->
    db (snd (archive_old_documents mgr collection_name w)) = db w
    /\ s3_objects (snd (archive_old_documents mgr collection_name w)) = s3_objects w.
Proof.
  intros mgr collection_name w Hdry.
  unfold archive_old_documents, archive_old_documents_with.
  destruct (assoc_get collection_name (retention_policies mgr)) as [policy|];
    [|now split].
  destruct (negb (archive_enabled policy)); [now split|].
  destruct (negb (s3_client mgr) || _); [now split|].
  destruct (archive_after_days policy) as [days|]; [|now split].
  pose proof (archive_loop_dry_run mgr collection_name policy
                [(ttl_field policy, VDict [("$lt", VDate (clock w - days * seconds_per_day))])]
                1000 (S (length (get_coll collection_name (db w)))) Hdry 0%nat 0 w) as H.
  cbv zeta in H.
  destruct (archive_loop _ mgr collection_name policy _ 1000 0 0 w) as [[[n [e|]]|] w'];
    exact H.
Qed.

End ArchiveTheorems.

Lemma archive_never_loses_documents_witness :
  In (an_old_session 2)
    (get_coll "crawl_sessions"
       (db (snd (archive_old_documents (rt := symbolic_runtime) archiving_manager
                   "crawl_sessions" (old_sessions_world 3)))))
  \/ exists o,
       In o (s3_objects (snd (archive_old_documents (rt := symbolic_runtime)
                                archiving_manager "crawl_sessions"
                                (old_sessions_world 3))))
       /\ In (an_old_session 2) (s3_documents o).
Proof.
  apply (archive_never_loses_documents (rt := symbolic_runtime) archiving_manager
           "crawl_sessions" (old_sessions_world 3)).
  - reflexivity.
  - reflexivity.
  - right. left. reflexivity.
Defined.

Lemma archive_dry_run_changes_nothing_witness :
  db (snd (archive_old_documents (rt := symbolic_runtime) dry_run_manager
             "crawl_sessions" (old_sessions_world 3)))
  = db (old_sessions_world 3)
  /\ s3_objects (snd (archive_old_documents (rt := symbolic_runtime) dry_run_manager
                        "crawl_sessions" (old_sessions_world 3)))
     = s3_objects (old_sessions_world 3).
Proof.
  apply (archive_dry_run_changes_nothing (rt := symbolic_runtime) dry_run_manager
           "crawl_sessions" (old_sessions_world 3)).
  reflexivity.
Defined.

Lemma firstn_skipn_nonempty {A} (n skip : nat) (l : list A) :
  firstn n (skipn skip l) <> [] -> (skip < length l)%nat.
Proof.
  intros H. destruct (Nat.lt_ge_cases skip (length l)) as [Hlt|Hge]; [exact Hlt|].
  rewrite (skipn_all2 l Hge) in H. rewrite firstn_nil in H. contradiction.
Qed.

Lemma filter_length_le {A} (g : A -> bool) l : (length (filter g l) <= length l)%nat.
Proof.
  induction l as [|a r IH]; simpl; [lia|]. destruct (g a); simpl; lia.
Qed.

Section ArchiveTotal.

Context {rt : PyRuntime}.

(** The loop ends before its fuel does. *)
Lemma archive_loop_ends mgr collection_name policy query batch_size fuel :
  (1 <= batch_size)%nat ->
  forall skip count w,
    (length (get_coll collection_name (db w)) - skip < fuel)%nat ->
    fst (archive_loop fuel mgr collection_name policy query batch_size skip count w) <> None.
Proof.
  intros Hb. induction fuel as [|fuel IH]; intros skip count w Hfuel; [lia|].
  cbn [archive_loop].
  pose proof (driver_outcome (coll_find collection_name query skip batch_size) w) as Hfind.
  destruct (driver (coll_find collection_name query skip batch_size) w)
    as [[batch|e] w1] eqn:Efind; cbn [fst snd] in Hfind; [|intros Hnone; cbn in Hnone; discriminate Hnone].
  destruct Hfind as [(e' & Habs & _)|(Hbt & Hdb1 & _)]; [discriminate|].
  unfold coll_find in Hbt, Hdb1. cbn [fst snd] in Hbt, Hdb1.
  assert (Hbatch : batch = firstn batch_size
                             (skipn skip (filter (matches query)
                                            (get_coll collection_name (db w)))))
    by congruence.
  clear Hbt.
  destruct batch as [|first_doc rest]; [intros Hnone; cbn in Hnone; discriminate Hnone|].
  assert (Hskip : (skip < length (get_coll collection_name (db w)))%nat).
  { eapply Nat.lt_le_trans; [|apply (filter_length_le (matches query))].
    apply (firstn_skipn_nonempty batch_size). rewrite <- Hbatch. discriminate. }
  clear Hbatch.
  pose proof (upload_step mgr collection_name policy (first_doc :: rest) first_doc w1) as Hup.
  cbv zeta in Hup.
  destruct ((archive_key <- _generate_archive_key collection_name first_doc
                              (last (first_doc :: rest) first_doc) ;;
             _archive_batch_to_s3 mgr (first_doc :: rest) archive_key
               (compression_enabled policy)) w1)
    as [r w2] eqn:Eup.
  cbn [fst snd] in Hup. destruct Hup as (Hdb2 & _ & _).
  destruct r as [[|]|e]; try (intros Hnone; cbn in Hnone; discriminate Hnone).
  destruct (dry_run mgr); cbn [negb].
  - apply IH. rewrite Hdb2, Hdb1. lia.
  - unfold bind at 1.
    pose proof (doc_ids_world (first_doc :: rest) w2) as Hidw.
    destruct (doc_ids (first_doc :: rest) w2) as [[ids|e] w2'] eqn:Eids;
      cbn [snd] in Hidw; subst w2'; [|intros Hnone; cbn in Hnone; discriminate Hnone].
    pose proof (driver_outcome (coll_delete_many collection_name
                                  [("_id", VDict [("$in", VList ids)])]) w2) as Hdel.
    destruct (driver (coll_delete_many collection_name
                        [("_id", VDict [("$in", VList ids)])]) w2)
      as [[deleted|e] w3] eqn:Edel; cbn [fst snd] in Hdel; [|intros Hnone; cbn in Hnone; discriminate Hnone].
    destruct Hdel as [(e' & Habs & _)|(_ & Hdb3 & _)]; [discriminate|].
    unfold coll_delete_many in Hdb3. cbn [snd] in Hdb3.
    apply IH. rewrite Hdb3, get_coll_coll_of, set_coll_coll_of, String.eqb_refl.
    rewrite Hdb2, Hdb1.
    pose proof (filter_length_le
                  (fun x => negb (matches [("_id", VDict [("$in", VList ids)])] x))
                  (get_coll collection_name (db w))).
    lia.
Qed.

(** [archive_old_documents] always comes back with a report when the
    collection has a policy with an archival age: the loop over the batches
    ends whatever the store and the bucket do, and every failure in it ends
    up in the report, whose status is one of [disabled], [error] and
    [success]. *)
Theorem archive_always_reports :
  forall (mgr : RetentionPolicyManager) (collection_name : string)
         (policy : RetentionPolicy) (days : Z) (w : world),
    assoc_get collection_name (retention_policies mgr) = Some policy ->
    archive_after_days policy = Some days ->
    exists report,
      fst (archive_old_documents mgr collection_name w) = Ok (Some report)
      /\ In (status report) ["disabled"; "error"; "success"]
      /\ (status report = "success" -> error report = None).
Proof.
  intros mgr collection_name policy days w Hpol Hdays.
  unfold archive_old_documents, archive_old_documents_with. rewrite Hpol, Hdays.
  destruct (negb (archive_enabled policy)).
  { eexists. split; [reflexivity|]. split; [now left|reflexivity]. }
  destruct (negb (s3_client mgr) || _).
  { eexists. split; [reflexivity|]. split; [right; now left|discriminate]. }
  pose proof (archive_loop_ends mgr collection_name policy
                [(ttl_field policy, VDict [("$lt", VDate (clock w - days * seconds_per_day))])]
                1000 (S (length (get_coll collection_name (db w)))) ltac:(lia) 0%nat 0 w
                ltac:(lia)) as Hend.
  destruct (archive_loop _ mgr collection_name policy _ 1000 0 0 w) as [[[n [e|]]|] w'].
  - eexists. split; [reflexivity|]. split; [right; now left|discriminate].
  - eexists. split; [reflexivity|]. split; [right; right; now left|reflexivity].
  - exfalso. now apply Hend.
Qed.

End ArchiveTotal.

Lemma archive_always_reports_witness :
  exists report,
    fst (archive_old_documents (rt := symbolic_runtime) archiving_manager "crawl_sessions"
           (old_sessions_world 3))
    = Ok (Some report)
    /\ In (status report) ["disabled"; "error"; "success"]
    /\ (status report = "success" -> error report = None).
Proof.
  apply (archive_always_reports (rt := symbolic_runtime) archiving_manager "crawl_sessions"
           (mkRetentionPolicy "crawl_sessions" "start_time" 90 true (Some 90) true) 90
           (old_sessions_world 3)); reflexivity.
Defined.

(** ** Other status updates that go through [update_one] *)

Section MoreMarks.

Context {rt : PyRuntime}.

Lemma update_session_progress_returns_false sid stats w :
  fst (update_session_progress sid stats w) = Ok false.
Proof.
  unfold update_session_progress. apply try_except_false.
  apply returns_bind; intros validated_session_id.
  apply returns_bind; intros [session|]; [|now apply returns_ret].
  destruct (_ || _); [now apply returns_ret|].
  apply returns_bind; intros t.
  apply returns_bind; intros r.
  apply returns_getattr_modified_count.
Qed.

Lemma abort_session_returns_false sid reason w :
  fst (abort_session sid reason w) = Ok false.
Proof.
  unfold abort_session. apply try_except_false.
  apply returns_bind; intros validated_session_id.
  apply returns_bind; intros t.
  apply returns_bind; intros r.
  apply returns_getattr_modified_count.
Qed.

Lemma resolve_alert_returns_false aid resolution w :
  fst (resolve_alert aid resolution w) = Ok false.
Proof.
  unfold resolve_alert. apply try_except_false.
  apply returns_bind; intros validated_alert_id.
  apply returns_bind; intros t.
  apply returns_bind; intros r.
  apply returns_getattr_modified_count.
Qed.

Lemma mark_change_notified_returns_false cid w :
  fst (mark_change_notified cid w) = Ok false.
Proof.
  unfold mark_change_notified. apply try_except_false.
  apply returns_bind; intros validated_change_id.
  apply returns_bind; intros t.
  apply returns_bind; intros r.
  apply returns_getattr_modified_count.
Qed.

Lemma update_session_progress_keeps_stamp sid stats name :
  keeps (stamp_only name) (update_session_progress sid stats).
Proof.
  pose proof (stamp_only_pre name) as P.
  unfold update_session_progress. frame P.
  rewrite update_one_operator_document. apply keeps_update_one_stamp.
Qed.

Lemma abort_session_keeps_stamp sid reason name :
  keeps (stamp_only name) (abort_session sid reason).
Proof.
  pose proof (stamp_only_pre name) as P.
  unfold abort_session. frame P.
  rewrite update_one_operator_document. apply keeps_update_one_stamp.
Qed.

Lemma resolve_alert_keeps_stamp aid resolution name :
  keeps (stamp_only name) (resolve_alert aid resolution).
Proof.
  pose proof (stamp_only_pre name) as P.
  unfold resolve_alert. frame P.
  rewrite update_one_operator_document. apply keeps_update_one_stamp.
Qed.

Lemma mark_change_notified_keeps_stamp cid name :
  keeps (stamp_only name) (mark_change_notified cid).
Proof.
  pose proof (stamp_only_pre name) as P.
  unfold mark_change_notified. frame P.
  rewrite update_one_operator_document. apply keeps_update_one_stamp.
Qed.

(** [update_session_progress] and [abort_session] answer [False] on every
    input and leave every session as it is, [updated_at] stamps apart: no
    statistics are stored and a running session stays [running].  The
    cause is the one of [complete_crawl_session]: the fields travel inside
    [$set], which the sanitizer of [update_one] removes, and
    [.modified_count] is read on the [bool] that [update_one] returns. *)
Theorem session_marks_store_nothing :
  forall (sid reason : value) (stats : CrawlStats) (w : world),
    (fst (update_session_progress sid stats w) = Ok false
     /\ contents crawl_sessions (snd (update_session_progress sid stats w))
        = contents crawl_sessions w)
    /\ (fst (abort_session sid reason w) = Ok false
        /\ contents crawl_sessions (snd (abort_session sid reason w))
           = contents crawl_sessions w).
Proof.
  intros sid reason stats w. split; split.
  - apply update_session_progress_returns_false.
  - apply (update_session_progress_keeps_stamp sid stats crawl_sessions w).
  - apply abort_session_returns_false.
  - apply (abort_session_keeps_stamp sid reason crawl_sessions w).
Qed.

(** [resolve_alert] answers [False] on every input and no alert becomes
    [resolved]; [mark_change_notified] answers [False] on every input and
    no change gets [notification_sent]: both leave their collection as it
    is, [updated_at] stamps apart, for the same reason. *)
Theorem resolve_and_notify_store_nothing :
  forall (id v : value) (w : world),
    (fst (resolve_alert id v w) = Ok false
     /\ contents alerts (snd (resolve_alert id v w)) = contents alerts w)
    /\ (fst (mark_change_notified id w) = Ok false
        /\ contents content_changes (snd (mark_change_notified id w))
           = contents content_changes w).
Proof.
  intros id v w. split; split.
  - apply resolve_alert_returns_false.
  - apply (resolve_alert_keeps_stamp id v alerts w).
  - apply mark_change_notified_returns_false.
  - apply (mark_change_notified_keeps_stamp id content_changes w).
Qed.

End MoreMarks.

(** ** Clean-up by age: [delete_many] and [update_many] *)

Lemma untouched_when_pre ok name : preorder_on (untouched_when ok name).
Proof.
  split.
  - intros cs _. reflexivity.
  - intros a b c Hab Hbc Ha. unfold untouched_when in *.
    specialize (Hab Ha). rewrite Hab in Hbc. now rewrite (Hbc Ha).
Qed.

Lemma map_if_none {A} (p : A -> bool) (f : A -> A) l :
  (forall x, In x l -> p x = false) ->
  map (fun x => if p x then f x else x) l = l.
Proof.
  induction l as [|a r IH]; intros H; [reflexivity|].
  simpl. rewrite (H a (or_introl eq_refl)). f_equal. apply IH.
  intros x Hx. apply H. now right.
Qed.

Lemma forallb_in {A} (p : A -> bool) l x : forallb p l = true -> In x l -> p x = true.
Proof. intros H Hx. rewrite forallb_forall in H. now apply H. Qed.

(** A [delete_many] whose sanitized filter no accepted document satisfies
    deletes nothing of a collection of accepted documents. *)
Lemma keeps_delete_many_when ok self name query :
  (forall q d, _sanitize_input query = Ok q -> ok d = true -> matches q d = false) ->
  keeps (untouched_when ok name) (delete_many self query).
Proof.
  intros Hq. pose proof (untouched_when_pre ok name) as P.
  intros w. unfold delete_many. unfold bind at 1. unfold lift at 1.
  destruct (_sanitize_input query) as [q|e] eqn:E; [|apply (proj1 P)].
  apply (keeps_with_retry _ P).
  apply keeps_driver; [exact P|].
  intros d. unfold coll_delete_many. cbn [snd].
  intros Hok. rewrite set_coll_coll_of.
  destruct (String.eqb name self) eqn:En; [|reflexivity].
  apply String.eqb_eq in En. subst name.
  rewrite get_coll_coll_of. apply filter_all.
  intros x Hx. rewrite (Hq q x eq_refl); [reflexivity|].
  exact (forallb_in _ _ _ Hok Hx).
Qed.

(** The same for [update_many]: not even a stamp is written. *)
Lemma keeps_update_many_when ok self name query update_data :
  (forall q d, _sanitize_input query = Ok q -> ok d = true -> matches q d = false) ->
  keeps (untouched_when ok name) (update_many self query update_data true).
Proof.
  intros Hq. pose proof (untouched_when_pre ok name) as P.
  intros w. unfold update_many. unfold bind at 1. unfold lift at 1.
  destruct (_sanitize_input query) as [q|e] eqn:E; [|apply (proj1 P)].
  revert w. apply keeps_bind; [exact P|now apply keeps_lift|]. intros u.
  apply keeps_bind; [exact P|now apply keeps_now|]. intros t.
  apply keeps_with_retry; [exact P|].
  apply keeps_bind; [exact P| |intros; now apply keeps_ret].
  apply keeps_driver; [exact P|].
  intros d. unfold coll_update_many. cbn [snd].
  intros Hok. rewrite set_coll_coll_of.
  destruct (String.eqb name self) eqn:En; [|reflexivity].
  apply String.eqb_eq in En. subst name.
  rewrite get_coll_coll_of. apply map_if_none.
  intros x Hx. apply (Hq q x eq_refl).
  exact (forallb_in _ _ _ Hok Hx).
Qed.

Lemma keeps_validate_object_ids R (P : preorder_on R) ids :
  keeps R (validate_object_ids ids).
Proof.
  induction ids as [|x r IH]; simpl.
  - now apply keeps_ret.
  - apply keeps_bind; [exact P|now apply keeps_validate_object_id|]. intros v.
    apply keeps_bind; [exact P|exact IH|]. intros vs. now apply keeps_ret.
Qed.

(** A method of the shape [try: body  except Exception: return 0] answers
    [0] whenever its body cannot return anything else. *)
Lemma try_except_zero (body : M Z) w :
  returns (fun n => n = 0) body ->
  fst (try_except body (fun _ => ret 0) w) = Ok 0.
Proof.
  intros H. unfold try_except. destruct (body w) as [[b|e] w1] eqn:E; simpl; [|reflexivity].
  now rewrite (H _ _ _ E).
Qed.

Lemma dated_no_match field d :
  contains_char "." field = false ->
  dated field d = true ->
  match_field d field (VDict []) = false.
Proof.
  intros Hflat H. unfold match_field, get_path, split_path.
  rewrite (split_all_without _ _ Hflat). cbn [is_operator_doc get_path_list].
  unfold dated in H. destruct (dict_get field d) as [[]|]; try discriminate; reflexivity.
Qed.

Lemma has_oid_no_match d : has_oid d = true -> match_field d "_id" (VDict []) = false.
Proof.
  unfold has_oid, oid_of, match_field, get_path. cbn [is_operator_doc].
  change (get_path_list (split_path "_id") d) with (dict_get "_id" d).
  destruct (dict_get "_id" d) as [[]|]; try discriminate; reflexivity.
Qed.

Lemma purge_completed_tasks_keeps hours_old name :
  keeps (untouched_when (dated "completed_at") name) (purge_completed_tasks hours_old).
Proof.
  pose proof (untouched_when_pre (dated "completed_at") name) as P.
  unfold purge_completed_tasks.
  apply keeps_try_except; [exact P| |intros; now apply keeps_ret].
  apply keeps_bind; [exact P|now apply keeps_now|]. intros t.
  apply keeps_bind; [exact P| |intros; now apply keeps_raise].
  apply keeps_delete_many_when.
  intros q d Hs Hd. cbn in Hs. inversion Hs; subst q.
  unfold matches. cbn [forallb fst snd].
  rewrite (dated_no_match "completed_at" d eq_refl Hd). apply andb_false_r.
Qed.

Lemma purge_completed_tasks_returns_zero hours_old w :
  fst (purge_completed_tasks hours_old w) = Ok 0.
Proof.
  unfold purge_completed_tasks. apply try_except_zero.
  apply returns_bind; intros t.
  apply returns_bind; intros r.
  apply returns_raise.
Qed.

(** [purge_completed_tasks] never purges a completed task, however old:
    on every input it answers 0, and a queue whose tasks carry
    [completed_at] as a datetime or not at all is the same afterwards,
    whatever the store does.  The age bound is written with [$lt], which
    the sanitizer of [delete_many] removes from the filter, so the filter
    asks for a [completed_at] equal to the empty document; and
    [.deleted_count] is read on the [int] that [delete_many] returns. *)
Theorem purge_completed_tasks_purges_nothing :
  forall (hours_old : Z) (w : world),
    forallb (dated "completed_at") (get_coll processing_queue (db w)) = true ->
    let out := purge_completed_tasks hours_old w in
    fst out = Ok 0
    /\ get_coll processing_queue (db (snd out)) = get_coll processing_queue (db w).
Proof.
  intros hours_old w Hd. split.
  - apply purge_completed_tasks_returns_zero.
  - exact (purge_completed_tasks_keeps hours_old processing_queue w Hd).
Qed.

Lemma purge_completed_tasks_purges_nothing_witness :
  fst (purge_completed_tasks 24 stale_world) = Ok 0
  /\ get_coll processing_queue (db (snd (purge_completed_tasks 24 stale_world)))
     = get_coll processing_queue (db stale_world).
Proof. apply (purge_completed_tasks_purges_nothing 24 stale_world). reflexivity. Defined.

Lemma cleanup_keeps (self : string) (field : string)
    (q : doc) (t_query : Z -> value) name :
  contains_char "." field = false ->
  (forall t, _sanitize_input (t_query t) = Ok q) ->
  In (field, VDict []) q ->
  forall (cutoff : Z -> Z),
    keeps (untouched_when (dated field) name)
      (try_except
         (t <- now ;;
          result <- delete_many self (t_query (cutoff t)) ;;
          getattr_deleted_count result)
         (fun e => ret 0)).
Proof.
  intros Hflat Hs Hin cutoff.
  pose proof (untouched_when_pre (dated field) name) as P.
  apply keeps_try_except; [exact P| |intros; now apply keeps_ret].
  apply keeps_bind; [exact P|now apply keeps_now|]. intros t.
  apply keeps_bind; [exact P| |intros; now apply keeps_raise].
  apply keeps_delete_many_when.
  intros q' d Hq Hd. rewrite Hs in Hq. inversion Hq; subst q'.
  unfold matches. destruct (forallb _ q) eqn:E; [|reflexivity].
  rewrite forallb_forall in E. specialize (E _ Hin). cbn [fst snd] in E.
  now rewrite (dated_no_match field d Hflat Hd) in E.
Qed.

Lemma cleanup_returns_zero self (query : Z -> value) w :
  fst (try_except
         (t <- now ;;
          result <- delete_many self (query t) ;;
          getattr_deleted_count result)
         (fun e => ret 0) w) = Ok 0.
Proof.
  apply try_except_zero.
  apply returns_bind; intros t.
  apply returns_bind; intros r.
  apply returns_raise.
Qed.

(** The clean-ups by age of sessions, alerts and content changes delete
    nothing: each answers 0 on every input, and a collection whose
    documents carry the date the clean-up goes by ([completed_at],
    [resolved_at], [detected_at]) as a datetime or not at all is the same
    afterwards.  As in [purge_completed_tasks], the sanitizer of
    [delete_many] removes [$lt] (and [$in]) from the filter. *)
Theorem cleanups_delete_nothing :
  forall (days_old : Z) (w : world),
    forallb (dated "completed_at") (get_coll crawl_sessions (db w)) = true ->
    forallb (dated "resolved_at") (get_coll alerts (db w)) = true ->
    forallb (dated "detected_at") (get_coll content_changes (db w)) = true ->
    (fst (cleanup_old_sessions days_old w) = Ok 0
     /\ get_coll crawl_sessions (db (snd (cleanup_old_sessions days_old w)))
        = get_coll crawl_sessions (db w))
    /\ (fst (cleanup_old_alerts days_old w) = Ok 0
        /\ get_coll alerts (db (snd (cleanup_old_alerts days_old w)))
           = get_coll alerts (db w))
    /\ (fst (cleanup_old_changes days_old w) = Ok 0
        /\ get_coll content_changes (db (snd (cleanup_old_changes days_old w)))
           = get_coll content_changes (db w)).
Proof.
  intros days_old w Hs Ha Hc. repeat split.
  - apply (cleanup_returns_zero crawl_sessions
             (fun t => VDict [("status", VDict [("$in", VList [VStr "completed"; VStr "aborted";
                                                               VStr "failed"])]);
                              ("completed_at", VDict [("$lt", VDate (t - 86400 * days_old))])])).
  - refine (cleanup_keeps crawl_sessions "completed_at"
              [("status", VDict []); ("completed_at", VDict [])]
              (fun c => VDict [("status", VDict [("$in", VList [VStr "completed"; VStr "aborted";
                                                                VStr "failed"])]);
                               ("completed_at", VDict [("$lt", VDate c)])])
              crawl_sessions eq_refl (fun _ => eq_refl) _
              (fun t => t - 86400 * days_old) w Hs).
    right; left; reflexivity.
  - apply (cleanup_returns_zero alerts
             (fun t => VDict [("status", VStr "resolved");
                              ("resolved_at", VDict [("$lt", VDate (t - 86400 * days_old))])])).
  - refine (cleanup_keeps alerts "resolved_at"
              [("status", VStr "resolved"); ("resolved_at", VDict [])]
              (fun c => VDict [("status", VStr "resolved");
                               ("resolved_at", VDict [("$lt", VDate c)])])
              alerts eq_refl (fun _ => eq_refl) _
              (fun t => t - 86400 * days_old) w Ha).
    right; left; reflexivity.
  - apply (cleanup_returns_zero content_changes
             (fun t => VDict [("detected_at", VDict [("$lt", VDate (t - 86400 * days_old))])])).
  - refine (cleanup_keeps content_changes "detected_at"
              [("detected_at", VDict [])]
              (fun c => VDict [("detected_at", VDict [("$lt", VDate c)])])
              content_changes eq_refl (fun _ => eq_refl) _
              (fun t => t - 86400 * days_old) w Hc).
    left; reflexivity.
Qed.

Lemma cleanups_delete_nothing_witness :
  (fst (cleanup_old_sessions 30 stale_world) = Ok 0
   /\ get_coll crawl_sessions (db (snd (cleanup_old_sessions 30 stale_world)))
      = get_coll crawl_sessions (db stale_world))
  /\ (fst (cleanup_old_alerts 30 stale_world) = Ok 0
      /\ get_coll alerts (db (snd (cleanup_old_alerts 30 stale_world)))
         = get_coll alerts (db stale_world))
  /\ (fst (cleanup_old_changes 30 stale_world) = Ok 0
      /\ get_coll content_changes (db (snd (cleanup_old_changes 30 stale_world)))
         = get_coll content_changes (db stale_world)).
Proof. apply (cleanups_delete_nothing 30 stale_world); reflexivity. Defined.

(** ** Bulk updates by id: [update_many] *)

Lemma update_many_ids_keeps self name ids (more : doc) update_data :
  sanitize_value (VDict more) = VDict more ->
  keeps (untouched_when has_oid name)
    (update_many self (VDict (("_id", VDict [("$in", VList ids)]) :: more)) update_data true).
Proof.
  intros Hmore. apply keeps_update_many_when.
  intros q d Hs Hd. unfold _sanitize_input in Hs.
  change (sanitize_value (VDict (("_id", VDict [("$in", VList ids)]) :: more)))
    with (match sanitize_value (VDict more) with
          | VDict m => VDict (("_id", VDict []) :: m)
          | _ => VNone
          end) in Hs.
  rewrite Hmore in Hs. inversion Hs; subst q.
  unfold matches. cbn [forallb fst snd].
  now rewrite (has_oid_no_match d Hd).
Qed.

Lemma retry_failed_tasks_keeps ids name :
  keeps (untouched_when has_oid name) (retry_failed_tasks ids).
Proof.
  pose proof (untouched_when_pre has_oid name) as P.
  unfold retry_failed_tasks.
  apply keeps_try_except; [exact P| |intros; now apply keeps_ret].
  apply keeps_bind; [exact P|now apply keeps_validate_object_ids|]. intros vs.
  apply keeps_bind; [exact P|now apply keeps_now|]. intros t.
  apply keeps_bind; [exact P| |intros; now apply keeps_raise].
  now apply update_many_ids_keeps.
Qed.

Lemma bulk_update_processing_status_keeps ids status name :
  keeps (untouched_when has_oid name) (bulk_update_processing_status ids status).
Proof.
  pose proof (untouched_when_pre has_oid name) as P.
  unfold bulk_update_processing_status.
  apply keeps_try_except; [exact P| |intros; now apply keeps_ret].
  apply keeps_bind; [exact P|now apply keeps_validate_object_ids|]. intros vs.
  apply keeps_bind; [exact P|now apply keeps_now|]. intros t.
  apply keeps_bind; [exact P| |intros; now apply keeps_raise].
  now apply update_many_ids_keeps.
Qed.

(** [retry_failed_tasks] and [bulk_update_processing_status] change no
    document: each answers 0 on every input, and a collection whose
    documents carry ObjectIds is the same afterwards, stamps included.  The
    ids are passed with [$in], which the sanitizer of [update_many]
    removes, so the filter asks for an [_id] equal to the empty document;
    and [.modified_count] is read on the [int] that [update_many]
    returns. *)
Theorem bulk_updates_change_nothing :
  forall (ids : list value) (status : value) (w : world),
    forallb has_oid (get_coll processing_queue (db w)) = true ->
    forallb has_oid (get_coll pages_repository (db w)) = true ->
    (fst (retry_failed_tasks ids w) = Ok 0
     /\ get_coll processing_queue (db (snd (retry_failed_tasks ids w)))
        = get_coll processing_queue (db w))
    /\ (fst (bulk_update_processing_status ids status w) = Ok 0
        /\ get_coll pages_repository (db (snd (bulk_update_processing_status ids status w)))
           = get_coll pages_repository (db w)).
Proof.
  intros ids status w Hq Hp. repeat split.
  - unfold retry_failed_tasks. apply try_except_zero.
    apply returns_bind; intros vs.
    apply returns_bind; intros t.
    apply returns_bind; intros r.
    apply returns_raise.
  - exact (retry_failed_tasks_keeps ids processing_queue w Hq).
  - unfold bulk_update_processing_status. apply try_except_zero.
    apply returns_bind; intros vs.
    apply returns_bind; intros t.
    apply returns_bind; intros r.
    apply returns_raise.
  - exact (bulk_update_processing_status_keeps ids status pages_repository w Hp).
Qed.

Lemma bulk_updates_change_nothing_witness :
  (fst (retry_failed_tasks [oid 42; oid 60] stale_world) = Ok 0
   /\ get_coll processing_queue (db (snd (retry_failed_tasks [oid 42; oid 60] stale_world)))
      = get_coll processing_queue (db stale_world))
  /\ (fst (bulk_update_processing_status [oid 42; oid 60] (VStr "pending") stale_world) = Ok 0
      /\ get_coll pages_repository
           (db (snd (bulk_update_processing_status [oid 42; oid 60] (VStr "pending")
                       stale_world)))
         = get_coll pages_repository (db stale_world)).
Proof.
  apply (bulk_updates_change_nothing [oid 42; oid 60] (VStr "pending") stale_world);
    reflexivity.
Defined.

(** ** Repeated alerts *)

Section Suppression.

Context {rt : PyRuntime}.

Lemma is_alert_suppressed_calm a w :
  faults w = [] ->
  _is_alert_suppressed a w
  = (Ok (match find (matches (suppression_query a (clock w)))
                    (get_coll alert_suppressions (db w)) with
         | Some _ => true
         | None => false
         end), w).
Proof.
  intros Hf. unfold _is_alert_suppressed, try_except, bind, now.
  rewrite (driver_no_faults _ w Hf). unfold coll_find_one. cbn [fst snd].
  now rewrite set_db_same.
Qed.

End Suppression.


Section AlertDedup.

Context {rt : PyRuntime}.

Lemma get_crawl_configuration_calm v w :
  faults w = [] ->
  ready sites_repository w ->
  truthy v = true ->
  exists r w',
    get_crawl_configuration v w = (Ok r, w')
    /\ (w' = w \/ w' = answered sites_repository w).
Proof.
  intros Hf Hr Hv.
  assert (Hoid : forall h, exists r,
             get_crawl_configuration (VOid h) w = (Ok r, answered sites_repository w)).
  { intros h. unfold get_crawl_configuration. cbn [_validate_object_id].
    unfold try_except, bind at 1, ret at 1. unfold bind at 1.
    rewrite find_one_answered; [|exact Hf|exact Hr|reflexivity].
    cbn zeta.
    destruct (find _ _) as [d|]; cbn [truthy_doc option_map].
    2:{ eexists; reflexivity. }
    destruct d as [|kv d]; [eexists; reflexivity|].
    cbn [truthy_doc option_map].
    set (cd := convert_doc (kv :: d)).
    destruct (truthy (VDict cd)); [|eexists; reflexivity].
    unfold bind, dict_item.
    destruct (dict_get "_id" cd); [|eexists; reflexivity].
    destruct (dict_get "name" cd); [|eexists; reflexivity].
    destruct (dict_get "base_url" cd); eexists; reflexivity. }
  destruct v; try discriminate;
    try (exists None, w; split; [reflexivity|now left]).
  - destruct (Nat.eqb (String.length s) 24 && string_forallb is_hex_digit s) eqn:E.
    + destruct (Hoid (lower s)) as (r & H). exists r, (answered sites_repository w).
      split; [|now right].
      rewrite <- H. unfold get_crawl_configuration. cbn [_validate_object_id].
      rewrite E. reflexivity.
    + exists None, w; split; [|now left].
      unfold get_crawl_configuration. cbn [_validate_object_id]. rewrite E. reflexivity.
  - destruct (Hoid h) as (r & H). exists r, (answered sites_repository w).
    split; [exact H|now right].
Qed.

Lemma update_one_answered self q q' u w :
  faults w = [] ->
  ready self w ->
  _sanitize_input q = Ok q' ->
  exists b,
    update_one self q (VDict u) false true w
    = (Ok (VBool b),
       set_db (snd (coll_update_one self q'
                      [("$set", VDict (stamped_for_update (sanitize_items u) (clock w)))]
                      false (db w)))
         (answered self w)).
Proof.
  intros Hf Hr Hs. unfold update_one. rewrite Hs.
  unfold bind at 1. unfold lift at 1. unfold bind at 1. unfold lift at 1.
  rewrite sanitize_input_items.
  unfold bind at 1. unfold now at 1.
  fold (stamped_for_update (sanitize_items u) (clock w)).
  rewrite with_retry_answered by assumption.
  eexists. reflexivity.
Qed.

Lemma matches_active_alert h d :
  dict_get "alert_hash" d = Some (VStr h) ->
  dict_get "status" d = Some (VStr "active") ->
  matches (active_alert_query h) d = true.
Proof.
  intros Hh Hs. unfold matches, active_alert_query, match_field, get_path.
  cbn [forallb fst snd is_operator_doc].
  change (get_path_list (split_path "alert_hash") d) with (dict_get "alert_hash" d).
  change (get_path_list (split_path "status") d) with (dict_get "status" d).
  rewrite Hh, Hs. unfold eq_match. now rewrite !value_eqb_str_refl.
Qed.

(** The site check of [create_alert], when the store answers. *)
Lemma alert_site_check_calm v w :
  faults w = [] ->
  ready sites_repository w ->
  exists w',
    (if truthy v then get_crawl_configuration v ;;; ret tt else ret tt) w = (Ok tt, w')
    /\ (w' = w \/ w' = answered sites_repository w).
Proof.
  intros Hf Hr. destruct (truthy v) eqn:E.
  - destruct (get_crawl_configuration_calm v w Hf Hr E) as (r & w' & H & Hw).
    exists w'. split; [|exact Hw]. unfold bind. now rewrite H.
  - exists w. split; [reflexivity|now left].
Qed.

(** The same alert created twice, when the store answers and the type is
    not suppressed: the first call stores one active alert, counted once,
    and returns its id as a text; the second call finds that alert by its
    hash, returns the same id and stores no second alert.  The stored
    alerts are the same after the second call, [updated_at] stamps
    apart. *)
Theorem repeated_alert_is_not_duplicated :
  forall (alert : Alert) (w : world),
    faults w = [] ->
    ready alerts w ->
    ready sites_repository w ->
    truthy (alert_type alert) = true ->
    truthy (alert_title alert) = true ->
    is_severity (alert_severity alert) = true ->
    find (matches (suppression_query (alert_type alert) (clock w)))
         (get_coll alert_suppressions (db w)) = None ->
    find (matches (active_alert_query
                     (_calculate_alert_hash (alert_type alert) (alert_site_id alert)
                        (alert_context alert))))
         (get_coll alerts (db w)) = None ->
    let out1 := create_alert alert w in
    let out2 := create_alert alert (snd out1) in
    exists id stored,
      fst out1 = Ok (VStr id)
      /\ get_coll alerts (db (snd out1)) = (get_coll alerts (db w) ++ [stored])%list
      /\ dict_get "_id" stored = Some (VOid id)
      /\ dict_get "status" stored = Some (VStr "active")
      /\ dict_get "occurrence_count" stored = Some (VInt 1)
      /\ fst out2 = Ok (VStr id)
      /\ contents alerts (snd out2) = contents alerts (snd out1).
Proof.
  intros alert w Hf Hra Hrs Hty Htitle Hsev Hsup Hnone out1 out2.
  set (h := _calculate_alert_hash (alert_type alert) (alert_site_id alert)
              (alert_context alert)) in *.
  set (w0 := answered alerts w).
  assert (Hf0 : faults w0 = []) by exact Hf.
  assert (Hrs0 : ready sites_repository w0).
  { apply ready_answered_other; [reflexivity|exact Hrs]. }
  destruct (alert_site_check_calm (alert_site_id alert) w0 Hf0 Hrs0) as (w0' & Hsite & Hw0').
  assert (Hf0' : faults w0' = []) by (destruct Hw0' as [->| ->]; exact Hf).
  assert (Hra0' : ready alerts w0').
  { destruct Hw0' as [->| ->].
    - now apply ready_answered.
    - apply ready_answered_other; [reflexivity|]. now apply ready_answered. }
  assert (Hdb0' : db w0' = db w) by (destruct Hw0' as [->| ->]; reflexivity).
  assert (Hck0' : clock w0' = clock w) by (destruct Hw0' as [->| ->]; reflexivity).
  assert (H1 : exists stored,
             out1 = (Ok (VStr (hex_fixed 24 (next_id (db w)))),
                     set_db (set_coll alerts
                               (get_coll alerts (db w) ++ [stored])%list
                               (mkDatabase (collections (db w)) (N.succ (next_id (db w)))))
                       (answered alerts w0'))
             /\ dict_get "_id" stored = Some (VOid (hex_fixed 24 (next_id (db w))))
             /\ dict_get "status" stored = Some (VStr "active")
             /\ dict_get "alert_hash" stored = Some (VStr h)
             /\ dict_get "occurrence_count" stored = Some (VInt 1)).
  { subst out1. unfold create_alert. rewrite Hty, Htitle, Hsev. cbn [negb].
    unfold bind at 1. rewrite is_alert_suppressed_calm by exact Hf. rewrite Hsup.
    unfold bind at 1.
    rewrite find_one_answered; [|exact Hf|exact Hra|reflexivity].
    cbn zeta. fold h. fold (active_alert_query h). rewrite Hnone. cbn [truthy_doc].
    fold w0. unfold bind at 1. rewrite Hsite.
    unfold bind at 1. unfold now at 1.
    erewrite insert_one_answered; [|exact Hf0'|exact Hra0'|apply sanitize_input_items].
    rewrite Hdb0', Hck0'.
    rewrite !sanitize_items_cons. cbn [startswith String.prefix].
    change (sanitize_items []) with (@nil (string * value)).
    unfold coll_insert_one, stamped_for_insert, dict_update.
    cbn -[hex_fixed md5_hex sanitize_value py_str h].
    eexists. split; [reflexivity|].
    cbn -[hex_fixed md5_hex sanitize_value py_str h]. repeat split. }
  destruct H1 as (stored & Hout1 & Sid & Sstat & Shash & Scount).
  set (w1 := snd out1) in *.
  assert (Hw1 : w1 = set_db (set_coll alerts
                               (get_coll alerts (db w) ++ [stored])%list
                               (mkDatabase (collections (db w)) (N.succ (next_id (db w)))))
                       (answered alerts w0')).
  { subst w1. now rewrite Hout1. }
  assert (Hf1 : faults w1 = []) by (rewrite Hw1; exact Hf0').
  assert (Hr1 : ready alerts w1).
  { rewrite Hw1. apply ready_set_db. now apply ready_answered. }
  assert (Hq1 : get_coll alerts (db w1) = (get_coll alerts (db w) ++ [stored])%list).
  { rewrite Hw1. cbn [db set_db].
    now rewrite get_coll_coll_of, set_coll_coll_of, String.eqb_refl. }
  assert (Hs1 : get_coll alert_suppressions (db w1) = get_coll alert_suppressions (db w)).
  { rewrite Hw1. cbn [db set_db].
    rewrite get_coll_coll_of, set_coll_coll_of. reflexivity. }
  assert (Hc1 : clock w1 = clock w).
  { rewrite Hw1. cbn [clock set_db]. destruct Hw0' as [->| ->]; reflexivity. }
  assert (Hm : matches (active_alert_query h) stored = true)
    by (now apply matches_active_alert).
  assert (Hne : truthy_doc (Some stored) = true).
  { destruct stored; [discriminate|reflexivity]. }
  exists (hex_fixed 24 (next_id (db w))), stored.
  split; [now rewrite Hout1|]. split; [exact Hq1|].
  split; [exact Sid|]. split; [exact Sstat|]. split; [exact Scount|].
  assert (H2 : exists w2,
             out2 = (Ok (VStr (hex_fixed 24 (next_id (db w)))), w2)
             /\ contents alerts w2 = contents alerts w1).
  { subst out2. fold w1. unfold create_alert. rewrite Hty, Htitle, Hsev. cbn [negb].
    unfold bind at 1. rewrite is_alert_suppressed_calm by exact Hf1.
    rewrite Hc1, Hs1, Hsup.
    unfold bind at 1.
    rewrite find_one_answered; [|exact Hf1|exact Hr1|reflexivity].
    cbn zeta. fold h. fold (active_alert_query h).
    rewrite Hq1, (find_app_last _ _ stored (find_none_forall _ _ Hnone) Hm), Hne.
    cbn [option_map].
    unfold bind at 1. unfold dict_item at 1. rewrite dict_get_convert_doc, Sid.
    cbn [option_map _convert_object_ids ret].
    unfold bind at 1. unfold now at 1.
    rewrite update_one_operator_document2.
    destruct (update_one_answered alerts
                (VDict [("_id", VStr (hex_fixed 24 (next_id (db w))))])
                [("_id", VStr (hex_fixed 24 (next_id (db w))))] []
                (answered alerts w1) Hf1 (ready_answered _ _ Hr1) eq_refl) as [b Hb].
    unfold bind at 1. rewrite Hb. cbn [fst snd ret].
    eexists. split; [reflexivity|].
    unfold contents. cbn [db set_db answered].
    exact (coll_update_one_stamp alerts alerts _ _ (db w1)). }
  destruct H2 as (w2 & Hout2 & Hw2). rewrite Hout2. cbn [fst snd].
  split; [reflexivity|exact Hw2].
Qed.

End AlertDedup.

Lemma repeated_alert_is_not_duplicated_witness :
  exists id stored,
    fst (create_alert (rt := symbolic_runtime) timeout_alert (quiet_alerts_world 500))
    = Ok (VStr id)
    /\ get_coll alerts
         (db (snd (create_alert (rt := symbolic_runtime) timeout_alert
                     (quiet_alerts_world 500))))
       = (get_coll alerts (db (quiet_alerts_world 500)) ++ [stored])%list
    /\ dict_get "_id" stored = Some (VOid id)
    /\ dict_get "status" stored = Some (VStr "active")
    /\ dict_get "occurrence_count" stored = Some (VInt 1)
    /\ fst (create_alert (rt := symbolic_runtime) timeout_alert
              (snd (create_alert (rt := symbolic_runtime) timeout_alert
                      (quiet_alerts_world 500))))
       = Ok (VStr id)
    /\ contents alerts
         (snd (create_alert (rt := symbolic_runtime) timeout_alert
                 (snd (create_alert (rt := symbolic_runtime) timeout_alert
                         (quiet_alerts_world 500)))))
       = contents alerts
           (snd (create_alert (rt := symbolic_runtime) timeout_alert
                   (quiet_alerts_world 500))).
Proof.
  apply (repeated_alert_is_not_duplicated (rt := symbolic_runtime) timeout_alert
           (quiet_alerts_world 500)); reflexivity.
Defined.

(** ** Inserts under failures: all or nothing *)

Lemma driver_then_outcome {A B} (op : database -> A * database) (f : A -> B) w :
  (exists e w1, (x <- driver op ;; ret (f x)) w = (Raise e, w1) /\ db w1 = db w)
  \/ (exists w1, (x <- driver op ;; ret (f x)) w = (Ok (f (fst (op (db w)))), w1)
                 /\ db w1 = snd (op (db w))).
Proof.
  unfold bind, driver. destruct (faults w) as [|[e|] more].
  - right. destruct (op (db w)) as [a d]. eexists. split; reflexivity.
  - left. eexists. eexists. split; reflexivity.
  - right. destruct (op (db w)) as [a d]. eexists. split; reflexivity.
Qed.

Lemma retry_loop_driver_outcome {A B} self (op : database -> A * database) (f : A -> B)
    m attempts :
  forall last w,
    let out := retry_loop self (x <- driver op ;; ret (f x)) m attempts last w in
    (exists e, fst out = Raise e /\ db (snd out) = db w)
    \/ (fst out = Ok (f (fst (op (db w)))) /\ db (snd out) = snd (op (db w))).
Proof.
  induction attempts as [|attempt rest IH]; intros last w out; subst out.
  - left. eexists. split; reflexivity.
  - cbn [retry_loop].
    destruct (driver_then_outcome op f w) as [(e & w1 & E & Hdb)|(w1 & E & Hdb)]; rewrite E.
    + destruct (is_transient e).
      * unfold bind at 1. unfold breaker_record_failure at 1.
        destruct (Nat.eqb attempt m).
        -- left. eexists. split; [reflexivity|exact Hdb].
        -- unfold bind at 1. unfold sleep at 1.
           match goal with
           | |- context [retry_loop self _ m rest (Some e) ?w'] =>
               destruct (IH (Some e) w') as [(e' & H1 & H2)|[H1 H2]];
                 change (db w') with (db w1) in H1, H2
           end.
           ++ left. exists e'. split; [exact H1|exact (eq_trans H2 Hdb)].
           ++ right. rewrite Hdb in H1, H2. split; [exact H1|exact H2].
      * left. eexists. split; [reflexivity|exact Hdb].
    + right. split; [reflexivity|exact Hdb].
Qed.

Lemma with_retry_driver_outcome {A B} self (op : database -> A * database) (f : A -> B) w :
  let out := _with_retry self (x <- driver op ;; ret (f x)) w in
  (exists e, fst out = Raise e /\ db (snd out) = db w)
  \/ (fst out = Ok (f (fst (op (db w)))) /\ db (snd out) = snd (op (db w))).
Proof.
  cbv zeta. rewrite with_retry_unfold.
  destruct (can_execute (clock w) (get_breaker self w)) as [[|] b].
  - exact (retry_loop_driver_outcome self op f 3 _ None (set_breaker self b w)).
  - left. eexists. split; reflexivity.
Qed.

Lemma coll_insert_one_appends self document d :
  exists stored,
    get_coll self (snd (coll_insert_one self document d)) = (get_coll self d ++ [stored])%list
    /\ dict_get "_id" stored = Some (fst (coll_insert_one self document d))
    /\ without_updated_at stored
       = without_updated_at
           (match dict_get "_id" document with
            | Some _ => document
            | None => ("_id", fst (coll_insert_one self document d)) :: document
            end)
    /\ forall other, String.eqb other self = false ->
         get_coll other (snd (coll_insert_one self document d)) = get_coll other d.
Proof.
  unfold coll_insert_one. destruct (dict_get "_id" document) as [i|] eqn:E.
  - exists document. cbn [fst snd]. repeat split.
    + now rewrite get_coll_coll_of, set_coll_coll_of, String.eqb_refl.
    + exact E.
    + intros other Hne. now rewrite get_coll_coll_of, set_coll_coll_of, Hne.
  - cbn [fresh_oid fst snd]. eexists. repeat split.
    + now rewrite get_coll_coll_of, set_coll_coll_of, String.eqb_refl.
    + reflexivity.
    + intros other Hne. now rewrite get_coll_coll_of, set_coll_coll_of, Hne.
Qed.

Section AllOrNothing.

Context {rt : PyRuntime}.

Lemma insert_one_outcome self document validate w :
  let out := insert_one self document validate w in
  (exists e, fst out = Raise e /\ db (snd out) = db w)
  \/ (exists i stored,
         fst out = Ok (VStr (py_str i))
         /\ get_coll self (db (snd out)) = (get_coll self (db w) ++ [stored])%list
         /\ dict_get "_id" stored = Some i
         /\ forall other, String.eqb other self = false ->
              get_coll other (db (snd out)) = get_coll other (db w)).
Proof.
  cbv zeta. remember (insert_one self document validate w) as out eqn:Hout.
  unfold insert_one in Hout. unfold bind at 1 in Hout.
  destruct ((if validate then lift (_sanitize_input document)
             else match document with
                  | VDict d => ret d
                  | _ => raise (AttributeError "update")
                  end) w) as [[d|e] w0] eqn:E.
  - assert (Hw0 : w0 = w).
    { destruct validate.
      - unfold lift in E. now inversion E.
      - destruct document; inversion E; reflexivity. }
    subst w0. unfold bind at 1 in Hout. unfold now at 1 in Hout.
    set (document' := match dict_get "content" _ with Some _ => _ | None => _ end) in Hout.
    subst out.
    destruct (with_retry_driver_outcome self (coll_insert_one self document')
                (fun inserted_id => VStr (py_str inserted_id)) w) as [(e & H1 & H2)|[H1 H2]].
    + left. exists e. split; [exact H1|exact H2].
    + right. destruct (coll_insert_one_appends self document' (db w))
        as (stored & Hs1 & Hs2 & _ & Hs3).
      exists (fst (coll_insert_one self document' (db w))), stored.
      split; [exact H1|]. rewrite H2. split; [exact Hs1|]. split; [exact Hs2|exact Hs3].
  - subst out. left. exists e. split; [reflexivity|].
    destruct validate.
    + unfold lift in E. now inversion E.
    + destruct document; inversion E; reflexivity.
Qed.

Lemma aon_raise self e : stores_all_or_nothing self (raise e).
Proof. intros w. reflexivity. Qed.

Lemma aon_bind {A} self (c : M A) (k : A -> M value) :
  keeps unchanged c ->
  (forall a, stores_all_or_nothing self (k a)) ->
  stores_all_or_nothing self (bind c k).
Proof.
  intros Hc Hk w. unfold bind. specialize (Hc w). unfold unchanged in Hc.
  destruct (c w) as [[a|e] w1]; cbn [fst snd] in *; [|exact Hc].
  specialize (Hk a w1).
  destruct (fst (k a w1)) as [id|e].
  - destruct Hk as (i & stored & H1 & H2 & H3 & H4).
    exists i, stored. split; [exact H1|].
    rewrite !get_coll_coll_of in *. rewrite <- Hc. split; [exact H2|]. split; [exact H3|].
    intros other Hne. specialize (H4 other Hne).
    rewrite !get_coll_coll_of in *. rewrite <- Hc. exact H4.
  - now rewrite Hk.
Qed.

Lemma aon_insert_one self document validate :
  stores_all_or_nothing self (insert_one self document validate).
Proof.
  intros w.
  destruct (insert_one_outcome self document validate w)
    as [(e & H1 & H2)|(i & stored & H1 & H2 & H3 & H4)]; rewrite H1.
  - now rewrite H2.
  - exists i, stored. repeat split; assumption.
Qed.

(** [insert_one] stores all or nothing, whatever the store and the
    breaker do: when it raises (input refused, breaker open, retries
    exhausted, an error that is not retried) every collection is as
    before; when it returns, exactly one document has been appended to its
    collection, the returned text is the id of that document, and no other
    collection has changed. *)
Theorem insert_one_is_all_or_nothing :
  forall (self : string) (document : value) (validate : bool),
    stores_all_or_nothing self (insert_one self document validate).
Proof. exact aon_insert_one. Qed.

Lemma keeps_get_concurrent_session_count R (P : preorder_on R) site_id :
  keeps R (get_concurrent_session_count site_id).
Proof.
  unfold get_concurrent_session_count.
  apply keeps_try_except; [exact P| |intros; now apply keeps_ret].
  apply keeps_bind; [exact P|now apply keeps_validate_object_id|]. intros v.
  apply keeps_driver; [exact P|]. intros d. apply (proj1 P).
Qed.

(** The methods that create a document store all or nothing, whatever the
    store and the breakers do: [record_content_change], [enqueue_task],
    [create_page] and [start_crawl_session] either raise and leave every
    collection as it was, or return the id of the one document they have
    appended to their own collection, and change no other collection. *)
Theorem creating_methods_store_all_or_nothing :
  forall (change : ContentChange) (task : ProcessingTask) (page_data : PageCreate)
         (site_id : value) (config : doc),
    stores_all_or_nothing content_changes (record_content_change change)
    /\ stores_all_or_nothing processing_queue (enqueue_task task)
    /\ stores_all_or_nothing pages_repository (create_page page_data)
    /\ stores_all_or_nothing crawl_sessions (start_crawl_session site_id config).
Proof.
  intros change task page_data site_id config.
  pose proof unchanged_pre as P.
  split; [|split; [|split]].
  - unfold record_content_change.
    destruct (negb (truthy (cc_page_id change))); [apply aon_raise|].
    destruct (_ || _); [apply aon_raise|].
    destruct (negb (truthy (cc_site_id change))); [apply aon_raise|].
    apply aon_bind; [frame P|]. intros url_title.
    apply aon_bind; [frame P|]. intros priority.
    apply aon_bind; [frame P|]. intros t.
    apply aon_insert_one.
  - unfold enqueue_task.
    destruct (negb (truthy (task_type task))); [apply aon_raise|].
    destruct (_ && _); [apply aon_raise|].
    apply aon_bind; [frame P|]. intros t.
    apply aon_insert_one.
  - unfold create_page.
    apply aon_bind; [frame P|]. intros site_config.
    destruct (negb (truthy_doc site_config)); [apply aon_raise|].
    apply aon_bind; [frame P|]. intros normalized_url.
    apply aon_bind; [frame P|]. intros existing_page.
    destruct (truthy_doc existing_page); [apply aon_raise|].
    apply aon_bind; [frame P|]. intros t.
    apply aon_bind; [frame P|]. intros content_length.
    apply aon_insert_one.
  - unfold start_crawl_session.
    apply aon_bind; [frame P|]. intros site_config.
    destruct (negb (truthy_doc site_config)); [apply aon_raise|].
    apply aon_bind; [now apply keeps_get_concurrent_session_count|]. intros n.
    apply aon_bind; [frame P|]. intros reached.
    destruct reached; [apply aon_raise|].
    apply aon_bind; [frame P|]. intros t.
    apply aon_insert_one.
Qed.

End AllOrNothing.

(** ** The limit of concurrent sessions *)

Lemma matches_running h d :
  dict_get "site_id" d = Some (VOid h) ->
  dict_get "status" d = Some (VStr "running") ->
  matches [("site_id", VOid h); ("status", VStr "running")] d = true.
Proof.
  intros Hh Hs. unfold matches, match_field, get_path.
  cbn [forallb fst snd is_operator_doc].
  change (get_path_list (split_path "site_id") d) with (dict_get "site_id" d).
  change (get_path_list (split_path "status") d) with (dict_get "status" d).
  rewrite Hh, Hs. unfold eq_match.
  now rewrite value_eqb_oid_refl, value_eqb_str_refl.
Qed.

Lemma get_concurrent_session_count_calm h w :
  faults w = [] ->
  get_concurrent_session_count (VOid h) w
  = (Ok (Z.of_nat (length (running_sessions (VOid h) w))), w).
Proof.
  intros Hf. unfold get_concurrent_session_count, try_except.
  cbn [_validate_object_id]. unfold bind, ret.
  rewrite (driver_no_faults _ w Hf). unfold coll_count_documents. cbn [fst snd].
  now rewrite set_db_same.
Qed.

Lemma int_ge_int n m : int_ge n (VInt m) = Ok (m <=? n).
Proof.
  unfold int_ge. cbn [as_number]. rewrite Qcompare_inject_Z.
  unfold Z.leb. rewrite (Z.compare_antisym n m).
  destruct (Z.compare n m); reflexivity.
Qed.

Section SessionLimit.

Context {rt : PyRuntime}.

(** [start_crawl_session] keeps to the limit of concurrent sessions when
    the store answers: for a known site given by its ObjectId and a limit
    [max_concurrent_sessions] (1 when the configuration names none), a
    site that has reached the limit gets no session and the call raises;
    below the limit one running session of the site is added, and its id
    returned. *)
Theorem start_crawl_session_respects_limit :
  forall (h : string) (config : doc) (limit : Z) (w : world),
    faults w = [] ->
    ready sites_repository w ->
    ready crawl_sessions w ->
    site_known (VOid h) w ->
    dict_get_default "max_concurrent_sessions" (VInt 1) config = VInt limit ->
    let out := start_crawl_session (VOid h) config w in
    let running := Z.of_nat (length (running_sessions (VOid h) w)) in
    let running' := Z.of_nat (length (running_sessions (VOid h) (snd out))) in
    (limit <= running ->
     fst out = Raise (PydanticCustomError "max_concurrent_sessions"
                        "Maximum concurrent sessions ({max_concurrent}) reached for site")
     /\ running' = running)
    /\ (running < limit ->
        exists id, fst out = Ok (VStr id) /\ running' = running + 1).
Proof.
  intros h config limit w Hf Hrs Hrc Hknown Hlimit out running running'.
  destruct (get_crawl_configuration_known h w Hf Hrs Hknown) as (cfg & Hcfg & Hcfgt).
  set (w0 := answered sites_repository w).
  assert (Hf0 : faults w0 = []) by exact Hf.
  assert (Hr0 : ready crawl_sessions w0).
  { apply ready_answered_other; [reflexivity|exact Hrc]. }
  assert (Hcount : get_concurrent_session_count (VOid h) w0 = (Ok running, w0)).
  { exact (get_concurrent_session_count_calm h w0 Hf0). }
  assert (Hstep : out = (reached <- lift (int_ge running (VInt limit)) ;;
                         if reached then
                           raise (PydanticCustomError "max_concurrent_sessions"
                                    "Maximum concurrent sessions ({max_concurrent}) reached for site")
                         else
                           t <- now ;;
                           insert_one crawl_sessions
                             (VDict
                                [("site_id", VOid h);
                                 ("status", VStr "running");
                                 ("config", VDict config);
                                 ("stats", VDict [("pages_discovered", VInt 0);
                                                  ("pages_crawled", VInt 0);
                                                  ("pages_failed", VInt 0);
                                                  ("bytes_downloaded", VInt 0);
                                                  ("errors_count", VInt 0);
                                                  ("start_time", VDate t)]);
                                 ("started_at", VDate t);
                                 ("last_update", VDate t);
                                 ("worker_id", dict_get_default "worker_id" VNone config);
                                 ("user_agent",
                                  dict_get_default "user_agent"
                                    (VStr "PhilosophyCrawler/1.0") config)]) true) w0).
  { subst out. unfold start_crawl_session. unfold bind at 1. rewrite Hcfg, Hcfgt.
    cbn [negb]. unfold bind at 1. fold w0. rewrite Hcount. rewrite Hlimit. reflexivity. }
  rewrite int_ge_int in Hstep. unfold bind at 1 in Hstep. unfold lift at 1 in Hstep.
  split.
  - intros Hle. apply Z.leb_le in Hle. rewrite Hle in Hstep.
    subst running'. rewrite Hstep. split; reflexivity.
  - intros Hlt. assert (Hle : (limit <=? running) = false) by (apply Z.leb_gt; lia).
    rewrite Hle in Hstep. unfold bind at 1 in Hstep. unfold now at 1 in Hstep.
    erewrite insert_one_answered in Hstep;
      [|exact Hf0|exact Hr0|apply sanitize_input_items].
    rewrite !sanitize_items_cons in Hstep. cbn [startswith String.prefix] in Hstep.
    change (sanitize_items []) with (@nil (string * value)) in Hstep.
    unfold coll_insert_one, stamped_for_insert, dict_update in Hstep.
    cbn -[hex_fixed sanitize_value py_str] in Hstep.
    exists (hex_fixed 24 (next_id (db w))).
    subst running'. rewrite Hstep. cbn [fst snd]. split; [reflexivity|].
    unfold running_sessions. cbn [db set_db].
    rewrite get_coll_coll_of, set_coll_coll_of, String.eqb_refl.
    rewrite filter_app, length_app, Nat2Z.inj_add.
    cbn [filter]. rewrite matches_running; [|reflexivity|reflexivity].
    reflexivity.
Qed.

End SessionLimit.

Lemma start_crawl_session_respects_limit_witness :
  exists id,
    fst (start_crawl_session (rt := symbolic_runtime) (oid 1) two_sessions_config
           running_session_world) = Ok (VStr id)
    /\ Z.of_nat (length (running_sessions (oid 1)
                           (snd (start_crawl_session (rt := symbolic_runtime) (oid 1)
                                   two_sessions_config running_session_world))))
       = Z.of_nat (length (running_sessions (oid 1) running_session_world)) + 1.
Proof.
  destruct (start_crawl_session_respects_limit (rt := symbolic_runtime)
              (hex_fixed 24 1) two_sessions_config 2 running_session_world) as [_ H].
  - reflexivity.
  - reflexivity.
  - reflexivity.
  - exists a_site, (VStr "Stanford Encyclopedia of Philosophy"),
      (VStr "https://plato.stanford.edu/"). vm_compute. repeat split.
  - reflexivity.
  - apply H. reflexivity.
Defined.

(** The limit is not kept when the count itself fails: a failure of
    [count_documents] counts as no running session, so a site at its
    limit of one gets a second session. *)
Example start_crawl_session_limit_fails_open :
  length (running_sessions (oid 1) failing_count_world) = 1%nat
  /\ (exists id,
         fst (start_crawl_session (rt := symbolic_runtime) (oid 1) [] failing_count_world)
         = Ok (VStr id))
  /\ length (running_sessions (oid 1)
               (snd (start_crawl_session (rt := symbolic_runtime) (oid 1) []
                       failing_count_world))) = 2%nat.
Proof. vm_compute. split; [reflexivity|]. split; [eexists; reflexivity|reflexivity]. Qed.
